(** * zram: compressed RAM block device (drivers/block/zram/zram_drv.c)

    A shallow embedding of the slot table, the per-slot flag word, the
    read / write / discard pipeline, the backing-device bitmap and the
    writeback policy of [zram_drv.c], together with the properties that
    the specification states about them.

    Configuration that is modelled: CONFIG_ZRAM_WRITEBACK=y (the file does
    not build otherwise: [glow_compress_ratio] is declared under it and used
    by the write path), CONFIG_ZRAM_DEDUP=n (the Kconfig default; the
    deduplication module is a separate file), the access-time bookkeeping of
    CONFIG_ZRAM_MEMORY_TRACKING left out (diagnostics only), a 64-bit
    [unsigned long] and 4 KiB pages (arm64), so [is_partial_io] is the
    constant [false] of the [#else] branch. *)

From Stdlib Require Import ZArith Lia Bool List.
From stdpp Require Import base option list gmap.

Local Open Scope Z_scope.

(** ** Machine words and kernel constants *)

Definition BITS_PER_LONG : Z := 64.
Definition ULONG_MAX : Z := 2 ^ BITS_PER_LONG - 1.
Definition U64_MAX : Z := 2 ^ 64 - 1.

(** [1UL << nr] *)
Definition BIT (nr : Z) : Z := Z.shiftl 1 nr.

(** [~x] on an [unsigned long] *)
Definition ulong_not (x : Z) : Z := Z.lxor x ULONG_MAX.

(** truncation of a result to [unsigned long] / [u64] *)
Definition to_ulong (x : Z) : Z := x mod 2 ^ BITS_PER_LONG.

Definition is_ulong (x : Z) : Prop := 0 <= x <= ULONG_MAX.

Definition PAGE_SHIFT : Z := 12.
Definition PAGE_SIZE : Z := Z.shiftl 1 PAGE_SHIFT.
Definition SECTOR_SHIFT : Z := 9.
Definition SECTORS_PER_PAGE_SHIFT : Z := PAGE_SHIFT - SECTOR_SHIFT.
Definition SECTORS_PER_PAGE : Z := Z.shiftl 1 SECTORS_PER_PAGE_SHIFT.

(** [PAGE_SIZE / sizeof(unsigned long)]: the number of word lanes of a page *)
Definition WORDS_PER_PAGE : Z := PAGE_SIZE / 8.

Definition EINVAL : Z := 22.
Definition ENOMEM : Z := 12.
Definition EIO : Z := 5.
Definition ENOSPC : Z := 28.
Definition ENODEV : Z := 19.
Definition EINTR : Z := 4.

(** ** The constants of zram_drv.h

    [zram_drv.h] (the flag enumeration, the shifts and the batch size) is not
    among the sources.  Its constants are taken as parameters.  What is
    assumed of them is what the code of [zram_drv.c] relies on:
    the enumerators of [enum zram_pageflags] are distinct; every flag lives
    above the size field ([zram_get_obj_size] masks the low
    [ZRAM_FLAG_SHIFT] bits) and below the idle counter
    ([zram_get_idle_count] is [flags >> ZRAM_WB_IDLE_SHIFT], unmasked);
    the size field can hold [PAGE_SIZE]; the idle counter has room in the
    word. *)
Class zram_drv_h := {
  ZRAM_FLAG_SHIFT : Z;
  ZRAM_LOCK : Z;
  ZRAM_SAME : Z;
  ZRAM_WB : Z;
  ZRAM_UNDER_WB : Z;
  ZRAM_HUGE : Z;
  ZRAM_IDLE : Z;
  ZRAM_COMPRESS_LOW : Z;
  ZRAM_WB_IDLE_SHIFT : Z;
  ZRAM_WB_IDLE_MAX : Z;
  ZRAM_WB_IDLE_DEFAULT : Z;
  MAX_WRITEBACK_SIZE : Z;
  ZRAM_LOGICAL_BLOCK_SHIFT : Z;
  pageflags_distinct :
    NoDup [ZRAM_LOCK; ZRAM_SAME; ZRAM_WB; ZRAM_UNDER_WB; ZRAM_HUGE;
           ZRAM_IDLE; ZRAM_COMPRESS_LOW];
  pageflags_range :
    Forall (fun f => ZRAM_FLAG_SHIFT <= f < ZRAM_WB_IDLE_SHIFT)
      [ZRAM_LOCK; ZRAM_SAME; ZRAM_WB; ZRAM_UNDER_WB; ZRAM_HUGE;
       ZRAM_IDLE; ZRAM_COMPRESS_LOW];
  obj_size_fits : PAGE_SIZE < 2 ^ ZRAM_FLAG_SHIFT;
  idle_count_fits : ZRAM_WB_IDLE_SHIFT < BITS_PER_LONG;
  idle_max_fits : 0 <= ZRAM_WB_IDLE_MAX < 2 ^ (BITS_PER_LONG - ZRAM_WB_IDLE_SHIFT);
  max_writeback_size_pos : 0 < MAX_WRITEBACK_SIZE;
  logical_block_shift_range : SECTOR_SHIFT <= ZRAM_LOGICAL_BLOCK_SHIFT <= PAGE_SHIFT
}.

(** [ZRAM_LOGICAL_BLOCK_SIZE] and [ZRAM_SECTOR_PER_LOGICAL_BLOCK] *)
Definition ZRAM_LOGICAL_BLOCK_SIZE `{zram_drv_h} : Z :=
  Z.shiftl 1 ZRAM_LOGICAL_BLOCK_SHIFT.
Definition ZRAM_SECTOR_PER_LOGICAL_BLOCK `{zram_drv_h} : Z :=
  Z.shiftl 1 (ZRAM_LOGICAL_BLOCK_SHIFT - SECTOR_SHIFT).

(** ** Data model *)

(** A page is the sequence of its [unsigned long] lanes; a compressed object
    is a sequence of bytes.  Both are lists of numbers here. *)
Definition page : Type := list Z.

(** [struct zram_table_entry].  Modelled from the spec: the declaration is in
    zram_drv.h; by section 3.1 the payload is one word that holds either an
    entry handle, the same-fill scalar or the backing block index, that is
    [entry] and [element] are the two members of a union.  [element] is that
    word; [zram_get_entry] and [zram_get_element] both read it. *)
Record zram_table_entry := mk_slot {
  element : Z;
  flags : Z
}.

(** The counters of [struct zram_stats] that the modelled code touches. *)
Inductive stat :=
  | compr_data_size | num_reads | num_writes | failed_reads | failed_writes
  | invalid_io | notify_free | same_pages | huge_pages | lowratio_pages
  | pages_stored | max_used_pages | writestall | miss_free
  | bd_count | bd_reads | bd_writes.

Global Instance stat_eq_dec : EqDecision stat.
Proof. solve_decision. Defined.

(** The device.  [bitmap] is the backing-device bitmap, one bit per block,
    kept as one number ([Z.testbit] is the bit test).  [bdev_blocks] is the
    content of the backing device.  [bio_errs] is the sequence of results
    that [submit_bio_wait] is going to return, in call order (0 once it is
    exhausted).  [glow_compress_ratio] is the file-level variable of that
    name. *)
Record zram := mk_zram {
  table : list zram_table_entry;
  mem_pool : gmap Z (list Z);
  limit_pages : Z;
  stats : stat -> Z;
  disksize : Z;
  backing_dev : bool;
  writeback_pages : bool;
  bitmap : Z;
  nr_pages : Z;
  bdev_blocks : gmap Z page;
  wb_limit_enable : bool;
  bd_wb_limit : Z;
  glow_compress_ratio : Z;
  bio_errs : list Z
}.

Definition set_table (z : zram) (t : list zram_table_entry) : zram :=
  mk_zram t (mem_pool z) (limit_pages z) (stats z) (disksize z)
    (backing_dev z) (writeback_pages z) (bitmap z) (nr_pages z)
    (bdev_blocks z) (wb_limit_enable z) (bd_wb_limit z)
    (glow_compress_ratio z) (bio_errs z).

Definition set_mem_pool (z : zram) (p : gmap Z (list Z)) : zram :=
  mk_zram (table z) p (limit_pages z) (stats z) (disksize z)
    (backing_dev z) (writeback_pages z) (bitmap z) (nr_pages z)
    (bdev_blocks z) (wb_limit_enable z) (bd_wb_limit z)
    (glow_compress_ratio z) (bio_errs z).

Definition set_stats (z : zram) (s : stat -> Z) : zram :=
  mk_zram (table z) (mem_pool z) (limit_pages z) s (disksize z)
    (backing_dev z) (writeback_pages z) (bitmap z) (nr_pages z)
    (bdev_blocks z) (wb_limit_enable z) (bd_wb_limit z)
    (glow_compress_ratio z) (bio_errs z).

Definition set_bitmap (z : zram) (b : Z) : zram :=
  mk_zram (table z) (mem_pool z) (limit_pages z) (stats z) (disksize z)
    (backing_dev z) (writeback_pages z) b (nr_pages z)
    (bdev_blocks z) (wb_limit_enable z) (bd_wb_limit z)
    (glow_compress_ratio z) (bio_errs z).

Definition set_bdev_blocks (z : zram) (b : gmap Z page) : zram :=
  mk_zram (table z) (mem_pool z) (limit_pages z) (stats z) (disksize z)
    (backing_dev z) (writeback_pages z) (bitmap z) (nr_pages z)
    b (wb_limit_enable z) (bd_wb_limit z)
    (glow_compress_ratio z) (bio_errs z).

Definition set_bd_wb_limit (z : zram) (l : Z) : zram :=
  mk_zram (table z) (mem_pool z) (limit_pages z) (stats z) (disksize z)
    (backing_dev z) (writeback_pages z) (bitmap z) (nr_pages z)
    (bdev_blocks z) (wb_limit_enable z) l
    (glow_compress_ratio z) (bio_errs z).

Definition set_bio_errs (z : zram) (l : list Z) : zram :=
  mk_zram (table z) (mem_pool z) (limit_pages z) (stats z) (disksize z)
    (backing_dev z) (writeback_pages z) (bitmap z) (nr_pages z)
    (bdev_blocks z) (wb_limit_enable z) (bd_wb_limit z)
    (glow_compress_ratio z) l.

Definition set_glow_compress_ratio (z : zram) (r : Z) : zram :=
  mk_zram (table z) (mem_pool z) (limit_pages z) (stats z) (disksize z)
    (backing_dev z) (writeback_pages z) (bitmap z) (nr_pages z)
    (bdev_blocks z) (wb_limit_enable z) (bd_wb_limit z)
    r (bio_errs z).

(** ** Sequential execution

    A computation takes the device state and either gets stuck ([None]) or
    returns a value and the next state.  It is stuck where the C code has no
    sequential behaviour: an index outside [zram->table], and
    [bit_spin_lock] on a slot lock that is held (the caller spins until some
    other thread releases it). *)
Definition M (A : Type) : Type := zram -> option (A * zram).

Definition ret {A} (a : A) : M A := fun z => Some (a, z).

Definition bind {A B} (m : M A) (k : A -> M B) : M B :=
  fun z => match m z with
           | Some (a, z') => k a z'
           | None => None
           end.

Notation "x <- m ;; k" := (bind m (fun x => k))
  (at level 20, m at level 99, k at level 200, only parsing).
Notation "m ;; k" := (bind m (fun _ => k))
  (at level 100, k at level 200, only parsing, right associativity).

Definition when (b : bool) (m : M unit) : M unit := if b then m else ret tt.

Definition gets {A} (f : zram -> A) : M A := fun z => Some (f z, z).

(** [atomic64_read], [atomic64_add], [atomic64_inc], [atomic64_dec], ... on a
    counter of [zram->stats] *)
Definition stat_add (c : stat) (n : Z) (s : stat -> Z) : stat -> Z :=
  fun c' => if decide (c' = c) then s c' + n else s c'.

Definition atomic64_read (c : stat) : M Z := fun z => Some (stats z c, z).
Definition atomic64_add (n : Z) (c : stat) : M unit :=
  fun z => Some (tt, set_stats z (stat_add c n (stats z))).
Definition atomic64_sub (n : Z) (c : stat) : M unit := atomic64_add (- n) c.
Definition atomic64_inc (c : stat) : M unit := atomic64_add 1 c.
Definition atomic64_dec (c : stat) : M unit := atomic64_add (-1) c.

(** [zram->table[index].flags] and [zram->table[index].element], read and
    written *)
Definition load_flags (index : nat) : M Z :=
  fun z => match table z !! index with
           | Some s => Some (flags s, z)
           | None => None
           end.

Definition store_flags (index : nat) (w : Z) : M unit :=
  fun z => match table z !! index with
           | Some s => Some (tt, set_table z (<[index := mk_slot (element s) w]> (table z)))
           | None => None
           end.

Definition load_element (index : nat) : M Z :=
  fun z => match table z !! index with
           | Some s => Some (element s, z)
           | None => None
           end.

Definition store_element (index : nat) (v : Z) : M unit :=
  fun z => match table z !! index with
           | Some s => Some (tt, set_table z (<[index := mk_slot v (flags s)]> (table z)))
           | None => None
           end.

(** ** External collaborators

    The compression backend, the zsmalloc pool and the block layer are not
    part of the driver.  They are parameters: the codec as two functions
    (return code and output), the allocator as the handle it returns for a
    pool, a length and whether direct reclaim is allowed (0: failure),
    [zs_get_total_pages], the file-level [huge_class_size], the outcome of
    submitting a read bio to the backing device (1, or a negative errno), and
    whether SIGUSR1 is pending when writeback looks at slot [index]. *)
Class collaborators := {
  zcomp_compress : page -> Z * list Z;
  zcomp_decompress : list Z -> Z -> Z * page;
  zs_malloc : gmap Z (list Z) -> Z -> bool -> Z;
  zs_get_total_pages : gmap Z (list Z) -> Z;
  huge_class_size : Z;
  bdev_read_submit : Z -> Z;
  sigusr1_pending : nat -> bool
}.

Section Driver.
Context `{H_drv : zram_drv_h} `{H_ext : collaborators}.

(** ** Slot accessors (zram_drv.c, lines 73-183) *)

(** [bit_spin_trylock(ZRAM_LOCK, &flags)]: test-and-set of the lock bit;
    1 when the lock was taken, 0 when it was already held. *)
Definition zram_slot_trylock (index : nat) : M Z :=
  w <- load_flags index ;;
  if Z.testbit w ZRAM_LOCK then ret 0
  else (store_flags index (Z.lor w (BIT ZRAM_LOCK)) ;; ret 1).

(** [bit_spin_lock]: spins while the bit is set, so it is stuck there. *)
Definition zram_slot_lock (index : nat) : M unit :=
  w <- load_flags index ;;
  if Z.testbit w ZRAM_LOCK then (fun _ => None)
  else store_flags index (Z.lor w (BIT ZRAM_LOCK)).

(** [bit_spin_unlock]: clears the bit. *)
Definition zram_slot_unlock (index : nat) : M unit :=
  w <- load_flags index ;;
  store_flags index (Z.land w (ulong_not (BIT ZRAM_LOCK))).

Definition init_done (z : zram) : bool := negb (disksize z =? 0).

Definition zram_get_entry (index : nat) : M Z := load_element index.

Definition zram_set_entry (index : nat) (entry : Z) : M unit :=
  store_element index entry.

Definition zram_get_idle_count (index : nat) : M Z :=
  w <- load_flags index ;;
  ret (Z.shiftr w ZRAM_WB_IDLE_SHIFT).

Definition zram_clear_idle_count (index : nat) : M unit :=
  w <- load_flags index ;;
  store_flags index (Z.land w (BIT ZRAM_WB_IDLE_SHIFT - 1)).

Definition zram_set_idle_count (index : nat) (idle_count : Z) : M unit :=
  zram_clear_idle_count index ;;
  w <- load_flags index ;;
  store_flags index (Z.lor w (to_ulong (Z.shiftl idle_count ZRAM_WB_IDLE_SHIFT))).

Definition zram_inc_idle_count (index : nat) : M unit :=
  idle_count <- zram_get_idle_count index ;;
  when (idle_count <? ZRAM_WB_IDLE_MAX)
    (zram_set_idle_count index (idle_count + 1)).

Definition zram_test_flag (index : nat) (flag : Z) : M bool :=
  w <- load_flags index ;;
  ret (negb (Z.land w (BIT flag) =? 0)).

Definition zram_set_flag (index : nat) (flag : Z) : M unit :=
  w <- load_flags index ;;
  store_flags index (Z.lor w (BIT flag)).

Definition zram_clear_flag (index : nat) (flag : Z) : M unit :=
  w <- load_flags index ;;
  store_flags index (Z.land w (ulong_not (BIT flag))).

Definition zram_set_element (index : nat) (element : Z) : M unit :=
  store_element index element.

Definition zram_get_element (index : nat) : M Z := load_element index.

Definition zram_get_obj_size (index : nat) : M Z :=
  w <- load_flags index ;;
  ret (Z.land w (BIT ZRAM_FLAG_SHIFT - 1)).

Definition zram_set_obj_size (index : nat) (size : Z) : M unit :=
  w <- load_flags index ;;
  let flags := Z.shiftr w ZRAM_FLAG_SHIFT in
  store_flags index (Z.lor (Z.shiftl flags ZRAM_FLAG_SHIFT) size).

Definition zram_allocated (index : nat) : M bool :=
  size <- zram_get_obj_size index ;;
  if negb (size =? 0) then ret true
  else
    same <- zram_test_flag index ZRAM_SAME ;;
    if same then ret true
    else zram_test_flag index ZRAM_WB.

(** [is_partial_io]: the [#else] branch, PAGE_SIZE is 4096. *)
Definition is_partial_io (bv_len : Z) : bool := false.

(** [valid_io_request]: [start] is a [sector_t] (u64), [size] an
    [unsigned int]; [end] is computed in u64 and may wrap. *)
Definition valid_io_request (z : zram) (start size : Z) : bool :=
  if negb (Z.land start (ZRAM_SECTOR_PER_LOGICAL_BLOCK - 1) =? 0) then false
  else if negb (Z.land size (ZRAM_LOGICAL_BLOCK_SIZE - 1) =? 0) then false
  else
    let end_ := to_ulong (start + Z.shiftr size SECTOR_SHIFT) in
    let bound := Z.shiftr (disksize z) SECTOR_SHIFT in
    if (bound <=? start) || (bound <? end_) || (end_ <? start) then false
    else true.

(** [update_position] *)
Definition update_position (index : nat) (offset bv_len : Z) : nat * Z :=
  ((index + Z.to_nat ((offset + bv_len) / PAGE_SIZE))%nat,
   (offset + bv_len) mod PAGE_SIZE).

(** [update_used_max]: the compare-and-swap loop leaves the maximum. *)
Definition update_used_max (pages : Z) : M unit :=
  old_max <- atomic64_read max_used_pages ;;
  when (old_max <? pages) (atomic64_add (pages - old_max) max_used_pages).

(** [zram_fill_page(ptr, PAGE_SIZE, value)]: [memset_l] of
    [len / sizeof(unsigned long)] lanes. *)
Definition zram_fill_page (len value : Z) : page :=
  repeat value (Z.to_nat (len / 8)).

(** [page_same_filled]: [Some val] stands for [true] with [*element = val].
    The loop runs [pos] from 1 to [last_pos - 1]. *)
Fixpoint same_filled_from (mem : page) (val : Z) (pos : nat) (n : nat) : bool :=
  match n with
  | O => true
  | S n' =>
      if negb (val =? nth pos mem 0) then false
      else same_filled_from mem val (S pos) n'
  end.

Definition page_same_filled (mem : page) : option Z :=
  let last_pos := Z.to_nat (WORDS_PER_PAGE - 1) in
  let val := nth 0 mem 0 in
  if negb (val =? nth last_pos mem 0) then None
  else if same_filled_from mem val 1 (last_pos - 1) then Some val
  else None.

(** [for (i = from; i < from + count; i++) body(i)] *)
Fixpoint for_range (from count : nat) (body : nat -> M unit) : M unit :=
  match count with
  | O => ret tt
  | S c => body from ;; for_range (S from) c body
  end.

(** ** idle_store and new_store (lines 331-399)

    [all] tells whether the written string is "all" ([sysfs_streq]).  The
    value is the returned [ssize_t]. *)
Definition idle_store_slot (index : nat) : M unit :=
  zram_slot_lock index ;;
  size <- zram_get_obj_size index ;;
  low <- zram_test_flag index ZRAM_COMPRESS_LOW ;;
  under_wb <- zram_test_flag index ZRAM_UNDER_WB ;;
  wb <- zram_test_flag index ZRAM_WB ;;
  when (negb (size =? 0) && low && negb under_wb && negb wb)
    (zram_inc_idle_count index ;;
     idle <- zram_test_flag index ZRAM_IDLE ;;
     when (negb idle) (zram_set_flag index ZRAM_IDLE)) ;;
  zram_slot_unlock index.

Definition idle_store (all : bool) (len : Z) : M Z :=
  fun z =>
    let nr_pages := Z.shiftr (disksize z) PAGE_SHIFT in
    if negb all then Some (- EINVAL, z)
    else if negb (init_done z) then Some (- EINVAL, z)
    else (for_range 0 (Z.to_nat nr_pages) idle_store_slot ;; ret len) z.

Definition new_store_slot (index : nat) : M unit :=
  zram_slot_lock index ;;
  zram_clear_flag index ZRAM_IDLE ;;
  zram_clear_idle_count index ;;
  zram_slot_unlock index.

Definition new_store (all : bool) (len : Z) : M Z :=
  fun z =>
    let nr_pages := Z.shiftr (disksize z) PAGE_SHIFT in
    if negb all then Some (- EINVAL, z)
    else if negb (init_done z) then Some (- EINVAL, z)
    else (for_range 0 (Z.to_nat nr_pages) new_store_slot ;; ret len) z.

(** [low_compress_ratio_store] (lines 429-447): [val] is what [kstrtouint]
    read, [None] when the string is not a number. *)
Definition low_compress_ratio_store (val : option Z) (len : Z) : M Z :=
  match val with
  | None => ret (- EINVAL)
  | Some v => fun z => Some (len, set_glow_compress_ratio z v)
  end.

(** ** The block bitmap of the backing device (lines 704-731) *)

(** [find_next_zero_bit(addr, size, offset)] of the kernel's bit library:
    the least index in [[offset, size)] whose bit is clear, [size] when there
    is none. *)
Fixpoint find_zero_bit_from (addr : Z) (pos : Z) (n : nat) : Z :=
  match n with
  | O => pos
  | S n' => if Z.testbit addr pos then find_zero_bit_from addr (pos + 1) n'
            else pos
  end.

Definition find_next_zero_bit (addr size offset : Z) : Z :=
  if size <=? offset then size
  else find_zero_bit_from addr offset (Z.to_nat (size - offset)).

Definition test_and_set_bit (nr : Z) : M bool :=
  fun z => Some (Z.testbit (bitmap z) nr, set_bitmap z (Z.setbit (bitmap z) nr)).

Definition test_and_clear_bit (nr : Z) : M bool :=
  fun z => Some (Z.testbit (bitmap z) nr, set_bitmap z (Z.clearbit (bitmap z) nr)).

(** The [retry:] loop of [alloc_block_bdev]; [fuel] bounds the number of
    [goto retry]. *)
Fixpoint alloc_block_bdev_retry (fuel : nat) (blk_idx : Z) : M Z :=
  fun z =>
    let blk_idx := find_next_zero_bit (bitmap z) (nr_pages z) blk_idx in
    if blk_idx =? nr_pages z then Some (0, z)
    else
      (was_set <- test_and_set_bit blk_idx ;;
       if (was_set : bool) then
         match fuel with
         | O => fun _ => None
         | S fuel' => alloc_block_bdev_retry fuel' blk_idx
         end
       else (atomic64_inc bd_count ;; ret blk_idx)) z.

Definition alloc_block_bdev : M Z :=
  fun z => alloc_block_bdev_retry (Z.to_nat (nr_pages z)) 1 z.

Definition free_block_bdev (blk_idx : Z) : M unit :=
  was_set <- test_and_clear_bit blk_idx ;;
  (* WARN_ON_ONCE(!was_set) *)
  atomic64_dec bd_count.

(** [read_from_bdev] with a null parent and [sync = false]
    ([read_from_bdev_async]): counts the read, submits the bio; on success
    the page receives the content of block [entry]. *)
Definition read_from_bdev (dst : page) (entry : Z) (sync : bool) : M (Z * page) :=
  atomic64_inc bd_reads ;;
  if sync then ret (- EIO, dst)      (* read_from_bdev_sync: WARN_ON(1) *)
  else
    let r := bdev_read_submit entry in
    if r =? 1 then
      blocks <- gets bdev_blocks ;;
      ret (1, default [] (blocks !! entry))
    else ret (r, dst).

(** ** Pool entries (lines 1829-1877), deduplication disabled *)

Definition zram_entry_handle (entry : Z) : Z := entry.

Definition zram_entry_alloc (len : Z) (direct_reclaim : bool) : M Z :=
  fun z =>
    let handle := zs_malloc (mem_pool z) len direct_reclaim in
    if handle =? 0 then Some (0, z)
    else Some (handle, set_mem_pool z (<[handle := []]> (mem_pool z))).

(** [zs_free] *)
Definition zs_free (handle : Z) : M unit :=
  fun z => Some (tt, set_mem_pool z (delete handle (mem_pool z))).

(** the bytes of a mapped object, read ([ZS_MM_RO]) and written ([ZS_MM_WO]) *)
Definition zs_map_object (handle : Z) : M (list Z) :=
  fun z => Some (default [] (mem_pool z !! handle), z).

Definition zs_store (handle : Z) (data : list Z) : M unit :=
  fun z => Some (tt, set_mem_pool z (<[handle := data]> (mem_pool z))).

(** [zram_entry_free]: [zram_dedup_put_entry] is [true] without
    deduplication. *)
Definition zram_entry_free (entry : Z) : M unit :=
  zs_free (zram_entry_handle entry).

(** ** zram_free_page (lines 1929-1984) *)

(** the code from the label [out:] on *)
Definition zram_free_page_out (index : nat) : M unit :=
  atomic64_dec pages_stored ;;
  zram_set_entry index 0 ;;
  zram_set_obj_size index 0.
  (* WARN_ON_ONCE(flags & ~(1UL << ZRAM_LOCK | 1UL << ZRAM_UNDER_WB)) *)

Definition zram_free_page (index : nat) : M unit :=
  idle <- zram_test_flag index ZRAM_IDLE ;;
  when idle
    (zram_clear_flag index ZRAM_IDLE ;;
     zram_clear_idle_count index) ;;
  low <- zram_test_flag index ZRAM_COMPRESS_LOW ;;
  when low
    (zram_clear_flag index ZRAM_COMPRESS_LOW ;;
     atomic64_dec lowratio_pages) ;;
  huge <- zram_test_flag index ZRAM_HUGE ;;
  when huge
    (zram_clear_flag index ZRAM_HUGE ;;
     atomic64_dec huge_pages) ;;
  wb <- zram_test_flag index ZRAM_WB ;;
  if wb then
    zram_clear_flag index ZRAM_WB ;;
    blk <- zram_get_element index ;;
    free_block_bdev blk ;;
    zram_free_page_out index
  else
    same <- zram_test_flag index ZRAM_SAME ;;
    if same then
      zram_clear_flag index ZRAM_SAME ;;
      atomic64_dec same_pages ;;
      zram_free_page_out index
    else
      entry <- zram_get_entry index ;;
      if entry =? 0 then ret tt
      else
        zram_entry_free entry ;;
        size <- zram_get_obj_size index ;;
        atomic64_sub size compr_data_size ;;
        zram_free_page_out index.

(** [zram_accessed] *)
Definition zram_accessed (index : nat) : M unit :=
  zram_clear_flag index ZRAM_IDLE ;;
  zram_clear_idle_count index.

(** ** The read path (lines 1986-2081)

    [dst] is the content of the destination page before the call; the value
    is the return code and the content after it. *)
Definition __zram_bvec_read (dst : page) (index : nat)
    (partial_io access : bool) : M (Z * page) :=
  zram_slot_lock index ;;
  when access (zram_accessed index) ;;
  wb <- zram_test_flag index ZRAM_WB ;;
  if wb then
    zram_slot_unlock index ;;
    blk <- zram_get_element index ;;
    read_from_bdev dst blk partial_io
  else
    entry <- zram_get_entry index ;;
    same <- zram_test_flag index ZRAM_SAME ;;
    if (entry =? 0) || same then
      elt <- zram_get_element index ;;
      let value := if negb (entry =? 0) then elt else 0 in
      zram_slot_unlock index ;;
      ret (0, zram_fill_page PAGE_SIZE value)
    else
      size <- zram_get_obj_size index ;;
      src <- zs_map_object (zram_entry_handle entry) ;;
      let res :=
        if size =? PAGE_SIZE then (0, src)            (* memcpy *)
        else zcomp_decompress src size in
      zram_slot_unlock index ;;
      ret res.

Definition zram_bvec_read (dst : page) (bv_len : Z) (index : nat)
    (offset : Z) (access : bool) : M (Z * page) :=
  (* is_partial_io(bvec) is false: the page of the bvec is the target *)
  __zram_bvec_read dst index (is_partial_io bv_len) access.

(** ** The write path (lines 2083-2259) *)

(** the code from the label [out:] on; [flags] is 0 or [ZRAM_SAME] *)
Definition __zram_bvec_write_out (index : nat) (flags element entry comp_len : Z)
    (ret_ : Z) : M Z :=
  zram_slot_lock index ;;
  zram_free_page index ;;
  when (comp_len =? PAGE_SIZE)
    (zram_set_flag index ZRAM_HUGE ;;
     atomic64_inc huge_pages) ;;
  (if negb (flags =? 0) then
     zram_set_flag index flags ;;
     zram_set_element index element
   else
     zram_set_entry index entry ;;
     zram_set_obj_size index comp_len ;;
     ratio <- gets glow_compress_ratio ;;
     when (to_ulong (100 * to_ulong (PAGE_SIZE - comp_len)) / PAGE_SIZE <? ratio)
       (zram_set_flag index ZRAM_COMPRESS_LOW ;;
        atomic64_inc lowratio_pages)) ;;
  zram_slot_unlock index ;;
  atomic64_inc pages_stored ;;
  ret ret_.

(** the code from the label [compress_again:] to [out:]; [again] bounds the
    number of [goto compress_again] (the jump is taken with a non-null
    [entry], and a pass with a non-null [entry] does not jump) *)
Fixpoint __zram_bvec_write_compress (again : nat) (mem : page) (index : nat)
    (entry : Z) : M Z :=
  let '(r, buffer) := zcomp_compress mem in
  let comp_len := Z.of_nat (length buffer) in
  if negb (r =? 0) then
    when (negb (entry =? 0)) (zram_entry_free entry) ;;
    ret r
  else
    let comp_len := if huge_class_size <=? comp_len then PAGE_SIZE else comp_len in
    entry <- (if entry =? 0 then zram_entry_alloc comp_len false else ret entry) ;;
    if entry =? 0 then
      atomic64_inc writestall ;;
      entry <- zram_entry_alloc comp_len true ;;
      if negb (entry =? 0) then
        match again with
        | O => fun _ => None
        | S again' => __zram_bvec_write_compress again' mem index entry
        end
      else ret (- ENOMEM)
    else
      alloced_pages <- gets (fun z => zs_get_total_pages (mem_pool z)) ;;
      update_used_max alloced_pages ;;
      limit <- gets limit_pages ;;
      if negb (limit =? 0) && (limit <? alloced_pages) then
        zram_entry_free entry ;;
        ret (- ENOMEM)
      else
        (* memcpy(dst, src, comp_len) into the mapped object *)
        zs_store (zram_entry_handle entry)
          (take (Z.to_nat comp_len)
             (if comp_len =? PAGE_SIZE then mem else buffer)) ;;
        atomic64_add comp_len compr_data_size ;;
        __zram_bvec_write_out index 0 0 entry comp_len 0.

Definition __zram_bvec_write (mem : page) (index : nat) : M Z :=
  match page_same_filled mem with
  | Some element =>
      atomic64_inc same_pages ;;
      __zram_bvec_write_out index ZRAM_SAME element 0 0 0
  | None =>
      (* zram_dedup_find: no entry *)
      __zram_bvec_write_compress 1 mem index 0
  end.

Definition zram_bvec_write (mem : page) (bv_len : Z) (index : nat)
    (offset : Z) : M Z :=
  (* is_partial_io(bvec) is false *)
  __zram_bvec_write mem index.

(** ** Discard, request dispatch and free notification (lines 2266-2417) *)

Definition REQ_OP_READ : Z := 0.
Definition REQ_OP_WRITE : Z := 1.
Definition REQ_OP_DISCARD : Z := 3.
Definition REQ_OP_WRITE_ZEROES : Z := 9.
Definition op_is_write (op : Z) : bool := Z.odd op.

Definition BLK_STS_OK : Z := 0.
Definition BLK_STS_IOERR : Z := 10.

(** A segment of a request: the content of its page, and the window. *)
Record bio_vec := mk_bvec {
  bv_page : page;
  bv_len : Z;
  bv_offset : Z
}.

(** A request.  After completion [bi_status] is its status and the pages of
    [bi_io_vec] hold what was read. *)
Record bio := mk_bio {
  bi_sector : Z;
  bi_size : Z;
  bi_opf : Z;
  bi_io_vec : list bio_vec;
  bi_status : Z
}.

Definition bio_endio (b : bio) (vecs : list bio_vec) : bio :=
  mk_bio (bi_sector b) (bi_size b) (bi_opf b) vecs BLK_STS_OK.

Definition bio_io_error (b : bio) (vecs : list bio_vec) : bio :=
  mk_bio (bi_sector b) (bi_size b) (bi_opf b) vecs BLK_STS_IOERR.

Definition zram_bio_discard_slot (index : nat) : M unit :=
  zram_slot_lock index ;;
  zram_free_page index ;;
  zram_slot_unlock index ;;
  atomic64_inc notify_free.

Definition zram_bio_discard (index : nat) (offset : Z) (b : bio) : M unit :=
  let n := bi_size b in
  if negb (offset =? 0) then
    if n <=? PAGE_SIZE - offset then ret tt
    else
      let n := n - (PAGE_SIZE - offset) in
      for_range (S index) (Z.to_nat (n / PAGE_SIZE)) zram_bio_discard_slot
  else for_range index (Z.to_nat (n / PAGE_SIZE)) zram_bio_discard_slot.

(** [zram_bvec_rw]: the return code and the page of the segment afterwards *)
Definition zram_bvec_rw (mem : page) (bv_len : Z) (index : nat) (offset : Z)
    (op : Z) : M (Z * page) :=
  res <- (if negb (op_is_write op) then
            atomic64_inc num_reads ;;
            zram_bvec_read mem bv_len index offset true
          else
            atomic64_inc num_writes ;;
            r <- zram_bvec_write mem bv_len index offset ;;
            ret (r, mem)) ;;
  when (fst res <? 0)
    (if negb (op_is_write op) then atomic64_inc failed_reads
     else atomic64_inc failed_writes) ;;
  ret res.

(** The [do ... while (unwritten)] loop over one segment.  The value is
    [(failed, page, index, offset)]. *)
Fixpoint zram_segment_rw (fuel : nat) (op : Z) (mem : page) (unwritten : Z)
    (index : nat) (offset : Z) : M (bool * page * nat * Z) :=
  let len := Z.min (PAGE_SIZE - offset) unwritten in
  res <- zram_bvec_rw mem len index offset op ;;
  if fst res <? 0 then ret (true, snd res, index, offset)
  else
    let unwritten := unwritten - len in
    let '(index, offset) := update_position index offset len in
    if unwritten =? 0 then ret (false, snd res, index, offset)
    else
      match fuel with
      | O => fun _ => None
      | S fuel' => zram_segment_rw fuel' op (snd res) unwritten index offset
      end.

(** [bio_for_each_segment]: the value is [(failed, segments)] *)
Fixpoint zram_segments_rw (op : Z) (vecs : list bio_vec) (index : nat)
    (offset : Z) : M (bool * list bio_vec) :=
  match vecs with
  | [] => ret (false, [])
  | bv :: rest =>
      r <- zram_segment_rw (Z.to_nat (bv_len bv)) op (bv_page bv) (bv_len bv)
             index offset ;;
      let '(failed, mem, index, offset) := r in
      let bv' := mk_bvec mem (bv_len bv) (bv_offset bv) in
      if (failed : bool) then ret (true, bv' :: rest)
      else
        r' <- zram_segments_rw op rest index offset ;;
        ret (fst r', bv' :: snd r')
  end.

Definition __zram_make_request (b : bio) : M bio :=
  let index := Z.to_nat (Z.shiftr (bi_sector b) SECTORS_PER_PAGE_SHIFT) in
  let offset := Z.shiftl (Z.land (bi_sector b) (SECTORS_PER_PAGE - 1)) SECTOR_SHIFT in
  if (bi_opf b =? REQ_OP_DISCARD) || (bi_opf b =? REQ_OP_WRITE_ZEROES) then
    zram_bio_discard index offset b ;;
    ret (bio_endio b (bi_io_vec b))
  else
    r <- zram_segments_rw (bi_opf b) (bi_io_vec b) index offset ;;
    if fst r then ret (bio_io_error b (snd r))
    else ret (bio_endio b (snd r)).

Definition zram_make_request (b : bio) : M bio :=
  fun z =>
    if negb (valid_io_request z (bi_sector b) (bi_size b)) then
      (atomic64_inc invalid_io ;;
       ret (bio_io_error b (bi_io_vec b))) z
    else __zram_make_request b z.

Definition zram_slot_free_notify (index : nat) : M unit :=
  atomic64_inc notify_free ;;
  locked <- zram_slot_trylock index ;;
  if locked =? 0 then atomic64_inc miss_free
  else
    zram_free_page index ;;
    zram_slot_unlock index.

(** ** Writeback (lines 773-1042) *)

Definition HUGE_WRITEBACK : Z := 1.
Definition IDLE_WRITEBACK : Z := 2.

(** What was written to the [writeback] attribute, after the split at
    spaces: "idle" followed by the numbers that [kstrtoul] / [kstrtouint]
    read, "huge", or anything else (also a token that is not a number). *)
Inductive wb_input :=
  | Input_idle (args : list Z)
  | Input_huge
  | Input_other.

(** [writeback_parse_input]: [Some (wb_max, wb_idle_min)] stands for [true]
    with the two out-parameters, which keep the caller's values where no
    token is given. *)
Definition writeback_parse_input (buf : wb_input) (wb_max wb_idle_min : Z)
    : option (Z * Z) :=
  match buf with
  | Input_idle [] => Some (wb_max, wb_idle_min)
  | Input_idle [m] => Some (m, wb_idle_min)
  | Input_idle [m; i] =>
      Some (m, if ZRAM_WB_IDLE_MAX <? i then ZRAM_WB_IDLE_MAX else i)
  | _ => None
  end.

(** [struct writeback_batch_pages]: the staged page and the slot it is from *)
Record writeback_batch_pages := mk_batch {
  batch_page : page;
  batch_index : nat
}.

(** [submit_bio_wait] of the batch bio: takes the next result; on success the
    pages are on the backing device, block [start_blkidx + i] for page [i]. *)
Fixpoint write_blocks (blocks : gmap Z page) (blk : Z) (pages : list page)
    : gmap Z page :=
  match pages with
  | [] => blocks
  | p :: rest => write_blocks (<[blk := p]> blocks) (blk + 1) rest
  end.

Definition submit_bio_wait (start_blkidx : Z) (pages : list page) : M Z :=
  fun z =>
    let err := hd 0 (bio_errs z) in
    let z := set_bio_errs z (tl (bio_errs z)) in
    if err =? 0 then
      Some (0, set_bdev_blocks z (write_blocks (bdev_blocks z) start_blkidx pages))
    else Some (err, z).

(** the body of the loop taken when the bio failed (lines 836-844) *)
Definition writeback_batch_rollback (start_blkidx : Z)
    (batch : list writeback_batch_pages) (i : nat) : M unit :=
  fun z =>
    match batch !! i with
    | None => None
    | Some bp =>
        let index := batch_index bp in
        (zram_slot_lock index ;;
         zram_clear_flag index ZRAM_UNDER_WB ;;
         zram_clear_flag index ZRAM_IDLE ;;
         zram_clear_idle_count index ;;
         zram_slot_unlock index ;;
         free_block_bdev (start_blkidx + Z.of_nat i)) z
    end.

(** the body of the loop taken when the bio succeeded (lines 852-887); the
    value is what it adds to [wb_pages_nr] *)
Definition writeback_batch_reconcile (start_blkidx : Z)
    (batch : list writeback_batch_pages) (i : nat) : M Z :=
  fun z =>
    match batch !! i with
    | None => None
    | Some bp =>
        let index := batch_index bp in
        (atomic64_inc bd_writes ;;
         zram_slot_lock index ;;
         allocated <- zram_allocated index ;;
         idle <- zram_test_flag index ZRAM_IDLE ;;
         if negb allocated || negb idle then
           zram_clear_flag index ZRAM_UNDER_WB ;;
           zram_clear_flag index ZRAM_IDLE ;;
           zram_clear_idle_count index ;;
           zram_slot_unlock index ;;
           free_block_bdev (start_blkidx + Z.of_nat i) ;;
           ret 0
         else
           zram_free_page index ;;
           zram_clear_flag index ZRAM_UNDER_WB ;;
           zram_set_flag index ZRAM_WB ;;
           zram_set_element index (start_blkidx + Z.of_nat i) ;;
           atomic64_inc pages_stored ;;
           enable <- gets wb_limit_enable ;;
           limit <- gets bd_wb_limit ;;
           when (enable && (0 <? limit))
             (fun z => Some (tt, set_bd_wb_limit z
                (limit - Z.shiftl 1 (PAGE_SHIFT - 12)))) ;;
           zram_slot_unlock index ;;
           ret 1) z
    end.

(** [for (i = from; i < from + count; i++) wb_pages_nr += body(i)] *)
Fixpoint sum_range (from count : nat) (body : nat -> M Z) (acc : Z) : M Z :=
  match count with
  | O => ret acc
  | S c => n <- body from ;; sum_range (S from) c body (acc + n)
  end.

Definition wait_for_writeback_batch (start_blkidx nr_write : Z)
    (batch_pages : list writeback_batch_pages) : M Z :=
  err <- submit_bio_wait start_blkidx
           (map batch_page (take (Z.to_nat nr_write) batch_pages)) ;;
  if negb (err =? 0) then
    for_range 0 (Z.to_nat nr_write)
      (writeback_batch_rollback start_blkidx batch_pages) ;;
    ret 0
  else
    sum_range 0 (Z.to_nat nr_write)
      (writeback_batch_reconcile start_blkidx batch_pages) 0.

(** The locals of [writeback_store] that live across iterations. *)
Record wb_locals := mk_wb {
  blk_idx : Z;
  start_blkidx : Z;
  nr_write : Z;
  wb_pages_nr : Z;
  flush_count : Z;
  batch_pages : list writeback_batch_pages;
  wb_ret : Z
}.

(** lines 981-1011 and the label [next:]: the slot is looked at under its
    lock.  [true]: it is taken for writeback (ZRAM_UNDER_WB and ZRAM_IDLE
    set); [false]: [goto next].  The lock is released either way. *)
Definition writeback_select (mode wb_idle_min : Z) (index : nat) : M bool :=
  zram_slot_lock index ;;
  allocated <- zram_allocated index ;;
  if negb allocated then zram_slot_unlock index ;; ret false
  else
    wb <- zram_test_flag index ZRAM_WB ;;
    low <- zram_test_flag index ZRAM_COMPRESS_LOW ;;
    under_wb <- zram_test_flag index ZRAM_UNDER_WB ;;
    if wb || negb low || under_wb then zram_slot_unlock index ;; ret false
    else
      idle <- zram_test_flag index ZRAM_IDLE ;;
      idle_count <- zram_get_idle_count index ;;
      if negb (Z.land mode IDLE_WRITEBACK =? 0)
         && (negb idle || (idle_count <? wb_idle_min))
      then zram_slot_unlock index ;; ret false
      else
        huge <- zram_test_flag index ZRAM_HUGE ;;
        if negb (Z.land mode HUGE_WRITEBACK =? 0) && negb huge
        then zram_slot_unlock index ;; ret false
        else
          zram_set_flag index ZRAM_UNDER_WB ;;
          zram_set_flag index ZRAM_IDLE ;;
          zram_slot_unlock index ;;
          ret true.

(** lines 1013-1017: the staging read failed *)
Definition writeback_read_failed (index : nat) : M unit :=
  zram_slot_lock index ;;
  zram_clear_flag index ZRAM_UNDER_WB ;;
  zram_clear_flag index ZRAM_IDLE ;;
  zram_clear_idle_count index ;;
  zram_slot_unlock index.

(** One iteration of the loop of [writeback_store].  The value is the locals
    afterwards and whether the loop is left ([break]). *)
Definition writeback_iter (mode wb_max wb_idle_min : Z) (index : nat)
    (l : wb_locals) : M (wb_locals * bool) :=
  if sigusr1_pending index then
    ret (mk_wb (blk_idx l) (start_blkidx l) (nr_write l) (wb_pages_nr l)
           (flush_count l) (batch_pages l) (- EINTR), true)
  else
    enable <- gets wb_limit_enable ;;
    limit <- gets bd_wb_limit ;;
    if enable && (limit =? 0) then
      ret (mk_wb (blk_idx l) (start_blkidx l) (nr_write l) (wb_pages_nr l)
             (flush_count l) (batch_pages l) (- EIO), true)
    else
      blk <- (if blk_idx l =? 0 then alloc_block_bdev else ret (blk_idx l)) ;;
      if blk =? 0 then
        ret (mk_wb 0 (start_blkidx l) (nr_write l) (wb_pages_nr l)
               (flush_count l) (batch_pages l) (- ENOSPC), true)
      else
        let start :=
          if (blk_idx l =? 0) && (nr_write l =? 0) then blk else start_blkidx l in
        l1 <- (if (MAX_WRITEBACK_SIZE <=? nr_write l)
                  || negb (start + nr_write l =? blk)
               then
                 n <- wait_for_writeback_batch start (nr_write l) (batch_pages l) ;;
                 ret (mk_wb blk blk 0 (wb_pages_nr l + n) (flush_count l + 1)
                        (batch_pages l) (wb_ret l))
               else
                 ret (mk_wb blk start (nr_write l) (wb_pages_nr l)
                        (flush_count l) (batch_pages l) (wb_ret l))) ;;
        if wb_max <=? wb_pages_nr l1 then ret (l1, true)
        else
          selected <- writeback_select mode wb_idle_min index ;;
          if negb selected then ret (l1, false)
          else
            r <- zram_bvec_read [] PAGE_SIZE index 0 false ;;
            if negb (fst r =? 0) then
              writeback_read_failed index ;;
              ret (l1, false)
            else
              ret (mk_wb 0 (start_blkidx l1) (nr_write l1 + 1) (wb_pages_nr l1)
                     (flush_count l1)
                     (take (Z.to_nat (nr_write l1)) (batch_pages l1)
                        ++ [mk_batch (snd r) index])
                     (wb_ret l1), false).

(** [for (index = from; index < from + count; index++)] with [break] *)
Fixpoint writeback_loop (mode wb_max wb_idle_min : Z) (from count : nat)
    (l : wb_locals) : M wb_locals :=
  match count with
  | O => ret l
  | S c =>
      r <- writeback_iter mode wb_max wb_idle_min from l ;;
      if (snd r : bool) then ret (fst r)
      else writeback_loop mode wb_max wb_idle_min (S from) c (fst r)
  end.

(** [writeback_store].  The value is the returned [ssize_t] and the final
    [wb_pages_nr] (the "flush %lu pages" of the closing message). *)
Definition writeback_store (buf : wb_input) (len : Z) : M (Z * Z) :=
  let wb_max := ULONG_MAX in
  let wb_idle_min := ZRAM_WB_IDLE_DEFAULT in
  match
    match writeback_parse_input buf wb_max wb_idle_min with
    | Some (m, i) => Some (IDLE_WRITEBACK, m, i)
    | None =>
        match buf with
        | Input_idle [] => Some (IDLE_WRITEBACK, wb_max, wb_idle_min)
        | Input_huge => Some (HUGE_WRITEBACK, wb_max, wb_idle_min)
        | _ => None
        end
    end
  with
  | None => ret (- EINVAL, 0)
  | Some (mode, wb_max, wb_idle_min) =>
      fun z =>
        let nr_pages := Z.shiftr (disksize z) PAGE_SHIFT in
        if negb (init_done z) then Some ((- EINVAL, 0), z)
        else if negb (backing_dev z) then Some ((- ENODEV, 0), z)
        else if negb (writeback_pages z) then Some ((- ENOMEM, 0), z)
        else
          (l <- writeback_loop mode wb_max wb_idle_min 0 (Z.to_nat nr_pages)
                  (mk_wb 0 0 0 0 0 [] 0) ;;
           n <- (if negb (nr_write l =? 0) then
                   wait_for_writeback_batch (start_blkidx l) (nr_write l)
                     (batch_pages l)
                 else ret 0) ;;
           when (negb (blk_idx l =? 0)) (free_block_bdev (blk_idx l)) ;;
           (* ret = len *)
           ret (len, wb_pages_nr l + n)) z
  end.

End Driver.

(** ** A concrete header and concrete collaborators

    One admissible choice of the constants (size in bits 0-23, the seven
    flags in bits 24-30, the idle counter from bit 32 up, batches of 32
    pages), used to run the model on concrete devices. *)
Definition sample_drv_h : zram_drv_h.
Proof.
  refine {| ZRAM_FLAG_SHIFT := 24;
            ZRAM_LOCK := 24; ZRAM_SAME := 25; ZRAM_WB := 26;
            ZRAM_UNDER_WB := 27; ZRAM_HUGE := 28; ZRAM_IDLE := 29;
            ZRAM_COMPRESS_LOW := 30;
            ZRAM_WB_IDLE_SHIFT := 32; ZRAM_WB_IDLE_MAX := 255;
            ZRAM_WB_IDLE_DEFAULT := 1;
            MAX_WRITEBACK_SIZE := 32;
            ZRAM_LOGICAL_BLOCK_SHIFT := 12 |}.
  - apply (bool_decide_unpack _). vm_compute. exact I.
  - apply (bool_decide_unpack _). vm_compute. exact I.
  - reflexivity.
  - reflexivity.
  - split; [discriminate | reflexivity].
  - reflexivity.
  - split; discriminate.
Defined.

(** A codec that stores a page as it is (8 bytes a lane, so every page is
    "huge"), an allocator that hands out the least unused handle, no
    signal. *)
Definition sample_collaborators : collaborators :=
  {| zcomp_compress := fun mem => (0, concat (map (fun w => repeat w 8) mem));
     zcomp_decompress := fun src size => (0, src);
     zs_malloc := fun pool len reclaim =>
       1 + fold_right Z.max 0 (map fst (map_to_list pool));
     zs_get_total_pages := fun pool => Z.of_nat (size pool);
     huge_class_size := 3264;
     bdev_read_submit := fun entry => 1;
     sigusr1_pending := fun index => false |}.

(** An initialised device of [n] empty slots with a backing device of
    [blocks] blocks, all free. *)
Definition fresh_zram (n : nat) (blocks : Z) : zram :=
  mk_zram (repeat (mk_slot 0 0) n) ∅ 0 (fun _ => 0)
    (Z.of_nat n * PAGE_SIZE) true true 0 blocks ∅ false 0 75 [].

(** ** Vocabulary of the statements *)

(** [runs m z Q]: from state [z] the computation [m] is not stuck, and its
    value and final state satisfy [Q]. *)
Definition runs {A} (m : M A) (z : zram) (Q : A -> zram -> Prop) : Prop :=
  exists a z', m z = Some (a, z') /\ Q a z'.

(** The fields of a flags word. *)
Definition obj_size_of `{zram_drv_h} (w : Z) : Z := Z.land w (BIT ZRAM_FLAG_SHIFT - 1).
Definition idle_count_of `{zram_drv_h} (w : Z) : Z := Z.shiftr w ZRAM_WB_IDLE_SHIFT.

(** Bit [b] of the flags word that [zram_free_page] leaves, from the word
    [w] and the payload [e] it finds. *)
Definition free_page_bit `{zram_drv_h} (w e b : Z) : bool :=
  Z.testbit w b
  && negb (b =? ZRAM_IDLE) && negb (b =? ZRAM_COMPRESS_LOW)
  && negb (b =? ZRAM_HUGE) && negb (b =? ZRAM_WB)
  && negb ((b =? ZRAM_SAME) && negb (Z.testbit w ZRAM_WB))
  && negb ((ZRAM_WB_IDLE_SHIFT <=? b) && Z.testbit w ZRAM_IDLE)
  && negb ((b <? ZRAM_FLAG_SHIFT)
           && (Z.testbit w ZRAM_WB || Z.testbit w ZRAM_SAME || negb (e =? 0))).

(** Every flags word of the table is an [unsigned long]. *)
Definition table_ulong (z : zram) : Prop :=
  forall i s, table z !! i = Some s -> is_ulong (flags s).

(** No slot lock is held. *)
Definition table_unlocked `{zram_drv_h} (z : zram) : Prop :=
  forall i s, table z !! i = Some s -> Z.testbit (flags s) ZRAM_LOCK = false.

(** [z'] differs from [z] at most in the table, the pool, the bitmap and the
    counters. *)
Definition same_device (z z' : zram) : Prop :=
  limit_pages z' = limit_pages z /\ disksize z' = disksize z /\
  backing_dev z' = backing_dev z /\ writeback_pages z' = writeback_pages z /\
  nr_pages z' = nr_pages z /\ bdev_blocks z' = bdev_blocks z /\
  wb_limit_enable z' = wb_limit_enable z /\ bd_wb_limit z' = bd_wb_limit z /\
  glow_compress_ratio z' = glow_compress_ratio z /\ bio_errs z' = bio_errs z.

(** The counters that [zram_free_page] may change. *)
Definition free_page_counter (c : stat) : bool :=
  match c with
  | lowratio_pages | huge_pages | same_pages | pages_stored
  | compr_data_size | bd_count => true
  | _ => false
  end.

(** [zram_allocated], on the flags word *)
Definition slot_allocated `{zram_drv_h} (w : Z) : bool :=
  negb (obj_size_of w =? 0) || Z.testbit w ZRAM_SAME || Z.testbit w ZRAM_WB.

(** The flags word after ZRAM_UNDER_WB, ZRAM_IDLE and the idle counter have
    been cleared (what a writeback that did not go through leaves). *)
Definition rollback_word `{zram_drv_h} (w : Z) : Z :=
  Z.land (Z.land (Z.land w (ulong_not (BIT ZRAM_UNDER_WB))) (ulong_not (BIT ZRAM_IDLE)))
    (BIT ZRAM_WB_IDLE_SHIFT - 1).

(** A slot is as it was, or it has been rolled back. *)
Definition rolled_back `{zram_drv_h} (s s' : zram_table_entry) : Prop :=
  s' = s \/ s' = mk_slot (element s) (rollback_word (flags s)).

(** Two states of a slot with the same payload, size, ZRAM_SAME, ZRAM_WB,
    ZRAM_HUGE, ZRAM_COMPRESS_LOW and ZRAM_LOCK. *)
Definition same_content `{zram_drv_h} (s s' : zram_table_entry) : Prop :=
  element s' = element s /\
  obj_size_of (flags s') = obj_size_of (flags s) /\
  Z.testbit (flags s') ZRAM_SAME = Z.testbit (flags s) ZRAM_SAME /\
  Z.testbit (flags s') ZRAM_WB = Z.testbit (flags s) ZRAM_WB /\
  Z.testbit (flags s') ZRAM_HUGE = Z.testbit (flags s) ZRAM_HUGE /\
  Z.testbit (flags s') ZRAM_COMPRESS_LOW = Z.testbit (flags s) ZRAM_COMPRESS_LOW /\
  Z.testbit (flags s') ZRAM_LOCK = Z.testbit (flags s) ZRAM_LOCK.

(** ** The steps of the device

    The driver is entered from many threads.  A path changes a slot only
    under its bit-spinlock, so a run of the device is an interleaving of the
    sections below. *)
Inductive zram_op :=
  | Op_idle_store (index : nat)
  | Op_new_store (index : nat)
  | Op_read (dst : page) (index : nat) (access : bool)
  | Op_write (mem : page) (index : nat)
  | Op_discard (index : nat)
  | Op_free_notify (index : nat)
  | Op_wb_alloc_block
  | Op_wb_free_block (blk_idx : Z)
  | Op_wb_select (mode wb_idle_min : Z) (index : nat)
  | Op_wb_read_failed (index : nat)
  | Op_wb_submit (start_blkidx : Z) (pages : list page)
  | Op_wb_rollback (start_blkidx : Z) (batch : list writeback_batch_pages) (i : nat)
  | Op_wb_reconcile (start_blkidx : Z) (batch : list writeback_batch_pages) (i : nat).

Definition run_op `{zram_drv_h} `{collaborators} (o : zram_op) : M unit :=
  match o with
  | Op_idle_store index => idle_store_slot index
  | Op_new_store index => new_store_slot index
  | Op_read dst index access => zram_bvec_read dst PAGE_SIZE index 0 access ;; ret tt
  | Op_write mem index => zram_bvec_write mem PAGE_SIZE index 0 ;; ret tt
  | Op_discard index => zram_bio_discard_slot index
  | Op_free_notify index => zram_slot_free_notify index
  | Op_wb_alloc_block => alloc_block_bdev ;; ret tt
  | Op_wb_free_block blk_idx => free_block_bdev blk_idx
  | Op_wb_select mode wb_idle_min index =>
      writeback_select mode wb_idle_min index ;; ret tt
  | Op_wb_read_failed index => writeback_read_failed index
  | Op_wb_submit start_blkidx pages => submit_bio_wait start_blkidx pages ;; ret tt
  | Op_wb_rollback start_blkidx batch i => writeback_batch_rollback start_blkidx batch i
  | Op_wb_reconcile start_blkidx batch i =>
      writeback_batch_reconcile start_blkidx batch i ;; ret tt
  end.

Definition zram_step `{zram_drv_h} `{collaborators} (z z' : zram) : Prop :=
  exists o, run_op o z = Some (tt, z').

(** The states that a device reaches from [z0]. *)
Definition reachable `{zram_drv_h} `{collaborators} (z0 : zram) : zram -> Prop :=
  rtc zram_step z0.

(** No slot has ZRAM_IDLE and ZRAM_UNDER_WB together. *)
Definition idle_excludes_under_wb `{zram_drv_h} (z : zram) : Prop :=
  forall i s, table z !! i = Some s ->
    Z.testbit (flags s) ZRAM_IDLE && Z.testbit (flags s) ZRAM_UNDER_WB = false.

(** ZRAM_IDLE is set in [z'] only where it was set in [z]. *)
Definition idle_kept `{zram_drv_h} (z z' : zram) : Prop :=
  forall i s', table z' !! i = Some s' -> Z.testbit (flags s') ZRAM_IDLE = true ->
    exists s, table z !! i = Some s /\ Z.testbit (flags s) ZRAM_IDLE = true.

(** Code that sets ZRAM_IDLE nowhere. *)
Definition keeps_idle `{zram_drv_h} {A} (m : M A) : Prop :=
  forall z a z', m z = Some (a, z') -> idle_kept z z'.

(** A page that is not same-filled. *)
Definition sample_page : page := 1 :: repeat 0 511.

(** ** Sections of code on one slot

    The table of [z'] has the slots of [z], changed at most at [i]. *)
Definition slot_frame (i : nat) (z z' : zram) : Prop :=
  length (table z') = length (table z) /\
  forall j, j <> i -> table z' !! j = table z !! j.

(** Code that runs whenever slot [i] exists and changes no other slot. *)
Definition slot_code {A} (i : nat) (m : M A) : Prop :=
  forall z, (i < length (table z))%nat ->
    runs m z (fun _ z' => slot_frame i z z').

(** Code that runs whenever slot [i] exists, leaves the table alone and
    returns a value in [V]. *)
Definition quiet_code {A} (i : nat) (m : M A) (V : A -> Prop) : Prop :=
  forall z, (i < length (table z))%nat ->
    runs m z (fun a z' => table z' = table z /\ V a).

Definition unlocked_at `{zram_drv_h} (i : nat) (z : zram) : Prop :=
  exists s, table z !! i = Some s /\ Z.testbit (flags s) ZRAM_LOCK = false.

(** Code on slot [i] that ends with the lock of the slot released. *)
Definition unlocking_code `{zram_drv_h} {A} (i : nat) (m : M A) (V : A -> Prop) : Prop :=
  forall z, (i < length (table z))%nat ->
    runs m z (fun a z' => slot_frame i z z' /\ unlocked_at i z' /\ V a).

(** A device of [N] slots on which no slot lock is held. *)
Definition wb_device `{zram_drv_h} (N : nat) (z : zram) : Prop :=
  table_unlocked z /\ length (table z) = N.

(** What [wb_max] does bound: the pages of the flushed batches stay below
    [wb_max] as long as slots are taken, and a batch has up to
    [MAX_WRITEBACK_SIZE] pages. *)
Definition wb_cap `{zram_drv_h} (wb_max : Z) : Z :=
  if wb_max <=? 0 then 0 else wb_max + MAX_WRITEBACK_SIZE - 1.

(** The locals of [writeback_store] between two iterations. *)
Definition wb_locals_ok `{zram_drv_h} (N : nat) (wb_max : Z) (l : wb_locals) : Prop :=
  0 <= nr_write l <= MAX_WRITEBACK_SIZE /\
  0 <= wb_pages_nr l /\
  wb_pages_nr l + nr_write l <= wb_cap wb_max /\
  forall i, (i < Z.to_nat (nr_write l))%nat ->
    exists bp, batch_pages l !! i = Some bp /\ (batch_index bp < N)%nat.

(** ** Concrete devices

    The state that a computation leaves, and its value. *)
Definition state_after {A} (m : M A) (z : zram) : zram :=
  match m z with
  | Some (_, z') => z'
  | None => z
  end.

Definition gets_through {A} (m : M A) (z : zram) : bool :=
  match m z with
  | Some _ => true
  | None => false
  end.

Definition value_of {A} (m : M A) (z : zram) : option A :=
  match m z with
  | Some (a, _) => Some a
  | None => None
  end.

(** A device of two slots, each written with [sample_page] (stored as a huge
    page by the sample codec) and then marked by [idle_store]. *)
Definition idle_pages_device : zram :=
  state_after (idle_store (H_drv := sample_drv_h) true 3)
    (state_after
       (zram_bvec_write (H_drv := sample_drv_h) (H_ext := sample_collaborators)
          sample_page PAGE_SIZE 1 0)
       (state_after
          (zram_bvec_write (H_drv := sample_drv_h) (H_ext := sample_collaborators)
             sample_page PAGE_SIZE 0 0)
          (fresh_zram 2 3))).

(** A device of one slot, written with [sample_page] after
    [low_compress_ratio] was set to 0: the slot is ZRAM_HUGE and not
    ZRAM_COMPRESS_LOW. *)
Definition huge_page_device : zram :=
  state_after
    (zram_bvec_write (H_drv := sample_drv_h) (H_ext := sample_collaborators)
       sample_page PAGE_SIZE 0 0)
    (state_after (low_compress_ratio_store (Some 0) 1) (fresh_zram 1 3)).

(** [idle_pages_device] after [writeback_store] has taken slot 0, with a
    backing device that is going to fail the next bio. *)
Definition selected_device : zram :=
  set_bio_errs
    (state_after
       (writeback_select (H_drv := sample_drv_h) IDLE_WRITEBACK 1 0)
       idle_pages_device)
    [- EIO].

(** A slot with a size and no entry, flag or idle counter. *)
Definition stale_size_device : zram :=
  set_table (fresh_zram 1 0) [mk_slot 0 5].

(** A device of one slot that [writeback_store], in "huge" mode, has taken:
    the slot was written with [sample_page] and then selected. *)
Definition under_wb_device : zram :=
  state_after
    (run_op (H := sample_drv_h) (H0 := sample_collaborators)
       (Op_wb_select HUGE_WRITEBACK 1 0))
    (state_after
       (run_op (H := sample_drv_h) (H0 := sample_collaborators)
          (Op_write sample_page 0))
       (fresh_zram 1 3)).

(** ** Vocabulary of the further properties *)

(** What [idle_store] asks of a slot before it marks it. *)
Definition idle_eligible `{zram_drv_h} (w : Z) : bool :=
  negb (obj_size_of w =? 0) && Z.testbit w ZRAM_COMPRESS_LOW
  && negb (Z.testbit w ZRAM_UNDER_WB) && negb (Z.testbit w ZRAM_WB).

(** The flags word [w'] that [idle_store] leaves for the word [w]. *)
Definition idle_marked `{zram_drv_h} (w w' : Z) : Prop :=
  is_ulong w' /\
  Z.testbit w' ZRAM_IDLE = Z.testbit w ZRAM_IDLE || idle_eligible w /\
  idle_count_of w'
    = (if idle_eligible w && (idle_count_of w <? ZRAM_WB_IDLE_MAX)
       then idle_count_of w + 1 else idle_count_of w) /\
  forall b, 0 <= b < ZRAM_WB_IDLE_SHIFT -> b <> ZRAM_IDLE ->
    Z.testbit w' b = Z.testbit w b.

(** The flags word [w'] that [new_store] and [zram_accessed] leave for the
    word [w]. *)
Definition idle_cleared `{zram_drv_h} (w w' : Z) : Prop :=
  is_ulong w' /\
  Z.testbit w' ZRAM_IDLE = false /\
  idle_count_of w' = 0 /\
  forall b, 0 <= b < ZRAM_WB_IDLE_SHIFT -> b <> ZRAM_IDLE ->
    Z.testbit w' b = Z.testbit w b.

(** Two tables whose slots have the same payloads and flags words related
    by [R]. *)
Definition slots_related (R : Z -> Z -> Prop) (t t' : list zram_table_entry) : Prop :=
  Forall2 (fun s s' => element s' = element s /\ R (flags s) (flags s')) t t'.

(** The flags word after [zram_accessed]. *)
Definition accessed_word `{zram_drv_h} (w : Z) : Z :=
  Z.land (Z.land w (ulong_not (BIT ZRAM_IDLE))) (BIT ZRAM_WB_IDLE_SHIFT - 1).

(** What [read_from_bdev] returns for block [blk]. *)
Definition bdev_read_result `{collaborators} (z : zram) (dst : page) (blk : Z)
    (sync : bool) : Z * page :=
  if sync then (- EIO, dst)
  else if bdev_read_submit blk =? 1 then (1, default [] (bdev_blocks z !! blk))
  else (bdev_read_submit blk, dst).

(** What a read of slot [s] returns: from the backing device, from the
    same-fill element, or from the pool entry (raw or decompressed). *)
Definition slot_content `{zram_drv_h} `{collaborators} (z : zram)
    (s : zram_table_entry) (dst : page) (partial_io : bool) : Z * page :=
  if Z.testbit (flags s) ZRAM_WB then bdev_read_result z dst (element s) partial_io
  else if (element s =? 0) || Z.testbit (flags s) ZRAM_SAME
  then (0, zram_fill_page PAGE_SIZE (element s))
  else if obj_size_of (flags s) =? PAGE_SIZE
  then (0, default [] (mem_pool z !! element s))
  else zcomp_decompress (default [] (mem_pool z !! element s)) (obj_size_of (flags s)).

(** A slot that has just been freed under its lock: no payload, an unsigned
    long flags word with ZRAM_LOCK, ZRAM_WB, ZRAM_IDLE, ZRAM_HUGE and
    ZRAM_COMPRESS_LOW clear, and ZRAM_UNDER_WB as before. *)
Definition slot_freed `{zram_drv_h} (s s' : zram_table_entry) : Prop :=
  element s' = 0 /\ is_ulong (flags s') /\
  Z.testbit (flags s') ZRAM_LOCK = false /\
  Z.testbit (flags s') ZRAM_WB = false /\
  Z.testbit (flags s') ZRAM_IDLE = false /\
  Z.testbit (flags s') ZRAM_HUGE = false /\
  Z.testbit (flags s') ZRAM_COMPRESS_LOW = false /\
  Z.testbit (flags s') ZRAM_UNDER_WB = Z.testbit (flags s) ZRAM_UNDER_WB.

(** The page of slot [j] lies inside the byte range [[pos, pos + n)]. *)
Definition page_covered (pos n : Z) (j : nat) : Prop :=
  pos <= Z.of_nat j * PAGE_SIZE /\ (Z.of_nat j + 1) * PAGE_SIZE <= pos + n.

(** A slot whose page is on the backing device at block [blk]. *)
Definition slot_written_back `{zram_drv_h} (blk : Z) (s' : zram_table_entry) : Prop :=
  element s' = blk /\ is_ulong (flags s') /\
  Z.testbit (flags s') ZRAM_LOCK = false /\
  Z.testbit (flags s') ZRAM_WB = true /\
  Z.testbit (flags s') ZRAM_UNDER_WB = false /\
  Z.testbit (flags s') ZRAM_IDLE = false /\
  Z.testbit (flags s') ZRAM_HUGE = false /\
  Z.testbit (flags s') ZRAM_COMPRESS_LOW = false.

(** A slot that holds a pool object holds a live one. *)
Definition pool_entry_live `{zram_drv_h} (z : zram) (s : zram_table_entry) : Prop :=
  Z.testbit (flags s) ZRAM_WB = false -> Z.testbit (flags s) ZRAM_SAME = false ->
  element s <> 0 -> is_Some (mem_pool z !! element s).

(** The slots that a step names exist in a table of [N] slots. *)
Definition op_in_table (N : nat) (o : zram_op) : Prop :=
  match o with
  | Op_idle_store index | Op_new_store index | Op_read _ index _
  | Op_write _ index | Op_discard index | Op_free_notify index
  | Op_wb_select _ _ index | Op_wb_read_failed index => (index < N)%nat
  | Op_wb_rollback _ batch i | Op_wb_reconcile _ batch i =>
      exists bp, batch !! i = Some bp /\ (batch_index bp < N)%nat
  | Op_wb_alloc_block | Op_wb_free_block _ | Op_wb_submit _ _ => True
  end.

(** ** zram_rw_page (lines 2419-2468)

    [trans_huge] is [PageTransHuge(page)], [mem] the content of the page; the
    value is the return code and the content of the page afterwards.
    [index] is a [u32]. *)
Definition ENOTSUPP : Z := 524.

Definition zram_rw_page `{zram_drv_h} `{collaborators} (trans_huge : bool)
    (sector : Z) (mem : page) (op : Z) : M (Z * page) :=
  if trans_huge then ret (- ENOTSUPP, mem)
  else fun z =>
    if negb (valid_io_request z sector PAGE_SIZE) then
      (atomic64_inc invalid_io ;;
       ret (- EINVAL, mem)) z
    else
      let index :=
        Z.to_nat (Z.shiftr sector SECTORS_PER_PAGE_SHIFT mod 2 ^ 32) in
      let offset := Z.shiftl (Z.land sector (SECTORS_PER_PAGE - 1)) SECTOR_SHIFT in
      (res <- zram_bvec_rw mem PAGE_SIZE index offset op ;;
       if fst res <? 0 then ret res
       else if fst res =? 0 then ret (0, snd res)      (* page_endio *)
       else if fst res =? 1 then ret (0, snd res)
       else ret res) z.                                 (* WARN_ON(1) *)

(** ** idle_stat / new_stat (lines 1517-1568) *)

(** conversion to [unsigned int] *)
Definition to_uint (x : Z) : Z := x mod 2 ^ 32.

(** [for (i = from; i < from + count; i++) a = body(i, a)] *)
Fixpoint fold_range {A} (from count : nat) (body : nat -> A -> M A) (a : A) : M A :=
  match count with
  | O => ret a
  | S c => a' <- body from a ;; fold_range (S from) c body a'
  end.

(** the body of the loop over the slots: [pages_nr[idle_count]++] for a slot
    that has a size and ZRAM_COMPRESS_LOW and neither ZRAM_WB nor
    ZRAM_UNDER_WB, when its counter is at most [max_idle_count] *)
Definition idle_or_new_slot `{zram_drv_h} (max_idle_count : Z) (index : nat)
    (pages_nr : list Z) : M (list Z) :=
  zram_slot_lock index ;;
  size <- zram_get_obj_size index ;;
  low <- zram_test_flag index ZRAM_COMPRESS_LOW ;;
  wb <- zram_test_flag index ZRAM_WB ;;
  under_wb <- zram_test_flag index ZRAM_UNDER_WB ;;
  pages_nr <-
    (if negb (size =? 0) && low && negb wb && negb under_wb then
       c <- zram_get_idle_count index ;;
       let idle_count := to_uint c in
       if idle_count <=? max_idle_count then
         ret (<[Z.to_nat idle_count :=
                  to_ulong (default 0 (pages_nr !! Z.to_nat idle_count) + 1)]> pages_nr)
       else ret pages_nr
     else ret pages_nr) ;;
  zram_slot_unlock index ;;
  ret pages_nr.

(** [get_idle_or_new_pages]: [None] stands for -EINVAL, [Some l] for the
    numbers handed to [scnprintf], in order: [pages_nr[i]] for [i] from
    [min_idle_count] to [max_idle_count]. *)
Definition get_idle_or_new_pages `{zram_drv_h} (idle : bool) : M (option (list Z)) :=
  fun z =>
    let nr_pages := Z.shiftr (disksize z) PAGE_SHIFT in
    let max_idle_count := if idle then to_uint ZRAM_WB_IDLE_MAX else 0 in
    let min_idle_count := if idle then 1 else 0 in
    if negb (init_done z) then Some (None, z)
    else
      (pages_nr <- fold_range 0 (Z.to_nat nr_pages) (idle_or_new_slot max_idle_count)
                     (repeat 0 (Z.to_nat (ZRAM_WB_IDLE_MAX + 1))) ;;
       ret (Some (take (Z.to_nat (max_idle_count - min_idle_count + 1))
                    (drop (Z.to_nat min_idle_count) pages_nr)))) z.

(** The slots of a table that [idle_stat] and [new_stat] count in bucket
    [k]. *)
Definition in_bucket `{zram_drv_h} (k : Z) (s : zram_table_entry) : bool :=
  idle_eligible (flags s) && (to_uint (idle_count_of (flags s)) =? k).

Definition bucket_size `{zram_drv_h} (k : Z) (t : list zram_table_entry) : Z :=
  Z.of_nat (length (filter (fun s => in_bucket k s = true) t)).



(** ** The statistics and the table

    The counters that describe the table, and what a slot counts for in
    each: [pages_stored] counts the slots that hold something (a block of
    the backing device, a same-fill value or a pool object), [same_pages],
    [huge_pages] and [lowratio_pages] the slots with the flag, and
    [compr_data_size] adds up the sizes of the pool objects. *)
Definition slot_counter (c : stat) : bool :=
  match c with
  | pages_stored | same_pages | huge_pages | lowratio_pages | compr_data_size => true
  | _ => false
  end.

Definition slot_weight `{zram_drv_h} (c : stat) (s : zram_table_entry) : Z :=
  match c with
  | pages_stored =>
      if Z.testbit (flags s) ZRAM_WB || Z.testbit (flags s) ZRAM_SAME
         || negb (element s =? 0) then 1 else 0
  | same_pages => if Z.testbit (flags s) ZRAM_SAME then 1 else 0
  | huge_pages => if Z.testbit (flags s) ZRAM_HUGE then 1 else 0
  | lowratio_pages => if Z.testbit (flags s) ZRAM_COMPRESS_LOW then 1 else 0
  | compr_data_size =>
      if Z.testbit (flags s) ZRAM_WB || Z.testbit (flags s) ZRAM_SAME
         || (element s =? 0) then 0 else obj_size_of (flags s)
  | _ => 0
  end.

Definition table_weight `{zram_drv_h} (c : stat) (t : list zram_table_entry) : Z :=
  fold_right Z.add 0 (map (slot_weight c) t).

(** How far a counter is from what the table says. *)
Definition stat_drift `{zram_drv_h} (c : stat) (z : zram) : Z :=
  stats z c - table_weight c (table z).

(** A slot whose flags word is an [unsigned long] and that is not at once
    written back and same-filled. *)
Definition slot_sound `{zram_drv_h} (s : zram_table_entry) : Prop :=
  is_ulong (flags s) /\
  Z.testbit (flags s) ZRAM_WB && Z.testbit (flags s) ZRAM_SAME = false.

Definition table_sound `{zram_drv_h} (z : zram) : Prop :=
  forall i s, table z !! i = Some s -> slot_sound s.

(** The counters that describe the table are as far from it in [z'] as in
    [z]. *)
Definition drift_kept `{zram_drv_h} (z z' : zram) : Prop :=
  forall c, slot_counter c = true -> stat_drift c z' = stat_drift c z.

(** [z'] keeps the counters in step with the table, and the slots sound. *)
Definition step_kept `{zram_drv_h} (z z' : zram) : Prop :=
  drift_kept z z' /\ (table_sound z -> table_sound z').

(** One section of the driver, on slots of a table of [N] slots. *)
Definition table_step `{zram_drv_h} `{collaborators} (N : nat) (z z' : zram) : Prop :=
  exists o, op_in_table N o /\ run_op o z = Some (tt, z').

(** ** zram_meta_free (lines 1879-1891)

    The loop that frees every page of a device of [disksize] bytes.  What
    follows it in the function ([zs_destroy_pool], [zram_dedup_fini] and
    [vfree]) releases the pool and the table themselves. *)
Definition zram_meta_free_pages `{zram_drv_h} (disksize : Z) : M unit :=
  let num_pages := Z.shiftr disksize PAGE_SHIFT in
  for_range 0 (Z.to_nat num_pages) zram_free_page.

(** A slot that holds nothing. *)
Definition slot_empty `{zram_drv_h} (s : zram_table_entry) : Prop :=
  element s = 0 /\
  Z.testbit (flags s) ZRAM_WB = false /\ Z.testbit (flags s) ZRAM_SAME = false /\
  Z.testbit (flags s) ZRAM_HUGE = false /\ Z.testbit (flags s) ZRAM_IDLE = false /\
  Z.testbit (flags s) ZRAM_COMPRESS_LOW = false.

(** ** The pool and the table *)

(** A slot that holds a pool object. *)
Definition holds_object `{zram_drv_h} (s : zram_table_entry) : Prop :=
  Z.testbit (flags s) ZRAM_WB = false /\ Z.testbit (flags s) ZRAM_SAME = false /\
  element s <> 0.

(** Every slot that holds a pool object holds one that is in the pool, and
    no two slots hold the same one. *)
Definition pool_sound `{zram_drv_h} (z : zram) : Prop :=
  (forall i s, table z !! i = Some s -> holds_object s ->
     is_Some (mem_pool z !! element s)) /\
  (forall i j s t, table z !! i = Some s -> table z !! j = Some t ->
     holds_object s -> holds_object t -> element s = element t -> i = j).

Definition pool_kept `{zram_drv_h} (z z' : zram) : Prop :=
  pool_sound z -> pool_sound z'.

(** [zs_malloc] returns null or a handle that is not in use. *)
Definition fresh_handles `{collaborators} : Prop :=
  forall pool len reclaim,
    zs_malloc pool len reclaim <> 0 -> pool !! zs_malloc pool len reclaim = None.


(** * Properties *)

Section Properties.
Context `{H_drv : zram_drv_h} `{H_ext : collaborators}.

(** ** The header constants *)

Lemma flag_shift_ge : 13 <= ZRAM_FLAG_SHIFT.
Proof.
  pose proof obj_size_fits as H.
  destruct (Z.le_gt_cases 13 ZRAM_FLAG_SHIFT) as [|Hlt]; [done|exfalso].
  assert (2 ^ ZRAM_FLAG_SHIFT <= 2 ^ 12).
  { destruct (Z.le_gt_cases 0 ZRAM_FLAG_SHIFT).
    - apply Z.pow_le_mono_r; lia.
    - rewrite Z.pow_neg_r by lia. lia. }
  change PAGE_SIZE with (2 ^ 12) in H. lia.
Qed.

Lemma pageflags_in_range :
  13 <= ZRAM_FLAG_SHIFT /\ ZRAM_WB_IDLE_SHIFT < 64 /\
  ZRAM_FLAG_SHIFT <= ZRAM_LOCK < ZRAM_WB_IDLE_SHIFT /\
  ZRAM_FLAG_SHIFT <= ZRAM_SAME < ZRAM_WB_IDLE_SHIFT /\
  ZRAM_FLAG_SHIFT <= ZRAM_WB < ZRAM_WB_IDLE_SHIFT /\
  ZRAM_FLAG_SHIFT <= ZRAM_UNDER_WB < ZRAM_WB_IDLE_SHIFT /\
  ZRAM_FLAG_SHIFT <= ZRAM_HUGE < ZRAM_WB_IDLE_SHIFT /\
  ZRAM_FLAG_SHIFT <= ZRAM_IDLE < ZRAM_WB_IDLE_SHIFT /\
  ZRAM_FLAG_SHIFT <= ZRAM_COMPRESS_LOW < ZRAM_WB_IDLE_SHIFT.
Proof.
  pose proof pageflags_range as Hr. pose proof flag_shift_ge.
  pose proof idle_count_fits. unfold BITS_PER_LONG in *.
  repeat (apply Forall_cons in Hr as [? Hr]). lia.
Qed.

Lemma pageflags_neq :
  ZRAM_LOCK <> ZRAM_SAME /\ ZRAM_LOCK <> ZRAM_WB /\ ZRAM_LOCK <> ZRAM_UNDER_WB /\
  ZRAM_LOCK <> ZRAM_HUGE /\ ZRAM_LOCK <> ZRAM_IDLE /\ ZRAM_LOCK <> ZRAM_COMPRESS_LOW /\
  ZRAM_SAME <> ZRAM_WB /\ ZRAM_SAME <> ZRAM_UNDER_WB /\ ZRAM_SAME <> ZRAM_HUGE /\
  ZRAM_SAME <> ZRAM_IDLE /\ ZRAM_SAME <> ZRAM_COMPRESS_LOW /\
  ZRAM_WB <> ZRAM_UNDER_WB /\ ZRAM_WB <> ZRAM_HUGE /\ ZRAM_WB <> ZRAM_IDLE /\
  ZRAM_WB <> ZRAM_COMPRESS_LOW /\
  ZRAM_UNDER_WB <> ZRAM_HUGE /\ ZRAM_UNDER_WB <> ZRAM_IDLE /\
  ZRAM_UNDER_WB <> ZRAM_COMPRESS_LOW /\
  ZRAM_HUGE <> ZRAM_IDLE /\ ZRAM_HUGE <> ZRAM_COMPRESS_LOW /\
  ZRAM_IDLE <> ZRAM_COMPRESS_LOW.
Proof.
  pose proof pageflags_distinct as H.
  repeat (apply NoDup_cons in H as [? H]).
  set_unfold. intuition congruence.
Qed.

(** [layout] brings the ranges of the constants into the context (for [lia]);
    [flag_neq] closes a goal whose context equates two distinct flags. *)
Ltac layout := pose proof pageflags_in_range.
Ltac flag_neq := exfalso; pose proof pageflags_neq; intuition congruence.
Ltac flag_ne := pose proof pageflags_neq; intuition congruence.

(** ** Bits of flag words *)

Lemma BIT_pow2 f : BIT f = 2 ^ f.
Proof. apply Z.shiftl_1_l. Qed.

Lemma testbit_BIT f i : 0 <= f -> Z.testbit (BIT f) i = (f =? i).
Proof. intros. rewrite BIT_pow2. by apply Z.pow2_bits_eqb. Qed.

Lemma test_flag_testbit (w f : Z) : 0 <= f ->
  negb (Z.land w (BIT f) =? 0) = Z.testbit w f.
Proof.
  intros Hf. destruct (Z.testbit w f) eqn:Hb.
  - apply negb_true_iff, Z.eqb_neq. intros H0.
    assert (Z.testbit (Z.land w (BIT f)) f = true) as Ht.
    { rewrite Z.land_spec, Hb, testbit_BIT, Z.eqb_refl by done. done. }
    rewrite H0, Z.bits_0 in Ht. done.
  - apply negb_false_iff, Z.eqb_eq, Z.bits_inj'. intros n Hn.
    rewrite Z.land_spec, testbit_BIT, Z.bits_0 by done.
    destruct (Z.eqb_spec f n); subst; rewrite ?Hb, ?andb_false_r; done.
Qed.

Lemma testbit_set_flag w f i : 0 <= f ->
  Z.testbit (Z.lor w (BIT f)) i = Z.testbit w i || (f =? i).
Proof. intros. by rewrite Z.lor_spec, testbit_BIT. Qed.

Lemma testbit_ULONG_MAX i : 0 <= i -> Z.testbit ULONG_MAX i = (i <? 64).
Proof.
  intros. change ULONG_MAX with (Z.ones 64).
  by apply Z.testbit_ones_nonneg.
Qed.

Lemma testbit_clear_flag w f i : 0 <= f < 64 -> 0 <= i ->
  Z.testbit (Z.land w (ulong_not (BIT f))) i
  = Z.testbit w i && (i <? 64) && negb (f =? i).
Proof.
  intros Hf Hi. unfold ulong_not.
  rewrite Z.land_spec, Z.lxor_spec, testbit_BIT, testbit_ULONG_MAX by lia.
  destruct (Z.eqb_spec f i), (Z.ltb_spec i 64), (Z.testbit w i); try done; lia.
Qed.

Lemma testbit_low_mask w s i : 0 <= s -> 0 <= i ->
  Z.testbit (Z.land w (BIT s - 1)) i = Z.testbit w i && (i <? s).
Proof.
  intros. rewrite BIT_pow2, Z.sub_1_r, <- Z.ones_equiv.
  by rewrite Z.land_spec, Z.testbit_ones_nonneg.
Qed.

Lemma testbit_set_size w s size i : 0 <= s -> 0 <= i ->
  Z.testbit (Z.lor (Z.shiftl (Z.shiftr w s) s) size) i
  = (Z.testbit w i && (s <=? i)) || Z.testbit size i.
Proof.
  intros. rewrite Z.lor_spec. f_equal.
  destruct (Z.leb_spec s i).
  - rewrite Z.shiftl_spec, Z.shiftr_spec by lia. rewrite andb_true_r. f_equal. lia.
  - rewrite Z.shiftl_spec_low by lia. by rewrite andb_false_r.
Qed.

Lemma testbit_above w n i : 0 <= w < 2 ^ n -> n <= i -> Z.testbit w i = false.
Proof.
  intros [H0 H1] Hi. destruct (Z.eq_dec w 0) as [->|]; [apply Z.bits_0|].
  assert (0 <= n) by (destruct (Z.le_gt_cases 0 n); [done|]; rewrite Z.pow_neg_r in H1; lia).
  apply Z.bits_above_log2; [lia|].
  apply Z.log2_lt_pow2; [lia|].
  assert (2 ^ n <= 2 ^ i) by (apply Z.pow_le_mono_r; lia). lia.
Qed.

Lemma ulong_testbit_high w i : is_ulong w -> 64 <= i -> Z.testbit w i = false.
Proof.
  intros [H0 H1] Hi. apply (testbit_above w 64); [|done].
  unfold ULONG_MAX, BITS_PER_LONG in H1. lia.
Qed.

Lemma below_pow2_bits w n :
  0 <= n -> 0 <= w -> (forall i, n <= i -> Z.testbit w i = false) -> w < 2 ^ n.
Proof.
  intros Hn H0 Hb.
  destruct (Z.eq_dec w 0) as [->|]; [by apply Z.pow_pos_nonneg|].
  apply Z.log2_lt_pow2; [lia|].
  destruct (Z.lt_ge_cases (Z.log2 w) n); [done|].
  pose proof (Z.bit_log2 w ltac:(lia)) as Hl.
  rewrite Hb in Hl; [done|lia].
Qed.

Lemma is_ulong_bits w :
  0 <= w -> (forall i, 64 <= i -> Z.testbit w i = false) -> is_ulong w.
Proof.
  intros H0 Hb. split; [done|].
  pose proof (below_pow2_bits w 64 ltac:(lia) H0 Hb).
  unfold ULONG_MAX, BITS_PER_LONG. lia.
Qed.

(** Rewriting of the bits of a word built by the accessors. *)
Ltac bits :=
  repeat first
    [ rewrite testbit_set_flag by lia
    | rewrite testbit_clear_flag by lia
    | rewrite testbit_low_mask by lia
    | rewrite testbit_set_size by lia
    | rewrite Z.bits_0 ].

(** Case analysis on the comparisons of bit positions in the goal. *)
Ltac cmp :=
  repeat match goal with
  | |- context [?a =? ?b] =>
      destruct (Z.eqb_spec a b); [ try lia; try flag_neq; try subst | try lia ]
  | |- context [?a <? ?b] => destruct (Z.ltb_spec a b); try lia
  | |- context [?a <=? ?b] => destruct (Z.leb_spec a b); try lia
  end.

(** ** Running the code *)

Lemma runs_ret {A} (a : A) z (Q : A -> zram -> Prop) : Q a z -> runs (ret a) z Q.
Proof. intros. by exists a, z. Qed.

Lemma runs_bind {A B} (m : M A) (k : A -> M B) z (Q : B -> zram -> Prop) :
  runs m z (fun a z' => runs (k a) z' Q) -> runs (bind m k) z Q.
Proof.
  intros (a & z' & Hm & b & z'' & Hk & HQ).
  exists b, z''. unfold bind. rewrite Hm. done.
Qed.

Lemma runs_mono {A} (m : M A) z (Q Q' : A -> zram -> Prop) :
  runs m z Q -> (forall a z', Q a z' -> Q' a z') -> runs m z Q'.
Proof. intros (a & z' & Hm & HQ) HQQ. exists a, z'. auto. Qed.

Lemma runs_eq {A} (m : M A) z a z' (Q : A -> zram -> Prop) :
  m z = Some (a, z') -> Q a z' -> runs m z Q.
Proof. intros. by exists a, z'. Qed.

Lemma runs_gets {A} (f : zram -> A) z (Q : A -> zram -> Prop) :
  Q (f z) z -> runs (gets f) z Q.
Proof. intros. by exists (f z), z. Qed.

Lemma runs_load_flags i z s (Q : Z -> zram -> Prop) :
  table z !! i = Some s -> Q (flags s) z -> runs (load_flags i) z Q.
Proof. intros H HQ. exists (flags s), z. unfold load_flags. by rewrite H. Qed.

Lemma runs_store_flags i w z s (Q : unit -> zram -> Prop) :
  table z !! i = Some s ->
  Q tt (set_table z (<[i := mk_slot (element s) w]> (table z))) ->
  runs (store_flags i w) z Q.
Proof. intros H HQ. eexists _, _. unfold store_flags. rewrite H. done. Qed.

Lemma runs_load_element i z s (Q : Z -> zram -> Prop) :
  table z !! i = Some s -> Q (element s) z -> runs (load_element i) z Q.
Proof. intros H HQ. exists (element s), z. unfold load_element. by rewrite H. Qed.

Lemma runs_store_element i v z s (Q : unit -> zram -> Prop) :
  table z !! i = Some s ->
  Q tt (set_table z (<[i := mk_slot v (flags s)]> (table z))) ->
  runs (store_element i v) z Q.
Proof. intros H HQ. eexists _, _. unfold store_element. rewrite H. done. Qed.

Lemma runs_atomic64_add n c z (Q : unit -> zram -> Prop) :
  Q tt (set_stats z (stat_add c n (stats z))) -> runs (atomic64_add n c) z Q.
Proof. intros. by eexists _, _. Qed.

Lemma runs_atomic64_read c z (Q : Z -> zram -> Prop) :
  Q (stats z c) z -> runs (atomic64_read c) z Q.
Proof. intros. by eexists _, _. Qed.

Lemma runs_test_and_clear_bit nr z (Q : bool -> zram -> Prop) :
  Q (Z.testbit (bitmap z) nr) (set_bitmap z (Z.clearbit (bitmap z) nr)) ->
  runs (test_and_clear_bit nr) z Q.
Proof. intros. by eexists _, _. Qed.

Lemma runs_test_and_set_bit nr z (Q : bool -> zram -> Prop) :
  Q (Z.testbit (bitmap z) nr) (set_bitmap z (Z.setbit (bitmap z) nr)) ->
  runs (test_and_set_bit nr) z Q.
Proof. intros. by eexists _, _. Qed.

Lemma runs_zs_free h z (Q : unit -> zram -> Prop) :
  Q tt (set_mem_pool z (delete h (mem_pool z))) -> runs (zs_free h) z Q.
Proof. intros. by eexists _, _. Qed.

Lemma runs_zs_store h data z (Q : unit -> zram -> Prop) :
  Q tt (set_mem_pool z (<[h := data]> (mem_pool z))) -> runs (zs_store h data) z Q.
Proof. intros. by eexists _, _. Qed.

Lemma runs_zs_map_object h z (Q : list Z -> zram -> Prop) :
  Q (default [] (mem_pool z !! h)) z -> runs (zs_map_object h) z Q.
Proof. intros. by eexists _, _. Qed.

Lemma runs_test_flag i f z s (Q : bool -> zram -> Prop) :
  table z !! i = Some s -> 0 <= f ->
  Q (Z.testbit (flags s) f) z -> runs (zram_test_flag i f) z Q.
Proof.
  intros H Hf HQ. unfold zram_test_flag. apply runs_bind.
  eapply runs_load_flags; [done|]. apply runs_ret.
  by rewrite test_flag_testbit.
Qed.

Lemma runs_set_flag i f z s (Q : unit -> zram -> Prop) :
  table z !! i = Some s ->
  Q tt (set_table z (<[i := mk_slot (element s) (Z.lor (flags s) (BIT f))]> (table z))) ->
  runs (zram_set_flag i f) z Q.
Proof.
  intros H HQ. unfold zram_set_flag. apply runs_bind.
  eapply runs_load_flags; [done|]. by eapply runs_store_flags.
Qed.

Lemma runs_clear_flag i f z s (Q : unit -> zram -> Prop) :
  table z !! i = Some s ->
  Q tt (set_table z
          (<[i := mk_slot (element s) (Z.land (flags s) (ulong_not (BIT f)))]> (table z))) ->
  runs (zram_clear_flag i f) z Q.
Proof.
  intros H HQ. unfold zram_clear_flag. apply runs_bind.
  eapply runs_load_flags; [done|]. by eapply runs_store_flags.
Qed.

Lemma runs_slot_unlock i z s (Q : unit -> zram -> Prop) :
  table z !! i = Some s ->
  Q tt (set_table z
          (<[i := mk_slot (element s) (Z.land (flags s) (ulong_not (BIT ZRAM_LOCK)))]>
             (table z))) ->
  runs (zram_slot_unlock i) z Q.
Proof.
  intros H HQ. unfold zram_slot_unlock. apply runs_bind.
  eapply runs_load_flags; [done|]. by eapply runs_store_flags.
Qed.

Lemma runs_slot_lock i z s (Q : unit -> zram -> Prop) :
  table z !! i = Some s -> Z.testbit (flags s) ZRAM_LOCK = false ->
  Q tt (set_table z
          (<[i := mk_slot (element s) (Z.lor (flags s) (BIT ZRAM_LOCK))]> (table z))) ->
  runs (zram_slot_lock i) z Q.
Proof.
  intros H Hl HQ. unfold zram_slot_lock.
  apply runs_bind. eapply runs_load_flags; [done|]. rewrite Hl.
  by eapply runs_store_flags.
Qed.

Lemma runs_clear_idle_count i z s (Q : unit -> zram -> Prop) :
  table z !! i = Some s ->
  Q tt (set_table z
          (<[i := mk_slot (element s) (Z.land (flags s) (BIT ZRAM_WB_IDLE_SHIFT - 1))]>
             (table z))) ->
  runs (zram_clear_idle_count i) z Q.
Proof.
  intros H HQ. unfold zram_clear_idle_count. apply runs_bind.
  eapply runs_load_flags; [done|]. by eapply runs_store_flags.
Qed.

Lemma runs_get_idle_count i z s (Q : Z -> zram -> Prop) :
  table z !! i = Some s ->
  Q (idle_count_of (flags s)) z -> runs (zram_get_idle_count i) z Q.
Proof.
  intros H HQ. unfold zram_get_idle_count. apply runs_bind.
  eapply runs_load_flags; [done|]. by apply runs_ret.
Qed.

Lemma runs_get_obj_size i z s (Q : Z -> zram -> Prop) :
  table z !! i = Some s ->
  Q (obj_size_of (flags s)) z -> runs (zram_get_obj_size i) z Q.
Proof.
  intros H HQ. unfold zram_get_obj_size. apply runs_bind.
  eapply runs_load_flags; [done|]. by apply runs_ret.
Qed.

Lemma runs_set_obj_size i size z s (Q : unit -> zram -> Prop) :
  table z !! i = Some s ->
  Q tt (set_table z
          (<[i := mk_slot (element s)
                    (Z.lor (Z.shiftl (Z.shiftr (flags s) ZRAM_FLAG_SHIFT) ZRAM_FLAG_SHIFT)
                       size)]> (table z))) ->
  runs (zram_set_obj_size i size) z Q.
Proof.
  intros H HQ. unfold zram_set_obj_size. apply runs_bind.
  eapply runs_load_flags; [done|]. by eapply runs_store_flags.
Qed.

Arguments BIT : simpl never.
Arguments ulong_not : simpl never.

(** [slot H] finds the slot that the code is working on: [H] is its lookup
    in the table at the start, and the table since then differs at most in
    that slot. *)
Ltac slot H :=
  first [ exact H
        | apply list_lookup_insert_eq; eapply lookup_lt_Some; exact H ].

(** [norm] brings the state into the form of one record of components. *)
Ltac norm :=
  unfold set_table, set_stats, set_bitmap, set_mem_pool, set_bdev_blocks,
    set_bd_wb_limit, set_bio_errs;
  cbn [table mem_pool limit_pages stats disksize backing_dev writeback_pages
       bitmap nr_pages bdev_blocks wb_limit_enable bd_wb_limit
       glow_compress_ratio bio_errs element flags fst snd];
  rewrite ?list_insert_insert_eq.

(** One step of the code at the head of the goal. *)
Ltac mstep H :=
  lazymatch goal with
  | |- runs (bind _ _) _ _ => apply runs_bind
  | |- runs (ret _) _ _ => apply runs_ret
  | |- runs (when true _) _ _ => cbn [when]
  | |- runs (when false _) _ _ => cbn [when]
  | |- runs (if true then _ else _) _ _ => cbv iota
  | |- runs (if false then _ else _) _ _ => cbv iota
  | |- runs (load_flags _) _ _ => eapply runs_load_flags; [slot H|]
  | |- runs (store_flags _ _) _ _ => eapply runs_store_flags; [slot H|]
  | |- runs (load_element _) _ _ => eapply runs_load_element; [slot H|]
  | |- runs (store_element _ _) _ _ => eapply runs_store_element; [slot H|]
  | |- runs (zram_get_element _) _ _ => eapply runs_load_element; [slot H|]
  | |- runs (zram_get_entry _) _ _ => eapply runs_load_element; [slot H|]
  | |- runs (zram_set_element _ _) _ _ => eapply runs_store_element; [slot H|]
  | |- runs (zram_set_entry _ _) _ _ => eapply runs_store_element; [slot H|]
  | |- runs (zram_test_flag _ _) _ _ => eapply runs_test_flag; [slot H|lia|]
  | |- runs (zram_set_flag _ _) _ _ => eapply runs_set_flag; [slot H|]
  | |- runs (zram_clear_flag _ _) _ _ => eapply runs_clear_flag; [slot H|]
  | |- runs (zram_slot_unlock _) _ _ => eapply runs_slot_unlock; [slot H|]
  | |- runs (zram_clear_idle_count _) _ _ => eapply runs_clear_idle_count; [slot H|]
  | |- runs (zram_get_idle_count _) _ _ => eapply runs_get_idle_count; [slot H|]
  | |- runs (zram_get_obj_size _) _ _ => eapply runs_get_obj_size; [slot H|]
  | |- runs (zram_set_obj_size _ _) _ _ => eapply runs_set_obj_size; [slot H|]
  | |- runs (atomic64_add _ _) _ _ => apply runs_atomic64_add
  | |- runs (atomic64_sub _ _) _ _ => apply runs_atomic64_add
  | |- runs (atomic64_inc _) _ _ => apply runs_atomic64_add
  | |- runs (atomic64_dec _) _ _ => apply runs_atomic64_add
  | |- runs (atomic64_read _) _ _ => apply runs_atomic64_read
  | |- runs (test_and_clear_bit _) _ _ => apply runs_test_and_clear_bit
  | |- runs (test_and_set_bit _) _ _ => apply runs_test_and_set_bit
  | |- runs (zs_free _) _ _ => apply runs_zs_free
  | |- runs (zram_entry_free _) _ _ => apply runs_zs_free
  | |- runs (zs_store _ _) _ _ => apply runs_zs_store
  | |- runs (zs_map_object _) _ _ => apply runs_zs_map_object
  | |- runs (gets _) _ _ => apply runs_gets
  | |- runs (free_block_bdev _) _ _ => unfold free_block_bdev
  | |- runs (zram_free_page_out _) _ _ => unfold zram_free_page_out
  | |- runs (zram_accessed _) _ _ => unfold zram_accessed
  end;
  norm.

Ltac mrun H := repeat mstep H.

(** ** The size field (C9) *)

Lemma obj_size_of_set_size w size :
  0 <= size < 2 ^ ZRAM_FLAG_SHIFT ->
  obj_size_of (Z.lor (Z.shiftl (Z.shiftr w ZRAM_FLAG_SHIFT) ZRAM_FLAG_SHIFT) size)
  = size.
Proof.
  intros Hs. layout. unfold obj_size_of.
  apply Z.bits_inj'. intros b Hb.
  rewrite testbit_low_mask, testbit_set_size by lia.
  destruct (Z.ltb_spec b ZRAM_FLAG_SHIFT), (Z.leb_spec ZRAM_FLAG_SHIFT b); try lia.
  - by rewrite andb_false_r, andb_true_r.
  - rewrite andb_false_r. symmetry. by apply (testbit_above size ZRAM_FLAG_SHIFT).
Qed.

(** C9.  For every flags word and every size below [2 ^ ZRAM_FLAG_SHIFT],
    [zram_set_obj_size] leaves every bit at a position at or above
    [ZRAM_FLAG_SHIFT] (the flags and the idle counter) as it was, changes
    nothing else in the slot or the table, and [zram_get_obj_size] then
    returns that size. *)
Theorem zram_set_obj_size_keeps_flags z index s size :
  table z !! index = Some s ->
  0 <= size < 2 ^ ZRAM_FLAG_SHIFT ->
  exists w',
    zram_set_obj_size index size z
      = Some (tt, set_table z (<[index := mk_slot (element s) w']> (table z))) /\
    (forall b, ZRAM_FLAG_SHIFT <= b -> Z.testbit w' b = Z.testbit (flags s) b) /\
    zram_get_obj_size index
        (set_table z (<[index := mk_slot (element s) w']> (table z)))
      = Some (size, set_table z (<[index := mk_slot (element s) w']> (table z))).
Proof.
  intros H Hs. layout.
  exists (Z.lor (Z.shiftl (Z.shiftr (flags s) ZRAM_FLAG_SHIFT) ZRAM_FLAG_SHIFT) size).
  split; [|split].
  - unfold zram_set_obj_size, bind, load_flags, store_flags.
    rewrite H. cbv beta iota. by rewrite H.
  - intros b Hb. rewrite testbit_set_size by lia.
    rewrite (testbit_above size ZRAM_FLAG_SHIFT) by lia.
    destruct (Z.leb_spec ZRAM_FLAG_SHIFT b); [|lia].
    by rewrite andb_true_r, orb_false_r.
  - unfold zram_get_obj_size, bind, load_flags, ret. cbn [table set_table].
    rewrite list_lookup_insert_eq by (by eapply lookup_lt_Some).
    cbn [flags]. f_equal. f_equal. by apply obj_size_of_set_size.
Qed.


(** ** zram_free_page *)

(** [cond] evaluates the condition at the head of the code, from the bits
    of the initial word that are known in the context. *)
Ltac known_bits :=
  repeat match goal with
  | Hb : Z.testbit _ _ = _ |- _ => rewrite Hb
  end.

Ltac eval_bool :=
  rewrite ?test_flag_testbit by lia; bits; cmp; known_bits;
  cbn [andb orb negb]; reflexivity.

Ltac cond :=
  match goal with
  | |- runs (when ?c _) _ _ =>
      first [ replace c with true by (symmetry; eval_bool)
            | replace c with false by (symmetry; eval_bool) ];
      cbn [when]
  | |- runs (if ?c then _ else _) _ _ =>
      first [ replace c with true by (symmetry; eval_bool)
            | replace c with false by (symmetry; eval_bool) ]
  end.

(** [split_bit w f] distinguishes the two values of bit [f] of [w], once. *)
Ltac split_bit w f :=
  lazymatch goal with
  | _ : Z.testbit w f = _ |- _ => fail
  | _ => destruct (Z.testbit w f) eqn:?
  end.

Lemma nonneg_land w x : 0 <= w -> 0 <= Z.land w x.
Proof. intros. apply Z.land_nonneg. by left. Qed.

Lemma nonneg_set_size w s size : 0 <= w -> 0 <= size ->
  0 <= Z.lor (Z.shiftl (Z.shiftr w s) s) size.
Proof.
  intros. apply Z.lor_nonneg. split; [|done].
  by apply Z.shiftl_nonneg, Z.shiftr_nonneg.
Qed.

Lemma nonneg_set_flag w f : 0 <= w -> 0 <= Z.lor w (BIT f).
Proof.
  intros. apply Z.lor_nonneg. split; [done|].
  rewrite BIT_pow2. apply Z.pow_nonneg. lia.
Qed.

Ltac nonneg :=
  repeat first [ assumption | lia | apply nonneg_set_size | apply nonneg_set_flag
               | apply nonneg_land ].

Lemma zram_free_page_spec z i s :
  table z !! i = Some s -> is_ulong (flags s) ->
  runs (zram_free_page i) z (fun _ z' => exists w',
    table z' = <[i := mk_slot 0 w']> (table z) /\
    (forall b, 0 <= b -> Z.testbit w' b = free_page_bit (flags s) (element s) b) /\
    0 <= w' /\
    same_device z z' /\
    bitmap z' = (if Z.testbit (flags s) ZRAM_WB
                 then Z.clearbit (bitmap z) (element s) else bitmap z) /\
    mem_pool z' = (if Z.testbit (flags s) ZRAM_WB || Z.testbit (flags s) ZRAM_SAME
                      || (element s =? 0)
                   then mem_pool z else delete (element s) (mem_pool z)) /\
    (forall c, free_page_counter c = false -> stats z' c = stats z c)).
Proof.
  intros H Hu. layout. destruct s as [e w]. cbn [flags element] in *.
  assert (0 <= w) as Hw0 by apply Hu.
  unfold zram_free_page.
  (repeat first
    [ mstep H | cond
    | split_bit w ZRAM_IDLE | split_bit w ZRAM_COMPRESS_LOW
    | split_bit w ZRAM_HUGE | split_bit w ZRAM_WB | split_bit w ZRAM_SAME
    | match goal with
      | |- runs (if e =? 0 then _ else _) _ _ => destruct (Z.eqb_spec e 0) as [->|?]
      end ]).
  all: (eexists; split;
    [ first [ reflexivity | symmetry; apply list_insert_id; exact H ] |];
    split; [| split; [nonneg | split; [by repeat split|] ] ]).
  all: try (split; [known_bits; cbn [orb]; rewrite ?orb_true_r; try reflexivity |
              split; [known_bits; cbn [orb]; rewrite ?orb_true_r; try reflexivity; try (destruct (Z.eqb_spec e 0); [lia|done]) |
               intros c Hc; unfold stat_add; destruct c; try discriminate Hc; reflexivity] ]).
  all: (intros b Hb; unfold free_page_bit; known_bits;
    destruct (Z.testbit w b) eqn:Hbit;
     [ assert (b < 64) by (destruct (Z.lt_ge_cases b 64); [done|];
          rewrite (ulong_testbit_high w b Hu) in Hbit by lia; done);
       bits; rewrite ?Hbit; cmp; reflexivity
     | bits; rewrite ?Hbit; reflexivity ]).
Qed.

Lemma free_page_bit_size w e b :
  0 <= b < ZRAM_FLAG_SHIFT ->
  Z.testbit w ZRAM_WB = true \/ Z.testbit w ZRAM_SAME = true \/ e <> 0 ->
  free_page_bit w e b = false.
Proof.
  intros Hb Hc. unfold free_page_bit.
  destruct (Z.ltb_spec b ZRAM_FLAG_SHIFT); [|lia].
  assert (Z.testbit w ZRAM_WB || Z.testbit w ZRAM_SAME || negb (e =? 0) = true) as ->.
  { destruct Hc as [->| [->|He]]; rewrite ?orb_true_r; try done.
    apply Z.eqb_neq in He. rewrite He. by rewrite orb_true_r. }
  by rewrite andb_false_r.
Qed.



(** ** Locking *)

Lemma is_ulong_set_flag w f : is_ulong w -> 0 <= f < 64 -> is_ulong (Z.lor w (BIT f)).
Proof.
  intros Hu Hf. apply is_ulong_bits.
  - apply nonneg_set_flag, Hu.
  - intros i Hi. rewrite testbit_set_flag by lia.
    rewrite (ulong_testbit_high w i Hu Hi).
    destruct (Z.eqb_spec f i); [lia|done].
Qed.

Lemma is_ulong_land w x : is_ulong w -> is_ulong (Z.land w x).
Proof.
  intros Hu. apply is_ulong_bits.
  - apply nonneg_land, Hu.
  - intros i Hi. by rewrite Z.land_spec, (ulong_testbit_high w i Hu Hi).
Qed.

(** C10.  [zram_slot_free_notify] never waits for the slot lock.  Every call
    counts one [notify_free].  When the lock of the slot is held the call
    counts one [miss_free] and changes nothing else: the table, the pool,
    the bitmap and all other counters are as before, so the notification is
    dropped.  When the lock is free the slot is freed and unlocked and no
    [miss_free] is counted. *)
Theorem zram_slot_free_notify_trylock z index s :
  table z !! index = Some s -> is_ulong (flags s) ->
  exists z',
    zram_slot_free_notify index z = Some (tt, z') /\
    stats z' notify_free = stats z notify_free + 1 /\
    (Z.testbit (flags s) ZRAM_LOCK = true ->
       z' = set_stats z (stat_add miss_free 1 (stat_add notify_free 1 (stats z))) /\
       table z' = table z /\ mem_pool z' = mem_pool z /\ bitmap z' = bitmap z /\
       stats z' miss_free = stats z miss_free + 1 /\
       (forall c, c <> notify_free -> c <> miss_free -> stats z' c = stats z c)) /\
    (Z.testbit (flags s) ZRAM_LOCK = false ->
       stats z' miss_free = stats z miss_free /\
       exists w', table z' = <[index := mk_slot 0 w']> (table z) /\
         (forall b, 0 <= b -> Z.testbit w' b
            = free_page_bit (flags s) (element s) b && negb (b =? ZRAM_LOCK))).
Proof.
  intros H Hu. layout. destruct s as [e w]. cbn [flags element] in *.
  cut (runs (zram_slot_free_notify index) z (fun _ z' =>
    stats z' notify_free = stats z notify_free + 1 /\
    (Z.testbit w ZRAM_LOCK = true ->
       z' = set_stats z (stat_add miss_free 1 (stat_add notify_free 1 (stats z))) /\
       table z' = table z /\ mem_pool z' = mem_pool z /\ bitmap z' = bitmap z /\
       stats z' miss_free = stats z miss_free + 1 /\
       (forall c, c <> notify_free -> c <> miss_free -> stats z' c = stats z c)) /\
    (Z.testbit w ZRAM_LOCK = false ->
       stats z' miss_free = stats z miss_free /\
       exists w', table z' = <[index := mk_slot 0 w']> (table z) /\
         (forall b, 0 <= b -> Z.testbit w' b
            = free_page_bit w e b && negb (b =? ZRAM_LOCK))))).
  { intros ([] & z' & Hrun & HQ). by exists z'. }
  unfold zram_slot_free_notify, zram_slot_trylock.
  mrun H.
  destruct (Z.testbit w ZRAM_LOCK) eqn:Hlock.
  - mrun H. change (0 =? 0) with true. mrun H.
    split; [done|]. split; [|done]. intros _.
    repeat split; try done.
    intros c Hc1 Hc2. unfold stat_add. by rewrite !decide_False.
  - mrun H. change (1 =? 0) with false. mrun H.
    eapply runs_mono.
    { eapply zram_free_page_spec.
      - cbn [table]. apply list_lookup_insert_eq. by eapply lookup_lt_Some.
      - cbn [flags]. apply is_ulong_set_flag; [done|lia]. }
    cbn [flags element table stats].
    intros [] z1 (w1 & Ht & Hb & Hw0 & Hsame & Hbm & Hpool & Hst).
    assert (table z1 !! index = Some (mk_slot 0 w1)) as H1.
    { rewrite Ht. apply list_lookup_insert_eq. rewrite length_insert. by eapply lookup_lt_Some. }
    mrun H1.
    split; [|split; [done|]].
    + rewrite Hst by done. unfold stat_add. by rewrite decide_True.
    + intros _. split.
      * rewrite Hst by done. unfold stat_add. by rewrite decide_False.
      * eexists. split.
        { rewrite Ht, !list_insert_insert_eq. reflexivity. }
        intros b Hb0. rewrite testbit_clear_flag by lia.
        destruct (Z.eqb_spec ZRAM_LOCK b) as [->|Hne].
        { rewrite Z.eqb_refl. cbn [negb]. by rewrite !andb_false_r. }
        destruct (Z.eqb_spec b ZRAM_LOCK) as [->|_]; [done|].
        cbn [negb]. rewrite !andb_true_r, Hb by done.
        unfold free_page_bit. rewrite testbit_set_flag by lia.
        destruct (Z.eqb_spec ZRAM_LOCK b) as [?|_]; [done|].
        rewrite orb_false_r.
        replace (Z.testbit (Z.lor w (BIT ZRAM_LOCK)) ZRAM_WB) with (Z.testbit w ZRAM_WB)
          by (rewrite testbit_set_flag by lia; cmp; by rewrite orb_false_r).
        replace (Z.testbit (Z.lor w (BIT ZRAM_LOCK)) ZRAM_SAME) with (Z.testbit w ZRAM_SAME)
          by (rewrite testbit_set_flag by lia; cmp; by rewrite orb_false_r).
        replace (Z.testbit (Z.lor w (BIT ZRAM_LOCK)) ZRAM_IDLE) with (Z.testbit w ZRAM_IDLE)
          by (rewrite testbit_set_flag by lia; cmp; by rewrite orb_false_r).
        destruct (Z.testbit w b) eqn:Hwb; [|done].
        destruct (Z.ltb_spec b 64); [by rewrite andb_true_r|].
        by rewrite (ulong_testbit_high w b Hu) in Hwb by lia.
Qed.


(** ** The block bitmap (C8) *)

Lemma find_zero_bit_from_spec addr n : forall pos,
  let r := find_zero_bit_from addr pos n in
  pos <= r <= pos + Z.of_nat n /\
  (forall i, pos <= i < r -> Z.testbit addr i = true) /\
  (r < pos + Z.of_nat n -> Z.testbit addr r = false).
Proof.
  induction n as [|n IH]; intros pos; cbn [find_zero_bit_from].
  - cbv zeta. split; [lia|]. split; intros; lia.
  - destruct (Z.testbit addr pos) eqn:Hb.
    + specialize (IH (pos + 1)). cbv zeta in *.
      destruct IH as (Hr & Hset & Hclr).
      split; [lia|]. split.
      * intros i Hi. destruct (Z.eq_dec i pos) as [->|]; [done|]. apply Hset. lia.
      * intros Hlt. apply Hclr. lia.
    + cbv zeta. split; [lia|]. split; [intros; lia|done].
Qed.

Lemma find_next_zero_bit_spec addr size offset :
  let r := find_next_zero_bit addr size offset in
  (forall i, offset <= i < r -> Z.testbit addr i = true) /\
  ((r = size) \/ (offset <= r < size /\ Z.testbit addr r = false)).
Proof.
  unfold find_next_zero_bit. destruct (Z.leb_spec size offset).
  - cbv zeta. split; [intros; lia|by left].
  - pose proof (find_zero_bit_from_spec addr (Z.to_nat (size - offset)) offset) as Hs.
    cbv zeta in *. destruct Hs as (Hr & Hset & Hclr).
    rewrite Z2Nat.id in * by lia.
    split; [done|].
    destruct (Z.eq_dec (find_zero_bit_from addr offset (Z.to_nat (size - offset))) size);
      [by left|right].
    split; [lia|]. apply Hclr. lia.
Qed.

(** C8.  [alloc_block_bdev] returns 0, with the device unchanged, only when
    every bit of the bitmap in [[1, nr_pages)] is set; otherwise it returns
    an index [b] with [1 <= b < nr_pages] whose bit was clear and is now set,
    the least such index, and no other bit of the bitmap changes.  So index 0
    is never handed out and bit 0 is never set by an allocation. *)
Theorem alloc_block_bdev_post z :
  exists b z',
    alloc_block_bdev z = Some (b, z') /\
    Z.testbit (bitmap z') 0 = Z.testbit (bitmap z) 0 /\
    ((b = 0 /\ z' = z /\
      forall i, 1 <= i < nr_pages z -> Z.testbit (bitmap z) i = true) \/
     (1 <= b < nr_pages z /\
      Z.testbit (bitmap z) b = false /\
      Z.testbit (bitmap z') b = true /\
      (forall i, i <> b -> Z.testbit (bitmap z') i = Z.testbit (bitmap z) i) /\
      (forall i, 1 <= i < b -> Z.testbit (bitmap z) i = true) /\
      z' = set_stats (set_bitmap z (Z.setbit (bitmap z) b))
             (stat_add bd_count 1 (stats z)))).
Proof.
  pose proof (find_next_zero_bit_spec (bitmap z) (nr_pages z) 1) as Hf.
  cbv zeta in Hf. destruct Hf as (Hset & Hr).
  unfold alloc_block_bdev.
  set (fuel := Z.to_nat (nr_pages z)). clearbody fuel.
  set (b := find_next_zero_bit (bitmap z) (nr_pages z) 1) in *.
  assert (alloc_block_bdev_retry fuel 1 z =
          if b =? nr_pages z then Some (0, z)
          else (was_set <- test_and_set_bit b ;;
                if (was_set : bool) then
                  match fuel with
                  | O => fun _ => None
                  | S fuel' => alloc_block_bdev_retry fuel' b
                  end
                else (atomic64_inc bd_count ;; ret b)) z) as ->
    by (destruct fuel; reflexivity).
  destruct Hr as [Heq | (Hrange & Hclr)].
  - rewrite Heq, Z.eqb_refl. exists 0, z. split; [done|]. split; [done|].
    left. split; [done|]. split; [done|]. intros i Hi. apply Hset. lia.
  - destruct (Z.eqb_spec b (nr_pages z)); [lia|].
    unfold bind, test_and_set_bit. rewrite Hclr.
    eexists _, _. split; [reflexivity|].
    cbn [bitmap set_bitmap set_stats].
    split; [apply Z.setbit_neq; lia|].
    right. split; [lia|]. split; [done|].
    split; [apply Z.setbit_eq; lia|].
    split; [intros i Hi; apply Z.setbit_neq; lia|].
    split; [intros i Hi; apply Hset; lia|done].
Qed.


(** ** Request validation (C2) *)

Lemma land_low_mask_mod a n : 0 <= n -> Z.land a (Z.shiftl 1 n - 1) = a mod 2 ^ n.
Proof.
  intros. rewrite Z.shiftl_1_l, Z.sub_1_r, <- Z.ones_equiv. by apply Z.land_ones.
Qed.

Lemma logical_block_multiple size :
  size mod ZRAM_LOGICAL_BLOCK_SIZE = 0 -> size mod 512 = 0.
Proof.
  pose proof logical_block_shift_range as Hr. unfold SECTOR_SHIFT in Hr.
  unfold ZRAM_LOGICAL_BLOCK_SIZE. rewrite Z.shiftl_1_l.
  intros Hm. apply Z.mod_divide in Hm; [|apply Z.pow_nonzero; lia].
  apply Z.mod_divide; [lia|].
  eapply Z.divide_trans; [|exact Hm].
  exists (2 ^ (ZRAM_LOGICAL_BLOCK_SHIFT - 9)).
  change 512 with (2 ^ 9). rewrite <- Z.pow_add_r by lia. f_equal. lia.
Qed.

(** What [valid_io_request] accepts: a request whose start sector is aligned
    to the logical block, whose size is a multiple of the logical block
    size, whose first sector is on the device and which ends at or before
    [disksize]. *)
Lemma valid_io_request_iff z start size :
  0 <= start -> 0 <= size < 2 ^ 32 -> 0 <= disksize z < 2 ^ 64 ->
  valid_io_request z start size = true <->
  start mod ZRAM_SECTOR_PER_LOGICAL_BLOCK = 0 /\
  size mod ZRAM_LOGICAL_BLOCK_SIZE = 0 /\
  start < disksize z / 512 /\
  start * 512 + size <= disksize z.
Proof.
  intros Hstart Hsize Hdisk.
  pose proof logical_block_shift_range as Hr. unfold SECTOR_SHIFT, PAGE_SHIFT in Hr.
  unfold valid_io_request.
  unfold ZRAM_SECTOR_PER_LOGICAL_BLOCK, ZRAM_LOGICAL_BLOCK_SIZE at 1.
  rewrite !land_low_mask_mod by (unfold SECTOR_SHIFT; lia).
  rewrite <- !Z.shiftl_1_l.
  fold ZRAM_SECTOR_PER_LOGICAL_BLOCK ZRAM_LOGICAL_BLOCK_SIZE.
  unfold SECTOR_SHIFT, to_ulong, BITS_PER_LONG.
  rewrite !Z.shiftr_div_pow2 by lia. change (2 ^ 9) with 512.
  destruct (Z.eqb_spec (start mod ZRAM_SECTOR_PER_LOGICAL_BLOCK) 0) as [Ha|Ha]; cbn [negb];
    [|split; [done|tauto]].
  destruct (Z.eqb_spec (size mod ZRAM_LOGICAL_BLOCK_SIZE) 0) as [Hm|Hm]; cbn [negb];
    [|split; [done|tauto]].
  pose proof (logical_block_multiple size Hm) as Hm512.
  assert (size = 512 * (size / 512)) as Hk.
  { pose proof (Z.div_mod size 512 ltac:(lia)). lia. }
  assert (0 <= size / 512 < 2 ^ 23) as Hkr.
  { split; [apply Z.div_pos; lia|]. apply Z.div_lt_upper_bound; lia. }
  assert (0 <= disksize z / 512 < 2 ^ 55) as Hbr.
  { split; [apply Z.div_pos; lia|]. apply Z.div_lt_upper_bound; lia. }
  pose proof (Z.div_mod (disksize z) 512 ltac:(lia)) as Hdm.
  pose proof (Z.mod_pos_bound (disksize z) 512 ltac:(lia)) as Hdr.
  destruct (Z.leb_spec (disksize z / 512) start) as [Hb|Hb]; cbn [orb].
  { split; [done|]. intros (_ & _ & ? & _). lia. }
  rewrite (Z.mod_small (start + size / 512)) by lia.
  destruct (Z.ltb_spec (disksize z / 512) (start + size / 512)) as [He|He]; cbn [orb].
  { split; [done|]. intros (_ & _ & _ & ?). lia. }
  destruct (Z.ltb_spec (start + size / 512) start) as [Hw|Hw].
  { lia. }
  split; [intros _|done]. repeat split; try done. lia.
Qed.

(** C2, as the code has it.  A request is valid exactly when its start
    sector is aligned to the logical block, its size is a multiple of the
    logical block size, its first sector is on the device and it ends at or
    before [disksize].  [zram_make_request] answers an invalid request by
    counting one [invalid_io] and failing the bio; no slot, pool entry,
    bitmap bit or other counter changes.  A valid request is handed to
    [__zram_make_request]. *)
Theorem zram_make_request_validation z b :
  0 <= bi_sector b -> 0 <= bi_size b < 2 ^ 32 -> 0 <= disksize z < 2 ^ 64 ->
  let valid :=
    bi_sector b mod ZRAM_SECTOR_PER_LOGICAL_BLOCK = 0 /\
    bi_size b mod ZRAM_LOGICAL_BLOCK_SIZE = 0 /\
    bi_sector b < disksize z / 512 /\
    bi_sector b * 512 + bi_size b <= disksize z in
  (valid_io_request z (bi_sector b) (bi_size b) = true <-> valid) /\
  (~ valid ->
     zram_make_request b z
     = Some (bio_io_error b (bi_io_vec b),
             set_stats z (stat_add invalid_io 1 (stats z)))) /\
  (valid -> zram_make_request b z = __zram_make_request b z).
Proof.
  intros Hs Hz Hd valid.
  pose proof (valid_io_request_iff z (bi_sector b) (bi_size b) Hs Hz Hd) as Hiff.
  fold valid in Hiff. split; [done|]. unfold zram_make_request. split.
  - intros Hn. destruct (valid_io_request z (bi_sector b) (bi_size b)); [tauto|done].
  - intros Hv. apply Hiff in Hv. by rewrite Hv.
Qed.


(** ** Fields of a word under flag updates *)

Lemma obj_size_of_bits w w' :
  (forall b, 0 <= b < ZRAM_FLAG_SHIFT -> Z.testbit w' b = Z.testbit w b) ->
  obj_size_of w' = obj_size_of w.
Proof.
  intros Hb. layout. unfold obj_size_of. apply Z.bits_inj'. intros b Hb0.
  rewrite !testbit_low_mask by lia.
  destruct (Z.ltb_spec b ZRAM_FLAG_SHIFT); [|by rewrite !andb_false_r].
  rewrite Hb by lia. done.
Qed.

Lemma idle_count_of_bits w w' :
  (forall b, ZRAM_WB_IDLE_SHIFT <= b -> Z.testbit w' b = Z.testbit w b) ->
  idle_count_of w' = idle_count_of w.
Proof.
  intros Hb. layout. unfold idle_count_of. apply Z.bits_inj'. intros b Hb0.
  rewrite !Z.shiftr_spec by lia. apply Hb. lia.
Qed.

Lemma obj_size_of_set_flag w f :
  ZRAM_FLAG_SHIFT <= f -> obj_size_of (Z.lor w (BIT f)) = obj_size_of w.
Proof.
  intros. layout. apply obj_size_of_bits. intros b Hb.
  rewrite testbit_set_flag by lia. destruct (Z.eqb_spec f b); [lia|].
  by rewrite orb_false_r.
Qed.

Lemma idle_count_of_set_flag w f :
  0 <= f < ZRAM_WB_IDLE_SHIFT -> idle_count_of (Z.lor w (BIT f)) = idle_count_of w.
Proof.
  intros. layout. apply idle_count_of_bits. intros b Hb.
  rewrite testbit_set_flag by lia. destruct (Z.eqb_spec f b); [lia|].
  by rewrite orb_false_r.
Qed.

Lemma testbit_set_flag_other w f g :
  0 <= f -> f <> g -> Z.testbit (Z.lor w (BIT f)) g = Z.testbit w g.
Proof.
  intros. rewrite testbit_set_flag by done.
  destruct (Z.eqb_spec f g); [done|]. by rewrite orb_false_r.
Qed.

Lemma slot_allocated_set_flag w f :
  ZRAM_FLAG_SHIFT <= f -> f <> ZRAM_SAME -> f <> ZRAM_WB ->
  slot_allocated (Z.lor w (BIT f)) = slot_allocated w.
Proof.
  intros. layout. unfold slot_allocated.
  rewrite obj_size_of_set_flag by done.
  rewrite !testbit_set_flag_other by lia. done.
Qed.

(** Releasing the lock gives back the word that was locked. *)
Lemma unlock_lock w :
  is_ulong w -> Z.testbit w ZRAM_LOCK = false ->
  Z.land (Z.lor w (BIT ZRAM_LOCK)) (ulong_not (BIT ZRAM_LOCK)) = w.
Proof.
  intros Hu Hl. layout. apply Z.bits_inj'. intros b Hb.
  rewrite testbit_clear_flag, testbit_set_flag by lia.
  destruct (Z.eqb_spec ZRAM_LOCK b) as [<-|].
  - rewrite Hl. cbn [negb]. by rewrite andb_false_r.
  - rewrite orb_false_r. cbn [negb]. rewrite andb_true_r.
    destruct (Z.ltb_spec b 64); [by rewrite andb_true_r|].
    by rewrite (ulong_testbit_high w b Hu).
Qed.

Lemma unlock_word x w :
  is_ulong w -> Z.testbit w ZRAM_LOCK = false ->
  (forall b, 0 <= b < 64 -> b <> ZRAM_LOCK -> Z.testbit x b = Z.testbit w b) ->
  Z.land x (ulong_not (BIT ZRAM_LOCK)) = w.
Proof.
  intros Hu Hl Hb. layout. apply Z.bits_inj'. intros b Hb0.
  rewrite testbit_clear_flag by lia.
  destruct (Z.eqb_spec ZRAM_LOCK b) as [<-|].
  - rewrite Hl. cbn [negb]. by rewrite andb_false_r.
  - cbn [negb]. rewrite andb_true_r.
    destruct (Z.ltb_spec b 64).
    + rewrite andb_true_r. apply Hb; lia.
    + rewrite (ulong_testbit_high w b Hu) by done. by rewrite andb_false_r.
Qed.

Lemma unlock_select w :
  is_ulong w -> Z.testbit w ZRAM_LOCK = false ->
  Z.land (Z.lor (Z.lor (Z.lor w (BIT ZRAM_LOCK)) (BIT ZRAM_UNDER_WB)) (BIT ZRAM_IDLE))
    (ulong_not (BIT ZRAM_LOCK))
  = Z.lor (Z.lor w (BIT ZRAM_UNDER_WB)) (BIT ZRAM_IDLE).
Proof.
  intros Hu Hl. layout. apply unlock_word.
  - repeat apply is_ulong_set_flag; first [done | lia].
  - rewrite !testbit_set_flag_other by first [lia | flag_ne]. done.
  - intros b Hb Hne. rewrite !testbit_set_flag by lia.
    destruct (Z.eqb_spec ZRAM_LOCK b); [lia|]. by rewrite orb_false_r.
Qed.

Lemma set_table_id z : set_table z (table z) = z.
Proof. by destruct z. Qed.

Lemma runs_allocated i z s (Q : bool -> zram -> Prop) :
  table z !! i = Some s ->
  Q (slot_allocated (flags s)) z -> runs (zram_allocated i) z Q.
Proof.
  intros H HQ. layout. unfold zram_allocated, slot_allocated in *.
  mrun H. destruct (obj_size_of (flags s) =? 0); cbn [negb orb] in *; mrun H; [|done].
  destruct (Z.testbit (flags s) ZRAM_SAME); cbn [orb] in *; mrun H; done.
Qed.

(** ** Selection of a slot for writeback (C3) *)

(** What [writeback_select] decides, on the flags word of the slot. *)
Lemma writeback_select_spec mode wb_idle_min z index s :
  table z !! index = Some s -> is_ulong (flags s) ->
  Z.testbit (flags s) ZRAM_LOCK = false ->
  let w := flags s in
  let sel :=
    slot_allocated w && negb (Z.testbit w ZRAM_WB)
    && Z.testbit w ZRAM_COMPRESS_LOW && negb (Z.testbit w ZRAM_UNDER_WB)
    && ((Z.land mode IDLE_WRITEBACK =? 0)
        || (Z.testbit w ZRAM_IDLE && negb (idle_count_of w <? wb_idle_min)))
    && ((Z.land mode HUGE_WRITEBACK =? 0) || Z.testbit w ZRAM_HUGE) in
  writeback_select mode wb_idle_min index z
  = Some (sel,
          if sel then
            set_table z
              (<[index := mk_slot (element s)
                            (Z.lor (Z.lor w (BIT ZRAM_UNDER_WB)) (BIT ZRAM_IDLE))]>
                 (table z))
          else z).
Proof.
  intros H Hu Hl w sel. layout. destruct s as [e w0]. cbn [flags element] in *.
  subst w.
  cut (runs (writeback_select mode wb_idle_min index) z (fun a z' =>
         a = sel /\ z' = if sel then
            set_table z
              (<[index := mk_slot e
                            (Z.lor (Z.lor w0 (BIT ZRAM_UNDER_WB)) (BIT ZRAM_IDLE))]>
                 (table z))
          else z)).
  { intros (a & z' & -> & -> & ->). done. }
  assert (forall Q : bool -> zram -> Prop, Q false z ->
    runs (zram_slot_unlock index;; ret false)
      (set_table z (<[index := mk_slot e (Z.lor w0 (BIT ZRAM_LOCK))]> (table z))) Q) as Hskip.
  { intros Q HQ. mrun H. rewrite unlock_lock by done.
    rewrite list_insert_id by done. by destruct z. }
  unfold writeback_select.
  apply runs_bind. eapply runs_slot_lock; [done..|]. cbn [flags element].
  apply runs_bind. eapply runs_allocated; [slot H|]. cbn [flags].
  rewrite slot_allocated_set_flag by first [lia | flag_ne].
  subst sel.
  destruct (slot_allocated w0); cbn [negb andb]; [|by apply Hskip].
  mrun H. rewrite !testbit_set_flag_other by first [lia | flag_ne].
  destruct (Z.testbit w0 ZRAM_WB); cbn [negb andb orb]; [by apply Hskip|].
  destruct (Z.testbit w0 ZRAM_COMPRESS_LOW); cbn [negb andb orb]; [|by apply Hskip].
  destruct (Z.testbit w0 ZRAM_UNDER_WB); cbn [negb andb orb]; [by apply Hskip|].
  mrun H. rewrite !testbit_set_flag_other by first [lia | flag_ne].
  rewrite idle_count_of_set_flag by lia.
  assert (
    runs (huge <- zram_test_flag index ZRAM_HUGE ;;
          if negb (Z.land mode HUGE_WRITEBACK =? 0) && negb huge
          then zram_slot_unlock index ;; ret false
          else
            zram_set_flag index ZRAM_UNDER_WB ;;
            zram_set_flag index ZRAM_IDLE ;;
            zram_slot_unlock index ;;
            ret true)
      (set_table z (<[index := mk_slot e (Z.lor w0 (BIT ZRAM_LOCK))]> (table z)))
      (fun a z' => (a = ((Z.land mode HUGE_WRITEBACK =? 0) || Z.testbit w0 ZRAM_HUGE)) /\
         z' = if a then set_table z
              (<[index := mk_slot e (Z.lor (Z.lor w0 (BIT ZRAM_UNDER_WB)) (BIT ZRAM_IDLE))]>
                 (table z)) else z)) as Hhuge.
  { mrun H. rewrite !testbit_set_flag_other by first [lia | flag_ne].
    destruct (Z.land mode HUGE_WRITEBACK =? 0); cbn [negb andb orb].
    - mrun H. rewrite unlock_select by done. done.
    - destruct (Z.testbit w0 ZRAM_HUGE); cbn [negb andb orb].
      + mrun H. rewrite unlock_select by done. done.
      + by apply Hskip. }
  destruct (Z.land mode IDLE_WRITEBACK =? 0); cbn [negb andb orb].
  - eapply runs_mono; [exact Hhuge|]. by intros a z' [-> ->].
  - destruct (Z.testbit w0 ZRAM_IDLE); cbn [negb andb orb]; [|by apply Hskip].
    destruct (idle_count_of w0 <? wb_idle_min); cbn [negb andb orb]; [by apply Hskip|].
    eapply runs_mono; [exact Hhuge|]. by intros a z' [-> ->].
Qed.

(** C3, as the code has it.  In "huge" mode a slot that is looked at under
    its lock is taken for writeback exactly when it is allocated, is neither
    ZRAM_WB nor ZRAM_UNDER_WB, carries ZRAM_HUGE and carries
    ZRAM_COMPRESS_LOW; it then gets ZRAM_UNDER_WB and ZRAM_IDLE.  A slot that
    is not taken is left as it was. *)
Theorem writeback_select_huge wb_idle_min z index s :
  table z !! index = Some s -> is_ulong (flags s) ->
  Z.testbit (flags s) ZRAM_LOCK = false ->
  exists selected z',
    writeback_select HUGE_WRITEBACK wb_idle_min index z = Some (selected, z') /\
    (selected = true <->
       slot_allocated (flags s) = true /\
       Z.testbit (flags s) ZRAM_WB = false /\
       Z.testbit (flags s) ZRAM_UNDER_WB = false /\
       Z.testbit (flags s) ZRAM_HUGE = true /\
       Z.testbit (flags s) ZRAM_COMPRESS_LOW = true) /\
    (selected = true ->
       z' = set_table z
              (<[index := mk_slot (element s)
                   (Z.lor (Z.lor (flags s) (BIT ZRAM_UNDER_WB)) (BIT ZRAM_IDLE))]>
                 (table z))) /\
    (selected = false -> z' = z).
Proof.
  intros H Hu Hl.
  pose proof (writeback_select_spec HUGE_WRITEBACK wb_idle_min z index s H Hu Hl) as Hs.
  cbv zeta in Hs. eexists _, _. split; [exact Hs|].
  change (Z.land HUGE_WRITEBACK IDLE_WRITEBACK =? 0) with true.
  change (Z.land HUGE_WRITEBACK HUGE_WRITEBACK =? 0) with false.
  cbn [orb]. rewrite andb_true_r.
  destruct (slot_allocated (flags s)), (Z.testbit (flags s) ZRAM_WB),
    (Z.testbit (flags s) ZRAM_COMPRESS_LOW), (Z.testbit (flags s) ZRAM_UNDER_WB),
    (Z.testbit (flags s) ZRAM_HUGE); cbn [andb negb];
    (split; [split; [intros ?; try done; by repeat split | by intros (? & ? & ? & ? & ?)]
            | split; [intros ?; try done | intros ?; try done] ]).
Qed.


(** ** Same-filled pages (C1) *)

Lemma same_filled_from_true mem val n : forall pos,
  (forall p, (pos <= p < pos + n)%nat -> nth p mem 0 = val) ->
  same_filled_from mem val pos n = true.
Proof.
  induction n as [|n IH]; intros pos Hall; cbn [same_filled_from]; [done|].
  rewrite (Hall pos) by lia. rewrite Z.eqb_refl. cbn [negb].
  apply IH. intros p Hp. apply Hall. lia.
Qed.

Lemma page_same_filled_const mem v :
  length mem = Z.to_nat WORDS_PER_PAGE -> (forall x, x ∈ mem -> x = v) ->
  page_same_filled mem = Some v /\ mem = zram_fill_page PAGE_SIZE v.
Proof.
  intros Hlen Hall.
  assert (mem = repeat v (Z.to_nat WORDS_PER_PAGE)) as Hrep.
  { rewrite <- Hlen. clear Hlen. induction mem as [|x mem IH]; [done|].
    cbn [length repeat]. rewrite (Hall x) by set_solver. f_equal.
    apply IH. intros y Hy. apply Hall. set_solver. }
  split; [|exact Hrep].
  assert (forall p, (p < Z.to_nat WORDS_PER_PAGE)%nat -> nth p mem 0 = v) as Hnth.
  { intros p Hp. rewrite Hrep. apply nth_repeat_lt. done. }
  unfold page_same_filled.
  change (Z.to_nat (WORDS_PER_PAGE - 1)) with 511%nat.
  change (Z.to_nat WORDS_PER_PAGE) with 512%nat in Hnth.
  rewrite !Hnth by lia. rewrite Z.eqb_refl. cbn [negb].
  rewrite same_filled_from_true; [done|].
  intros p Hp. apply Hnth. lia.
Qed.

Lemma lookup_insert_table z i s s' :
  table z !! i = Some s -> <[i := s']> (table z) !! i = Some s'.
Proof. intros H. apply list_lookup_insert_eq. by eapply lookup_lt_Some. Qed.

Lemma free_page_bit_locked w e b :
  b <> ZRAM_LOCK ->
  free_page_bit (Z.lor w (BIT ZRAM_LOCK)) e b = free_page_bit w e b.
Proof.
  intros Hne. layout. unfold free_page_bit.
  rewrite (testbit_set_flag_other w ZRAM_LOCK b) by lia.
  rewrite (testbit_set_flag_other w ZRAM_LOCK ZRAM_WB) by first [lia | flag_ne].
  rewrite (testbit_set_flag_other w ZRAM_LOCK ZRAM_SAME) by first [lia | flag_ne].
  rewrite (testbit_set_flag_other w ZRAM_LOCK ZRAM_IDLE) by first [lia | flag_ne].
  done.
Qed.

Lemma free_page_bit_high w e b :
  is_ulong w -> 64 <= b -> free_page_bit w e b = false.
Proof. intros Hu Hb. unfold free_page_bit. by rewrite (ulong_testbit_high w b Hu). Qed.

(** The write path for a same-filled page, from the label [out:] on. *)
Lemma __zram_bvec_write_out_same z index s v :
  table z !! index = Some s -> is_ulong (flags s) ->
  Z.testbit (flags s) ZRAM_LOCK = false ->
  runs (__zram_bvec_write_out index ZRAM_SAME v 0 0 0) z (fun r z' =>
    r = 0 /\ exists w',
      table z' = <[index := mk_slot v w']> (table z) /\
      is_ulong w' /\
      (forall b, 0 <= b -> Z.testbit w' b
         = (free_page_bit (flags s) (element s) b || (b =? ZRAM_SAME))) /\
      same_device z z' /\
      mem_pool z' = (if Z.testbit (flags s) ZRAM_WB || Z.testbit (flags s) ZRAM_SAME
                        || (element s =? 0)
                     then mem_pool z else delete (element s) (mem_pool z))).
Proof.
  intros H Hu Hl. layout. destruct s as [e w]. cbn [flags element] in *.
  unfold __zram_bvec_write_out.
  apply runs_bind. eapply runs_slot_lock; [done..|]. cbn [flags element].
  apply runs_bind. eapply runs_mono.
  { eapply zram_free_page_spec.
    - cbn [table set_table]. by eapply lookup_insert_table.
    - cbn [flags]. apply is_ulong_set_flag; [done|lia]. }
  cbn [flags element table set_table bitmap mem_pool stats].
  intros [] z1 (w1 & Ht & Hb & Hw0 & Hsame & Hbm & Hpool & Hst).
  rewrite list_insert_insert_eq in Ht.
  assert (table z1 !! index = Some (mk_slot 0 w1)) as H1.
  { rewrite Ht. by eapply lookup_insert_table. }
  change (0 =? PAGE_SIZE) with false.
  destruct (Z.eqb_spec ZRAM_SAME 0) as [?|_]; [lia|]. cbn [negb].
  mrun H1.
  split; [done|]. eexists. split.
  { rewrite Ht, list_insert_insert_eq. reflexivity. }
  assert (forall b, 0 <= b ->
    Z.testbit (Z.land (Z.lor w1 (BIT ZRAM_SAME)) (ulong_not (BIT ZRAM_LOCK))) b
    = free_page_bit w e b || (b =? ZRAM_SAME)) as Hbits.
  { intros b Hb0. rewrite testbit_clear_flag, testbit_set_flag, Hb by lia.
    rewrite (Z.eqb_sym ZRAM_SAME b).
    destruct (Z.eqb_spec ZRAM_LOCK b) as [<-|Hne].
    - destruct (Z.eqb_spec ZRAM_LOCK ZRAM_SAME); [flag_neq|].
      cbn [negb]. rewrite andb_false_r, orb_false_r.
      unfold free_page_bit. by rewrite Hl.
    - rewrite free_page_bit_locked by done. cbn [negb]. rewrite andb_true_r.
      destruct (Z.ltb_spec b 64); [by rewrite andb_true_r|].
      rewrite free_page_bit_high by done.
      destruct (Z.eqb_spec b ZRAM_SAME); [lia|]. done. }
  split; [|split; [exact Hbits|split]].
  - apply is_ulong_bits.
    + nonneg.
    + intros b Hb0. rewrite Hbits by lia.
      rewrite free_page_bit_high by done.
      destruct (Z.eqb_spec b ZRAM_SAME); [lia|]. done.
  - unfold same_device in *. cbn. tauto.
  - rewrite Hpool. rewrite !testbit_set_flag_other by first [lia | flag_ne]. done.
Qed.

(** Reading a slot that holds a same-fill element. *)
Lemma __zram_bvec_read_same dst z index s partial_io access :
  table z !! index = Some s -> is_ulong (flags s) ->
  Z.testbit (flags s) ZRAM_LOCK = false ->
  Z.testbit (flags s) ZRAM_WB = false ->
  Z.testbit (flags s) ZRAM_SAME = true ->
  runs (__zram_bvec_read dst index partial_io access) z (fun r z' =>
    r = (0, zram_fill_page PAGE_SIZE (element s)) /\
    same_device z z' /\ mem_pool z' = mem_pool z /\ bitmap z' = bitmap z /\
    stats z' = stats z /\
    exists w', table z' = <[index := mk_slot (element s) w']> (table z) /\
      Z.testbit w' ZRAM_SAME = true /\ Z.testbit w' ZRAM_WB = false).
Proof.
  intros H Hu Hl Hwb Hsame. layout. destruct s as [e w]. cbn [flags element] in *.
  unfold __zram_bvec_read.
  apply runs_bind. eapply runs_slot_lock; [done..|]. cbn [flags element].
  assert (zram_fill_page PAGE_SIZE (if negb (e =? 0) then e else 0)
          = zram_fill_page PAGE_SIZE e) as Hval.
  { destruct (Z.eqb_spec e 0) as [->|]; done. }
  destruct access; repeat first [ mstep H | cond ].
  all: split; [by rewrite Hval|].
  all: split; [by repeat split|]. 
  all: repeat split.
  all: eexists; split; [reflexivity|].
  all: split; eval_bool.
Qed.

(** C1.  A page all of whose lanes hold the same value [v] is recognised by
    [page_same_filled], which yields [v].  Writing it stores only [v]: the
    slot gets ZRAM_SAME and the element [v], ZRAM_WB and ZRAM_HUGE are
    clear, and the pool gets no entry (it only loses the entry the slot held
    before, if any).  Reading the slot afterwards returns 0 and fills the
    page with [v], which is the page that was written, whatever [v] is. *)
Theorem same_filled_round_trip z index s mem v dst :
  table z !! index = Some s -> is_ulong (flags s) ->
  Z.testbit (flags s) ZRAM_LOCK = false ->
  length mem = Z.to_nat WORDS_PER_PAGE -> (forall x, x ∈ mem -> x = v) ->
  page_same_filled mem = Some v /\
  exists z1 w1,
    __zram_bvec_write mem index z = Some (0, z1) /\
    table z1 = <[index := mk_slot v w1]> (table z) /\
    Z.testbit w1 ZRAM_SAME = true /\
    Z.testbit w1 ZRAM_WB = false /\
    Z.testbit w1 ZRAM_HUGE = false /\
    mem_pool z1 = (if Z.testbit (flags s) ZRAM_WB || Z.testbit (flags s) ZRAM_SAME
                      || (element s =? 0)
                   then mem_pool z else delete (element s) (mem_pool z)) /\
    exists z2, __zram_bvec_read dst index false true z1 = Some ((0, mem), z2).
Proof.
  intros H Hu Hl Hlen Hall. layout.
  destruct (page_same_filled_const mem v Hlen Hall) as [Hsf Hfill].
  split; [done|].
  assert (runs (__zram_bvec_write mem index) z (fun r z1 =>
    r = 0 /\ exists w1,
      table z1 = <[index := mk_slot v w1]> (table z) /\
      is_ulong w1 /\
      (forall b, 0 <= b -> Z.testbit w1 b
         = (free_page_bit (flags s) (element s) b || (b =? ZRAM_SAME))) /\
      mem_pool z1 = (if Z.testbit (flags s) ZRAM_WB || Z.testbit (flags s) ZRAM_SAME
                        || (element s =? 0)
                     then mem_pool z else delete (element s) (mem_pool z))))
    as (r & z1 & Hw & -> & w1 & Ht & Hu1 & Hb & Hpool).
  { unfold __zram_bvec_write. rewrite Hsf.
    apply runs_bind. apply runs_atomic64_add.
    eapply runs_mono.
    { eapply __zram_bvec_write_out_same; [exact H|done|done]. }
    cbn [table set_stats mem_pool].
    intros r z1 (-> & w1 & Ht & Hu1 & Hb & _ & Hpool). split; [done|].
    exists w1. done. }
  assert (Z.testbit w1 ZRAM_SAME = true) as Hs1.
  { rewrite Hb by lia. rewrite Z.eqb_refl. by rewrite orb_true_r. }
  assert (Z.testbit w1 ZRAM_WB = false) as Hwb1.
  { rewrite Hb by lia. unfold free_page_bit. rewrite (Z.eqb_refl ZRAM_WB).
    destruct (Z.eqb_spec ZRAM_WB ZRAM_SAME); [flag_neq|].
    cbn [negb]. by rewrite !andb_false_r. }
  assert (Z.testbit w1 ZRAM_HUGE = false) as Hh1.
  { rewrite Hb by lia. unfold free_page_bit. rewrite (Z.eqb_refl ZRAM_HUGE).
    destruct (Z.eqb_spec ZRAM_HUGE ZRAM_SAME); [flag_neq|].
    cbn [negb]. by rewrite !andb_false_r. }
  assert (Z.testbit w1 ZRAM_LOCK = false) as Hl1.
  { rewrite Hb by lia. unfold free_page_bit. rewrite Hl.
    destruct (Z.eqb_spec ZRAM_LOCK ZRAM_SAME); [flag_neq|]. done. }
  exists z1, w1. repeat (split; [done|]).
  destruct (__zram_bvec_read_same dst z1 index (mk_slot v w1) false true)
    as (r & z2 & Hr & -> & _); try done.
  { rewrite Ht. by eapply lookup_insert_table. }
  exists z2. rewrite Hr. cbn [element]. by rewrite <- Hfill.
Qed.


(** ** Rolling back a writeback (C6) *)

Lemma runs_for_range (I : nat -> zram -> Prop) body count : forall from z,
  I from z ->
  (forall k zk, (from <= k < from + count)%nat -> I k zk ->
     runs (body k) zk (fun _ z' => I (S k) z')) ->
  runs (for_range from count body) z (fun _ z' => I (from + count)%nat z').
Proof.
  induction count as [|c IH]; intros from z HI Hbody; cbn [for_range].
  - apply runs_ret. by rewrite Nat.add_0_r.
  - apply runs_bind. eapply runs_mono; [apply Hbody; [lia|done]|].
    intros [] z1 HI1. cbv beta.
    replace (from + S c)%nat with (S from + c)%nat by lia.
    apply IH; [done|]. intros k zk Hk. apply Hbody. lia.
Qed.

Lemma testbit_rollback_word w b :
  0 <= b ->
  Z.testbit (rollback_word w) b
  = Z.testbit w b && negb (b =? ZRAM_UNDER_WB) && negb (b =? ZRAM_IDLE)
    && (b <? ZRAM_WB_IDLE_SHIFT).
Proof.
  intros Hb. layout. unfold rollback_word.
  rewrite testbit_low_mask, !testbit_clear_flag by lia.
  rewrite (Z.eqb_sym ZRAM_UNDER_WB b), (Z.eqb_sym ZRAM_IDLE b).
  destruct (Z.ltb_spec b 64), (Z.ltb_spec b ZRAM_WB_IDLE_SHIFT); try lia;
    rewrite ?andb_true_r, ?andb_false_r; done.
Qed.

Lemma is_ulong_rollback_word w : is_ulong w -> is_ulong (rollback_word w).
Proof. intros. unfold rollback_word. by repeat apply is_ulong_land. Qed.

Lemma rollback_word_idemp w : 0 <= w -> rollback_word (rollback_word w) = rollback_word w.
Proof.
  intros Hw. apply Z.bits_inj'. intros b Hb.
  rewrite !testbit_rollback_word by done.
  destruct (Z.testbit w b), (b =? ZRAM_UNDER_WB), (b =? ZRAM_IDLE),
    (b <? ZRAM_WB_IDLE_SHIFT); done.
Qed.

Lemma rollback_word_flag w f :
  ZRAM_FLAG_SHIFT <= f < ZRAM_WB_IDLE_SHIFT -> f <> ZRAM_UNDER_WB -> f <> ZRAM_IDLE ->
  Z.testbit (rollback_word w) f = Z.testbit w f.
Proof.
  intros Hf H1 H2. layout. rewrite testbit_rollback_word by lia.
  destruct (Z.eqb_spec f ZRAM_UNDER_WB); [done|].
  destruct (Z.eqb_spec f ZRAM_IDLE); [done|].
  destruct (Z.ltb_spec f ZRAM_WB_IDLE_SHIFT); [|lia].
  cbn [negb]. by rewrite !andb_true_r.
Qed.

Lemma rollback_word_cleared w :
  Z.testbit (rollback_word w) ZRAM_UNDER_WB = false /\
  Z.testbit (rollback_word w) ZRAM_IDLE = false /\
  idle_count_of (rollback_word w) = 0.
Proof.
  layout. rewrite !testbit_rollback_word by lia. rewrite !Z.eqb_refl.
  cbn [negb]. rewrite !andb_false_r. split; [done|]. split; [done|].
  unfold idle_count_of. apply Z.bits_inj'. intros b Hb.
  rewrite Z.shiftr_spec, Z.bits_0, testbit_rollback_word by lia.
  destruct (Z.ltb_spec (b + ZRAM_WB_IDLE_SHIFT) ZRAM_WB_IDLE_SHIFT); [lia|].
  by rewrite andb_false_r.
Qed.

Lemma obj_size_of_rollback_word w : obj_size_of (rollback_word w) = obj_size_of w.
Proof.
  layout. apply obj_size_of_bits. intros b Hb.
  rewrite testbit_rollback_word by lia.
  destruct (Z.eqb_spec b ZRAM_UNDER_WB); [lia|].
  destruct (Z.eqb_spec b ZRAM_IDLE); [lia|].
  destruct (Z.ltb_spec b ZRAM_WB_IDLE_SHIFT); [|lia].
  cbn [negb]. by rewrite !andb_true_r.
Qed.

(** The critical section that the three failure paths of writeback share:
    lock, clear ZRAM_UNDER_WB, ZRAM_IDLE and the idle counter, unlock. *)
Lemma writeback_read_failed_spec z index s :
  table z !! index = Some s -> is_ulong (flags s) ->
  Z.testbit (flags s) ZRAM_LOCK = false ->
  writeback_read_failed index z
  = Some (tt, set_table z
                (<[index := mk_slot (element s) (rollback_word (flags s))]> (table z))).
Proof.
  intros H Hu Hl. layout. destruct s as [e w]. cbn [flags element] in *.
  cut (runs (writeback_read_failed index) z (fun _ z' =>
    z' = set_table z (<[index := mk_slot e (rollback_word w)]> (table z)))).
  { by intros ([] & z' & -> & ->). }
  unfold writeback_read_failed.
  apply runs_bind. eapply runs_slot_lock; [done..|]. cbn [flags element].
  mrun H. f_equal. f_equal. f_equal.
  apply unlock_word.
  - by apply is_ulong_rollback_word.
  - rewrite rollback_word_flag by first [lia | flag_ne]. done.
  - intros b Hb Hne. rewrite testbit_rollback_word by lia.
    rewrite testbit_low_mask, !testbit_clear_flag, testbit_set_flag by lia.
    rewrite (Z.eqb_sym ZRAM_UNDER_WB b), (Z.eqb_sym ZRAM_IDLE b).
    destruct (Z.eqb_spec ZRAM_LOCK b); [lia|]. rewrite orb_false_r.
    destruct (Z.ltb_spec b 64); [|lia]. by rewrite !andb_true_r.
Qed.

Lemma rolled_back_content s s' : rolled_back s s' -> same_content s s'.
Proof.
  layout. intros [->| ->]; [by repeat split|].
  unfold same_content. cbn [element flags].
  rewrite obj_size_of_rollback_word.
  rewrite !rollback_word_flag by first [lia | flag_ne]. by repeat split.
Qed.

Lemma rolled_back_ulong s s' :
  rolled_back s s' -> is_ulong (flags s) -> is_ulong (flags s').
Proof. intros [->| ->]; [done|]. cbn [flags]. apply is_ulong_rollback_word. Qed.

Lemma rolled_back_again s s' :
  is_ulong (flags s) -> rolled_back s s' ->
  mk_slot (element s') (rollback_word (flags s'))
  = mk_slot (element s) (rollback_word (flags s)).
Proof.
  intros Hu [->| ->]; [done|]. cbn [element flags].
  rewrite rollback_word_idemp; [done|apply Hu].
Qed.

(** One turn of the loop that undoes a failed batch. *)
Lemma writeback_batch_rollback_spec start batch i bp z s :
  batch !! i = Some bp -> table z !! batch_index bp = Some s ->
  is_ulong (flags s) -> Z.testbit (flags s) ZRAM_LOCK = false ->
  writeback_batch_rollback start batch i z
  = Some (tt,
      set_stats
        (set_bitmap
           (set_table z
              (<[batch_index bp := mk_slot (element s) (rollback_word (flags s))]> (table z)))
           (Z.clearbit (bitmap z) (start + Z.of_nat i)))
        (stat_add bd_count (-1) (stats z))).
Proof.
  intros Hbp H Hu Hl. layout. destruct s as [e w]. cbn [flags element] in *.
  cut (runs (writeback_batch_rollback start batch i) z (fun _ z' =>
    z' = set_stats
        (set_bitmap
           (set_table z (<[batch_index bp := mk_slot e (rollback_word w)]> (table z)))
           (Z.clearbit (bitmap z) (start + Z.of_nat i)))
        (stat_add bd_count (-1) (stats z)))).
  { by intros ([] & z' & -> & ->). }
  unfold writeback_batch_rollback, runs. rewrite Hbp. fold (@runs unit).
  change (runs
    (zram_slot_lock (batch_index bp);;
     zram_clear_flag (batch_index bp) ZRAM_UNDER_WB;;
     zram_clear_flag (batch_index bp) ZRAM_IDLE;;
     zram_clear_idle_count (batch_index bp);;
     zram_slot_unlock (batch_index bp);;
     free_block_bdev (start + Z.of_nat i)) z (fun _ z' =>
    z' = set_stats
        (set_bitmap
           (set_table z (<[batch_index bp := mk_slot e (rollback_word w)]> (table z)))
           (Z.clearbit (bitmap z) (start + Z.of_nat i)))
        (stat_add bd_count (-1) (stats z)))).
  apply runs_bind. eapply runs_slot_lock; [done..|]. cbn [flags element].
  mrun H. f_equal. f_equal. f_equal.
  apply unlock_word.
  - by apply is_ulong_rollback_word.
  - rewrite rollback_word_flag by first [lia | flag_ne]. done.
  - intros b Hb Hne. rewrite testbit_rollback_word by lia.
    rewrite testbit_low_mask, !testbit_clear_flag, testbit_set_flag by lia.
    rewrite (Z.eqb_sym ZRAM_UNDER_WB b), (Z.eqb_sym ZRAM_IDLE b).
    destruct (Z.eqb_spec ZRAM_LOCK b); [lia|]. rewrite orb_false_r.
    destruct (Z.ltb_spec b 64); [|lia]. by rewrite !andb_true_r.
Qed.


(** ** ZRAM_IDLE under writeback (C4) *)

Lemma idle_kept_refl z : idle_kept z z.
Proof. intros i s' H Hb. by exists s'. Qed.

Lemma idle_kept_trans z1 z2 z3 : idle_kept z1 z2 -> idle_kept z2 z3 -> idle_kept z1 z3.
Proof.
  intros H12 H23 i s3 H Hb.
  destruct (H23 i s3 H Hb) as (s2 & H2 & Hb2). by apply (H12 i s2).
Qed.

Lemma idle_kept_table z z' : table z' = table z -> idle_kept z z'.
Proof. intros Ht i s' H Hb. exists s'. by rewrite <- Ht. Qed.

Lemma idle_kept_store z i s e w :
  table z !! i = Some s ->
  (Z.testbit w ZRAM_IDLE = true -> Z.testbit (flags s) ZRAM_IDLE = true) ->
  idle_kept z (set_table z (<[i := mk_slot e w]> (table z))).
Proof.
  intros H Hw j s' Hj Hb. cbn [table set_table] in Hj.
  destruct (decide (j = i)) as [->|Hne].
  - rewrite list_lookup_insert_eq in Hj by (by eapply lookup_lt_Some).
    injection Hj as <-. exists s. split; [done|]. by apply Hw.
  - rewrite list_lookup_insert_ne in Hj by done. by exists s'.
Qed.

Lemma keeps_ret {A} (a : A) : keeps_idle (ret a).
Proof. intros z a' z' [= <- <-]. apply idle_kept_refl. Qed.

Lemma keeps_fail {A} : keeps_idle (fun _ : zram => @None (A * zram)).
Proof. by intros z a z'. Qed.

Lemma keeps_bind {A B} (m : M A) (k : A -> M B) :
  keeps_idle m -> (forall a, keeps_idle (k a)) -> keeps_idle (bind m k).
Proof.
  intros Hm Hk z b z'. unfold bind. destruct (m z) as [[a z1]|] eqn:E; [|done].
  intros Hkz. eapply idle_kept_trans; [by eapply Hm|by eapply Hk].
Qed.

Lemma keeps_when b m : keeps_idle m -> keeps_idle (when b m).
Proof. destruct b; [done|]. intros _. apply keeps_ret. Qed.

(** Code that leaves the table alone. *)
Lemma keeps_quiet {A} (m : M A) :
  (forall z a z', m z = Some (a, z') -> table z' = table z) -> keeps_idle m.
Proof. intros Hm z a z' H. apply idle_kept_table. by eapply Hm. Qed.

Lemma keeps_gets {A} (f : zram -> A) : keeps_idle (gets f).
Proof. apply keeps_quiet. by intros z a z' [= <- <-]. Qed.

Lemma keeps_atomic64_add n c : keeps_idle (atomic64_add n c).
Proof. apply keeps_quiet. by intros z a z' [= <- <-]. Qed.

Lemma keeps_atomic64_read c : keeps_idle (atomic64_read c).
Proof. apply keeps_quiet. by intros z a z' [= <- <-]. Qed.

Lemma keeps_test_and_set_bit nr : keeps_idle (test_and_set_bit nr).
Proof. apply keeps_quiet. by intros z a z' [= <- <-]. Qed.

Lemma keeps_test_and_clear_bit nr : keeps_idle (test_and_clear_bit nr).
Proof. apply keeps_quiet. by intros z a z' [= <- <-]. Qed.

Lemma keeps_zs_free h : keeps_idle (zs_free h).
Proof. apply keeps_quiet. by intros z a z' [= <- <-]. Qed.

Lemma keeps_zs_store h data : keeps_idle (zs_store h data).
Proof. apply keeps_quiet. by intros z a z' [= <- <-]. Qed.

Lemma keeps_zs_map_object h : keeps_idle (zs_map_object h).
Proof. apply keeps_quiet. by intros z a z' [= <- <-]. Qed.

Lemma keeps_entry_alloc len reclaim : keeps_idle (zram_entry_alloc len reclaim).
Proof.
  apply keeps_quiet. intros z a z'. unfold zram_entry_alloc.
  destruct (_ =? 0); by intros [= <- <-].
Qed.

Lemma keeps_submit_bio_wait start pages : keeps_idle (submit_bio_wait start pages).
Proof.
  apply keeps_quiet. intros z a z'. unfold submit_bio_wait.
  destruct (_ =? 0); by intros [= <- <-].
Qed.

Lemma keeps_load_flags i : keeps_idle (load_flags i).
Proof.
  apply keeps_quiet. intros z a z'. unfold load_flags.
  destruct (table z !! i); [|done]. by intros [= <- <-].
Qed.

Lemma keeps_load_element i : keeps_idle (load_element i).
Proof.
  apply keeps_quiet. intros z a z'. unfold load_element.
  destruct (table z !! i); [|done]. by intros [= <- <-].
Qed.

Lemma keeps_store_element i v : keeps_idle (store_element i v).
Proof.
  intros z a z'. unfold store_element.
  destruct (table z !! i) as [s|] eqn:H; [|done]. intros [= <- <-].
  by eapply idle_kept_store.
Qed.

(** A read-modify-write of the flags word that does not turn ZRAM_IDLE on. *)
Lemma keeps_update i (f : Z -> Z) :
  (forall w, Z.testbit (f w) ZRAM_IDLE = true -> Z.testbit w ZRAM_IDLE = true) ->
  keeps_idle (w <- load_flags i ;; store_flags i (f w)).
Proof.
  intros Hf z a z'. unfold bind, load_flags, store_flags.
  destruct (table z !! i) as [s|] eqn:H; [|done]. rewrite H.
  intros [= <- <-]. eapply idle_kept_store; [done|]. apply Hf.
Qed.

Lemma keeps_set_flag i f : 0 <= f -> f <> ZRAM_IDLE -> keeps_idle (zram_set_flag i f).
Proof.
  intros Hf Hne. apply (keeps_update i (fun w => Z.lor w (BIT f))).
  intros w. by rewrite testbit_set_flag_other.
Qed.

Lemma keeps_clear_flag i f : 0 <= f < 64 -> keeps_idle (zram_clear_flag i f).
Proof.
  intros Hf. apply (keeps_update i (fun w => Z.land w (ulong_not (BIT f)))).
  intros w. layout. rewrite testbit_clear_flag by lia.
  by intros [[? _]%andb_true_iff _]%andb_true_iff.
Qed.

Lemma keeps_slot_unlock i : keeps_idle (zram_slot_unlock i).
Proof. layout. apply (keeps_clear_flag i ZRAM_LOCK). lia. Qed.

Lemma keeps_clear_idle_count i : keeps_idle (zram_clear_idle_count i).
Proof.
  apply (keeps_update i (fun w => Z.land w (BIT ZRAM_WB_IDLE_SHIFT - 1))).
  intros w. layout. rewrite testbit_low_mask by lia.
  by intros [? _]%andb_true_iff.
Qed.

Lemma keeps_set_obj_size i size :
  Z.testbit size ZRAM_IDLE = false -> keeps_idle (zram_set_obj_size i size).
Proof.
  intros Hs.
  apply (keeps_update i
    (fun w => Z.lor (Z.shiftl (Z.shiftr w ZRAM_FLAG_SHIFT) ZRAM_FLAG_SHIFT) size)).
  intros w. layout. rewrite testbit_set_size, Hs, orb_false_r by lia.
  by intros [? _]%andb_true_iff.
Qed.

Lemma keeps_slot_lock i : keeps_idle (zram_slot_lock i).
Proof.
  intros z a z'. unfold zram_slot_lock, bind, load_flags, store_flags.
  destruct (table z !! i) as [s|] eqn:H; [|done].
  destruct (Z.testbit (flags s) ZRAM_LOCK); [done|]. rewrite H.
  intros [= <- <-]. eapply idle_kept_store; [done|].
  layout. rewrite testbit_set_flag_other by first [lia | flag_ne]. done.
Qed.

Lemma keeps_slot_trylock i : keeps_idle (zram_slot_trylock i).
Proof.
  intros z a z'. unfold zram_slot_trylock, bind, load_flags, store_flags, ret.
  destruct (table z !! i) as [s|] eqn:H; [|done].
  destruct (Z.testbit (flags s) ZRAM_LOCK).
  - intros [= <- <-]. apply idle_kept_refl.
  - rewrite H. intros [= <- <-]. eapply idle_kept_store; [done|].
    layout. rewrite testbit_set_flag_other by first [lia | flag_ne]. done.
Qed.

Lemma keeps_test_flag i f : keeps_idle (zram_test_flag i f).
Proof. apply keeps_bind; [apply keeps_load_flags|]. intros. apply keeps_ret. Qed.

Lemma keeps_get_obj_size i : keeps_idle (zram_get_obj_size i).
Proof. apply keeps_bind; [apply keeps_load_flags|]. intros. apply keeps_ret. Qed.

Lemma keeps_get_idle_count i : keeps_idle (zram_get_idle_count i).
Proof. apply keeps_bind; [apply keeps_load_flags|]. intros. apply keeps_ret. Qed.

(** One step of the proof that a piece of code sets ZRAM_IDLE nowhere. *)
Ltac keeps_step :=
  lazymatch goal with
  | |- keeps_idle (bind _ _) => apply keeps_bind; [|intros ?]
  | |- keeps_idle (ret _) => apply keeps_ret
  | |- keeps_idle (when _ _) => apply keeps_when
  | |- keeps_idle (if ?c then _ else _) => destruct c
  | |- keeps_idle (fun _ => None) => apply keeps_fail
  | |- keeps_idle (gets _) => apply keeps_gets
  | |- keeps_idle (atomic64_add _ _) => apply keeps_atomic64_add
  | |- keeps_idle (atomic64_sub _ _) => apply keeps_atomic64_add
  | |- keeps_idle (atomic64_inc _) => apply keeps_atomic64_add
  | |- keeps_idle (atomic64_dec _) => apply keeps_atomic64_add
  | |- keeps_idle (atomic64_read _) => apply keeps_atomic64_read
  | |- keeps_idle (test_and_set_bit _) => apply keeps_test_and_set_bit
  | |- keeps_idle (test_and_clear_bit _) => apply keeps_test_and_clear_bit
  | |- keeps_idle (zs_free _) => apply keeps_zs_free
  | |- keeps_idle (zram_entry_free _) => apply keeps_zs_free
  | |- keeps_idle (zs_store _ _) => apply keeps_zs_store
  | |- keeps_idle (zs_map_object _) => apply keeps_zs_map_object
  | |- keeps_idle (zram_entry_alloc _ _) => apply keeps_entry_alloc
  | |- keeps_idle (submit_bio_wait _ _) => apply keeps_submit_bio_wait
  | |- keeps_idle (load_flags _) => apply keeps_load_flags
  | |- keeps_idle (load_element _) => apply keeps_load_element
  | |- keeps_idle (zram_get_element _) => apply keeps_load_element
  | |- keeps_idle (zram_get_entry _) => apply keeps_load_element
  | |- keeps_idle (store_element _ _) => apply keeps_store_element
  | |- keeps_idle (zram_set_element _ _) => apply keeps_store_element
  | |- keeps_idle (zram_set_entry _ _) => apply keeps_store_element
  | |- keeps_idle (zram_test_flag _ _) => apply keeps_test_flag
  | |- keeps_idle (zram_get_obj_size _) => apply keeps_get_obj_size
  | |- keeps_idle (zram_get_idle_count _) => apply keeps_get_idle_count
  | |- keeps_idle (zram_set_flag _ _) =>
      apply keeps_set_flag; [lia | first [assumption | flag_ne]]
  | |- keeps_idle (zram_clear_flag _ _) => apply keeps_clear_flag; lia
  | |- keeps_idle (zram_clear_idle_count _) => apply keeps_clear_idle_count
  | |- keeps_idle (zram_set_obj_size _ _) =>
      apply keeps_set_obj_size; first [assumption | apply Z.bits_0]
  | |- keeps_idle (zram_slot_lock _) => apply keeps_slot_lock
  | |- keeps_idle (zram_slot_trylock _) => apply keeps_slot_trylock
  | |- keeps_idle (zram_slot_unlock _) => apply keeps_slot_unlock
  | |- keeps_idle (zram_allocated _) => unfold zram_allocated
  | |- keeps_idle (free_block_bdev _) => unfold free_block_bdev
  | |- keeps_idle (zram_free_page_out _) => unfold zram_free_page_out
  | |- keeps_idle (zram_accessed _) => unfold zram_accessed
  | |- keeps_idle (update_used_max _) => unfold update_used_max
  | |- keeps_idle (read_from_bdev _ _ _) => unfold read_from_bdev
  end.

Ltac keeps := layout; repeat keeps_step.

Lemma keeps_free_page i : keeps_idle (zram_free_page i).
Proof. unfold zram_free_page. keeps. Qed.

Lemma keeps_bvec_read dst i partial_io access :
  keeps_idle (__zram_bvec_read dst i partial_io access).
Proof. unfold __zram_bvec_read. keeps. Qed.

Lemma size_bit_idle size :
  0 <= size <= PAGE_SIZE -> Z.testbit size ZRAM_IDLE = false.
Proof.
  intros Hs. layout. pose proof obj_size_fits.
  apply (testbit_above size ZRAM_FLAG_SHIFT); lia.
Qed.

Lemma keeps_bvec_write_out i fl element entry comp_len ret_ :
  fl = 0 \/ fl = ZRAM_SAME -> 0 <= comp_len <= PAGE_SIZE ->
  keeps_idle (__zram_bvec_write_out i fl element entry comp_len ret_).
Proof.
  intros Hfl Hlen. pose proof (size_bit_idle comp_len Hlen).
  unfold __zram_bvec_write_out. layout.
  apply keeps_bind; [apply keeps_slot_lock|]. intros _.
  apply keeps_bind; [apply keeps_free_page|]. intros _.
  apply keeps_bind; [keeps|]. intros _.
  apply keeps_bind.
  - destruct (Z.eqb_spec fl 0) as [->|Hne]; cbn [negb].
    + keeps.
    + destruct Hfl as [?| ->]; [done|]. keeps.
  - intros _. keeps.
Qed.

Lemma keeps_bvec_write_compress again mem i :
  huge_class_size <= PAGE_SIZE ->
  forall entry, keeps_idle (__zram_bvec_write_compress again mem i entry).
Proof.
  intros Hh. induction again as [|again IH]; intros entry;
    cbn [__zram_bvec_write_compress];
    destruct (zcomp_compress mem) as [r buffer];
    (assert (0 <= (if huge_class_size <=? Z.of_nat (length buffer)
                   then PAGE_SIZE else Z.of_nat (length buffer)) <= PAGE_SIZE)
       by (destruct (Z.leb_spec huge_class_size (Z.of_nat (length buffer)));
           change PAGE_SIZE with 4096 in *; lia));
    repeat first [ keeps_step | apply IH
                 | apply keeps_bvec_write_out; [by left|done] ].
Qed.

Lemma keeps_bvec_write mem i :
  huge_class_size <= PAGE_SIZE -> keeps_idle (__zram_bvec_write mem i).
Proof.
  intros Hh. unfold __zram_bvec_write. destruct (page_same_filled mem).
  - apply keeps_bind; [keeps|]. intros _.
    apply keeps_bvec_write_out; [by right|]. change PAGE_SIZE with 4096. lia.
  - by apply keeps_bvec_write_compress.
Qed.

(** [alloc_block_bdev] in closed form: the first pass of the retry loop
    finds a clear bit and takes it, or finds none. *)
Lemma alloc_block_bdev_eq z :
  alloc_block_bdev z
  = let b := find_next_zero_bit (bitmap z) (nr_pages z) 1 in
    if b =? nr_pages z then Some (0, z)
    else Some (b, set_stats (set_bitmap z (Z.setbit (bitmap z) b))
                    (stat_add bd_count 1 (stats z))).
Proof.
  pose proof (find_next_zero_bit_spec (bitmap z) (nr_pages z) 1) as Hf.
  cbv zeta in *. destruct Hf as (_ & Hr).
  unfold alloc_block_bdev.
  destruct (Z.to_nat (nr_pages z)); cbn [alloc_block_bdev_retry];
    (destruct (Z.eqb_spec (find_next_zero_bit (bitmap z) (nr_pages z) 1) (nr_pages z));
     [done|]; destruct Hr as [?|[_ Hclr]]; [done|];
     unfold bind, test_and_set_bit; by rewrite Hclr).
Qed.

Lemma keeps_alloc_block_bdev : keeps_idle alloc_block_bdev.
Proof.
  apply keeps_quiet. intros z a z'. rewrite alloc_block_bdev_eq. cbv zeta.
  destruct (_ =? _); by intros [= <- <-].
Qed.

Lemma keeps_batch_rollback start batch i :
  keeps_idle (writeback_batch_rollback start batch i).
Proof.
  intros z a z'. unfold writeback_batch_rollback.
  destruct (batch !! i) as [bp|]; [|done]. revert z a z'.
  change (keeps_idle
    (zram_slot_lock (batch_index bp);;
     zram_clear_flag (batch_index bp) ZRAM_UNDER_WB;;
     zram_clear_flag (batch_index bp) ZRAM_IDLE;;
     zram_clear_idle_count (batch_index bp);;
     zram_slot_unlock (batch_index bp);;
     free_block_bdev (start + Z.of_nat i))).
  keeps.
Qed.

Lemma keeps_batch_reconcile start batch i :
  keeps_idle (writeback_batch_reconcile start batch i).
Proof.
  intros z a z'. unfold writeback_batch_reconcile.
  destruct (batch !! i) as [bp|]; [|done]. revert z a z'.
  match goal with
  | |- forall z a z', ?m z = Some (a, z') -> idle_kept z z' => change (keeps_idle m)
  end.
  layout. repeat first [ keeps_step | apply keeps_free_page ].
  apply keeps_quiet. by intros ? ? ? [= <- <-].
Qed.

(** The steps other than the marking of [idle_store] and the selection of
    [writeback_store] set ZRAM_IDLE nowhere. *)
Lemma keeps_run_op o :
  huge_class_size <= PAGE_SIZE ->
  match o with
  | Op_idle_store _ | Op_wb_select _ _ _ => True
  | _ => keeps_idle (run_op o)
  end.
Proof.
  intros Hh. destruct o; cbn [run_op]; try exact I.
  - unfold new_store_slot. keeps.
  - unfold zram_bvec_read. apply keeps_bind; [apply keeps_bvec_read|]. intros. keeps.
  - unfold zram_bvec_write. apply keeps_bind; [by apply keeps_bvec_write|]. intros. keeps.
  - unfold zram_bio_discard_slot. layout.
    repeat first [ keeps_step | apply keeps_free_page ].
  - unfold zram_slot_free_notify. layout.
    repeat first [ keeps_step | apply keeps_free_page ].
  - apply keeps_bind; [apply keeps_alloc_block_bdev|]. intros. keeps.
  - keeps.
  - unfold writeback_read_failed. keeps.
  - keeps.
  - apply keeps_batch_rollback.
  - apply keeps_bind; [apply keeps_batch_reconcile|]. intros. keeps.
Qed.

(** A section that starts by taking the lock of slot [i] gets through only
    when the slot exists and its lock is free. *)
Lemma slot_lock_started {A} i (k : unit -> M A) z a z' :
  bind (zram_slot_lock i) k z = Some (a, z') ->
  exists s, table z !! i = Some s /\ Z.testbit (flags s) ZRAM_LOCK = false.
Proof.
  unfold zram_slot_lock, bind, load_flags.
  destruct (table z !! i) as [s|]; cbv beta iota; [|done].
  destruct (Z.testbit (flags s) ZRAM_LOCK) eqn:E; [done|]. eauto.
Qed.

(** [idle_store] on a slot under writeback: ZRAM_IDLE stays as it is. *)
Lemma idle_store_slot_under_wb z index s :
  table z !! index = Some s -> Z.testbit (flags s) ZRAM_LOCK = false ->
  runs (idle_store_slot index) z (fun _ z' => exists w',
    table z' = <[index := mk_slot (element s) w']> (table z) /\
    (Z.testbit (flags s) ZRAM_UNDER_WB = true ->
     Z.testbit w' ZRAM_IDLE = Z.testbit (flags s) ZRAM_IDLE)).
Proof.
  intros H Hl. layout. destruct s as [e w]. cbn [flags element] in *.
  unfold idle_store_slot.
  apply runs_bind. eapply runs_slot_lock; [done..|]. cbn [flags element].
  mrun H. rewrite !testbit_set_flag_other by first [lia | flag_ne].
  destruct (Z.testbit w ZRAM_UNDER_WB) eqn:Hu.
  - rewrite andb_false_r. cbn [andb when]. mrun H.
    eexists. split; [reflexivity|]. intros _.
    rewrite testbit_clear_flag, testbit_set_flag_other by first [lia | flag_ne].
    destruct (Z.ltb_spec ZRAM_IDLE 64); [|lia].
    destruct (Z.eqb_spec ZRAM_LOCK ZRAM_IDLE); [flag_neq|].
    by rewrite !andb_true_r.
  - unfold zram_inc_idle_count, zram_set_idle_count.
    repeat first
      [ mstep H
      | match goal with
        | |- runs (when ?c _) _ _ => destruct c
        | |- runs (if ?c then _ else _) _ _ => destruct c
        end ].
    all: eexists; split; [reflexivity|done].
Qed.

(** [writeback_store] on a slot under writeback: the slot is skipped. *)
Lemma writeback_select_under_wb mode wb_idle_min z index s :
  table z !! index = Some s -> Z.testbit (flags s) ZRAM_LOCK = false ->
  runs (writeback_select mode wb_idle_min index) z (fun _ z' => exists w',
    table z' = <[index := mk_slot (element s) w']> (table z) /\
    (Z.testbit (flags s) ZRAM_UNDER_WB = true ->
     Z.testbit w' ZRAM_IDLE = Z.testbit (flags s) ZRAM_IDLE)).
Proof.
  intros H Hl. layout. destruct s as [e w]. cbn [flags element] in *.
  assert (Z.testbit (Z.land (Z.lor w (BIT ZRAM_LOCK)) (ulong_not (BIT ZRAM_LOCK))) ZRAM_IDLE
          = Z.testbit w ZRAM_IDLE) as Hskip.
  { rewrite testbit_clear_flag, testbit_set_flag_other by first [lia | flag_ne].
    destruct (Z.ltb_spec ZRAM_IDLE 64); [|lia].
    destruct (Z.eqb_spec ZRAM_LOCK ZRAM_IDLE); [flag_neq|].
    by rewrite !andb_true_r. }
  unfold writeback_select.
  apply runs_bind. eapply runs_slot_lock; [done..|]. cbn [flags element].
  apply runs_bind. eapply runs_allocated; [slot H|]. cbn [flags].
  destruct (slot_allocated _); cbn [negb].
  2: { mrun H. eexists. split; [reflexivity|done]. }
  mrun H. rewrite !testbit_set_flag_other by first [lia | flag_ne].
  destruct (Z.testbit w ZRAM_UNDER_WB) eqn:Hu.
  - rewrite orb_true_r. mrun H. eexists. split; [reflexivity|done].
  - repeat first
      [ mstep H
      | match goal with
        | |- runs (if ?c then _ else _) _ _ => destruct c
        end ].
    all: eexists; split; [reflexivity|done].
Qed.

(** C4, as the code has it.  No step of the device sets ZRAM_IDLE on a slot
    that has ZRAM_UNDER_WB: if a slot has ZRAM_UNDER_WB before a step and
    ZRAM_IDLE after it, it had ZRAM_IDLE before the step already.  (The two
    flags do occur together: the selection of [writeback_store] sets both in
    one critical section.) *)
Theorem idle_not_set_under_wb z z' :
  huge_class_size <= PAGE_SIZE ->
  zram_step z z' ->
  forall i s s', table z !! i = Some s -> table z' !! i = Some s' ->
    Z.testbit (flags s) ZRAM_UNDER_WB = true ->
    Z.testbit (flags s') ZRAM_IDLE = true ->
    Z.testbit (flags s) ZRAM_IDLE = true.
Proof.
  intros Hh [o Hrun] i s s' Hs Hs' Hu Hidle.
  assert (forall (m : M unit),
    (forall index si, table z !! index = Some si ->
       Z.testbit (flags si) ZRAM_LOCK = false ->
       runs m z (fun _ z' => exists w',
         table z' = <[index := mk_slot (element si) w']> (table z) /\
         (Z.testbit (flags si) ZRAM_UNDER_WB = true ->
          Z.testbit w' ZRAM_IDLE = Z.testbit (flags si) ZRAM_IDLE)) ->
       m z = Some (tt, z') -> Z.testbit (flags s) ZRAM_IDLE = true)) as Hsection.
  { intros m index si Hsi Hl ([] & z1 & Hm & w' & Ht & Hw) Hm'.
    assert (z1 = z') as -> by congruence.
    rewrite Ht in Hs'. destruct (decide (i = index)) as [->|Hne].
    - rewrite list_lookup_insert_eq in Hs' by (by eapply lookup_lt_Some).
      injection Hs' as <-. cbn [flags] in Hidle.
      assert (si = s) as -> by congruence. by rewrite <- Hw.
    - rewrite list_lookup_insert_ne in Hs' by done.
      assert (s' = s) as -> by congruence. done. }
  pose proof (keeps_run_op o Hh) as Hk.
  destruct o;
    try (destruct (Hk z tt z' Hrun i s' Hs' Hidle) as (s0 & Hs0 & Hb);
         assert (s0 = s) as -> by congruence; exact Hb).
  - cbn [run_op] in Hrun.
    destruct (slot_lock_started _ _ _ _ _ Hrun) as (si & Hsi & Hl).
    eapply Hsection; [done..| |exact Hrun].
    by apply idle_store_slot_under_wb.
  - cbn [run_op] in Hrun.
    assert (exists b, writeback_select mode wb_idle_min index z = Some (b, z'))
      as [b Hsel].
    { revert Hrun. unfold bind at 1.
      destruct (writeback_select mode wb_idle_min index z) as [[b z1]|]; [|done].
      intros [= <-]. by exists b. }
    destruct (slot_lock_started _ _ _ _ _ Hsel) as (si & Hsi & Hl).
    eapply (Hsection (writeback_select mode wb_idle_min index ;; ret tt));
      [done..| |exact Hrun].
    apply runs_bind. eapply runs_mono;
      [by apply writeback_select_under_wb|].
    intros a z1 Hpost. by apply runs_ret.
Qed.

(** ** Sections of code on one slot *)

Lemma slot_frame_refl i z : slot_frame i z z.
Proof. by split. Qed.

Lemma slot_frame_trans i z1 z2 z3 :
  slot_frame i z1 z2 -> slot_frame i z2 z3 -> slot_frame i z1 z3.
Proof.
  intros [Hl1 H1] [Hl2 H2]. split; [congruence|].
  intros j Hj. rewrite H2, H1; done.
Qed.

Lemma slot_frame_table i z z' : table z' = table z -> slot_frame i z z'.
Proof. intros Ht. unfold slot_frame. by rewrite Ht. Qed.

Lemma slot_frame_insert i z s :
  slot_frame i z (set_table z (<[i := s]> (table z))).
Proof.
  split; cbn [table set_table]; [apply length_insert|].
  intros j Hj. by apply list_lookup_insert_ne.
Qed.

Lemma slot_code_ret {A} i (a : A) : slot_code i (ret a).
Proof. intros z Hi. apply runs_ret, slot_frame_refl. Qed.

Lemma slot_code_bind {A B} i (m : M A) (k : A -> M B) :
  slot_code i m -> (forall a, slot_code i (k a)) -> slot_code i (bind m k).
Proof.
  intros Hm Hk z Hi. apply runs_bind. eapply runs_mono; [by apply Hm|].
  intros a z1 Hf. cbv beta. eapply runs_mono.
  - apply Hk. destruct Hf as [-> _]. done.
  - intros b z2 Hf2. exact (slot_frame_trans _ _ _ _ Hf Hf2).
Qed.

Lemma quiet_code_ret {A} i (a : A) (V : A -> Prop) : V a -> quiet_code i (ret a) V.
Proof. intros HV z Hi. by apply runs_ret. Qed.

Lemma quiet_code_bind {A B} i (m : M A) (k : A -> M B) V :
  quiet_code i m (fun _ => True) -> (forall a, quiet_code i (k a) V) ->
  quiet_code i (bind m k) V.
Proof.
  intros Hm Hk z Hi. apply runs_bind. eapply runs_mono; [by apply Hm|].
  intros a z1 [Ht _]. cbv beta. eapply runs_mono.
  - apply Hk. by rewrite Ht.
  - intros b z2 [Ht2 HV]. split; [congruence|done].
Qed.

Lemma quiet_code_gets {A} i (f : zram -> A) : quiet_code i (gets f) (fun _ => True).
Proof. intros z Hi. by apply runs_gets. Qed.

Lemma quiet_code_atomic64_add i n c : quiet_code i (atomic64_add n c) (fun _ => True).
Proof. intros z Hi. by apply runs_atomic64_add. Qed.

Lemma quiet_code_atomic64_read i c : quiet_code i (atomic64_read c) (fun _ => True).
Proof. intros z Hi. by apply runs_atomic64_read. Qed.

Lemma quiet_code_test_and_clear_bit i nr : quiet_code i (test_and_clear_bit nr) (fun _ => True).
Proof. intros z Hi. by apply runs_test_and_clear_bit. Qed.

Lemma quiet_code_zs_free i h : quiet_code i (zs_free h) (fun _ => True).
Proof. intros z Hi. by apply runs_zs_free. Qed.

Lemma quiet_code_zs_map_object i h : quiet_code i (zs_map_object h) (fun _ => True).
Proof. intros z Hi. by apply runs_zs_map_object. Qed.

Lemma quiet_code_load_flags i : quiet_code i (load_flags i) (fun _ => True).
Proof.
  intros z Hi. destruct (lookup_lt_is_Some_2 _ _ Hi) as [s Hs].
  by eapply runs_load_flags.
Qed.

Lemma quiet_code_load_element i : quiet_code i (load_element i) (fun _ => True).
Proof.
  intros z Hi. destruct (lookup_lt_is_Some_2 _ _ Hi) as [s Hs].
  by eapply runs_load_element.
Qed.

Lemma slot_code_quiet {A} i (m : M A) V : quiet_code i m V -> slot_code i m.
Proof.
  intros Hm z Hi. eapply runs_mono; [by apply Hm|].
  intros a z' [Ht _]. by apply slot_frame_table.
Qed.

Lemma slot_code_store_flags i w : slot_code i (store_flags i w).
Proof.
  intros z Hi. destruct (lookup_lt_is_Some_2 _ _ Hi) as [s Hs].
  eapply runs_store_flags; [done|]. apply slot_frame_insert.
Qed.

Lemma slot_code_store_element i v : slot_code i (store_element i v).
Proof.
  intros z Hi. destruct (lookup_lt_is_Some_2 _ _ Hi) as [s Hs].
  eapply runs_store_element; [done|]. apply slot_frame_insert.
Qed.

(** One step of the proof that a piece of code leaves the table alone. *)
Ltac quiet_step :=
  lazymatch goal with
  | |- quiet_code _ (bind _ _) _ => apply quiet_code_bind; [|intros ?]
  | |- quiet_code _ (ret _) _ => apply quiet_code_ret; try done
  | |- quiet_code _ (when ?c _) _ => destruct c; cbn [when]
  | |- quiet_code _ (if ?c then _ else _) _ => destruct c
  | |- quiet_code _ (let _ := _ in _) _ => cbv zeta
  | |- quiet_code _ (gets _) _ => apply quiet_code_gets
  | |- quiet_code _ (atomic64_add _ _) _ => apply quiet_code_atomic64_add
  | |- quiet_code _ (atomic64_sub _ _) _ => apply quiet_code_atomic64_add
  | |- quiet_code _ (atomic64_inc _) _ => apply quiet_code_atomic64_add
  | |- quiet_code _ (atomic64_dec _) _ => apply quiet_code_atomic64_add
  | |- quiet_code _ (atomic64_read _) _ => apply quiet_code_atomic64_read
  | |- quiet_code _ (test_and_clear_bit _) _ => apply quiet_code_test_and_clear_bit
  | |- quiet_code _ (zs_free _) _ => apply quiet_code_zs_free
  | |- quiet_code _ (zram_entry_free _) _ => apply quiet_code_zs_free
  | |- quiet_code _ (zs_map_object _) _ => apply quiet_code_zs_map_object
  | |- quiet_code _ (load_flags _) _ => apply quiet_code_load_flags
  | |- quiet_code _ (load_element _) _ => apply quiet_code_load_element
  | |- quiet_code _ (zram_get_element _) _ => apply quiet_code_load_element
  | |- quiet_code _ (zram_get_entry _) _ => apply quiet_code_load_element
  | |- quiet_code _ (zram_test_flag _ _) _ => unfold zram_test_flag
  | |- quiet_code _ (zram_get_obj_size _) _ => unfold zram_get_obj_size
  | |- quiet_code _ (zram_get_idle_count _) _ => unfold zram_get_idle_count
  | |- quiet_code _ (zram_allocated _) _ => unfold zram_allocated
  | |- quiet_code _ (free_block_bdev _) _ => unfold free_block_bdev
  | |- quiet_code _ (read_from_bdev _ _ _) _ => unfold read_from_bdev
  end.

(** One step of the proof that a piece of code changes slot [i] only. *)
Ltac slot_step :=
  lazymatch goal with
  | |- slot_code _ (bind _ _) => apply slot_code_bind; [|intros ?]
  | |- slot_code _ (ret _) => apply slot_code_ret
  | |- slot_code _ (when ?c _) => destruct c; cbn [when]
  | |- slot_code _ (if ?c then _ else _) => destruct c
  | |- slot_code _ (store_flags _ _) => apply slot_code_store_flags
  | |- slot_code _ (store_element _ _) => apply slot_code_store_element
  | |- slot_code _ (zram_set_element _ _) => apply slot_code_store_element
  | |- slot_code _ (zram_set_entry _ _) => apply slot_code_store_element
  | |- slot_code _ (zram_set_flag _ _) => unfold zram_set_flag
  | |- slot_code _ (zram_clear_flag _ _) => unfold zram_clear_flag
  | |- slot_code _ (zram_clear_idle_count _) => unfold zram_clear_idle_count
  | |- slot_code _ (zram_set_obj_size _ _) => unfold zram_set_obj_size
  | |- slot_code _ (zram_free_page_out _) => unfold zram_free_page_out
  | |- slot_code _ (zram_accessed _) => unfold zram_accessed
  | |- slot_code _ (zram_free_page _) => unfold zram_free_page
  | |- slot_code _ _ =>
      apply (slot_code_quiet _ _ (fun _ => True)); repeat quiet_step
  end.

Lemma slot_code_free_page i : slot_code i (zram_free_page i).
Proof. repeat slot_step. Qed.

Lemma unlocking_code_unlock i : unlocking_code i (zram_slot_unlock i) (fun _ => True).
Proof.
  intros z Hi. destruct (lookup_lt_is_Some_2 _ _ Hi) as [s Hs]. layout.
  eapply runs_slot_unlock; [done|]. split; [apply slot_frame_insert|]. split; [|done].
  eexists. cbn [table set_table]. split; [by apply list_lookup_insert_eq|].
  cbn [flags]. rewrite testbit_clear_flag by lia. rewrite Z.eqb_refl.
  by rewrite andb_false_r.
Qed.

Lemma unlocking_code_unlock_then {A} i (k : unit -> M A) V :
  (forall a, quiet_code i (k a) V) ->
  unlocking_code i (bind (zram_slot_unlock i) k) V.
Proof.
  intros Hk z Hi. apply runs_bind.
  eapply runs_mono; [by apply unlocking_code_unlock|].
  intros a z1 (Hf & Hu & _). cbv beta. eapply runs_mono.
  - apply Hk. destruct Hf as [-> _]. done.
  - intros b z2 [Ht HV]. split; [|split; [|done]].
    + eapply slot_frame_trans; [exact Hf|]. by apply slot_frame_table.
    + unfold unlocked_at. by rewrite Ht.
Qed.

Lemma unlocking_code_bind {A B} i (m : M A) (k : A -> M B) V :
  slot_code i m -> (forall a, unlocking_code i (k a) V) ->
  unlocking_code i (bind m k) V.
Proof.
  intros Hm Hk z Hi. apply runs_bind. eapply runs_mono; [by apply Hm|].
  intros a z1 Hf. cbv beta. eapply runs_mono.
  - apply Hk. destruct Hf as [-> _]. done.
  - intros b z2 (Hf2 & Hu & HV). split; [|done]. exact (slot_frame_trans _ _ _ _ Hf Hf2).
Qed.

(** One step of the proof that a piece of code ends with the lock released. *)
Ltac unlocking_step :=
  lazymatch goal with
  | |- unlocking_code _ (bind (zram_slot_unlock _) _) _ =>
      apply unlocking_code_unlock_then; intros ?; repeat quiet_step
  | |- unlocking_code _ (zram_slot_unlock _) _ => apply unlocking_code_unlock
  | |- unlocking_code _ (bind _ _) _ =>
      apply unlocking_code_bind; [repeat slot_step|intros ?]
  | |- unlocking_code _ (if ?c then _ else _) _ => destruct c
  | |- unlocking_code _ (let _ := _ in _) _ => cbv zeta
  end.

(** A section under the lock of slot [i], on a device without held locks. *)
Lemma runs_section {A} N i (body : M A) V z :
  wb_device N z -> (i < N)%nat -> unlocking_code i body V ->
  runs (zram_slot_lock i ;; body) z (fun a z' => wb_device N z' /\ V a).
Proof.
  intros [Hu Hlen] Hi Hbody. subst N.
  destruct (lookup_lt_is_Some_2 _ _ Hi) as [s Hs].
  apply runs_bind. eapply runs_slot_lock; [done|by eapply Hu|].
  eapply runs_mono.
  - apply Hbody. cbn [table set_table]. by rewrite length_insert.
  - intros a z' ([Hl Hf] & (s' & Hs' & Hl') & HV). split; [|done].
    cbn [table set_table] in *. rewrite length_insert in Hl. split; [|done].
    intros j sj Hj. destruct (decide (j = i)) as [->|Hne]; [congruence|].
    rewrite Hf in Hj by done. rewrite list_lookup_insert_ne in Hj by done.
    by eapply Hu.
Qed.

Lemma wb_device_table N z z' : table z' = table z -> wb_device N z -> wb_device N z'.
Proof. intros Ht [Hu Hl]. split; [|congruence]. intros i s. rewrite Ht. apply Hu. Qed.

Lemma writeback_select_runs N mode wb_idle_min index z :
  wb_device N z -> (index < N)%nat ->
  runs (writeback_select mode wb_idle_min index) z (fun _ z' => wb_device N z').
Proof.
  intros Hz Hi. eapply runs_mono.
  - apply (runs_section N index _ (fun _ => True)); [done..|].
    repeat unlocking_step.
  - by intros a z' [? _].
Qed.

Lemma zram_bvec_read_runs N dst len index offset access z :
  wb_device N z -> (index < N)%nat ->
  runs (zram_bvec_read dst len index offset access) z (fun _ z' => wb_device N z').
Proof.
  intros Hz Hi. eapply runs_mono.
  - apply (runs_section N index _ (fun _ => True)); [done..|].
    repeat unlocking_step.
  - by intros a z' [? _].
Qed.

Lemma writeback_read_failed_runs N index z :
  wb_device N z -> (index < N)%nat ->
  runs (writeback_read_failed index) z (fun _ z' => wb_device N z').
Proof.
  intros Hz Hi. eapply runs_mono.
  - apply (runs_section N index _ (fun _ => True)); [done..|].
    repeat unlocking_step.
  - by intros a z' [? _].
Qed.

Lemma runs_ext {A} (m m' : M A) z (Q : A -> zram -> Prop) :
  m z = m' z -> runs m' z Q -> runs m z Q.
Proof. unfold runs. by intros ->. Qed.

Lemma quiet_code_set_bd_wb_limit i v :
  quiet_code i (fun z => Some (tt, set_bd_wb_limit z v)) (fun _ => True).
Proof. intros z Hi. by eexists _, _. Qed.

Lemma writeback_batch_rollback_runs N start batch i bp z :
  wb_device N z -> batch !! i = Some bp -> (batch_index bp < N)%nat ->
  runs (writeback_batch_rollback start batch i) z (fun _ z' => wb_device N z').
Proof.
  intros Hz Hbp Hi.
  eapply runs_ext; [unfold writeback_batch_rollback; rewrite Hbp; reflexivity|].
  cbv zeta. eapply runs_mono.
  - apply (runs_section N (batch_index bp) _ (fun _ => True)); [done..|].
    repeat unlocking_step.
  - by intros a z' [? _].
Qed.

(** A page of the batch counts for 0 or 1 in [wb_pages_nr]. *)
Lemma writeback_batch_reconcile_runs N start batch i bp z :
  wb_device N z -> batch !! i = Some bp -> (batch_index bp < N)%nat ->
  runs (writeback_batch_reconcile start batch i) z
    (fun n z' => wb_device N z' /\ 0 <= n <= 1).
Proof.
  intros Hz Hbp Hi.
  eapply runs_ext; [unfold writeback_batch_reconcile; rewrite Hbp; reflexivity|].
  cbv zeta. apply runs_bind, runs_atomic64_add.
  apply (runs_section N (batch_index bp) _ (fun n => 0 <= n <= 1));
    [by eapply wb_device_table|done|].
  repeat first
    [ unlocking_step
    | apply quiet_code_ret; lia
    | apply quiet_code_set_bd_wb_limit ].
Qed.

Lemma runs_sum_range (I : zram -> Prop) body count : forall from acc z,
  I z ->
  (forall k zk, (from <= k < from + count)%nat -> I zk ->
     runs (body k) zk (fun n z' => I z' /\ 0 <= n <= 1)) ->
  runs (sum_range from count body acc) z
    (fun n z' => I z' /\ acc <= n <= acc + Z.of_nat count).
Proof.
  induction count as [|c IH]; intros from acc z HI Hbody; cbn [sum_range].
  - apply runs_ret. split; [done|lia].
  - apply runs_bind. eapply runs_mono; [apply Hbody; [lia|done]|].
    intros n z1 [HI1 Hn]. cbv beta. eapply runs_mono.
    + apply IH; [done|]. intros k zk Hk. apply Hbody. lia.
    + intros n' z2 [HI2 Hn']. split; [done|lia].
Qed.

Lemma submit_bio_wait_runs start pages z (Q : Z -> zram -> Prop) :
  (forall err z', table z' = table z -> Q err z') ->
  runs (submit_bio_wait start pages) z Q.
Proof.
  intros HQ. unfold submit_bio_wait, runs. cbv zeta.
  destruct (_ =? 0); eexists _, _; (split; [reflexivity|]); by apply HQ.
Qed.

(** A flush runs, and counts at most the pages of the batch. *)
Lemma wait_for_writeback_batch_runs N start nr batch z :
  wb_device N z ->
  (forall i, (i < Z.to_nat nr)%nat ->
     exists bp, batch !! i = Some bp /\ (batch_index bp < N)%nat) ->
  runs (wait_for_writeback_batch start nr batch) z
    (fun n z' => wb_device N z' /\ 0 <= n <= Z.of_nat (Z.to_nat nr)).
Proof.
  intros Hz Hb. unfold wait_for_writeback_batch.
  apply runs_bind, submit_bio_wait_runs. intros err z0 Ht.
  pose proof (wb_device_table N z z0 Ht Hz) as Hz0.
  destruct (negb (err =? 0)).
  - apply runs_bind. eapply runs_mono.
    + apply (runs_for_range (fun _ z' => wb_device N z')); [done|].
      intros k zk Hk Hzk. destruct (Hb k ltac:(lia)) as (bp & Hbp & Hi).
      by eapply writeback_batch_rollback_runs.
    + intros [] z1 Hz1. apply runs_ret. split; [done|lia].
  - eapply runs_mono.
    + apply (runs_sum_range (wb_device N)); [done|].
      intros k zk Hk Hzk. destruct (Hb k ltac:(lia)) as (bp & Hbp & Hi).
      by eapply writeback_batch_reconcile_runs.
    + intros n z1 [Hz1 Hn]. split; [done|lia].
Qed.

Lemma alloc_block_bdev_runs z (Q : Z -> zram -> Prop) :
  (forall b z', table z' = table z -> Q b z') -> runs alloc_block_bdev z Q.
Proof.
  intros HQ. unfold runs. rewrite alloc_block_bdev_eq. cbv zeta.
  destruct (_ =? _); eexists _, _; (split; [reflexivity|]); by apply HQ.
Qed.

Lemma wb_cap_nonneg wb_max : 0 <= wb_cap wb_max.
Proof.
  unfold wb_cap. pose proof max_writeback_size_pos.
  destruct (Z.leb_spec wb_max 0); lia.
Qed.

(** One iteration of the loop of [writeback_store]. *)
Lemma writeback_iter_runs N mode wb_max wb_idle_min index l z :
  wb_device N z -> (index < N)%nat -> wb_locals_ok N wb_max l ->
  runs (writeback_iter mode wb_max wb_idle_min index l) z
    (fun r z' => wb_device N z' /\ wb_locals_ok N wb_max (fst r)).
Proof.
  intros Hz Hi Hl. pose proof max_writeback_size_pos as Hmax.
  unfold writeback_iter.
  destruct (sigusr1_pending index); [by apply runs_ret|].
  apply runs_bind, runs_gets. apply runs_bind, runs_gets.
  destruct (_ && _); [by apply runs_ret|].
  apply runs_bind.
  assert (runs (if blk_idx l =? 0 then alloc_block_bdev else ret (blk_idx l)) z
            (fun _ z' => wb_device N z')) as Hblk.
  { destruct (blk_idx l =? 0); [|by apply runs_ret].
    apply alloc_block_bdev_runs. intros b z' Ht. by eapply wb_device_table. }
  eapply runs_mono; [exact Hblk|]. clear Hblk. intros blk z1 Hz1. cbv beta.
  destruct (blk =? 0).
  { apply runs_ret. split; [done|]. exact Hl. }
  cbv zeta.
  set (start := if (blk_idx l =? 0) && (nr_write l =? 0) then blk else start_blkidx l).
  clearbody start.
  apply runs_bind.
  assert (runs
    (if (MAX_WRITEBACK_SIZE <=? nr_write l) || negb (start + nr_write l =? blk)
     then
       n <- wait_for_writeback_batch start (nr_write l) (batch_pages l) ;;
       ret (mk_wb blk blk 0 (wb_pages_nr l + n) (flush_count l + 1)
              (batch_pages l) (wb_ret l))
     else
       ret (mk_wb blk start (nr_write l) (wb_pages_nr l)
              (flush_count l) (batch_pages l) (wb_ret l))) z1
    (fun l1 z' => wb_device N z' /\ wb_locals_ok N wb_max l1 /\
                  nr_write l1 < MAX_WRITEBACK_SIZE)) as Hflush.
  { destruct Hl as (Hnw & Hwp & Hcap & Hbatch).
    destruct (Z.leb_spec MAX_WRITEBACK_SIZE (nr_write l)); cbn [orb].
    2: destruct (negb (start + nr_write l =? blk)).
    3: { apply runs_ret. split; [done|]. split; [|cbn [nr_write]; lia].
         exact (conj Hnw (conj Hwp (conj Hcap Hbatch))). }
    all: apply runs_bind; eapply runs_mono;
      [by apply (wait_for_writeback_batch_runs N)|];
      intros n z2 [Hz2 Hn]; apply runs_ret; split; [done|];
      rewrite Z2Nat.id in Hn by lia;
      (split; [|cbn [nr_write]; lia]);
      unfold wb_locals_ok; cbn [nr_write wb_pages_nr batch_pages];
      (split; [lia|]); (split; [lia|]); (split; [lia|]);
      intros i Hlt; cbn in Hlt; lia. }
  eapply runs_mono; [exact Hflush|]. clear Hflush.
  intros l1 z2 (Hz2 & Hl1 & Hlt). cbv beta.
  destruct (Z.leb_spec wb_max (wb_pages_nr l1)); [by apply runs_ret|].
  apply runs_bind. eapply runs_mono; [by apply (writeback_select_runs N)|].
  intros selected z3 Hz3. cbv beta.
  destruct selected; cbn [negb]; [|by apply runs_ret].
  apply runs_bind. eapply runs_mono; [by apply (zram_bvec_read_runs N)|].
  intros r z4 Hz4. cbv beta.
  destruct (negb (fst r =? 0)).
  { apply runs_bind. eapply runs_mono; [by apply (writeback_read_failed_runs N)|].
    intros [] z5 Hz5. by apply runs_ret. }
  apply runs_ret. split; [done|]. cbn [fst].
  destruct Hl1 as (Hnw & Hwp & Hcap & Hbatch).
  unfold wb_locals_ok. cbn [nr_write wb_pages_nr batch_pages].
  split; [lia|]. split; [done|]. split.
  { unfold wb_cap in *. destruct (Z.leb_spec wb_max 0); lia. }
  intros i Hlt'.
  assert (Z.to_nat (nr_write l1) <= length (batch_pages l1))%nat as Hlen.
  { destruct (Z.to_nat (nr_write l1)) as [|k] eqn:Hk; [lia|].
    destruct (Hbatch k ltac:(lia)) as (bp & Hbp & _).
    apply lookup_lt_Some in Hbp. lia. }
  destruct (decide (i < Z.to_nat (nr_write l1))%nat) as [Hlo|Hhi].
  - destruct (Hbatch i Hlo) as (bp & Hbp & Hbi). exists bp. split; [|done].
    rewrite lookup_app_l by (rewrite length_take; lia).
    by rewrite lookup_take_lt.
  - exists (mk_batch (snd r) index). split; [|done].
    rewrite lookup_app_r by (rewrite length_take; lia).
    rewrite length_take.
    replace (i - Z.to_nat (nr_write l1) `min` length (batch_pages l1))%nat with 0%nat by lia.
    done.
Qed.

Lemma writeback_loop_runs N mode wb_max wb_idle_min count : forall from l z,
  wb_device N z -> (from + count <= N)%nat -> wb_locals_ok N wb_max l ->
  runs (writeback_loop mode wb_max wb_idle_min from count l) z
    (fun l' z' => wb_device N z' /\ wb_locals_ok N wb_max l').
Proof.
  induction count as [|c IH]; intros from l z Hz Hle Hl; cbn [writeback_loop].
  - by apply runs_ret.
  - apply runs_bind. eapply runs_mono; [apply writeback_iter_runs; [done|lia|done]|].
    intros [l1 brk] z1 [Hz1 Hl1]. cbn [fst snd] in *.
    destruct brk; [by apply runs_ret|]. apply IH; [done|lia|done].
Qed.

(** C5, as the code has it.  [writeback_store] with "idle <wb_max> ..."
    returns, and the pages it has written ([wb_pages_nr] at the end) are at
    most [wb_cap wb_max]: none when [wb_max] is 0, and otherwise fewer than
    [wb_max + MAX_WRITEBACK_SIZE], since [wb_max] is compared with the pages
    of the batches already flushed, not with the pages staged in the batch
    that is being filled. *)
Theorem writeback_store_wb_max z wb_max rest len :
  table_unlocked z ->
  (Z.to_nat (Z.shiftr (disksize z) PAGE_SHIFT) <= length (table z))%nat ->
  exists ret_ n z',
    writeback_store (Input_idle (wb_max :: rest)) len z = Some ((ret_, n), z') /\
    table_unlocked z' /\
    0 <= n <= wb_cap wb_max.
Proof.
  intros Hu Hlen. pose proof (wb_cap_nonneg wb_max) as Hcap.
  pose proof max_writeback_size_pos as Hmax.
  assert (forall mode wb_idle_min,
    runs
      (l <- writeback_loop mode wb_max wb_idle_min 0
              (Z.to_nat (Z.shiftr (disksize z) PAGE_SHIFT)) (mk_wb 0 0 0 0 0 [] 0) ;;
       n <- (if negb (nr_write l =? 0) then
               wait_for_writeback_batch (start_blkidx l) (nr_write l) (batch_pages l)
             else ret 0) ;;
       when (negb (blk_idx l =? 0)) (free_block_bdev (blk_idx l)) ;;
       ret (len, wb_pages_nr l + n)) z
      (fun r z' => table_unlocked z' /\ 0 <= snd r <= wb_cap wb_max)) as Hcore.
  { intros mode wb_idle_min. apply runs_bind. eapply runs_mono.
    - apply (writeback_loop_runs (length (table z))); [done|lia|].
      unfold wb_locals_ok. cbn [nr_write wb_pages_nr batch_pages].
      split; [lia|]. split; [lia|]. split; [lia|]. intros i Hi. cbn in Hi. lia.
    - intros l z1 [Hz1 (Hnw & Hwp & Hsum & Hbatch)]. cbv beta.
      apply runs_bind.
      assert (runs
        (if negb (nr_write l =? 0) then
           wait_for_writeback_batch (start_blkidx l) (nr_write l) (batch_pages l)
         else ret 0) z1
        (fun n z' => wb_device (length (table z)) z' /\ 0 <= n <= nr_write l)) as Hlast.
      { destruct (negb (nr_write l =? 0)).
        - eapply runs_mono; [by apply (wait_for_writeback_batch_runs (length (table z)))|].
          intros n z2 [Hz2 Hn]. split; [done|]. rewrite Z2Nat.id in Hn by lia. done.
        - apply runs_ret. split; [done|lia]. }
      eapply runs_mono; [exact Hlast|]. clear Hlast.
      intros n z2 [[Hu2 _] Hn]. cbv beta.
      apply runs_bind.
      destruct (negb (blk_idx l =? 0)); cbn [when];
        [unfold free_block_bdev; apply runs_bind, runs_test_and_clear_bit,
           runs_atomic64_add
        |apply runs_ret];
        apply runs_ret; cbn [snd]; (split; [exact Hu2|lia]). }
  unfold writeback_store.
  destruct rest as [|i [|j rest]]; cbn [writeback_parse_input].
  3: { eexists _, _, _. split; [reflexivity|]. split; [done|lia]. }
  all: cbv beta zeta;
    destruct (negb (init_done z));
      [eexists _, _, _; split; [reflexivity|]; split; [done|lia]|];
    destruct (negb (backing_dev z));
      [eexists _, _, _; split; [reflexivity|]; split; [done|lia]|];
    destruct (negb (writeback_pages z));
      [eexists _, _, _; split; [reflexivity|]; split; [done|lia]|].
  - destruct (Hcore IDLE_WRITEBACK ZRAM_WB_IDLE_DEFAULT) as ([r n] & z' & Hrun & Hu' & Hn).
    exists r, n, z'. split; [exact Hrun|]. split; [done|exact Hn].
  - destruct (Hcore IDLE_WRITEBACK (if ZRAM_WB_IDLE_MAX <? i then ZRAM_WB_IDLE_MAX else i))
      as ([r n] & z' & Hrun & Hu' & Hn).
    exists r, n, z'. split; [exact Hrun|]. split; [done|exact Hn].
Qed.

(** ** Checking a concrete device *)

Lemma table_ulong_Forall z :
  Forall (fun s => 0 <= flags s <= ULONG_MAX) (table z) -> table_ulong z.
Proof.
  intros Hf i s Hs. rewrite Forall_lookup in Hf. exact (Hf i s Hs).
Qed.

Lemma table_unlocked_Forall z :
  Forall (fun s => Z.testbit (flags s) ZRAM_LOCK = false) (table z) ->
  table_unlocked z.
Proof.
  intros Hf i s Hs. rewrite Forall_lookup in Hf. exact (Hf i s Hs).
Qed.

Lemma step_state_after o z :
  gets_through (run_op o) z = true ->
  zram_step z (state_after (run_op o) z).
Proof.
  intros Hs. exists o. unfold state_after, gets_through in *.
  destruct (run_op o z) as [[[] z']|]; [done|discriminate].
Qed.

(** * Further properties of the driver *)

(** ** Positions in a request *)

(** X1.  [update_position] moves the byte position
    [index * PAGE_SIZE + offset] forward by exactly [bv_len], and leaves the
    offset inside the page (as long as the sum fits the [unsigned int] and
    the index the [u32] of the code). *)
Theorem update_position_linear index offset bv_len :
  0 <= offset -> 0 <= bv_len -> offset + bv_len < 2 ^ 32 ->
  Z.of_nat index + (offset + bv_len) / PAGE_SIZE < 2 ^ 32 ->
  Z.of_nat (fst (update_position index offset bv_len)) * PAGE_SIZE
    + snd (update_position index offset bv_len)
  = Z.of_nat index * PAGE_SIZE + offset + bv_len /\
  0 <= snd (update_position index offset bv_len) < PAGE_SIZE.
Proof.
  intros Ho Hl _ _. unfold update_position. cbn [fst snd].
  change PAGE_SIZE with 4096.
  pose proof (Z.div_mod (offset + bv_len) 4096 ltac:(lia)).
  pose proof (Z.mod_pos_bound (offset + bv_len) 4096 ltac:(lia)).
  assert (0 <= (offset + bv_len) / 4096) by (apply Z.div_pos; lia).
  rewrite Nat2Z.inj_add, Z2Nat.id by done. lia.
Qed.

(** ** Same-filled pages *)

Lemma same_filled_from_sound mem val n : forall pos,
  same_filled_from mem val pos n = true ->
  forall p, (pos <= p < pos + n)%nat -> nth p mem 0 = val.
Proof.
  induction n as [|n IH]; intros pos Hs p Hp; [lia|].
  cbn [same_filled_from] in Hs.
  destruct (Z.eqb_spec val (nth pos mem 0)) as [Heq|]; [|done]. cbn [negb] in Hs.
  destruct (decide (p = pos)) as [->|]; [done|]. apply (IH (S pos)); [done|lia].
Qed.

Lemma page_same_filled_sound mem v :
  length mem = Z.to_nat WORDS_PER_PAGE ->
  page_same_filled mem = Some v -> mem = zram_fill_page PAGE_SIZE v.
Proof.
  intros Hlen.
  unfold page_same_filled. change (Z.to_nat (WORDS_PER_PAGE - 1)) with 511%nat.
  destruct (Z.eqb_spec (nth 0 mem 0) (nth 511 mem 0)) as [Hlast|]; [|done].
  cbn [negb].
  destruct (same_filled_from mem (nth 0 mem 0) 1 (511 - 1)) eqn:Hs; [|done].
  intros [= <-].
  pose proof (same_filled_from_sound _ _ _ _ Hs) as Hmid.
  apply (nth_ext _ _ 0 0).
  - unfold zram_fill_page. rewrite repeat_length. exact Hlen.
  - intros p Hp. unfold zram_fill_page.
    change (Z.to_nat (PAGE_SIZE / 8)) with 512%nat.
    change (Z.to_nat WORDS_PER_PAGE) with 512%nat in Hlen.
    rewrite nth_repeat_lt by lia.
    destruct (decide (p = 0%nat)) as [->|]; [done|].
    destruct (decide (p = 511%nat)) as [->|]; [done|].
    apply Hmid. lia.
Qed.

(** X2.  [page_same_filled] accepts a page exactly when all its 512 lanes
    hold the value it returns, that is when the page is what
    [zram_fill_page] writes for that value. *)
Theorem page_same_filled_iff mem v :
  length mem = Z.to_nat WORDS_PER_PAGE ->
  page_same_filled mem = Some v <-> mem = zram_fill_page PAGE_SIZE v.
Proof.
  intros Hlen. split.
  - by apply page_same_filled_sound.
  - intros ->. apply page_same_filled_const.
    + unfold zram_fill_page. by rewrite repeat_length.
    + intros x Hx. unfold zram_fill_page in Hx.
      apply list_elem_of_In, repeat_spec in Hx. done.
Qed.

(** ** The idle counter and the flags *)

Lemma idle_count_of_set_count w c :
  0 <= c < 2 ^ (BITS_PER_LONG - ZRAM_WB_IDLE_SHIFT) ->
  idle_count_of (Z.lor (Z.land w (BIT ZRAM_WB_IDLE_SHIFT - 1))
                       (to_ulong (Z.shiftl c ZRAM_WB_IDLE_SHIFT))) = c.
Proof.
  intros Hc. layout. unfold idle_count_of, to_ulong, BITS_PER_LONG in *.
  assert (0 <= Z.shiftl c ZRAM_WB_IDLE_SHIFT < 2 ^ 64) as Hsh.
  { rewrite Z.shiftl_mul_pow2 by lia. split; [apply Z.mul_nonneg_nonneg; lia|].
    replace (2 ^ 64) with (2 ^ (64 - ZRAM_WB_IDLE_SHIFT) * 2 ^ ZRAM_WB_IDLE_SHIFT)
      by (rewrite <- Z.pow_add_r by lia; f_equal; lia).
    apply Z.mul_lt_mono_pos_r; [apply Z.pow_pos_nonneg; lia|lia]. }
  rewrite Z.mod_small by done.
  apply Z.bits_inj'. intros b Hb.
  rewrite Z.shiftr_spec, Z.lor_spec, testbit_low_mask, Z.shiftl_spec by lia.
  destruct (Z.ltb_spec (b + ZRAM_WB_IDLE_SHIFT) ZRAM_WB_IDLE_SHIFT); [lia|].
  rewrite andb_false_r. cbn [orb]. f_equal. lia.
Qed.

Lemma testbit_set_count_low w c b :
  0 <= c -> 0 <= b < ZRAM_WB_IDLE_SHIFT ->
  Z.testbit (Z.lor (Z.land w (BIT ZRAM_WB_IDLE_SHIFT - 1))
                   (to_ulong (Z.shiftl c ZRAM_WB_IDLE_SHIFT))) b
  = Z.testbit w b.
Proof.
  intros Hc Hb. layout. unfold to_ulong, BITS_PER_LONG.
  rewrite Z.lor_spec, testbit_low_mask by lia.
  rewrite Z.mod_pow2_bits_low by lia.
  rewrite Z.shiftl_spec_low by lia.
  destruct (Z.ltb_spec b ZRAM_WB_IDLE_SHIFT); [|lia].
  by rewrite andb_true_r, orb_false_r.
Qed.

(** X3.  [zram_inc_idle_count] adds one to the idle counter of the slot and
    stops at [ZRAM_WB_IDLE_MAX]; the size, the flags and the payload of the
    slot and all other slots stay as they are. *)
Theorem zram_inc_idle_count_saturates z index s :
  table z !! index = Some s -> 0 <= flags s ->
  exists w',
    zram_inc_idle_count index z
      = Some (tt, set_table z (<[index := mk_slot (element s) w']> (table z))) /\
    idle_count_of w'
      = (if idle_count_of (flags s) <? ZRAM_WB_IDLE_MAX
         then idle_count_of (flags s) + 1 else idle_count_of (flags s)) /\
    (forall b, 0 <= b < ZRAM_WB_IDLE_SHIFT -> Z.testbit w' b = Z.testbit (flags s) b).
Proof.
  intros H Hw. layout. pose proof idle_max_fits as Hmax.
  destruct s as [e w]. cbn [flags element] in *.
  assert (0 <= idle_count_of w) as Hc0 by (by apply Z.shiftr_nonneg).
  cut (runs (zram_inc_idle_count index) z (fun _ z' => exists w',
    z' = set_table z (<[index := mk_slot e w']> (table z)) /\
    idle_count_of w'
      = (if idle_count_of w <? ZRAM_WB_IDLE_MAX
         then idle_count_of w + 1 else idle_count_of w) /\
    (forall b, 0 <= b < ZRAM_WB_IDLE_SHIFT -> Z.testbit w' b = Z.testbit w b))).
  { intros ([] & z' & Hrun & w' & -> & Hw'). by exists w'. }
  unfold zram_inc_idle_count, zram_set_idle_count. mrun H.
  fold (idle_count_of w).
  destruct (Z.ltb_spec (idle_count_of w) ZRAM_WB_IDLE_MAX); cbn [when]; mrun H.
  - eexists. split; [reflexivity|]. split.
    + apply idle_count_of_set_count. lia.
    + intros b Hb. apply testbit_set_count_low; lia.
  - exists w. split; [|done].
    rewrite list_insert_id by done. by destruct z.
Qed.
Lemma testbit_count_field c b :
  0 <= c < 2 ^ (BITS_PER_LONG - ZRAM_WB_IDLE_SHIFT) -> 0 <= b ->
  Z.testbit (to_ulong (Z.shiftl c ZRAM_WB_IDLE_SHIFT)) b
  = (ZRAM_WB_IDLE_SHIFT <=? b) && Z.testbit c (b - ZRAM_WB_IDLE_SHIFT).
Proof.
  intros Hc Hb. layout. unfold to_ulong, BITS_PER_LONG in *.
  assert (0 <= Z.shiftl c ZRAM_WB_IDLE_SHIFT < 2 ^ 64) as Hsh.
  { rewrite Z.shiftl_mul_pow2 by lia. split; [apply Z.mul_nonneg_nonneg; lia|].
    replace (2 ^ 64) with (2 ^ (64 - ZRAM_WB_IDLE_SHIFT) * 2 ^ ZRAM_WB_IDLE_SHIFT)
      by (rewrite <- Z.pow_add_r by lia; f_equal; lia).
    apply Z.mul_lt_mono_pos_r; [apply Z.pow_pos_nonneg; lia|lia]. }
  rewrite Z.mod_small by done.
  destruct (Z.leb_spec ZRAM_WB_IDLE_SHIFT b).
  - by rewrite Z.shiftl_spec by lia.
  - by rewrite Z.shiftl_spec_low by lia.
Qed.

(** A word is determined by its bits below 64 when it is an unsigned long. *)
Lemma is_ulong_land_not w f : 0 <= f < 64 -> is_ulong (Z.land w (ulong_not (BIT f))).
Proof.
  intros Hf. apply is_ulong_bits.
  - apply Z.land_nonneg. right. unfold ulong_not.
    apply Z.lxor_nonneg. split; intros _; [|rewrite BIT_pow2; apply Z.pow_nonneg; lia].
    unfold ULONG_MAX, BITS_PER_LONG. lia.
  - intros i Hi. rewrite testbit_clear_flag by lia.
    destruct (Z.ltb_spec i 64); [lia|]. by rewrite andb_false_r.
Qed.

(** One slot of [idle_store]. *)
Lemma idle_store_slot_spec z index s :
  table z !! index = Some s -> is_ulong (flags s) ->
  Z.testbit (flags s) ZRAM_LOCK = false ->
  exists w',
    idle_store_slot index z
      = Some (tt, set_table z (<[index := mk_slot (element s) w']> (table z))) /\
    idle_marked (flags s) w'.
Proof.
  intros H Hu Hl. layout. pose proof idle_max_fits as Hmax.
  destruct s as [e w]. cbn [flags element] in *.
  assert (0 <= idle_count_of w) as Hc0 by (apply Z.shiftr_nonneg, Hu).
  cut (runs (idle_store_slot index) z (fun _ z' => exists w',
    z' = set_table z (<[index := mk_slot e w']> (table z)) /\ idle_marked w w')).
  { intros ([] & z' & Hrun & w' & -> & Hw'). by exists w'. }
  unfold idle_store_slot.
  apply runs_bind. eapply runs_slot_lock; [done..|]. cbn [flags element].
  mrun H. rewrite !testbit_set_flag_other by first [lia | flag_ne].
  rewrite obj_size_of_set_flag by lia.
  fold (idle_eligible w).
  destruct (idle_eligible w) eqn:Hel; cbn [when].
  2: { mrun H. exists w. split.
       - rewrite unlock_lock by done. rewrite list_insert_id by done. by destruct z.
       - unfold idle_marked. rewrite Hel, orb_false_r. cbn [andb]. done. }
  unfold zram_inc_idle_count, zram_set_idle_count. mrun H.
  rewrite idle_count_of_set_flag by lia.
  destruct (Z.ltb_spec (idle_count_of w) ZRAM_WB_IDLE_MAX) as [Hlt|Hge]; cbn [when].
  - mrun H.
    rewrite (testbit_set_count_low _ _ ZRAM_IDLE) by lia.
    rewrite testbit_set_flag_other by first [lia | flag_ne].
    set (x := Z.lor (Z.land (Z.lor w (BIT ZRAM_LOCK)) (BIT ZRAM_WB_IDLE_SHIFT - 1))
                (to_ulong (Z.shiftl (idle_count_of w + 1) ZRAM_WB_IDLE_SHIFT))).
    assert (forall b, 0 <= b ->
      Z.testbit x b = if b <? ZRAM_WB_IDLE_SHIFT
                      then Z.testbit w b || (ZRAM_LOCK =? b)
                      else Z.testbit (idle_count_of w + 1) (b - ZRAM_WB_IDLE_SHIFT)) as Hx.
    { intros b Hb. unfold x.
      rewrite Z.lor_spec, testbit_low_mask, testbit_set_flag, testbit_count_field by lia.
      destruct (Z.ltb_spec b ZRAM_WB_IDLE_SHIFT), (Z.leb_spec ZRAM_WB_IDLE_SHIFT b);
        try lia; cbn [andb orb]; rewrite ?andb_true_r, ?andb_false_r, ?orb_false_r; done. }
    clearbody x.
    assert (forall y, (forall b, 0 <= b -> Z.testbit y b
                = Z.testbit x b || (ZRAM_IDLE =? b)) ->
      idle_marked w (Z.land y (ulong_not (BIT ZRAM_LOCK)))) as Hfin.
    { intros y Hy. unfold idle_marked. rewrite Hel. cbn [andb].
      destruct (Z.ltb_spec (idle_count_of w) ZRAM_WB_IDLE_MAX); [|lia].
      split; [apply is_ulong_land_not; lia|]. split; [|split].
      - rewrite testbit_clear_flag, Hy, Z.eqb_refl by lia.
        destruct (Z.ltb_spec ZRAM_IDLE 64); [|lia].
        destruct (Z.eqb_spec ZRAM_LOCK ZRAM_IDLE); [flag_neq|].
        rewrite !orb_true_r. done.
      - unfold idle_count_of at 1. apply Z.bits_inj'. intros b Hb.
        rewrite Z.shiftr_spec, testbit_clear_flag, Hy, Hx by lia.
        destruct (Z.ltb_spec (b + ZRAM_WB_IDLE_SHIFT) ZRAM_WB_IDLE_SHIFT); [lia|].
        destruct (Z.eqb_spec ZRAM_IDLE (b + ZRAM_WB_IDLE_SHIFT)); [lia|].
        destruct (Z.eqb_spec ZRAM_LOCK (b + ZRAM_WB_IDLE_SHIFT)); [lia|].
        rewrite orb_false_r. cbn [negb]. rewrite andb_true_r.
        replace (b + ZRAM_WB_IDLE_SHIFT - ZRAM_WB_IDLE_SHIFT) with b by lia.
        destruct (Z.ltb_spec (b + ZRAM_WB_IDLE_SHIFT) 64); [by rewrite andb_true_r|].
        rewrite andb_false_r. symmetry.
        apply (testbit_above _ (BITS_PER_LONG - ZRAM_WB_IDLE_SHIFT));
          unfold BITS_PER_LONG in *; lia.
      - intros b Hb Hne. rewrite testbit_clear_flag, Hy, Hx by lia.
        destruct (Z.ltb_spec b ZRAM_WB_IDLE_SHIFT); [|lia].
        destruct (Z.eqb_spec ZRAM_IDLE b); [lia|]. rewrite orb_false_r.
        destruct (Z.ltb_spec b 64); [|lia]. rewrite andb_true_r.
        destruct (Z.eqb_spec ZRAM_LOCK b) as [<-|].
        + rewrite Hl. done.
        + cbn [negb]. by rewrite orb_false_r, andb_true_r. }
    destruct (Z.testbit w ZRAM_IDLE) eqn:Hidle; cbn [negb when]; mrun H.
    + eexists. split; [reflexivity|]. apply Hfin. intros b Hb.
      destruct (Z.eqb_spec ZRAM_IDLE b) as [<-|]; [|by rewrite orb_false_r].
      rewrite Hx by lia. destruct (Z.ltb_spec ZRAM_IDLE ZRAM_WB_IDLE_SHIFT); [|lia].
      rewrite Hidle. done.
    + eexists. split; [reflexivity|]. apply Hfin. intros b Hb.
      by rewrite testbit_set_flag by lia.
  - mrun H. rewrite testbit_set_flag_other by first [lia | flag_ne].
    assert (forall y, (forall b, 0 <= b -> Z.testbit y b
                = Z.testbit w b || (ZRAM_LOCK =? b) || (ZRAM_IDLE =? b)) ->
      idle_marked w (Z.land y (ulong_not (BIT ZRAM_LOCK)))) as Hfin.
    { intros y Hy. unfold idle_marked. rewrite Hel. cbn [andb].
      destruct (Z.ltb_spec (idle_count_of w) ZRAM_WB_IDLE_MAX); [lia|].
      split; [apply is_ulong_land_not; lia|]. split; [|split].
      - rewrite testbit_clear_flag, Hy, Z.eqb_refl by lia.
        destruct (Z.ltb_spec ZRAM_IDLE 64); [|lia].
        destruct (Z.eqb_spec ZRAM_LOCK ZRAM_IDLE); [flag_neq|].
        rewrite !orb_true_r. done.
      - apply idle_count_of_bits. intros b Hb.
        rewrite testbit_clear_flag, Hy by lia.
        destruct (Z.eqb_spec ZRAM_IDLE b); [lia|].
        destruct (Z.eqb_spec ZRAM_LOCK b); [lia|].
        rewrite !orb_false_r. cbn [negb]. rewrite andb_true_r.
        destruct (Z.ltb_spec b 64); [by rewrite andb_true_r|].
        rewrite andb_false_r. by rewrite (ulong_testbit_high w b Hu).
      - intros b Hb Hne. rewrite testbit_clear_flag, Hy by lia.
        destruct (Z.eqb_spec ZRAM_IDLE b); [lia|]. rewrite orb_false_r.
        destruct (Z.ltb_spec b 64); [|lia]. rewrite andb_true_r.
        destruct (Z.eqb_spec ZRAM_LOCK b) as [<-|].
        + rewrite Hl. done.
        + cbn [negb]. by rewrite orb_false_r, andb_true_r. }
    destruct (Z.testbit w ZRAM_IDLE) eqn:Hidle; cbn [negb when]; mrun H.
    + eexists. split; [reflexivity|]. apply Hfin. intros b Hb.
      rewrite testbit_set_flag by lia.
      destruct (Z.eqb_spec ZRAM_IDLE b) as [<-|]; [|by rewrite orb_false_r].
      rewrite Hidle. done.
    + eexists. split; [reflexivity|]. apply Hfin. intros b Hb.
      by rewrite !testbit_set_flag by lia.
Qed.

(** One slot of [new_store]. *)
Lemma new_store_slot_spec z index s :
  table z !! index = Some s -> is_ulong (flags s) ->
  Z.testbit (flags s) ZRAM_LOCK = false ->
  exists w',
    new_store_slot index z
      = Some (tt, set_table z (<[index := mk_slot (element s) w']> (table z))) /\
    idle_cleared (flags s) w'.
Proof.
  intros H Hu Hl. layout. destruct s as [e w]. cbn [flags element] in *.
  cut (runs (new_store_slot index) z (fun _ z' => exists w',
    z' = set_table z (<[index := mk_slot e w']> (table z)) /\ idle_cleared w w')).
  { intros ([] & z' & Hrun & w' & -> & Hw'). by exists w'. }
  unfold new_store_slot.
  apply runs_bind. eapply runs_slot_lock; [done..|]. cbn [flags element].
  mrun H. eexists. split; [reflexivity|].
  split; [apply is_ulong_land_not; lia|]. split; [|split].
  - rewrite testbit_clear_flag, testbit_low_mask, testbit_clear_flag by lia.
    rewrite Z.eqb_refl. cbn [negb]. by rewrite !andb_false_r.
  - unfold idle_count_of. apply Z.bits_inj'. intros b Hb.
    rewrite Z.shiftr_spec, Z.bits_0, testbit_clear_flag, testbit_low_mask by lia.
    destruct (Z.ltb_spec (b + ZRAM_WB_IDLE_SHIFT) ZRAM_WB_IDLE_SHIFT); [lia|].
    by rewrite !andb_false_r.
  - intros b Hb Hne.
    rewrite testbit_clear_flag, testbit_low_mask, testbit_clear_flag,
      testbit_set_flag by lia.
    destruct (Z.ltb_spec b ZRAM_WB_IDLE_SHIFT); [|lia].
    destruct (Z.ltb_spec b 64); [|lia].
    destruct (Z.eqb_spec ZRAM_IDLE b); [lia|].
    destruct (Z.eqb_spec ZRAM_LOCK b) as [<-|].
    + rewrite Hl. done.
    + cbn [negb]. by rewrite orb_false_r, !andb_true_r.
Qed.

(** A loop that visits the slots [0 .. n-1] under their locks and rewrites
    the flags word of each by [R]. *)
Lemma for_range_slots (R : Z -> Z -> Prop) (body : nat -> M unit) :
  (forall w w', R w w' -> is_ulong w') ->
  (forall z i s, table z !! i = Some s -> is_ulong (flags s) ->
     Z.testbit (flags s) ZRAM_LOCK = false ->
     exists w',
       body i z = Some (tt, set_table z (<[i := mk_slot (element s) w']> (table z))) /\
       R (flags s) w') ->
  forall z, table_ulong z -> table_unlocked z ->
  exists t',
    for_range 0 (length (table z)) body z = Some (tt, set_table z t') /\
    slots_related R (table z) t'.
Proof.
  intros HR Hbody z Hu Hl.
  set (I := fun (k : nat) (zk : zram) =>
    zk = set_table z (table zk) /\
    length (table zk) = length (table z) /\
    forall i s, table z !! i = Some s ->
      exists s', table zk !! i = Some s' /\
        if decide (i < k)%nat
        then element s' = element s /\ R (flags s) (flags s')
        else s' = s).
  assert (runs (for_range 0 (length (table z)) body) z
            (fun _ z' => I (0 + length (table z))%nat z')) as Hloop.
  { apply runs_for_range.
    - split; [by destruct z|]. split; [done|]. intros i s Hs. exists s.
      split; [done|]. destruct (decide (i < 0)%nat); [lia|done].
    - intros k zk Hk (Hzk & Hlen & Hslots).
      destruct (lookup_lt_is_Some_2 (table z) k ltac:(lia)) as [s Hs].
      destruct (Hslots k s Hs) as (sk & Hsk & Hrel).
      destruct (decide (k < k)%nat); [lia|]. subst sk.
      destruct (Hbody zk k s Hsk (Hu _ _ Hs) (Hl _ _ Hs)) as (w' & Hrun & Hw').
      eapply runs_eq; [exact Hrun|]. unfold I. cbn [table set_table].
      split; [rewrite Hzk at 1; done|]. split; [by rewrite length_insert|].
      intros i si Hsi. destruct (decide (i = k)) as [->|Hne].
      + exists (mk_slot (element s) w').
        rewrite list_lookup_insert_eq by (by eapply lookup_lt_Some).
        split; [done|]. destruct (decide (k < S k)%nat); [|lia].
        assert (si = s) as -> by congruence. done.
      + rewrite list_lookup_insert_ne by done.
        destruct (Hslots i si Hsi) as (s' & Hs' & Hrel'). exists s'. split; [done|].
        destruct (decide (i < k)%nat), (decide (i < S k)%nat); try lia; done. }
  destruct Hloop as ([] & z' & Hrun & Hz' & Hlen & Hslots).
  exists (table z'). split; [by rewrite Hrun, <- Hz'|].
  apply Forall2_same_length_lookup_2; [done|].
  intros i s s' Hs Hs'. destruct (Hslots i s Hs) as (s2 & Hs2 & Hrel).
  assert (s2 = s') as -> by congruence.
  destruct (decide (i < 0 + length (table z))%nat) as [|Hge]; [done|].
  apply lookup_lt_Some in Hs. lia.
Qed.

Lemma idle_marked_ulong w w' : idle_marked w w' -> is_ulong w'.
Proof. by intros [? _]. Qed.

Lemma idle_cleared_ulong w w' : idle_cleared w w' -> is_ulong w'.
Proof. by intros [? _]. Qed.


(** X5.  [new_store], written "all" on an initialised device, returns [len]
    and leaves every slot without ZRAM_IDLE and with idle counter 0; the
    size, the other flags and the payload of every slot, and everything
    else in the device, stay as they are.  (The device is below 2^44 bytes,
    so that the loop index of the code, an [unsigned int], reaches the
    number of pages.) *)
Theorem new_store_clears z len :
  table_ulong z -> table_unlocked z ->
  Z.to_nat (Z.shiftr (disksize z) PAGE_SHIFT) = length (table z) ->
  0 < disksize z < 2 ^ 44 ->
  exists t',
    new_store true len z = Some (len, set_table z t') /\
    slots_related idle_cleared (table z) t'.
Proof.
  intros Hu Hl Hn Hd. unfold new_store. cbn [negb]. unfold init_done.
  assert ((disksize z =? 0) = false) as Hd' by (apply Z.eqb_neq; lia).
  rewrite Hd'. cbn [negb]. rewrite Hn.
  destruct (for_range_slots idle_cleared new_store_slot idle_cleared_ulong
              new_store_slot_spec z Hu Hl) as (t' & Hrun & Hrel).
  exists t'. split; [|done]. unfold bind. by rewrite Hrun.
Qed.

(** ** The read path *)

Lemma accessed_word_cleared w : is_ulong w -> idle_cleared w (accessed_word w).
Proof.
  intros Hu. layout. unfold accessed_word.
  split; [by repeat apply is_ulong_land|]. split; [|split].
  - rewrite testbit_low_mask, testbit_clear_flag, Z.eqb_refl by lia.
    cbn [negb]. by rewrite !andb_false_r.
  - unfold idle_count_of. apply Z.bits_inj'. intros b Hb.
    rewrite Z.shiftr_spec, Z.bits_0, testbit_low_mask by lia.
    destruct (Z.ltb_spec (b + ZRAM_WB_IDLE_SHIFT) ZRAM_WB_IDLE_SHIFT); [lia|].
    by rewrite andb_false_r.
  - intros b Hb Hne. rewrite testbit_low_mask, testbit_clear_flag by lia.
    destruct (Z.ltb_spec b ZRAM_WB_IDLE_SHIFT); [|lia].
    destruct (Z.ltb_spec b 64); [|lia].
    destruct (Z.eqb_spec ZRAM_IDLE b); [lia|]. by rewrite !andb_true_r.
Qed.

Lemma idle_cleared_flag w w' f :
  idle_cleared w w' -> ZRAM_FLAG_SHIFT <= f < ZRAM_WB_IDLE_SHIFT -> f <> ZRAM_IDLE ->
  Z.testbit w' f = Z.testbit w f.
Proof. intros (_ & _ & _ & Hb) Hf Hne. layout. apply Hb; [lia|done]. Qed.

Lemma idle_cleared_size w w' : idle_cleared w w' -> obj_size_of w' = obj_size_of w.
Proof.
  intros (_ & _ & _ & Hb). layout. apply obj_size_of_bits. intros b Hb0.
  apply Hb; lia.
Qed.

(** [__zram_bvec_read] in closed form. *)
Lemma __zram_bvec_read_spec dst z index s partial_io access :
  table z !! index = Some s -> is_ulong (flags s) ->
  Z.testbit (flags s) ZRAM_LOCK = false ->
  __zram_bvec_read dst index partial_io access z
  = Some (slot_content z s dst partial_io,
          set_stats
            (set_table z
               (<[index := mk_slot (element s)
                             (if access then accessed_word (flags s) else flags s)]>
                  (table z)))
            (if Z.testbit (flags s) ZRAM_WB
             then stat_add bd_reads 1 (stats z) else stats z)).
Proof.
  intros H Hu Hl. layout. destruct s as [e w]. cbn [flags element] in *.
  set (w1 := if access then accessed_word w else w).
  assert (is_ulong w1 /\ Z.testbit w1 ZRAM_LOCK = false /\
          Z.testbit w1 ZRAM_WB = Z.testbit w ZRAM_WB /\
          Z.testbit w1 ZRAM_SAME = Z.testbit w ZRAM_SAME /\
          obj_size_of w1 = obj_size_of w) as (Hu1 & Hl1 & Hwb1 & Hsame1 & Hsz1).
  { unfold w1. destruct access; [|done].
    pose proof (accessed_word_cleared w Hu) as Hc.
    split; [apply Hc|].
    rewrite !(idle_cleared_flag w _ _ Hc) by first [lia | flag_ne].
    rewrite (idle_cleared_size _ _ Hc). done. }
  cut (runs (__zram_bvec_read dst index partial_io access) z (fun r z' =>
    r = slot_content z (mk_slot e w) dst partial_io /\
    z' = set_stats (set_table z (<[index := mk_slot e w1]> (table z)))
           (if Z.testbit w ZRAM_WB then stat_add bd_reads 1 (stats z) else stats z))).
  { by intros (r & z' & -> & -> & ->). }
  unfold __zram_bvec_read.
  apply runs_bind. eapply runs_slot_lock; [done..|]. cbn [flags element].
  (* the word under the lock *)
  assert (runs (when access (zram_accessed index))
            (set_table z (<[index := mk_slot e (Z.lor w (BIT ZRAM_LOCK))]> (table z)))
            (fun _ z' => exists x,
               z' = set_table z (<[index := mk_slot e x]> (table z)) /\
               Z.land x (ulong_not (BIT ZRAM_LOCK)) = w1 /\
               Z.testbit x ZRAM_WB = Z.testbit w ZRAM_WB /\
               Z.testbit x ZRAM_SAME = Z.testbit w ZRAM_SAME /\
               obj_size_of x = obj_size_of w)) as Hacc.
  { unfold w1. destruct access; cbn [when].
    - mrun H. eexists. split; [reflexivity|]. split; [|split; [|split]].
      + apply unlock_word; [done..|]. intros b Hb Hne. unfold accessed_word.
        rewrite !testbit_low_mask, !testbit_clear_flag, testbit_set_flag by lia.
        destruct (Z.eqb_spec ZRAM_LOCK b); [lia|]. by rewrite orb_false_r.
      + rewrite testbit_low_mask, testbit_clear_flag, testbit_set_flag by lia.
        cmp; try flag_neq. by rewrite orb_false_r, !andb_true_r.
      + rewrite testbit_low_mask, testbit_clear_flag, testbit_set_flag by lia.
        cmp; try flag_neq. by rewrite orb_false_r, !andb_true_r.
      + apply obj_size_of_bits. intros b Hb.
        rewrite testbit_low_mask, testbit_clear_flag, testbit_set_flag by lia.
        cmp. by rewrite orb_false_r, !andb_true_r.
    - apply runs_ret. eexists. split; [reflexivity|].
      split; [by apply unlock_lock|].
      rewrite !testbit_set_flag_other by first [lia | flag_ne].
      by rewrite obj_size_of_set_flag by lia. }
  apply runs_bind. eapply runs_mono; [exact Hacc|]. clear Hacc.
  intros [] z1 (x & -> & Hx & Hxwb & Hxsame & Hxsz). cbv beta.
  assert (table (set_table z (<[index := mk_slot e x]> (table z))) !! index
          = Some (mk_slot e x)) as H1 by (by eapply lookup_insert_table).
  unfold slot_content. cbn [flags element].
  apply runs_bind. eapply runs_test_flag; [exact H1|lia|]. cbn [flags].
  rewrite Hxwb. destruct (Z.testbit w ZRAM_WB).
  - mrun H. rewrite Hx. unfold read_from_bdev, bdev_read_result.
    mrun H. destruct partial_io; [by mrun H|]. cbv zeta.
    destruct (bdev_read_submit e =? 1); mrun H; done.
  - mrun H. rewrite Hxsame.
    destruct ((e =? 0) || Z.testbit w ZRAM_SAME) eqn:Hc.
    + mrun H. rewrite Hx. split; [|done]. f_equal. f_equal.
      destruct (Z.eqb_spec e 0) as [->|]; done.
    + mrun H. rewrite Hx, Hxsz. done.
Qed.

(** X6.  A read does not change what a slot holds.  [__zram_bvec_read]
    returns for every slot whose lock is free; it leaves the payload, the
    pool, the bitmap and the backing device as they are; with [access] it
    clears ZRAM_IDLE and the idle counter and nothing else in the flags
    word, without it the flags word stays; and a second read returns the
    same result. *)
Theorem zram_bvec_read_repeatable dst z index s partial_io access :
  table z !! index = Some s -> is_ulong (flags s) ->
  Z.testbit (flags s) ZRAM_LOCK = false ->
  exists r z1 w1,
    __zram_bvec_read dst index partial_io access z = Some (r, z1) /\
    table z1 = <[index := mk_slot (element s) w1]> (table z) /\
    (if access then idle_cleared (flags s) w1 else w1 = flags s) /\
    mem_pool z1 = mem_pool z /\ bitmap z1 = bitmap z /\
    bdev_blocks z1 = bdev_blocks z /\
    forall access', exists z2,
      __zram_bvec_read dst index partial_io access' z1 = Some (r, z2).
Proof.
  intros H Hu Hl. layout.
  rewrite (__zram_bvec_read_spec dst z index s partial_io access H Hu Hl).
  set (w1 := if access then accessed_word (flags s) else flags s).
  assert (is_ulong w1 /\ Z.testbit w1 ZRAM_LOCK = false /\
          Z.testbit w1 ZRAM_WB = Z.testbit (flags s) ZRAM_WB /\
          Z.testbit w1 ZRAM_SAME = Z.testbit (flags s) ZRAM_SAME /\
          obj_size_of w1 = obj_size_of (flags s)) as (Hu1 & Hl1 & Hwb1 & Hsame1 & Hsz1).
  { unfold w1. destruct access; [|done].
    pose proof (accessed_word_cleared (flags s) Hu) as Hc.
    split; [apply Hc|].
    rewrite !(idle_cleared_flag (flags s) _ _ Hc) by first [lia | flag_ne].
    rewrite (idle_cleared_size _ _ Hc). done. }
  eexists _, _, w1. split; [reflexivity|].
  cbn [table mem_pool bitmap bdev_blocks set_table set_stats].
  split; [done|]. split.
  { unfold w1. destruct access; [by apply accessed_word_cleared|done]. }
  split; [done|]. split; [done|]. split; [done|].
  intros access'. eexists.
  erewrite __zram_bvec_read_spec;
    [|cbn [table set_table set_stats]; by eapply lookup_insert_table|done|done].
  f_equal. f_equal.
  unfold slot_content, bdev_read_result.
  cbn [flags element mem_pool bdev_blocks set_table set_stats].
  by rewrite Hwb1, Hsame1, Hsz1.
Qed.

(** ** Discard *)

(** What [zram_free_page] followed by the release of the lock leaves. *)
Lemma free_page_unlock_freed w e w1 :
  is_ulong w -> Z.testbit w ZRAM_LOCK = false ->
  (forall b, 0 <= b -> Z.testbit w1 b = free_page_bit (Z.lor w (BIT ZRAM_LOCK)) e b) ->
  slot_freed (mk_slot e w) (mk_slot 0 (Z.land w1 (ulong_not (BIT ZRAM_LOCK)))).
Proof.
  intros Hu Hl Hb. layout. unfold slot_freed. cbn [element flags].
  assert (forall f, ZRAM_FLAG_SHIFT <= f < ZRAM_WB_IDLE_SHIFT -> f <> ZRAM_LOCK ->
    Z.testbit (Z.land w1 (ulong_not (BIT ZRAM_LOCK))) f = free_page_bit w e f) as Hf.
  { intros f Hf Hne. rewrite testbit_clear_flag, Hb by lia.
    rewrite free_page_bit_locked by done.
    destruct (Z.ltb_spec f 64); [|lia].
    destruct (Z.eqb_spec ZRAM_LOCK f); [congruence|]. by rewrite !andb_true_r. }
  split; [done|]. split; [apply is_ulong_land_not; lia|].
  split.
  { rewrite testbit_clear_flag, Z.eqb_refl by lia. by rewrite andb_false_r. }
  rewrite !Hf by first [lia | flag_ne].
  unfold free_page_bit. rewrite !Z.eqb_refl. cbn [negb andb].
  rewrite !andb_false_r. cbn [andb].
  repeat (split; [done|]).
  cmp; try flag_neq. all: cbn [negb andb]; by rewrite !andb_true_r.
Qed.

(** One page of a discard. *)
Lemma zram_bio_discard_slot_spec z index s :
  table z !! index = Some s -> is_ulong (flags s) ->
  Z.testbit (flags s) ZRAM_LOCK = false ->
  runs (zram_bio_discard_slot index) z (fun _ z' => exists s',
    table z' = <[index := s']> (table z) /\ slot_freed s s' /\
    stats z' notify_free = stats z notify_free + 1 /\
    mem_pool z' = (if Z.testbit (flags s) ZRAM_WB || Z.testbit (flags s) ZRAM_SAME
                      || (element s =? 0)
                   then mem_pool z else delete (element s) (mem_pool z)) /\
    bdev_blocks z' = bdev_blocks z).
Proof.
  intros H Hu Hl. layout. destruct s as [e w]. cbn [flags element] in *.
  unfold zram_bio_discard_slot.
  apply runs_bind. eapply runs_slot_lock; [done..|]. cbn [flags element].
  apply runs_bind. eapply runs_mono.
  { eapply zram_free_page_spec.
    - cbn [table set_table]. by eapply lookup_insert_table.
    - cbn [flags]. apply is_ulong_set_flag; [done|lia]. }
  cbn [flags element table set_table bitmap mem_pool stats].
  intros [] z1 (w1 & Ht & Hb & Hw0 & Hsame & Hbm & Hpool & Hst).
  rewrite list_insert_insert_eq in Ht.
  assert (table z1 !! index = Some (mk_slot 0 w1)) as H1.
  { rewrite Ht. by eapply lookup_insert_table. }
  mrun H1. eexists. split.
  { rewrite Ht, list_insert_insert_eq. reflexivity. }
  split; [by apply free_page_unlock_freed|].
  split; [|split].
  - unfold stat_add. rewrite decide_True by done. rewrite Hst by done. done.
  - rewrite Hpool. rewrite !testbit_set_flag_other by first [lia | flag_ne]. done.
  - apply Hsame.
Qed.

(** A freed slot reads as a page of zeros. *)
Lemma slot_freed_reads_zero dst z index s s' partial_io access :
  table z !! index = Some s' -> slot_freed s s' ->
  exists z2,
    __zram_bvec_read dst index partial_io access z
    = Some ((0, zram_fill_page PAGE_SIZE 0), z2).
Proof.
  intros H (He & Hu & Hl & Hwb & _). eexists.
  rewrite (__zram_bvec_read_spec dst z index s' partial_io access H Hu Hl).
  f_equal. f_equal. unfold slot_content. rewrite Hwb, He. done.
Qed.

(** X7.  After the discard of a page the slot holds nothing: its entry is
    null, ZRAM_WB, ZRAM_IDLE, ZRAM_HUGE and ZRAM_COMPRESS_LOW are clear, the
    lock is released, the pool entry it held is gone, [notify_free] has
    counted it, and every read of the slot returns 0 and a page of zeros. *)
Theorem zram_bio_discard_slot_zero z index s :
  table z !! index = Some s -> is_ulong (flags s) ->
  Z.testbit (flags s) ZRAM_LOCK = false ->
  exists z1 s1,
    zram_bio_discard_slot index z = Some (tt, z1) /\
    table z1 = <[index := s1]> (table z) /\ slot_freed s s1 /\
    stats z1 notify_free = stats z notify_free + 1 /\
    (Z.testbit (flags s) ZRAM_WB = false -> Z.testbit (flags s) ZRAM_SAME = false ->
     mem_pool z1 !! element s = None \/ element s = 0) /\
    forall dst partial_io access, exists z2,
      __zram_bvec_read dst index partial_io access z1
      = Some ((0, zram_fill_page PAGE_SIZE 0), z2).
Proof.
  intros H Hu Hl.
  destruct (zram_bio_discard_slot_spec z index s H Hu Hl)
    as ([] & z1 & Hrun & s1 & Ht & Hfreed & Hst & Hpool & _).
  exists z1, s1. split; [done|]. split; [done|]. split; [done|]. split; [done|].
  split.
  - intros Hwb Hsame. rewrite Hpool, Hwb, Hsame. cbn [orb].
    destruct (Z.eqb_spec (element s) 0); [by right|left]. apply lookup_delete_eq.
  - intros dst partial_io access.
    apply (slot_freed_reads_zero dst z1 index s s1); [|done].
    rewrite Ht. by eapply lookup_insert_table.
Qed.

(** A loop over the slots [[from, from + count)], each changed under its
    lock as [P] says. *)
Lemma for_range_table (P : zram_table_entry -> zram_table_entry -> Prop)
    (body : nat -> M unit) from count z :
  (forall zk i s, table zk !! i = Some s -> is_ulong (flags s) ->
     Z.testbit (flags s) ZRAM_LOCK = false ->
     runs (body i) zk (fun _ z' => exists s',
       table z' = <[i := s']> (table zk) /\ P s s')) ->
  table_ulong z -> table_unlocked z -> (from + count <= length (table z))%nat ->
  runs (for_range from count body) z (fun _ z' =>
    length (table z') = length (table z) /\
    forall j s, table z !! j = Some s ->
      exists s', table z' !! j = Some s' /\
        if decide (from <= j < from + count)%nat then P s s' else s' = s).
Proof.
  intros Hbody Hu Hl Hlen.
  set (I := fun (k : nat) (zk : zram) =>
    length (table zk) = length (table z) /\
    forall j s, table z !! j = Some s ->
      exists s', table zk !! j = Some s' /\
        if decide (from <= j < k)%nat then P s s' else s' = s).
  apply (runs_for_range I).
  - split; [done|]. intros j s Hs. exists s. split; [done|].
    destruct (decide (from <= j < from)%nat); [lia|done].
  - intros k zk Hk (Hlenk & Hslots).
    destruct (lookup_lt_is_Some_2 (table z) k ltac:(lia)) as [s Hs].
    destruct (Hslots k s Hs) as (sk & Hsk & Hrel).
    destruct (decide (from <= k < k)%nat); [lia|]. subst sk.
    eapply runs_mono; [by apply (Hbody zk k s Hsk (Hu _ _ Hs) (Hl _ _ Hs))|].
    intros [] z' (s' & Ht & HP). unfold I. rewrite Ht.
    split; [by rewrite length_insert|].
    intros j sj Hsj. destruct (decide (j = k)) as [->|Hne].
    + exists s'. rewrite list_lookup_insert_eq by (by eapply lookup_lt_Some).
      split; [done|]. destruct (decide (from <= k < S k)%nat); [|lia].
      assert (sj = s) as -> by congruence. done.
    + rewrite list_lookup_insert_ne by done.
      destruct (Hslots j sj Hsj) as (s2 & Hs2 & Hrel'). exists s2. split; [done|].
      destruct (decide (from <= j < k)%nat), (decide (from <= j < S k)%nat);
        try lia; done.
Qed.

(** The pages that [zram_bio_discard] frees. *)
Lemma zram_bio_discard_pages z index offset b :
  0 <= offset < PAGE_SIZE -> 0 <= bi_size b ->
  table_ulong z -> table_unlocked z ->
  Z.of_nat index * PAGE_SIZE + offset + bi_size b
    <= Z.of_nat (length (table z)) * PAGE_SIZE ->
  exists z',
    zram_bio_discard index offset b z = Some (tt, z') /\
    length (table z') = length (table z) /\
    forall j s, table z !! j = Some s ->
      exists s', table z' !! j = Some s' /\
        ((page_covered (Z.of_nat index * PAGE_SIZE + offset) (bi_size b) j /\
          slot_freed s s') \/
         (~ page_covered (Z.of_nat index * PAGE_SIZE + offset) (bi_size b) j /\
          s' = s)).
Proof.
  intros Ho Hn Hu Hl Hend. change PAGE_SIZE with 4096 in *.
  set (first := if offset =? 0 then index else S index).
  set (bytes := if offset =? 0 then bi_size b else bi_size b - (4096 - offset)).
  assert (forall j, (first <= j < first + Z.to_nat (bytes / 4096))%nat <->
            page_covered (Z.of_nat index * 4096 + offset) (bi_size b) j) as Hcov.
  { intros j. unfold page_covered, first, bytes. change PAGE_SIZE with 4096.
    destruct (Z.eqb_spec offset 0) as [->|Hne].
    - pose proof (Z.div_mod (bi_size b) 4096 ltac:(lia)).
      pose proof (Z.mod_pos_bound (bi_size b) 4096 ltac:(lia)).
      assert (0 <= bi_size b / 4096) by (apply Z.div_pos; lia). lia.
    - destruct (Z.le_gt_cases (4096 - offset) (bi_size b)).
      + pose proof (Z.div_mod (bi_size b - (4096 - offset)) 4096 ltac:(lia)).
        pose proof (Z.mod_pos_bound (bi_size b - (4096 - offset)) 4096 ltac:(lia)).
        assert (0 <= (bi_size b - (4096 - offset)) / 4096) by (apply Z.div_pos; lia).
        lia.
      + assert ((bi_size b - (4096 - offset)) / 4096 < 0)
          by (apply Z.div_lt_upper_bound; lia).
        lia. }
  assert (first + Z.to_nat (bytes / 4096) <= length (table z))%nat as Hlen.
  { destruct (Z.to_nat (bytes / 4096)) as [|c] eqn:Hc.
    - assert (first <= length (table z))%nat; [|lia]. unfold first.
      destruct (Z.eqb_spec offset 0); lia.
    - rewrite <- Hc.
      assert (page_covered (Z.of_nat index * 4096 + offset) (bi_size b)
                (first + c)%nat) as [_ Hc2] by (apply Hcov; lia).
      change PAGE_SIZE with 4096 in Hc2. lia. }
  assert (runs (for_range first (Z.to_nat (bytes / 4096)) zram_bio_discard_slot) z
    (fun _ z' =>
       length (table z') = length (table z) /\
       forall j s, table z !! j = Some s ->
         exists s', table z' !! j = Some s' /\
           if decide (first <= j < first + Z.to_nat (bytes / 4096))%nat
           then slot_freed s s' else s' = s)) as Hloop.
  { apply for_range_table; [|done..].
    intros zk i s Hs Hus Hls.
    eapply runs_mono; [by apply zram_bio_discard_slot_spec|].
    intros [] z' (s' & Ht & Hf & _). by exists s'. }
  assert (runs (zram_bio_discard index offset b) z (fun _ z' =>
       length (table z') = length (table z) /\
       forall j s, table z !! j = Some s ->
         exists s', table z' !! j = Some s' /\
           if decide (first <= j < first + Z.to_nat (bytes / 4096))%nat
           then slot_freed s s' else s' = s)) as Hrun.
  { unfold zram_bio_discard. change PAGE_SIZE with 4096.
    unfold first, bytes in *.
    destruct (Z.eqb_spec offset 0) as [->|Hne]; cbn [negb]; [exact Hloop|].
    destruct (Z.leb_spec (bi_size b) (4096 - offset)); [|exact Hloop].
    apply runs_ret. split; [done|]. intros j s Hs. exists s. split; [done|].
    assert ((bi_size b - (4096 - offset)) / 4096 <= 0).
    { destruct (Z.eq_dec (bi_size b) (4096 - offset)) as [->|].
      - by rewrite Z.sub_diag.
      - assert ((bi_size b - (4096 - offset)) / 4096 < 0)
          by (apply Z.div_lt_upper_bound; lia). lia. }
    destruct (decide _); [lia|done]. }
  destruct Hrun as ([] & z' & Hrun & Hlen' & Hslots).
  exists z'. split; [done|]. split; [done|].
  intros j s Hs. destruct (Hslots j s Hs) as (s' & Hs' & Hrel).
  exists s'. split; [done|].
  destruct (decide (first <= j < first + Z.to_nat (bytes / 4096))%nat) as [Hin|Hout].
  - left. split; [by apply Hcov|done].
  - right. split; [|done]. intros Hc. apply Hout. by apply Hcov.
Qed.

(** X8.  [zram_bio_discard] of [bi_size] bytes from byte [offset] of page
    [index] frees exactly the slots whose page lies entirely inside that
    byte range: such a slot is freed (and then reads as zeros), every other
    slot, in particular a page that the range covers only in part, is left
    as it is.  (The table has fewer than 2^32 slots, the range of the [u32]
    index of the code.) *)
Theorem zram_bio_discard_covered z index offset b :
  0 <= offset < PAGE_SIZE -> 0 <= bi_size b < 2 ^ 32 ->
  table_ulong z -> table_unlocked z -> Z.of_nat (length (table z)) < 2 ^ 32 ->
  Z.of_nat index * PAGE_SIZE + offset + bi_size b
    <= Z.of_nat (length (table z)) * PAGE_SIZE ->
  exists z',
    zram_bio_discard index offset b z = Some (tt, z') /\
    length (table z') = length (table z) /\
    forall j s, table z !! j = Some s ->
      exists s', table z' !! j = Some s' /\
        ((page_covered (Z.of_nat index * PAGE_SIZE + offset) (bi_size b) j /\
          slot_freed s s') \/
         (~ page_covered (Z.of_nat index * PAGE_SIZE + offset) (bi_size b) j /\
          s' = s)).
Proof.
  intros Ho Hn Hu Hl _ Hend. apply zram_bio_discard_pages; [done|lia|done..].
Qed.



(** ** The block bitmap *)


(** X10.  Blocks are handed out in increasing order: of two allocations in
    a row, the second returns a block above the first, or 0 when the
    backing device is full (and then the first found it full as well, or
    took the last free block). *)
Theorem alloc_block_bdev_twice z :
  exists b1 z1 b2 z2,
    alloc_block_bdev z = Some (b1, z1) /\
    alloc_block_bdev z1 = Some (b2, z2) /\
    (b2 = 0 \/ 0 < b1 < b2) /\
    (b1 = 0 -> b2 = 0).
Proof.
  pose proof (find_next_zero_bit_spec (bitmap z) (nr_pages z) 1) as Hf.
  cbv zeta in Hf. destruct Hf as (Hset & Hr).
  rewrite alloc_block_bdev_eq. cbv zeta.
  set (b := find_next_zero_bit (bitmap z) (nr_pages z) 1) in *.
  destruct (Z.eqb_spec b (nr_pages z)) as [Heq|Hne].
  - exists 0, z, 0, z. split; [done|].
    rewrite alloc_block_bdev_eq. cbv zeta. fold b. rewrite Heq, Z.eqb_refl.
    split; [done|]. split; [by left|done].
  - destruct Hr as [?|[Hrange Hclr]]; [done|].
    set (z1 := set_stats (set_bitmap z (Z.setbit (bitmap z) b))
                 (stat_add bd_count 1 (stats z))).
    pose proof (find_next_zero_bit_spec (bitmap z1) (nr_pages z1) 1) as Hf1.
    cbv zeta in Hf1. destruct Hf1 as (_ & Hr1).
    exists b, z1. rewrite alloc_block_bdev_eq. cbv zeta.
    set (b2 := find_next_zero_bit (bitmap z1) (nr_pages z1) 1) in *.
    destruct (Z.eqb_spec b2 (nr_pages z1)) as [Heq2|Hne2].
    + exists 0, z1. split; [done|]. split; [done|]. split; [by left|lia].
    + eexists _, _. split; [done|]. split; [reflexivity|].
      split; [|lia]. right. split; [lia|].
      destruct Hr1 as [?|[Hrange1 Hclr1]]; [done|].
      unfold z1 in Hclr1. cbn [bitmap set_stats set_bitmap] in Hclr1.
      rewrite Z.setbit_eqb in Hclr1 by lia.
      apply orb_false_iff in Hclr1 as [Hne3 Hclr1]. apply Z.eqb_neq in Hne3.
      destruct (Z.lt_trichotomy b2 b) as [Hlt|[?|?]]; [|congruence|done].
      rewrite Hset in Hclr1 by lia. done.
Qed.

(** ** writeback_store that cannot start *)

Lemma find_next_zero_bit_full addr size :
  (forall i, 1 <= i < size -> Z.testbit addr i = true) ->
  find_next_zero_bit addr size 1 = size.
Proof.
  intros Hfull. pose proof (find_next_zero_bit_spec addr size 1) as Hf.
  cbv zeta in Hf. destruct Hf as (_ & [Heq|[Hr Hclr]]); [done|].
  rewrite Hfull in Hclr by done. done.
Qed.

(** X11.  When the writeback limit is enabled and used up, or when the
    backing device has no free block, [writeback_store] writes nothing and
    changes nothing in the device, and it still returns [len]: the -EIO or
    -ENOSPC that stopped the loop is overwritten before the return. *)
Theorem writeback_store_cannot_start z buf len :
  match buf with
  | Input_idle args => (length args <= 2)%nat
  | Input_huge => True
  | Input_other => False
  end ->
  disksize z <> 0 -> backing_dev z = true -> writeback_pages z = true ->
  (wb_limit_enable z = true /\ bd_wb_limit z = 0) \/
  (forall i, 1 <= i < nr_pages z -> Z.testbit (bitmap z) i = true) ->
  writeback_store buf len z = Some ((len, 0), z).
Proof.
  intros Hbuf Hd Hbd Hwp Hstop.
  assert (forall mode wb_max wb_idle_min index,
    exists l', writeback_iter mode wb_max wb_idle_min index (mk_wb 0 0 0 0 0 [] 0) z
      = Some ((l', true), z) /\ nr_write l' = 0 /\ blk_idx l' = 0 /\
        wb_pages_nr l' = 0) as Hiter.
  { intros mode wb_max wb_idle_min index. unfold writeback_iter.
    destruct (sigusr1_pending index); [by eexists|].
    unfold bind at 1, gets at 1. unfold bind at 1, gets at 1.
    destruct Hstop as [[-> ->]|Hfull]; cbn [andb]; [by eexists|].
    destruct (wb_limit_enable z && (bd_wb_limit z =? 0)); [by eexists|].
    cbn [blk_idx]. change (0 =? 0) with true. cbv iota.
    unfold bind at 1. rewrite alloc_block_bdev_eq. cbv zeta.
    rewrite find_next_zero_bit_full by done. rewrite Z.eqb_refl.
    change (0 =? 0) with true. cbv iota. by eexists. }
  assert (forall mode wb_max wb_idle_min,
    (fun z0 : zram =>
       let nr_pages := Z.shiftr (disksize z0) PAGE_SHIFT in
       if negb (init_done z0) then Some ((- EINVAL, 0), z0)
       else if negb (backing_dev z0) then Some ((- ENODEV, 0), z0)
       else if negb (writeback_pages z0) then Some ((- ENOMEM, 0), z0)
       else
         (l <- writeback_loop mode wb_max wb_idle_min 0 (Z.to_nat nr_pages)
                 (mk_wb 0 0 0 0 0 [] 0) ;;
          n <- (if negb (nr_write l =? 0) then
                  wait_for_writeback_batch (start_blkidx l) (nr_write l)
                    (batch_pages l)
                else ret 0) ;;
          when (negb (blk_idx l =? 0)) (free_block_bdev (blk_idx l)) ;;
          ret (len, wb_pages_nr l + n)) z0) z = Some ((len, 0), z)) as Hcore.
  { intros mode wb_max wb_idle_min. cbv beta zeta. unfold init_done.
    apply Z.eqb_neq in Hd. rewrite Hd, Hbd, Hwp. cbn [negb].
    assert (exists l',
      writeback_loop mode wb_max wb_idle_min 0
        (Z.to_nat (Z.shiftr (disksize z) PAGE_SHIFT)) (mk_wb 0 0 0 0 0 [] 0) z
      = Some (l', z) /\ nr_write l' = 0 /\ blk_idx l' = 0 /\ wb_pages_nr l' = 0)
      as (l' & Hloop & Hnw & Hblk & Hwp').
    { destruct (Z.to_nat (Z.shiftr (disksize z) PAGE_SHIFT)) as [|c];
        cbn [writeback_loop]; [by eexists|].
      destruct (Hiter mode wb_max wb_idle_min 0%nat) as (l' & Hrun & Hl').
      exists l'. split; [|done]. unfold bind. by rewrite Hrun. }
    unfold bind at 1. rewrite Hloop. unfold bind at 1.
    rewrite Hnw. change (0 =? 0) with true. cbn [negb]. unfold ret at 1.
    unfold bind at 1. rewrite Hblk. change (0 =? 0) with true. cbn [negb when].
    unfold ret. by rewrite Hwp'. }
  unfold writeback_store.
  destruct buf as [args| |]; [|exact (Hcore _ _ _)|done].
  destruct args as [|m [|i [|j rest]]]; cbn [writeback_parse_input];
    [exact (Hcore _ _ _)..|cbn in Hbuf; lia].
Qed.

(** ** The pages of a batch after the bio *)


(** The page of a slot that is still as selected is recorded as written
    back. *)
Lemma writeback_batch_reconcile_done start batch i bp z s :
  batch !! i = Some bp -> table z !! batch_index bp = Some s ->
  is_ulong (flags s) -> Z.testbit (flags s) ZRAM_LOCK = false ->
  slot_allocated (flags s) = true -> Z.testbit (flags s) ZRAM_IDLE = true ->
  runs (writeback_batch_reconcile start batch i) z (fun n z' =>
    n = 1 /\ bdev_blocks z' = bdev_blocks z /\
    exists s', table z' = <[batch_index bp := s']> (table z) /\
      slot_written_back (start + Z.of_nat i) s').
Proof.
  intros Hbp H Hu Hl Hal Hidle. layout. destruct s as [e w]. cbn [flags element] in *.
  eapply runs_ext; [unfold writeback_batch_reconcile; rewrite Hbp; reflexivity|].
  cbv zeta. apply runs_bind, runs_atomic64_add. norm.
  apply runs_bind. eapply runs_slot_lock; [exact H|done|]. cbn [flags element]. norm.
  apply runs_bind. eapply runs_allocated; [slot H|]. cbn [flags].
  rewrite slot_allocated_set_flag by first [lia | flag_ne].
  mrun H. rewrite testbit_set_flag_other by first [lia | flag_ne].
  rewrite Hal, Hidle. cbn [negb orb]. cbv iota.
  apply runs_bind. eapply runs_mono.
  { eapply zram_free_page_spec.
    - cbn [table]. by eapply lookup_insert_table.
    - cbn [flags]. apply is_ulong_set_flag; [done|lia]. }
  cbn [flags element table bitmap mem_pool stats].
  intros [] z1 (w1 & Ht & Hb & Hw0 & Hsame & Hbm & Hpool & Hst).
  rewrite list_insert_insert_eq in Ht.
  assert (table z1 !! batch_index bp = Some (mk_slot 0 w1)) as H1.
  { rewrite Ht. by eapply lookup_insert_table. }
  cbv beta.
  assert (forall (Q : Z -> zram -> Prop) zq x,
    table zq = <[batch_index bp := mk_slot (start + Z.of_nat i) x]> (table z) ->
    (forall zr, table zr = <[batch_index bp := mk_slot (start + Z.of_nat i)
                     (Z.land x (ulong_not (BIT ZRAM_LOCK)))]> (table z) ->
                bdev_blocks zr = bdev_blocks zq -> Q 1 zr) ->
    runs (zram_slot_unlock (batch_index bp);; ret 1) zq Q) as Hend.
  { intros Q zq x Htq HQ.
    assert (table zq !! batch_index bp = Some (mk_slot (start + Z.of_nat i) x)) as Hq.
    { rewrite Htq. by eapply lookup_insert_table. }
    apply runs_bind. eapply runs_slot_unlock; [exact Hq|]. apply runs_ret.
    apply HQ; [|done]. cbn [table set_table element]. rewrite Htq.
    by rewrite list_insert_insert_eq. }
  mrun H1.
  destruct (wb_limit_enable z1 && (0 <? bd_wb_limit z1)); cbn [when].
  all: first [ apply runs_ret | eexists _, _; split; [reflexivity|] ].
  all: eapply Hend; [cbn [table]; rewrite Ht, !list_insert_insert_eq; reflexivity|].
  all: intros zr Htr Hblk; split; [done|]; split;
    [rewrite Hblk; cbn [bdev_blocks]; apply Hsame|].
  all: eexists; split; [exact Htr|].
  all: unfold slot_written_back; cbn [element flags].
  all: split; [done|]; split; [apply is_ulong_land_not; lia|].
  all: rewrite !testbit_clear_flag, !testbit_set_flag, !testbit_clear_flag, !Hb by lia.
  all: rewrite !Z.eqb_refl; unfold free_page_bit; rewrite !Z.eqb_refl.
  all: cbn [negb andb orb]; rewrite ?andb_false_r, ?orb_true_r; cbn [andb orb].
  all: repeat (split; [try reflexivity|]); try reflexivity.
  all: cmp; try flag_neq; cbn [negb andb orb]; rewrite ?andb_false_r; try reflexivity.
Qed.

Lemma runs_sum_range_all (I : nat -> zram -> Prop) body count : forall from acc z,
  I from z ->
  (forall k zk, (from <= k < from + count)%nat -> I k zk ->
     runs (body k) zk (fun n z' => n = 1 /\ I (S k) z')) ->
  runs (sum_range from count body acc) z
    (fun n z' => n = acc + Z.of_nat count /\ I (from + count)%nat z').
Proof.
  induction count as [|c IH]; intros from acc z HI Hbody; cbn [sum_range].
  - apply runs_ret. rewrite Nat.add_0_r. split; [lia|done].
  - apply runs_bind. eapply runs_mono; [apply Hbody; [lia|done]|].
    intros n z1 [-> HI1]. cbv beta. eapply runs_mono.
    + apply IH; [done|]. intros k zk Hk. apply Hbody. lia.
    + intros n' z2 [-> HI2]. split; [lia|].
      by replace (from + S c)%nat with (S from + c)%nat by lia.
Qed.

Lemma write_blocks_lookup pages : forall blocks blk k,
  write_blocks blocks blk pages !! k
  = if decide (blk <= k < blk + Z.of_nat (length pages))
    then pages !! Z.to_nat (k - blk) else blocks !! k.
Proof.
  induction pages as [|p rest IH]; intros blocks blk k; cbn [write_blocks length].
  - destruct (decide _); [lia|done].
  - rewrite IH. destruct (decide (blk + 1 <= k < blk + 1 + Z.of_nat (length rest))).
    + destruct (decide _); [|lia].
      replace (Z.to_nat (k - blk)) with (S (Z.to_nat (k - (blk + 1)))) by lia. done.
    + destruct (decide (blk <= k < blk + Z.of_nat (S (length rest)))).
      * assert (k = blk) as -> by lia. rewrite lookup_insert_eq.
        by replace (Z.to_nat (blk - blk)) with 0%nat by lia.
      * rewrite lookup_insert_ne by lia. done.
Qed.


(** ** Writing a page and reading it back *)

(** The write path from the label [out:] on, for a page stored in the pool
    object [h]. *)
Lemma __zram_bvec_write_out_entry z index s h comp_len :
  table z !! index = Some s -> is_ulong (flags s) ->
  Z.testbit (flags s) ZRAM_LOCK = false ->
  0 <= comp_len <= PAGE_SIZE ->
  runs (__zram_bvec_write_out index 0 0 h comp_len 0) z (fun r z' =>
    r = 0 /\ exists w',
      table z' = <[index := mk_slot h w']> (table z) /\
      is_ulong w' /\
      Z.testbit w' ZRAM_LOCK = false /\
      Z.testbit w' ZRAM_WB = false /\
      Z.testbit w' ZRAM_SAME
        = Z.testbit (flags s) ZRAM_SAME && Z.testbit (flags s) ZRAM_WB /\
      obj_size_of w' = comp_len /\
      mem_pool z' = (if Z.testbit (flags s) ZRAM_WB || Z.testbit (flags s) ZRAM_SAME
                        || (element s =? 0)
                     then mem_pool z else delete (element s) (mem_pool z)) /\
      disksize z' = disksize z).
Proof.
  intros H Hu Hl Hlen. layout. destruct s as [e w]. cbn [flags element] in *.
  unfold __zram_bvec_write_out.
  apply runs_bind. eapply runs_slot_lock; [done..|]. cbn [flags element].
  apply runs_bind. eapply runs_mono.
  { eapply zram_free_page_spec.
    - cbn [table set_table]. by eapply lookup_insert_table.
    - cbn [flags]. apply is_ulong_set_flag; [done|lia]. }
  cbn [flags element table set_table bitmap mem_pool stats].
  intros [] z1 (w1 & Ht & Hb & Hw0 & Hsame & Hbm & Hpool & Hst).
  rewrite list_insert_insert_eq in Ht.
  assert (table z1 !! index = Some (mk_slot 0 w1)) as H1.
  { rewrite Ht. by eapply lookup_insert_table. }
  cbn [Z.eqb negb]. cbv iota.
  assert (forall b, ZRAM_FLAG_SHIFT <= b -> Z.testbit comp_len b = false) as Hsz.
  { intros b Hb0. apply (testbit_above comp_len ZRAM_FLAG_SHIFT); [|done].
    pose proof obj_size_fits. lia. }
  assert (forall Y X,
    (forall b, 0 <= b -> b <> ZRAM_HUGE -> Z.testbit Y b = Z.testbit w1 b) ->
    (forall b, 0 <= b -> b <> ZRAM_COMPRESS_LOW ->
       Z.testbit X b = Z.testbit Y b && (ZRAM_FLAG_SHIFT <=? b) || Z.testbit comp_len b) ->
    let W := Z.land X (ulong_not (BIT ZRAM_LOCK)) in
    is_ulong W /\ Z.testbit W ZRAM_LOCK = false /\ Z.testbit W ZRAM_WB = false /\
    Z.testbit W ZRAM_SAME = Z.testbit w ZRAM_SAME && Z.testbit w ZRAM_WB /\
    obj_size_of W = comp_len) as Hword.
  { intros Y X HY HX W.
    assert (forall f, ZRAM_FLAG_SHIFT <= f < ZRAM_WB_IDLE_SHIFT -> f <> ZRAM_LOCK ->
      f <> ZRAM_HUGE -> f <> ZRAM_COMPRESS_LOW ->
      Z.testbit W f = free_page_bit w e f) as Hf.
    { intros f Hf Hn1 Hn2 Hn3. unfold W.
      rewrite testbit_clear_flag, HX, HY, Hb, Hsz by lia.
      rewrite free_page_bit_locked by done.
      destruct (Z.ltb_spec f 64); [|lia].
      destruct (Z.eqb_spec ZRAM_LOCK f); [congruence|].
      destruct (Z.leb_spec ZRAM_FLAG_SHIFT f); [|lia].
      by rewrite orb_false_r, !andb_true_r. }
    split; [apply is_ulong_land_not; lia|].
    split; [unfold W; rewrite testbit_clear_flag, Z.eqb_refl by lia;
            by rewrite andb_false_r|].
    rewrite !Hf by first [lia | flag_ne].
    unfold free_page_bit. rewrite !Z.eqb_refl. cbn [negb andb].
    rewrite !andb_false_r. cbn [andb].
    split; [done|]. split.
    - cmp; try flag_neq. all: cbn [negb andb]; rewrite ?andb_true_r.
      all: by destruct (Z.testbit w ZRAM_SAME), (Z.testbit w ZRAM_WB).
    - unfold obj_size_of, W. apply Z.bits_inj'. intros b Hb0.
      rewrite testbit_low_mask by lia.
      destruct (Z.ltb_spec b ZRAM_FLAG_SHIFT).
      + rewrite testbit_clear_flag, HX by lia.
        destruct (Z.ltb_spec b 64); [|lia].
        destruct (Z.eqb_spec ZRAM_LOCK b); [lia|].
        destruct (Z.leb_spec ZRAM_FLAG_SHIFT b); [lia|].
        by rewrite andb_false_r, !andb_true_r.
      + rewrite andb_false_r. symmetry. by apply Hsz. }
  destruct (comp_len =? PAGE_SIZE) eqn:Hhuge; cbn [when]; mrun H1.
  all: match goal with
       | |- runs (when ?c _) _ _ => destruct c; cbn [when]
       end.
  all: mrun H1.
  all: split; [done|]; eexists; split; [rewrite Ht, list_insert_insert_eq; reflexivity|].
  all: match goal with
       | |- is_ulong (Z.land ?X _) /\ _ =>
           match X with
           | context [Z.shiftr ?Y _] =>
               destruct (Hword Y X) as (F1 & F2 & F3 & F4 & F5)
           end
       end.
  all: try (intros b Hb0 Hne;
            first [ reflexivity
                  | by rewrite testbit_set_flag_other by lia
                  | by rewrite ?(testbit_set_flag_other _ ZRAM_COMPRESS_LOW) by lia;
                       rewrite testbit_set_size by lia ]).
  all: repeat (split; [assumption|]).
  all: split; [|apply Hsame].
  all: rewrite Hpool, !testbit_set_flag_other by first [lia | flag_ne]; done.
Qed.

(** The write path from [compress_again:] on, once the pool object [h] is
    there. *)
Lemma __zram_bvec_write_compress_entry again mem buffer index h z s :
  table z !! index = Some s -> is_ulong (flags s) ->
  Z.testbit (flags s) ZRAM_LOCK = false ->
  zcomp_compress mem = (0, buffer) -> huge_class_size <= PAGE_SIZE -> h <> 0 ->
  runs (__zram_bvec_write_compress again mem index h) z (fun r z' =>
    (r = 0 /\ exists w',
       table z' = <[index := mk_slot h w']> (table z) /\
       is_ulong w' /\
       Z.testbit w' ZRAM_LOCK = false /\
       Z.testbit w' ZRAM_WB = false /\
       Z.testbit w' ZRAM_SAME
         = Z.testbit (flags s) ZRAM_SAME && Z.testbit (flags s) ZRAM_WB /\
       obj_size_of w'
         = (if huge_class_size <=? Z.of_nat (length buffer)
            then PAGE_SIZE else Z.of_nat (length buffer)) /\
       mem_pool z'
         = (if Z.testbit (flags s) ZRAM_WB || Z.testbit (flags s) ZRAM_SAME
               || (element s =? 0)
            then <[h := if huge_class_size <=? Z.of_nat (length buffer)
                        then take (Z.to_nat PAGE_SIZE) mem else buffer]> (mem_pool z)
            else delete (element s)
                   (<[h := if huge_class_size <=? Z.of_nat (length buffer)
                           then take (Z.to_nat PAGE_SIZE) mem else buffer]>
                      (mem_pool z))) /\
       disksize z' = disksize z) \/
    (r = - ENOMEM /\ table z' = table z /\ mem_pool z' = delete h (mem_pool z) /\
     disksize z' = disksize z)).
Proof.
  intros H Hu Hl Hcomp Hhuge Hh.
  apply Z.eqb_neq in Hh.
  destruct again; cbn [__zram_bvec_write_compress].
  all: rewrite Hcomp; cbv zeta; cbn [Z.eqb negb]; cbv iota; rewrite Hh.
  all: apply runs_bind, runs_ret; cbv beta; rewrite Hh.
  all: assert (0 <= (if huge_class_size <=? Z.of_nat (length buffer)
                     then PAGE_SIZE else Z.of_nat (length buffer)) <= PAGE_SIZE) as Hlen
         by (destruct (Z.leb_spec huge_class_size (Z.of_nat (length buffer)));
             change PAGE_SIZE with 4096 in *; lia).
  all: assert (take (Z.to_nat (if huge_class_size <=? Z.of_nat (length buffer)
                               then PAGE_SIZE else Z.of_nat (length buffer)))
                 (if (if huge_class_size <=? Z.of_nat (length buffer)
                      then PAGE_SIZE else Z.of_nat (length buffer)) =? PAGE_SIZE
                  then mem else buffer)
               = (if huge_class_size <=? Z.of_nat (length buffer)
                  then take (Z.to_nat PAGE_SIZE) mem else buffer)) as ->
         by (destruct (Z.leb_spec huge_class_size (Z.of_nat (length buffer)));
             [ by rewrite Z.eqb_refl
             | destruct (Z.eqb_spec (Z.of_nat (length buffer)) PAGE_SIZE); [lia|];
               apply firstn_all2; lia ]).
  all: apply runs_bind, runs_gets; cbv beta.
  all: apply runs_bind; unfold update_used_max.
  all: apply runs_bind, runs_atomic64_read; cbv beta.
  all: match goal with |- runs (when ?c _) _ _ => destruct c; cbn [when] end.
  all: first [apply runs_atomic64_add | apply runs_ret]; norm.
  all: apply runs_bind, runs_gets; norm; cbv beta.
  all: match goal with |- runs (if ?c then _ else _) _ _ => destruct c end.
  all: try (mrun H; right; done).
  all: apply runs_bind, runs_zs_store; apply runs_bind, runs_atomic64_add; norm.
  all: (eapply runs_mono;
        [eapply __zram_bvec_write_out_entry; [norm; exact H|done|done|exact Hlen]|]).
  all: norm; intros r z' (-> & w' & Hw'); left; split; [done|]; exists w'; exact Hw'.
Qed.

Lemma runs_zram_entry_alloc len reclaim z (Q : Z -> zram -> Prop) :
  (zs_malloc (mem_pool z) len reclaim = 0 -> Q 0 z) ->
  (zs_malloc (mem_pool z) len reclaim <> 0 ->
   Q (zs_malloc (mem_pool z) len reclaim)
     (set_mem_pool z (<[zs_malloc (mem_pool z) len reclaim := []]> (mem_pool z)))) ->
  runs (zram_entry_alloc len reclaim) z Q.
Proof.
  intros H0 H1. unfold runs, zram_entry_alloc. cbv zeta.
  destruct (Z.eqb_spec (zs_malloc (mem_pool z) len reclaim) 0) as [Heq|Hne];
    eexists _, _; (split; [reflexivity|]); auto.
Qed.

(** The write path of a page that is not same-filled, from the first
    allocation on; [again] bounds the jumps to [compress_again:]. *)
Lemma __zram_bvec_write_compress_first again mem index z s :
  table z !! index = Some s -> is_ulong (flags s) ->
  Z.testbit (flags s) ZRAM_LOCK = false ->
  Z.testbit (flags s) ZRAM_WB && Z.testbit (flags s) ZRAM_SAME = false ->
  pool_entry_live z s ->
  (forall len reclaim, zs_malloc (mem_pool z) len reclaim <> 0 ->
     mem_pool z !! zs_malloc (mem_pool z) len reclaim = None) ->
  length mem = Z.to_nat WORDS_PER_PAGE ->
  huge_class_size <= PAGE_SIZE ->
  (Z.of_nat (length (snd (zcomp_compress mem))) < huge_class_size ->
   zcomp_decompress (snd (zcomp_compress mem))
     (Z.of_nat (length (snd (zcomp_compress mem)))) = (0, mem)) ->
  runs (__zram_bvec_write_compress (S again) mem index 0) z (fun r z1 =>
    disksize z1 = disksize z /\
    ((r = 0 /\ exists s1, table z1 !! index = Some s1 /\ is_ulong (flags s1) /\
        Z.testbit (flags s1) ZRAM_LOCK = false /\
        forall dst partial_io zr,
          mem_pool zr = mem_pool z1 -> slot_content zr s1 dst partial_io = (0, mem)) \/
     (r <> 0 /\ (r = fst (zcomp_compress mem) \/ r = - ENOMEM) /\
      table z1 = table z /\ mem_pool z1 = mem_pool z))).
Proof.
  intros H Hu Hl Hws Hlive Hfresh Hlen Hhuge Hcodec. layout.
  destruct (zcomp_compress mem) as [rc buffer] eqn:Hcomp. cbn [snd] in Hcodec.
  cbn [__zram_bvec_write_compress]. rewrite Hcomp. cbv zeta.
  destruct (Z.eqb_spec rc 0) as [->|Hrc]; cbn [negb].
  2: { cbn [Z.eqb negb when]. mrun H. split; [done|]. right.
       split; [done|]. split; [by left|done]. }
  cbn [Z.eqb]. cbv iota.
  set (comp_len := if huge_class_size <=? Z.of_nat (length buffer)
                   then PAGE_SIZE else Z.of_nat (length buffer)).
  (* what the entry [h] leads to, from a state that has it in the pool *)
  assert (forall fuel h zq,
    h <> 0 -> mem_pool z !! h = None ->
    table zq = table z -> mem_pool zq = <[h := []]> (mem_pool z) ->
    disksize zq = disksize z ->
    runs (__zram_bvec_write_compress fuel mem index h) zq (fun r z1 =>
      disksize z1 = disksize z /\
      ((r = 0 /\ exists s1, table z1 !! index = Some s1 /\ is_ulong (flags s1) /\
          Z.testbit (flags s1) ZRAM_LOCK = false /\
          forall dst partial_io zr,
            mem_pool zr = mem_pool z1 ->
            slot_content zr s1 dst partial_io = (0, mem)) \/
       (r <> 0 /\ (r = 0 \/ r = - ENOMEM) /\
      table z1 = table z /\ mem_pool z1 = mem_pool z)))) as Hentry.
  { intros fuel h zq Hh Hnew Htq Hpq Hdq.
    assert (table zq !! index = Some s) as Hq by (by rewrite Htq).
    eapply runs_mono.
    { by eapply (__zram_bvec_write_compress_entry fuel mem buffer index h zq s). }
    intros r z1 [(-> & w' & Ht & Hu' & Hl' & Hwb' & Hsame' & Hsz & Hpool & Hdisk)
                |(-> & Ht & Hpool & Hdisk)].
    - split; [congruence|].
      left. split; [done|]. eexists. split; [rewrite Ht; by eapply lookup_insert_table|].
      cbn [flags element]. split; [done|]. split; [done|].
      intros dst partial_io zr Hzr. unfold slot_content. cbn [flags element].
      rewrite Hwb', Hsame', Hsz.
      destruct (Z.eqb_spec h 0) as [?|_]; [done|].
      assert (Z.testbit (flags s) ZRAM_SAME && Z.testbit (flags s) ZRAM_WB = false)
        as -> by (by rewrite andb_comm).
      cbn [orb].
      assert (mem_pool zr !! h
              = Some (if huge_class_size <=? Z.of_nat (length buffer)
                      then take (Z.to_nat PAGE_SIZE) mem else buffer)) as ->.
      { rewrite Hzr, Hpool.
        destruct (Z.testbit (flags s) ZRAM_WB || Z.testbit (flags s) ZRAM_SAME
                  || (element s =? 0)) eqn:Hc.
        - by rewrite lookup_insert_eq.
        - apply orb_false_elim in Hc as [Hc He]. apply orb_false_elim in Hc as [Hc1 Hc2].
          apply Z.eqb_neq in He.
          destruct (Hlive Hc1 Hc2 He) as [old Hold].
          rewrite lookup_delete_ne by congruence. by rewrite lookup_insert_eq. }
      cbn [default].
      destruct (Z.leb_spec huge_class_size (Z.of_nat (length buffer))).
      + rewrite Z.eqb_refl. f_equal. apply firstn_all2.
        rewrite Hlen. change (Z.to_nat WORDS_PER_PAGE) with 512%nat.
        change (Z.to_nat PAGE_SIZE) with 4096%nat. lia.
      + destruct (Z.eqb_spec (Z.of_nat (length buffer)) PAGE_SIZE); [lia|].
        by apply Hcodec.
    - split; [congruence|].
      right. split; [unfold ENOMEM; lia|]. split; [by right|]. split; [congruence|].
      rewrite Hpool, Hpq. by apply delete_insert_id. }
  apply runs_bind, runs_zram_entry_alloc.
  - intros _. cbn [Z.eqb]. cbv iota.
    apply runs_bind, runs_atomic64_add. norm.
    apply runs_bind, runs_zram_entry_alloc; norm.
    + intros _. cbn [Z.eqb negb]. cbv iota.
      apply runs_ret. split; [done|]. right. split; [unfold ENOMEM; lia|].
      split; [by right|done].
    + intros Hn2. apply Z.eqb_neq in Hn2 as Hn2'. rewrite Hn2'. cbn [negb]. cbv iota.
      by apply Hentry; [|apply Hfresh|..].
  - intros Hn1. apply Z.eqb_neq in Hn1 as Hn1'. rewrite Hn1'.
    eapply runs_ext;
      [|apply (Hentry O _ _ Hn1 (Hfresh _ _ Hn1)); reflexivity].
    cbn [__zram_bvec_write_compress]. rewrite Hcomp. cbv zeta.
    cbn [Z.eqb negb]. cbv iota. rewrite ?Hn1'. symmetry.
    unfold bind at 1, ret at 1. cbv beta iota. rewrite Hn1'. reflexivity.
Qed.

(** [__zram_bvec_write], for every page: the slot afterwards reads as the
    page, or the write failed and nothing was stored. *)
Lemma __zram_bvec_write_spec mem z index s :
  table z !! index = Some s -> is_ulong (flags s) ->
  Z.testbit (flags s) ZRAM_LOCK = false ->
  Z.testbit (flags s) ZRAM_WB && Z.testbit (flags s) ZRAM_SAME = false ->
  pool_entry_live z s ->
  (forall len reclaim, zs_malloc (mem_pool z) len reclaim <> 0 ->
     mem_pool z !! zs_malloc (mem_pool z) len reclaim = None) ->
  length mem = Z.to_nat WORDS_PER_PAGE ->
  huge_class_size <= PAGE_SIZE ->
  (Z.of_nat (length (snd (zcomp_compress mem))) < huge_class_size ->
   zcomp_decompress (snd (zcomp_compress mem))
     (Z.of_nat (length (snd (zcomp_compress mem)))) = (0, mem)) ->
  runs (__zram_bvec_write mem index) z (fun r z1 =>
    disksize z1 = disksize z /\
    ((r = 0 /\ exists s1, table z1 !! index = Some s1 /\ is_ulong (flags s1) /\
        Z.testbit (flags s1) ZRAM_LOCK = false /\
        forall dst partial_io zr,
          mem_pool zr = mem_pool z1 -> slot_content zr s1 dst partial_io = (0, mem)) \/
     (r <> 0 /\ (r = fst (zcomp_compress mem) \/ r = - ENOMEM) /\
      table z1 = table z /\ mem_pool z1 = mem_pool z))).
Proof.
  intros H Hu Hl Hws Hlive Hfresh Hlen Hhuge Hcodec. layout.
  unfold __zram_bvec_write.
  destruct (page_same_filled mem) as [v|] eqn:Hsame.
  - apply runs_bind, runs_atomic64_add. eapply runs_mono.
    { eapply __zram_bvec_write_out_same; [norm; exact H|done|done]. }
    norm. intros r z1 (-> & w' & Ht & Hu' & Hb & Hdev & _).
    split; [apply Hdev|]. left. split; [done|].
    eexists. split; [rewrite Ht; by eapply lookup_insert_table|].
    cbn [flags element]. split; [done|].
    assert (Z.testbit w' ZRAM_LOCK = false) as Hl'.
    { rewrite Hb by lia. unfold free_page_bit. rewrite Hl.
      destruct (Z.eqb_spec ZRAM_LOCK ZRAM_SAME); [flag_neq|]. done. }
    split; [done|]. intros dst partial_io zr _. unfold slot_content.
    cbn [flags element].
    assert (Z.testbit w' ZRAM_WB = false) as ->.
    { rewrite Hb by lia. unfold free_page_bit. rewrite !Z.eqb_refl.
      cbn [negb]. rewrite !andb_false_r.
      destruct (Z.eqb_spec ZRAM_WB ZRAM_SAME); [flag_neq|]. done. }
    assert (Z.testbit w' ZRAM_SAME = true) as ->.
    { rewrite Hb by lia. rewrite Z.eqb_refl. by rewrite orb_true_r. }
    rewrite orb_true_r. f_equal. symmetry. by apply page_same_filled_sound.
  - change 1%nat with (S O).
    by apply (__zram_bvec_write_compress_first 0 mem index z s).
Qed.

(** X14.  Write then read.  On a slot whose lock is free, for a page of 512
    lanes, with a codec that decompresses what it compressed and an
    allocator that returns unused handles: [__zram_bvec_write] returns; when
    it returns 0, every read of the slot returns 0 and the page that was
    written (same-filled, compressed or stored as a huge page); when it
    fails, the table and the pool are as before, so the slot still holds
    what it held. *)
Theorem zram_bvec_write_then_read mem z index s :
  table z !! index = Some s -> is_ulong (flags s) ->
  Z.testbit (flags s) ZRAM_LOCK = false ->
  Z.testbit (flags s) ZRAM_WB && Z.testbit (flags s) ZRAM_SAME = false ->
  pool_entry_live z s ->
  (forall len reclaim, zs_malloc (mem_pool z) len reclaim <> 0 ->
     mem_pool z !! zs_malloc (mem_pool z) len reclaim = None) ->
  length mem = Z.to_nat WORDS_PER_PAGE ->
  huge_class_size <= PAGE_SIZE ->
  (Z.of_nat (length (snd (zcomp_compress mem))) < huge_class_size ->
   zcomp_decompress (snd (zcomp_compress mem))
     (Z.of_nat (length (snd (zcomp_compress mem)))) = (0, mem)) ->
  exists r z1,
    __zram_bvec_write mem index z = Some (r, z1) /\
    (r = 0 -> forall dst partial_io access, exists z2,
       __zram_bvec_read dst index partial_io access z1 = Some ((0, mem), z2)) /\
    (r <> 0 -> table z1 = table z /\ mem_pool z1 = mem_pool z).
Proof.
  intros H Hu Hl Hws Hlive Hfresh Hlen Hhuge Hcodec.
  destruct (__zram_bvec_write_spec mem z index s) as (r & z1 & Hrun & _ & Hpost);
    [done..|].
  exists r, z1. split; [done|].
  destruct Hpost as [(-> & s1 & H1 & Hu1 & Hl1 & Hc)|(Hr & _ & Ht & Hp)].
  - split; [|done]. intros _ dst partial_io access. eexists.
    rewrite (__zram_bvec_read_spec dst z1 index s1 partial_io access H1 Hu1 Hl1).
    by rewrite Hc.
  - split; [done|]. by intros _.
Qed.

(** ** The slot locks *)

Lemma slot_code_inc_idle_count i : slot_code i (zram_inc_idle_count i).
Proof.
  unfold zram_inc_idle_count, zram_set_idle_count.
  repeat slot_step.
Qed.

Lemma idle_store_slot_runs N index z :
  wb_device N z -> (index < N)%nat ->
  runs (idle_store_slot index) z (fun _ z' => wb_device N z').
Proof.
  intros Hz Hi. eapply runs_mono.
  - apply (runs_section N index _ (fun _ => True)); [done..|].
    repeat lazymatch goal with
      | |- unlocking_code _ (zram_slot_unlock _) _ => unlocking_step
      | |- unlocking_code _ (bind (zram_slot_unlock _) _) _ => unlocking_step
      | |- unlocking_code _ (bind _ _) _ =>
          apply unlocking_code_bind;
            [repeat first [apply slot_code_inc_idle_count | slot_step]|intros ?]
      end.
  - by intros a z' [? _].
Qed.

Lemma new_store_slot_runs N index z :
  wb_device N z -> (index < N)%nat ->
  runs (new_store_slot index) z (fun _ z' => wb_device N z').
Proof.
  intros Hz Hi. eapply runs_mono.
  - apply (runs_section N index _ (fun _ => True)); [done..|].
    repeat unlocking_step.
  - by intros a z' [? _].
Qed.

Lemma zram_bio_discard_slot_runs N index z :
  wb_device N z -> (index < N)%nat ->
  runs (zram_bio_discard_slot index) z (fun _ z' => wb_device N z').
Proof.
  intros Hz Hi. eapply runs_mono.
  - apply (runs_section N index _ (fun _ => True)); [done..|].
    repeat unlocking_step.
  - by intros a z' [? _].
Qed.

Lemma __zram_bvec_write_out_runs N index fl element entry comp_len r z :
  wb_device N z -> (index < N)%nat ->
  runs (__zram_bvec_write_out index fl element entry comp_len r) z
    (fun _ z' => wb_device N z').
Proof.
  intros Hz Hi. eapply runs_mono.
  - apply (runs_section N index _ (fun _ => True)); [done..|].
    repeat unlocking_step.
  - by intros a z' [? _].
Qed.

Lemma __zram_bvec_write_compress_runs_entry N again mem index h z :
  wb_device N z -> (index < N)%nat -> h <> 0 ->
  runs (__zram_bvec_write_compress again mem index h) z (fun _ z' => wb_device N z').
Proof.
  intros Hz Hi Hh. apply Z.eqb_neq in Hh.
  assert (forall z', table z' = table z -> wb_device N z') as Hq
    by (intros z' Ht; by eapply wb_device_table).
  destruct again; cbn [__zram_bvec_write_compress].
  all: destruct (zcomp_compress mem) as [rc buffer]; cbv zeta.
  all: rewrite Hh; cbn [negb when].
  all: destruct (negb (rc =? 0)).
  all: try (apply runs_bind, runs_zs_free, runs_ret; by apply Hq).
  all: apply runs_bind, runs_ret; cbv beta; rewrite Hh.
  all: apply runs_bind, runs_gets; cbv beta.
  all: apply runs_bind; unfold update_used_max.
  all: apply runs_bind, runs_atomic64_read; cbv beta.
  all: match goal with |- runs (when ?c _) _ _ => destruct c; cbn [when] end.
  all: first [apply runs_atomic64_add | apply runs_ret]; norm.
  all: apply runs_bind, runs_gets; norm; cbv beta.
  all: match goal with |- runs (if ?c then _ else _) _ _ => destruct c end.
  all: try (apply runs_bind, runs_zs_free, runs_ret; by apply Hq).
  all: apply runs_bind, runs_zs_store; apply runs_bind, runs_atomic64_add.
  all: apply __zram_bvec_write_out_runs; [by apply Hq|done].
Qed.

Lemma __zram_bvec_write_compress_runs_first N again mem index z :
  wb_device N z -> (index < N)%nat ->
  runs (__zram_bvec_write_compress (S again) mem index 0) z
    (fun _ z' => wb_device N z').
Proof.
  intros Hz Hi.
  assert (forall z', table z' = table z -> wb_device N z') as Hq
    by (intros z' Ht; by eapply wb_device_table).
  cbn [__zram_bvec_write_compress].
  destruct (zcomp_compress mem) as [rc buffer] eqn:Hcomp. cbv zeta.
  cbn [Z.eqb negb when]. cbv iota.
  destruct (Z.eqb_spec rc 0) as [->|Hrc]; cbn [negb].
  2: { apply runs_bind, runs_ret. by apply runs_ret. }
  assert (forall fuel h zq, h <> 0 -> table zq = table z ->
    runs (__zram_bvec_write_compress fuel mem index h) zq
      (fun _ z' => wb_device N z')) as Hentry.
  { intros fuel h zq Hh Htq.
    apply __zram_bvec_write_compress_runs_entry; [by apply Hq|done..]. }
  apply runs_bind, runs_zram_entry_alloc.
  - intros _. cbn [Z.eqb]. cbv iota.
    apply runs_bind, runs_atomic64_add. norm.
    apply runs_bind, runs_zram_entry_alloc; norm.
    + intros _. cbn [Z.eqb negb]. cbv iota. apply runs_ret. by apply Hq.
    + intros Hn2. apply Z.eqb_neq in Hn2 as Hn2'. rewrite Hn2'. cbn [negb]. cbv iota.
      by apply Hentry.
  - intros Hn1. apply Z.eqb_neq in Hn1 as Hn1'. rewrite Hn1'.
    eapply runs_ext; [|apply (Hentry O _ _ Hn1); reflexivity].
    cbn [__zram_bvec_write_compress]. rewrite Hcomp. cbv zeta.
    cbn [Z.eqb negb]. cbv iota. rewrite ?Hn1'. symmetry.
    unfold bind at 1, ret at 1. cbv beta iota. rewrite Hn1'. reflexivity.
Qed.

Lemma __zram_bvec_write_runs N mem index z :
  wb_device N z -> (index < N)%nat ->
  runs (__zram_bvec_write mem index) z (fun _ z' => wb_device N z').
Proof.
  intros Hz Hi.
  unfold __zram_bvec_write. destruct (page_same_filled mem) as [v|].
  - apply runs_bind, runs_atomic64_add.
    apply __zram_bvec_write_out_runs; [by eapply wb_device_table|done].
  - change 1%nat with (S O). by apply __zram_bvec_write_compress_runs_first.
Qed.

Lemma zram_slot_free_notify_runs N index z :
  wb_device N z -> (index < N)%nat ->
  runs (zram_slot_free_notify index) z (fun _ z' => wb_device N z').
Proof.
  intros Hz Hi. unfold zram_slot_free_notify.
  apply runs_bind, runs_atomic64_add.
  assert (wb_device N (set_stats z (stat_add notify_free 1 (stats z)))) as Hz1
    by (by eapply wb_device_table).
  revert Hz1. generalize (set_stats z (stat_add notify_free 1 (stats z))).
  clear z Hz. intros z Hz.
  destruct Hz as [Hu Hlen]. subst N.
  destruct (lookup_lt_is_Some_2 _ _ Hi) as [s Hs].
  pose proof (Hu _ _ Hs) as Hl.
  apply runs_bind. unfold zram_slot_trylock.
  apply runs_bind. eapply runs_load_flags; [done|]. rewrite Hl.
  apply runs_bind. eapply runs_store_flags; [done|]. apply runs_ret.
  cbn [Z.eqb]. cbv iota.
  eapply runs_mono.
  - assert (unlocking_code index (zram_free_page index ;; zram_slot_unlock index)
              (fun _ => True)) as Hbody by (repeat unlocking_step).
    apply Hbody. cbn [table set_table]. by rewrite length_insert.
  - intros a z' ([Hl' Hf] & (s' & Hs' & Hl'') & _).
    cbn [table set_table] in *. rewrite length_insert in Hl'. split; [|done].
    intros j sj Hj. destruct (decide (j = index)) as [->|Hne]; [congruence|].
    rewrite Hf in Hj by done. rewrite list_lookup_insert_ne in Hj by done.
    by eapply Hu.
Qed.

(** X15.  Lock discipline.  On a device where no slot lock is held, every
    section of the driver that names existing slots (one slot of
    [idle_store] or [new_store], a read, a write, a discard, a free
    notification, and the steps of writeback) returns, and when it returns
    no slot lock is held and the table has as many slots as before: a
    section never waits for a lock it holds and never leaves with one. *)
Theorem run_op_releases_locks N o z :
  wb_device N z -> op_in_table N o ->
  exists z', run_op o z = Some (tt, z') /\ wb_device N z'.
Proof.
  intros Hz Ho.
  assert (forall z', table z' = table z -> wb_device N z') as Hq
    by (intros z' Ht; by eapply wb_device_table).
  cut (runs (run_op o) z (fun _ z' => wb_device N z')).
  { intros ([] & z' & Hrun & Hz'). by exists z'. }
  destruct o; cbn [run_op op_in_table] in *.
  - by apply idle_store_slot_runs.
  - by apply new_store_slot_runs.
  - apply runs_bind. eapply runs_mono; [by apply zram_bvec_read_runs|].
    intros a z' Hz'. by apply runs_ret.
  - apply runs_bind. eapply runs_mono; [by apply __zram_bvec_write_runs|].
    intros a z' Hz'. by apply runs_ret.
  - by apply zram_bio_discard_slot_runs.
  - by apply zram_slot_free_notify_runs.
  - apply runs_bind, alloc_block_bdev_runs. intros b z' Ht.
    apply runs_ret. by apply Hq.
  - unfold free_block_bdev. apply runs_bind, runs_test_and_clear_bit.
    apply runs_atomic64_add. by apply Hq.
  - apply runs_bind. eapply runs_mono; [by apply writeback_select_runs|].
    intros a z' Hz'. by apply runs_ret.
  - by apply writeback_read_failed_runs.
  - apply runs_bind, submit_bio_wait_runs. intros err z' Ht.
    apply runs_ret. by apply Hq.
  - destruct Ho as (bp & Hbp & Hi). by eapply writeback_batch_rollback_runs.
  - destruct Ho as (bp & Hbp & Hi). apply runs_bind.
    eapply runs_mono; [by eapply writeback_batch_reconcile_runs|].
    intros a z' [Hz' _]. by apply runs_ret.
Qed.

(** ** Swap slots through zram_rw_page *)

(** X17.  A page written through [zram_rw_page] is read back through it.
    For a sector that [valid_io_request] accepts (on a device below 2^44
    bytes, so that the page index fits the [u32] of the code), a slot whose
    lock is free, a page of 512 lanes, a codec that returns 0 or a negative
    errno and decompresses what it compressed, and an allocator that returns
    unused handles: the write returns 0 or a negative errno; after a write
    that returned 0, the read of the same sector returns 0 and the page; a
    failed write leaves the table and the pool as they were. *)
Theorem zram_rw_page_round_trip sector mem z s :
  0 <= sector -> 0 <= disksize z < 2 ^ 44 ->
  valid_io_request z sector PAGE_SIZE = true ->
  table z !! Z.to_nat (sector / 8) = Some s -> is_ulong (flags s) ->
  Z.testbit (flags s) ZRAM_LOCK = false ->
  Z.testbit (flags s) ZRAM_WB && Z.testbit (flags s) ZRAM_SAME = false ->
  pool_entry_live z s ->
  (forall len reclaim, zs_malloc (mem_pool z) len reclaim <> 0 ->
     mem_pool z !! zs_malloc (mem_pool z) len reclaim = None) ->
  length mem = Z.to_nat WORDS_PER_PAGE ->
  huge_class_size <= PAGE_SIZE ->
  fst (zcomp_compress mem) <= 0 ->
  (Z.of_nat (length (snd (zcomp_compress mem))) < huge_class_size ->
   zcomp_decompress (snd (zcomp_compress mem))
     (Z.of_nat (length (snd (zcomp_compress mem)))) = (0, mem)) ->
  exists r z1,
    zram_rw_page false sector mem REQ_OP_WRITE z = Some ((r, mem), z1) /\
    r <= 0 /\
    (r = 0 -> forall dst, exists z2,
       zram_rw_page false sector dst REQ_OP_READ z1 = Some ((0, mem), z2)) /\
    (r < 0 -> table z1 = table z /\ mem_pool z1 = mem_pool z).
Proof.
  intros Hsec Hdisk Hvalid H Hu Hl Hws Hlive Hfresh Hlen Hhuge Hrc Hcodec.
  assert (Z.to_nat (Z.shiftr sector SECTORS_PER_PAGE_SHIFT mod 2 ^ 32)
          = Z.to_nat (sector / 8)) as Hidx.
  { pose proof (proj1 (valid_io_request_iff z sector PAGE_SIZE Hsec
                         ltac:(change PAGE_SIZE with 4096; lia) ltac:(lia)) Hvalid)
      as (_ & _ & Hlt & _).
    unfold SECTORS_PER_PAGE_SHIFT, PAGE_SHIFT, SECTOR_SHIFT.
    rewrite Z.shiftr_div_pow2 by lia. change (2 ^ (12 - 9)) with 8.
    rewrite Z.mod_small; [done|].
    assert (disksize z / 512 < 2 ^ 35) by (apply Z.div_lt_upper_bound; lia).
    split; [apply Z.div_pos; lia|]. apply Z.div_lt_upper_bound; lia. }
  assert (forall z', disksize z' = disksize z ->
    valid_io_request z' sector PAGE_SIZE = true) as Hvalid'.
  { intros z' Hd. rewrite <- Hvalid. unfold valid_io_request. by rewrite Hd. }
  cut (runs (zram_rw_page false sector mem REQ_OP_WRITE) z (fun res z1 =>
    snd res = mem /\ fst res <= 0 /\
    (fst res = 0 -> forall dst,
       runs (zram_rw_page false sector dst REQ_OP_READ) z1
         (fun res2 _ => res2 = (0, mem))) /\
    (fst res < 0 -> table z1 = table z /\ mem_pool z1 = mem_pool z))).
  { intros ([r m] & z1 & Hrun & Hm & Hr & Hok & Hfail). cbn [fst snd] in *. subst m.
    exists r, z1. split; [done|]. split; [done|]. split; [|done].
    intros Hr0 dst. destruct (Hok Hr0 dst) as (res2 & z2 & Hrun2 & ->).
    by exists z2. }
  eapply runs_ext.
  { unfold zram_rw_page. rewrite Hvalid. cbn [negb]. cbv zeta. rewrite Hidx.
    reflexivity. }
  apply runs_bind. unfold zram_bvec_rw.
  change (op_is_write REQ_OP_WRITE) with true. cbn [negb].
  apply runs_bind, runs_bind, runs_atomic64_add.
  apply runs_bind. unfold zram_bvec_write.
  eapply runs_mono.
  { apply (__zram_bvec_write_spec mem _ (Z.to_nat (sector / 8)) s); norm; done. }
  norm. intros r z1 (Hd1 & Hpost). apply runs_ret. cbn [fst snd].
  destruct Hpost as [(-> & s1 & H1 & Hu1 & Hl1 & Hc)|(Hr & Hcode & Ht & Hp)].
  - cbn [Z.ltb Z.compare when]. apply runs_ret, runs_ret. cbn [fst snd].
    split; [done|]. split; [lia|]. split; [|lia].
    intros _ dst.
    eapply runs_ext.
    { unfold zram_rw_page. rewrite (Hvalid' z1 Hd1). cbn [negb]. cbv zeta.
      rewrite Hidx. reflexivity. }
    apply runs_bind. unfold zram_bvec_rw.
    change (op_is_write REQ_OP_READ) with false. cbn [negb].
    apply runs_bind, runs_bind, runs_atomic64_add.
    unfold zram_bvec_read. eapply runs_eq.
    { apply __zram_bvec_read_spec; norm; done. }
    rewrite Hc by done. cbn [fst Z.ltb Z.compare when].
    apply runs_bind, runs_ret, runs_ret. cbn [fst snd Z.ltb Z.compare Z.eqb].
    by apply runs_ret.
  - assert (r < 0) as Hneg by (unfold ENOMEM in Hcode; lia).
    destruct (Z.ltb_spec r 0); [|lia]. cbn [when].
    apply runs_bind, runs_atomic64_add, runs_ret. cbn [fst snd].
    destruct (Z.ltb_spec r 0); [|lia]. apply runs_ret. cbn [fst snd]. norm.
    split; [done|]. split; [lia|]. split; [lia|]. done.
Qed.

(** ** idle_stat and new_stat *)

Lemma runs_fold_range {A} (I : nat -> A -> zram -> Prop) body count :
  forall from (a : A) z,
  I from a z ->
  (forall k a zk, (from <= k < from + count)%nat -> I k a zk ->
     runs (body k a) zk (fun a' z' => I (S k) a' z')) ->
  runs (fold_range from count body a) z (fun a' z' => I (from + count)%nat a' z').
Proof.
  induction count as [|c IH]; intros from a z HI Hbody; cbn [fold_range].
  - apply runs_ret. by rewrite Nat.add_0_r.
  - apply runs_bind. eapply runs_mono; [apply Hbody; [lia|done]|].
    intros a1 z1 HI1. cbv beta.
    replace (from + S c)%nat with (S from + c)%nat by lia.
    apply IH; [done|]. intros k a' zk Hk. apply Hbody. lia.
Qed.

(** One slot of the histogram: the state is left as it was. *)
Lemma idle_or_new_slot_spec max_idle_count index pages_nr z s :
  table z !! index = Some s -> is_ulong (flags s) ->
  Z.testbit (flags s) ZRAM_LOCK = false ->
  idle_or_new_slot max_idle_count index pages_nr z
  = Some (if idle_eligible (flags s)
             && (to_uint (idle_count_of (flags s)) <=? max_idle_count)
          then <[Z.to_nat (to_uint (idle_count_of (flags s))) :=
                   to_ulong (default 0 (pages_nr
                               !! Z.to_nat (to_uint (idle_count_of (flags s)))) + 1)]>
                 pages_nr
          else pages_nr, z).
Proof.
  intros H Hu Hl. layout. destruct s as [e w]. cbn [flags element] in *.
  cut (runs (idle_or_new_slot max_idle_count index pages_nr) z (fun l z' =>
    l = (if idle_eligible w && (to_uint (idle_count_of w) <=? max_idle_count)
         then <[Z.to_nat (to_uint (idle_count_of w)) :=
                  to_ulong (default 0 (pages_nr
                              !! Z.to_nat (to_uint (idle_count_of w))) + 1)]> pages_nr
         else pages_nr) /\ z' = z)).
  { by intros (l & z' & -> & -> & ->). }
  assert (forall l : list Z,
    runs (zram_slot_unlock index ;; ret l)
      (set_table z (<[index := mk_slot e (Z.lor w (BIT ZRAM_LOCK))]> (table z)))
      (fun l' z' => l' = l /\ z' = z)) as Hend.
  { intros l. apply runs_bind. eapply runs_slot_unlock.
    { cbn [table set_table]. by eapply lookup_insert_table. }
    apply runs_ret. split; [done|]. norm. cbn [flags element].
    rewrite unlock_lock by done. rewrite list_insert_id by done. by destruct z. }
  unfold idle_or_new_slot.
  apply runs_bind. eapply runs_slot_lock; [done..|]. cbn [flags element].
  assert (table (set_table z (<[index := mk_slot e (Z.lor w (BIT ZRAM_LOCK))]> (table z)))
            !! index = Some (mk_slot e (Z.lor w (BIT ZRAM_LOCK)))) as H1.
  { cbn [table set_table]. by eapply lookup_insert_table. }
  apply runs_bind. eapply runs_get_obj_size; [exact H1|]. cbn [flags].
  apply runs_bind. eapply runs_test_flag; [exact H1|lia|]. cbn [flags].
  apply runs_bind. eapply runs_test_flag; [exact H1|lia|]. cbn [flags].
  apply runs_bind. eapply runs_test_flag; [exact H1|lia|]. cbn [flags].
  rewrite !testbit_set_flag_other by first [lia | flag_ne].
  fold (obj_size_of (Z.lor w (BIT ZRAM_LOCK))).
  rewrite obj_size_of_set_flag by lia.
  unfold idle_eligible.
  assert (negb (obj_size_of w =? 0) && Z.testbit w ZRAM_COMPRESS_LOW
            && negb (Z.testbit w ZRAM_UNDER_WB) && negb (Z.testbit w ZRAM_WB)
          = negb (obj_size_of w =? 0) && Z.testbit w ZRAM_COMPRESS_LOW
            && negb (Z.testbit w ZRAM_WB) && negb (Z.testbit w ZRAM_UNDER_WB)) as ->
    by (rewrite <- !andb_assoc; f_equal; f_equal; apply andb_comm).
  destruct (negb (obj_size_of w =? 0) && Z.testbit w ZRAM_COMPRESS_LOW
            && negb (Z.testbit w ZRAM_WB) && negb (Z.testbit w ZRAM_UNDER_WB)).
  2: { cbn [andb]. apply runs_bind, runs_ret. apply Hend. }
  cbn [andb]. apply runs_bind, runs_bind.
  eapply runs_get_idle_count; [exact H1|]. cbn [flags]. cbv zeta.
  fold (idle_count_of (Z.lor w (BIT ZRAM_LOCK))).
  rewrite idle_count_of_set_flag by lia.
  destruct (to_uint (idle_count_of w) <=? max_idle_count); apply runs_ret, Hend.
Qed.

Lemma lookup_repeat {A} (x : A) n : forall j, (j < n)%nat -> repeat x n !! j = Some x.
Proof.
  induction n as [|n IH]; intros j Hj; [lia|].
  destruct j as [|j]; [done|]. cbn [repeat]. apply IH. lia.
Qed.

Lemma bucket_size_take_S k j t s :
  t !! k = Some s ->
  bucket_size j (take (S k) t)
  = bucket_size j (take k t) + (if in_bucket j s then 1 else 0).
Proof.
  intros Hs. unfold bucket_size.
  rewrite (take_S_r _ _ _ Hs), filter_app, length_app, Nat2Z.inj_add. f_equal.
  rewrite filter_cons, filter_nil.
  destruct (decide (in_bucket j s = true)) as [->|Hn]; [done|].
  by destruct (in_bucket j s).
Qed.

Lemma bucket_size_bound j k t : 0 <= bucket_size j (take k t) <= Z.of_nat k.
Proof.
  unfold bucket_size. split; [lia|].
  pose proof (length_filter (fun s => in_bucket j s = true) (take k t)) as Hf.
  rewrite length_take in Hf. lia.
Qed.



(** ** The memory limit *)

(** X19.  The memory limit.  When a page that is not same-filled has been
    compressed and its pool object allocated (at the first attempt, or at
    the second one with direct reclaim), and the pool then has more pages
    than a non-zero [limit_pages], [__zram_bvec_write] gives the object
    back and returns -ENOMEM: table and pool are as before and the slot is
    not even locked.  [max_used_pages] has nevertheless been raised to the
    size the pool had with the object, since [update_used_max] runs before
    the limit is looked at. *)
Theorem zram_bvec_write_over_limit mem buffer z index :
  page_same_filled mem = None -> zcomp_compress mem = (0, buffer) ->
  let comp_len := if huge_class_size <=? Z.of_nat (length buffer)
                  then PAGE_SIZE else Z.of_nat (length buffer) in
  let h := if zs_malloc (mem_pool z) comp_len false =? 0
           then zs_malloc (mem_pool z) comp_len true
           else zs_malloc (mem_pool z) comp_len false in
  let pages := zs_get_total_pages (<[h := []]> (mem_pool z)) in
  h <> 0 -> mem_pool z !! h = None ->
  limit_pages z <> 0 -> limit_pages z < pages ->
  exists z1,
    __zram_bvec_write mem index z = Some (- ENOMEM, z1) /\
    table z1 = table z /\ mem_pool z1 = mem_pool z /\
    stats z1 max_used_pages = Z.max (stats z max_used_pages) pages /\
    forall c, c <> max_used_pages -> c <> writestall -> stats z1 c = stats z c.
Proof.
  intros Hsame Hcomp comp_len h pages Hh Hnew Hlim Hover.
  cut (runs (__zram_bvec_write mem index) z (fun r z1 =>
    r = - ENOMEM /\ table z1 = table z /\ mem_pool z1 = mem_pool z /\
    stats z1 max_used_pages = Z.max (stats z max_used_pages) pages /\
    forall c, c <> max_used_pages -> c <> writestall -> stats z1 c = stats z c)).
  { intros (r & z1 & Hrun & -> & Hpost). by exists z1. }
  assert (forall fuel zq,
    table zq = table z -> mem_pool zq = <[h := []]> (mem_pool z) ->
    limit_pages zq = limit_pages z ->
    stats zq max_used_pages = stats z max_used_pages ->
    (forall c, c <> max_used_pages -> c <> writestall -> stats zq c = stats z c) ->
    runs (__zram_bvec_write_compress fuel mem index h) zq (fun r z1 =>
      r = - ENOMEM /\ table z1 = table z /\ mem_pool z1 = mem_pool z /\
      stats z1 max_used_pages = Z.max (stats z max_used_pages) pages /\
      forall c, c <> max_used_pages -> c <> writestall -> stats z1 c = stats z c))
    as Hentry.
  { intros fuel zq Htq Hpq Hlq Hmq Hsq. apply Z.eqb_neq in Hh as Hh'.
    destruct fuel; cbn [__zram_bvec_write_compress].
    all: rewrite Hcomp; cbv zeta; cbn [Z.eqb negb]; cbv iota; rewrite Hh'.
    all: apply runs_bind, runs_ret; cbv beta; rewrite Hh'.
    all: apply runs_bind, runs_gets; cbv beta.
    all: rewrite Hpq; fold pages.
    all: apply runs_bind; unfold update_used_max.
    all: apply runs_bind, runs_atomic64_read; cbv beta.
    all: rewrite Hmq.
    all: destruct (Z.ltb_spec (stats z max_used_pages) pages); cbn [when].
    all: first [apply runs_atomic64_add | apply runs_ret]; norm.
    all: apply runs_bind, runs_gets; norm; cbv beta.
    all: rewrite Hlq.
    all: destruct (Z.eqb_spec (limit_pages z) 0) as [?|_]; [done|].
    all: destruct (Z.ltb_spec (limit_pages z) pages); [|lia].
    all: cbn [negb andb].
    all: apply runs_bind, runs_zs_free, runs_ret; norm.
    all: split; [done|]; split; [done|].
    all: split; [rewrite Hpq; by apply delete_insert_id|].
    all: unfold stat_add.
    all: split; [rewrite ?decide_True by done; lia|].
    all: intros c Hc1 Hc2; rewrite ?decide_False by done; by apply Hsq. }
  unfold __zram_bvec_write. rewrite Hsame.
  pose (fuel := O). change 1%nat with (S fuel). clearbody fuel.
  cbn [__zram_bvec_write_compress]. rewrite Hcomp. cbv zeta.
  cbn [Z.eqb negb]. cbv iota. fold comp_len.
  apply runs_bind, runs_zram_entry_alloc.
  - intros Hz1. cbn [Z.eqb]. cbv iota.
    apply runs_bind, runs_atomic64_add. norm.
    apply runs_bind, runs_zram_entry_alloc; norm.
    + intros Hz2. exfalso. apply Hh. unfold h. by rewrite Hz1, Hz2.
    + intros Hn2. apply Z.eqb_neq in Hn2 as Hn2'. rewrite Hn2'. cbn [negb]. cbv iota.
      assert (h = zs_malloc (mem_pool z) comp_len true) as <-
        by (unfold h; by rewrite Hz1).
      apply Hentry; norm; try done.
      intros c Hc1 Hc2. unfold stat_add. by rewrite decide_False.
  - intros Hn1. apply Z.eqb_neq in Hn1 as Hn1'. rewrite Hn1'.
    assert (h = zs_malloc (mem_pool z) comp_len false) as Hh1
      by (unfold h; by rewrite Hn1').
    rewrite <- Hh1.
    eapply runs_ext; [|apply (Hentry O); norm; done].
    cbn [__zram_bvec_write_compress]. rewrite Hcomp. cbv zeta.
    cbn [Z.eqb negb]. cbv iota. apply Z.eqb_neq in Hh as Hh'. rewrite ?Hh'. symmetry.
    unfold bind at 1, ret at 1. cbv beta iota. rewrite Hh'. reflexivity.
Qed.

(** ** The statistics and the table *)

Lemma table_weight_insert c t i s s' :
  t !! i = Some s ->
  table_weight c (<[i := s']> t)
  = table_weight c t - slot_weight c s + slot_weight c s'.
Proof.
  unfold table_weight. revert i. induction t as [|x t IH]; intros i Hs; [done|].
  destruct i as [|i].
  - injection Hs as ->. cbn [map fold_right]. change (<[0%nat := s']> (s :: t)) with (s' :: t).
    cbn [map fold_right]. lia.
  - change (<[S i := s']> (x :: t)) with (x :: <[i := s']> t).
    cbn [map fold_right]. rewrite (IH i Hs). lia.
Qed.

Lemma runs_conj {A} (m : M A) z (Q1 Q2 : A -> zram -> Prop) :
  runs m z Q1 -> runs m z Q2 -> runs m z (fun a z' => Q1 a z' /\ Q2 a z').
Proof.
  intros (a & z' & Hm & H1) (a2 & z2 & Hm2 & H2).
  rewrite Hm in Hm2. injection Hm2 as <- <-. by exists a, z'.
Qed.

Lemma obj_size_of_clear_flag w f :
  ZRAM_FLAG_SHIFT <= f < 64 ->
  obj_size_of (Z.land w (ulong_not (BIT f))) = obj_size_of w.
Proof.
  intros. layout. apply obj_size_of_bits. intros b Hb.
  rewrite testbit_clear_flag by lia.
  destruct (Z.ltb_spec b 64); [|lia]. destruct (Z.eqb_spec f b); [lia|].
  by rewrite !andb_true_r.
Qed.

Lemma obj_size_of_clear_count w :
  obj_size_of (Z.land w (BIT ZRAM_WB_IDLE_SHIFT - 1)) = obj_size_of w.
Proof.
  layout. apply obj_size_of_bits. intros b Hb.
  rewrite testbit_low_mask by lia.
  destruct (Z.ltb_spec b ZRAM_WB_IDLE_SHIFT); [|lia]. by rewrite andb_true_r.
Qed.

(** What [zram_free_page] takes from the counters: what the slot counted
    for. *)
Lemma zram_free_page_stats z i s :
  table z !! i = Some s -> is_ulong (flags s) ->
  Z.testbit (flags s) ZRAM_WB && Z.testbit (flags s) ZRAM_SAME = false ->
  runs (zram_free_page i) z (fun _ z' =>
    forall c, slot_counter c = true -> stats z' c = stats z c - slot_weight c s).
Proof.
  intros H Hu Hws. layout. destruct s as [e w]. cbn [flags element] in *.
  unfold zram_free_page.
  (repeat first
    [ mstep H | cond
    | split_bit w ZRAM_IDLE | split_bit w ZRAM_COMPRESS_LOW
    | split_bit w ZRAM_HUGE | split_bit w ZRAM_WB | split_bit w ZRAM_SAME
    | match goal with
      | |- runs (if e =? 0 then _ else _) _ _ => destruct (Z.eqb_spec e 0) as [->|?]
      end ]).
  all: try discriminate Hws.
  all: intros c Hc; destruct c; try discriminate Hc.
  all: unfold stat_add, slot_weight; cbn [flags element]; known_bits.
  all: rewrite ?obj_size_of_clear_flag, ?obj_size_of_clear_count,
         ?obj_size_of_clear_flag, ?obj_size_of_clear_count,
         ?obj_size_of_clear_flag by lia.
  all: repeat first [rewrite decide_True by done | rewrite decide_False by done].
  all: cbn [orb negb andb]; rewrite ?Z.eqb_refl.
  all: try (destruct (Z.eqb_spec e 0); [lia|]).
  all: cbn [orb negb]; try lia.
Qed.

Lemma drift_kept_slot z z' i s s' :
  table z !! i = Some s -> table z' = <[i := s']> (table z) ->
  (forall c, slot_counter c = true ->
     stats z' c = stats z c - slot_weight c s + slot_weight c s') ->
  drift_kept z z'.
Proof.
  intros Hs Ht Hst c Hc. unfold stat_drift.
  rewrite Ht, (table_weight_insert c _ _ _ _ Hs), (Hst c Hc). lia.
Qed.

Lemma drift_kept_table z z' :
  table z' = table z ->
  (forall c, slot_counter c = true -> stats z' c = stats z c) ->
  drift_kept z z'.
Proof. intros Ht Hst c Hc. unfold stat_drift. by rewrite Ht, (Hst c Hc). Qed.

Lemma drift_kept_trans z1 z2 z3 :
  drift_kept z1 z2 -> drift_kept z2 z3 -> drift_kept z1 z3.
Proof. intros H1 H2 c Hc. by rewrite (H2 c Hc), (H1 c Hc). Qed.

Lemma drift_kept_refl z : drift_kept z z.
Proof. by intros c Hc. Qed.

Lemma step_kept_slot z z' i s s' :
  table z !! i = Some s -> table z' = <[i := s']> (table z) ->
  (forall c, slot_counter c = true ->
     stats z' c = stats z c - slot_weight c s + slot_weight c s') ->
  (slot_sound s -> slot_sound s') ->
  step_kept z z'.
Proof.
  intros Hs Ht Hst Hs'. split; [by eapply drift_kept_slot|].
  intros Hz j sj. rewrite Ht. intros Hj.
  destruct (decide (j = i)) as [->|Hne].
  - rewrite (lookup_insert_table z i s s' Hs) in Hj. injection Hj as <-.
    apply Hs'. by eapply Hz.
  - rewrite list_lookup_insert_ne in Hj by done. by eapply Hz.
Qed.

Lemma step_kept_table z z' :
  table z' = table z ->
  (forall c, slot_counter c = true -> stats z' c = stats z c) ->
  step_kept z z'.
Proof.
  intros Ht Hst. split; [by apply drift_kept_table|].
  intros Hz i s. rewrite Ht. apply Hz.
Qed.

Lemma step_kept_trans z1 z2 z3 : step_kept z1 z2 -> step_kept z2 z3 -> step_kept z1 z3.
Proof.
  intros [H1 S1] [H2 S2]. split; [by eapply drift_kept_trans|].
  intros Hz. by apply S2, S1.
Qed.

Lemma step_kept_refl z : step_kept z z.
Proof. split; [apply drift_kept_refl|done]. Qed.

Lemma step_kept_stat z c n :
  slot_counter c = false ->
  step_kept z (set_stats z (stat_add c n (stats z))).
Proof.
  intros Hc. apply step_kept_table; [done|].
  intros c' Hc'. cbn [stats set_stats]. unfold stat_add.
  rewrite decide_False; [done|]. intros ->. congruence.
Qed.

Lemma step_kept_pool z p : step_kept z (set_mem_pool z p).
Proof. by apply step_kept_table. Qed.

Lemma testbit_unlock w f :
  ZRAM_FLAG_SHIFT <= f < ZRAM_WB_IDLE_SHIFT -> f <> ZRAM_LOCK ->
  Z.testbit (Z.land w (ulong_not (BIT ZRAM_LOCK))) f = Z.testbit w f.
Proof.
  intros Hf Hne. layout. rewrite testbit_clear_flag by lia.
  destruct (Z.ltb_spec f 64); [|lia].
  destruct (Z.eqb_spec ZRAM_LOCK f); [congruence|]. by rewrite !andb_true_r.
Qed.

(** What [zram_slot_unlock] leaves is an [unsigned long]. *)
Lemma slot_sound_unlock e X :
  Z.testbit X ZRAM_WB && Z.testbit X ZRAM_SAME = false ->
  slot_sound (mk_slot e (Z.land X (ulong_not (BIT ZRAM_LOCK)))).
Proof.
  intros HX. layout. split; cbn [flags].
  - apply is_ulong_land_not. lia.
  - rewrite !testbit_unlock by first [lia | flag_ne]. exact HX.
Qed.

(** What a slot counts for depends on its payload, its size and four of
    its flags. *)
Lemma slot_weight_ext c e w w' :
  Z.testbit w' ZRAM_WB = Z.testbit w ZRAM_WB ->
  Z.testbit w' ZRAM_SAME = Z.testbit w ZRAM_SAME ->
  Z.testbit w' ZRAM_HUGE = Z.testbit w ZRAM_HUGE ->
  Z.testbit w' ZRAM_COMPRESS_LOW = Z.testbit w ZRAM_COMPRESS_LOW ->
  obj_size_of w' = obj_size_of w ->
  slot_weight c (mk_slot e w') = slot_weight c (mk_slot e w).
Proof.
  intros Hwb Hsame Hhuge Hlow Hsz. unfold slot_weight. cbn [flags element].
  by rewrite Hwb, Hsame, Hhuge, Hlow, Hsz.
Qed.

Lemma slot_weight_lock c e w :
  slot_weight c (mk_slot e (Z.lor w (BIT ZRAM_LOCK))) = slot_weight c (mk_slot e w).
Proof.
  layout. apply slot_weight_ext;
    first [ apply testbit_set_flag_other; first [lia | flag_ne]
          | apply obj_size_of_set_flag; lia ].
Qed.

Lemma slot_weight_unlock c e w :
  slot_weight c (mk_slot e (Z.land w (ulong_not (BIT ZRAM_LOCK))))
  = slot_weight c (mk_slot e w).
Proof.
  layout.
  assert (forall f, ZRAM_FLAG_SHIFT <= f < ZRAM_WB_IDLE_SHIFT -> f <> ZRAM_LOCK ->
    Z.testbit (Z.land w (ulong_not (BIT ZRAM_LOCK))) f = Z.testbit w f) as Hf.
  { intros f Hf Hne. rewrite testbit_clear_flag by lia.
    destruct (Z.ltb_spec f 64); [|lia].
    destruct (Z.eqb_spec ZRAM_LOCK f); [congruence|]. by rewrite !andb_true_r. }
  apply slot_weight_ext;
    first [ apply Hf; first [lia | flag_ne] | apply obj_size_of_clear_flag; lia ].
Qed.

(** A slot that [zram_free_page] has freed counts for nothing. *)
Lemma slot_weight_freed c w e w1 :
  Z.testbit w ZRAM_WB && Z.testbit w ZRAM_SAME = false ->
  (forall b, 0 <= b -> Z.testbit w1 b = free_page_bit w e b) ->
  slot_weight c (mk_slot 0 w1) = 0.
Proof.
  intros Hws Hb. layout. unfold slot_weight. cbn [flags element].
  rewrite !Hb by lia. unfold free_page_bit. rewrite !Z.eqb_refl.
  cbn [negb andb orb]. rewrite ?andb_false_r. cbn [andb orb].
  assert (Z.testbit w ZRAM_SAME && negb (ZRAM_SAME =? ZRAM_IDLE)
          && negb (ZRAM_SAME =? ZRAM_COMPRESS_LOW) && negb (ZRAM_SAME =? ZRAM_HUGE)
          && negb (ZRAM_SAME =? ZRAM_WB) && negb (negb (Z.testbit w ZRAM_WB))
          && negb ((ZRAM_WB_IDLE_SHIFT <=? ZRAM_SAME) && Z.testbit w ZRAM_IDLE)
          && negb ((ZRAM_SAME <? ZRAM_FLAG_SHIFT)
                   && (Z.testbit w ZRAM_WB || Z.testbit w ZRAM_SAME || negb (e =? 0)))
          = false) as ->.
  { destruct (Z.testbit w ZRAM_SAME), (Z.testbit w ZRAM_WB); try discriminate Hws;
      cbn [negb andb]; rewrite ?andb_false_r; done. }
  by destruct c.
Qed.

(** [zram_free_page], with what it does to the slot and to the counters. *)
Lemma zram_free_page_weights z i s :
  table z !! i = Some s -> is_ulong (flags s) ->
  Z.testbit (flags s) ZRAM_WB && Z.testbit (flags s) ZRAM_SAME = false ->
  runs (zram_free_page i) z (fun _ z' => exists w',
    table z' = <[i := mk_slot 0 w']> (table z) /\
    (forall b, 0 <= b -> Z.testbit w' b = free_page_bit (flags s) (element s) b) /\
    0 <= w' /\
    (forall c, slot_counter c = true -> slot_weight c (mk_slot 0 w') = 0) /\
    (forall c, slot_counter c = true -> stats z' c = stats z c - slot_weight c s)).
Proof.
  intros H Hu Hws. eapply runs_mono.
  { apply runs_conj; [by apply zram_free_page_spec|by apply zram_free_page_stats]. }
  intros [] z' [(w' & Ht & Hb & Hw0 & _) Hst]. exists w'.
  split; [done|]. split; [done|]. split; [done|]. split; [|done].
  intros c _. by eapply slot_weight_freed.
Qed.

(** The flags that [zram_free_page] leaves clear. *)
Lemma free_page_bit_clear w e w1 :
  Z.testbit w ZRAM_WB && Z.testbit w ZRAM_SAME = false ->
  (forall b, 0 <= b -> Z.testbit w1 b = free_page_bit (Z.lor w (BIT ZRAM_LOCK)) e b) ->
  Z.testbit w1 ZRAM_WB = false /\ Z.testbit w1 ZRAM_SAME = false /\
  Z.testbit w1 ZRAM_HUGE = false /\ Z.testbit w1 ZRAM_COMPRESS_LOW = false.
Proof.
  intros Hws Hb. layout.
  rewrite !Hb by lia. rewrite !free_page_bit_locked by flag_ne.
  unfold free_page_bit. rewrite !Z.eqb_refl. cbn [negb andb].
  rewrite ?andb_false_r. cbn [andb].
  repeat split; try reflexivity.
  destruct (Z.testbit w ZRAM_SAME), (Z.testbit w ZRAM_WB); try discriminate Hws;
    cbn [negb andb]; rewrite ?andb_false_r; done.
Qed.

(** One page of a discard keeps the counters in step with the table. *)
Lemma zram_bio_discard_slot_drift z index s :
  table z !! index = Some s -> is_ulong (flags s) ->
  Z.testbit (flags s) ZRAM_LOCK = false ->
  Z.testbit (flags s) ZRAM_WB && Z.testbit (flags s) ZRAM_SAME = false ->
  runs (zram_bio_discard_slot index) z (fun _ z' => step_kept z z').
Proof.
  intros H Hu Hl Hws. layout. destruct s as [e w]. cbn [flags element] in *.
  unfold zram_bio_discard_slot.
  apply runs_bind. eapply runs_slot_lock; [done..|]. cbn [flags element].
  apply runs_bind. eapply runs_mono.
  { eapply zram_free_page_weights.
    - cbn [table set_table]. by eapply lookup_insert_table.
    - cbn [flags]. apply is_ulong_set_flag; [done|lia].
    - cbn [flags]. rewrite !testbit_set_flag_other by first [lia | flag_ne]. done. }
  cbn [flags element table set_table stats].
  intros [] z1 (w1 & Ht & Hb & Hw0 & Hzero & Hst).
  rewrite list_insert_insert_eq in Ht.
  assert (table z1 !! index = Some (mk_slot 0 w1)) as H1.
  { rewrite Ht. by eapply lookup_insert_table. }
  destruct (free_page_bit_clear w e w1 Hws Hb) as (Fwb & _).
  mrun H1.
  eapply (step_kept_slot z _ index (mk_slot e w)); [done| | |].
  { cbn [table]. rewrite Ht, list_insert_insert_eq. reflexivity. }
  2: { intros _. apply slot_sound_unlock. by rewrite Fwb. }
  intros c Hc. cbn [stats]. unfold stat_add.
  rewrite decide_False by (by destruct c).
  rewrite (Hst c Hc), slot_weight_lock, slot_weight_unlock, (Hzero c Hc). lia.
Qed.

Lemma slot_weight_bits c e w (wb same huge low : bool) size :
  Z.testbit w ZRAM_WB = wb -> Z.testbit w ZRAM_SAME = same ->
  Z.testbit w ZRAM_HUGE = huge -> Z.testbit w ZRAM_COMPRESS_LOW = low ->
  obj_size_of w = size ->
  slot_weight c (mk_slot e w)
  = match c with
    | pages_stored => if wb || same || negb (e =? 0) then 1 else 0
    | same_pages => if same then 1 else 0
    | huge_pages => if huge then 1 else 0
    | lowratio_pages => if low then 1 else 0
    | compr_data_size => if wb || same || (e =? 0) then 0 else size
    | _ => 0
    end.
Proof. intros <- <- <- <- <-. reflexivity. Qed.

(** The write path from [out:] on, for a same-filled page: the counters
    follow the slot, [same_pages] having been counted before. *)
Lemma __zram_bvec_write_out_same_drift z index s v :
  table z !! index = Some s -> is_ulong (flags s) ->
  Z.testbit (flags s) ZRAM_LOCK = false ->
  Z.testbit (flags s) ZRAM_WB && Z.testbit (flags s) ZRAM_SAME = false ->
  runs (__zram_bvec_write_out index ZRAM_SAME v 0 0 0) z (fun _ z' => exists s',
    table z' = <[index := s']> (table z) /\
    slot_sound s' /\
    forall c, slot_counter c = true ->
      stats z' c = stats z c - slot_weight c s + slot_weight c s'
                   - (if decide (c = same_pages) then 1 else 0)).
Proof.
  intros H Hu Hl Hws. layout. destruct s as [e w]. cbn [flags element] in *.
  unfold __zram_bvec_write_out.
  apply runs_bind. eapply runs_slot_lock; [done..|]. cbn [flags element].
  apply runs_bind. eapply runs_mono.
  { eapply zram_free_page_weights.
    - cbn [table set_table]. by eapply lookup_insert_table.
    - cbn [flags]. apply is_ulong_set_flag; [done|lia].
    - cbn [flags]. rewrite !testbit_set_flag_other by first [lia | flag_ne]. done. }
  cbn [flags element table set_table stats].
  intros [] z1 (w1 & Ht & Hb & Hw0 & Hzero & Hst).
  rewrite list_insert_insert_eq in Ht.
  assert (table z1 !! index = Some (mk_slot 0 w1)) as H1.
  { rewrite Ht. by eapply lookup_insert_table. }
  destruct (free_page_bit_clear w e w1 Hws Hb) as (Fwb & Fsame & Fhuge & Flow).
  change (0 =? PAGE_SIZE) with false.
  destruct (Z.eqb_spec ZRAM_SAME 0) as [?|_]; [lia|]. cbn [negb].
  mrun H1.
  eexists. split; [rewrite Ht, list_insert_insert_eq; reflexivity|].
  split.
  { apply slot_sound_unlock.
    rewrite testbit_set_flag_other by first [lia | flag_ne]. by rewrite Fwb. }
  intros c Hc. unfold stat_add.
  rewrite (Hst c Hc), slot_weight_lock, slot_weight_unlock.
  rewrite (slot_weight_bits c v _ false true false false
             (obj_size_of (Z.lor w1 (BIT ZRAM_SAME)))).
  2-5: rewrite testbit_set_flag by lia; rewrite ?Fwb, ?Fhuge, ?Flow, ?Z.eqb_refl.
  2-5: cmp; try flag_neq; try reflexivity; by rewrite ?orb_true_r.
  2: reflexivity.
  destruct c; try discriminate Hc; cbn [orb].
  all: repeat first [rewrite decide_True by done | rewrite decide_False by done]; lia.
Qed.

(** The write path from [out:] on, for a page stored in the pool object
    [h]: the counters follow the slot, [compr_data_size] having been counted
    before. *)
Lemma __zram_bvec_write_out_entry_drift z index s h comp_len :
  table z !! index = Some s -> is_ulong (flags s) ->
  Z.testbit (flags s) ZRAM_LOCK = false ->
  Z.testbit (flags s) ZRAM_WB && Z.testbit (flags s) ZRAM_SAME = false ->
  h <> 0 -> 0 <= comp_len <= PAGE_SIZE ->
  runs (__zram_bvec_write_out index 0 0 h comp_len 0) z (fun _ z' => exists s',
    table z' = <[index := s']> (table z) /\
    slot_sound s' /\
    forall c, slot_counter c = true ->
      stats z' c = stats z c - slot_weight c s + slot_weight c s'
                   - (if decide (c = compr_data_size) then comp_len else 0)).
Proof.
  intros H Hu Hl Hws Hh Hlen. layout. destruct s as [e w]. cbn [flags element] in *.
  unfold __zram_bvec_write_out.
  apply runs_bind. eapply runs_slot_lock; [done..|]. cbn [flags element].
  apply runs_bind. eapply runs_mono.
  { eapply zram_free_page_weights.
    - cbn [table set_table]. by eapply lookup_insert_table.
    - cbn [flags]. apply is_ulong_set_flag; [done|lia].
    - cbn [flags]. rewrite !testbit_set_flag_other by first [lia | flag_ne]. done. }
  cbn [flags element table set_table stats].
  intros [] z1 (w1 & Ht & Hb & Hw0 & Hzero & Hst).
  rewrite list_insert_insert_eq in Ht.
  assert (table z1 !! index = Some (mk_slot 0 w1)) as H1.
  { rewrite Ht. by eapply lookup_insert_table. }
  destruct (free_page_bit_clear w e w1 Hws Hb) as (Fwb & Fsame & Fhuge & Flow).
  cbn [Z.eqb negb]. cbv iota.
  assert (forall b, ZRAM_FLAG_SHIFT <= b -> Z.testbit comp_len b = false) as Hsz.
  { intros b Hb0. apply (testbit_above comp_len ZRAM_FLAG_SHIFT); [|done].
    pose proof obj_size_fits. lia. }
  (* the flags of the slot, from the word after [zram_set_obj_size] *)
  assert (forall Y (huge : bool),
    Z.testbit Y ZRAM_WB = false -> Z.testbit Y ZRAM_SAME = false ->
    Z.testbit Y ZRAM_HUGE = huge -> Z.testbit Y ZRAM_COMPRESS_LOW = false ->
    let X := Z.lor (Z.shiftl (Z.shiftr Y ZRAM_FLAG_SHIFT) ZRAM_FLAG_SHIFT) comp_len in
    Z.testbit X ZRAM_WB = false /\ Z.testbit X ZRAM_SAME = false /\
    Z.testbit X ZRAM_HUGE = huge /\ Z.testbit X ZRAM_COMPRESS_LOW = false /\
    obj_size_of X = comp_len) as Hsize.
  { intros Y huge Ywb Ysame Yhuge Ylow X. unfold X.
    rewrite !testbit_set_size, !Hsz, Ywb, Ysame, Yhuge, Ylow by lia.
    destruct (Z.leb_spec ZRAM_FLAG_SHIFT ZRAM_HUGE); [|lia].
    rewrite andb_true_r, !orb_false_r. cbn [andb].
    repeat split; try reflexivity.
    apply obj_size_of_set_size. pose proof obj_size_fits. lia. }
  assert (forall c X (huge low : bool),
    Z.testbit X ZRAM_WB = false -> Z.testbit X ZRAM_SAME = false ->
    Z.testbit X ZRAM_HUGE = huge -> Z.testbit X ZRAM_COMPRESS_LOW = low ->
    obj_size_of X = comp_len ->
    slot_weight c (mk_slot h (Z.land X (ulong_not (BIT ZRAM_LOCK))))
    = match c with
      | pages_stored => 1
      | huge_pages => if huge then 1 else 0
      | lowratio_pages => if low then 1 else 0
      | compr_data_size => comp_len
      | _ => 0
      end) as Hfinal.
  { intros c X huge low Xwb Xsame Xhuge Xlow Xsz.
    rewrite slot_weight_unlock.
    rewrite (slot_weight_bits c h X false false huge low comp_len) by done.
    destruct (Z.eqb_spec h 0) as [?|_]; [done|]. by destruct c. }
  assert (forall X f, f <> ZRAM_WB -> f <> ZRAM_SAME -> f <> ZRAM_HUGE ->
    ZRAM_FLAG_SHIFT <= f ->
    Z.testbit (Z.lor X (BIT f)) ZRAM_WB = Z.testbit X ZRAM_WB /\
    Z.testbit (Z.lor X (BIT f)) ZRAM_SAME = Z.testbit X ZRAM_SAME /\
    Z.testbit (Z.lor X (BIT f)) ZRAM_HUGE = Z.testbit X ZRAM_HUGE /\
    Z.testbit (Z.lor X (BIT f)) f = true /\
    obj_size_of (Z.lor X (BIT f)) = obj_size_of X) as Hset.
  { intros X f ? ? ? ?.
    rewrite !testbit_set_flag_other by lia.
    rewrite testbit_set_flag, Z.eqb_refl, orb_true_r by lia.
    rewrite obj_size_of_set_flag by lia. done. }
  destruct (comp_len =? PAGE_SIZE) eqn:Hhuge; cbn [when]; mrun H1.
  all: match goal with
       | |- runs (when ?c _) _ _ => destruct c; cbn [when]
       end.
  all: mrun H1.
  all: eexists; split; [rewrite Ht, list_insert_insert_eq; reflexivity|].
  1,2: destruct (Hsize (Z.lor w1 (BIT ZRAM_HUGE)) true)
         as (Xwb & Xsame & Xhuge & Xlow & Xsz);
       [ rewrite testbit_set_flag_other by first [lia | flag_ne]; done
       | rewrite testbit_set_flag_other by first [lia | flag_ne]; done
       | rewrite testbit_set_flag, Z.eqb_refl by lia; apply orb_true_r
       | rewrite testbit_set_flag_other by first [lia | flag_ne]; done
       | ].
  3,4: destruct (Hsize w1 false Fwb Fsame Fhuge Flow)
         as (Xwb & Xsame & Xhuge & Xlow & Xsz).
  all: cbv zeta in Xwb, Xsame, Xhuge, Xlow, Xsz.
  1,3: match goal with
       | |- context [Z.lor ?X0 (BIT ZRAM_COMPRESS_LOW)] =>
           destruct (Hset X0 ZRAM_COMPRESS_LOW) as (Lwb & Lsame & Lhuge & Llow & Lsz);
             [flag_ne | flag_ne | flag_ne | lia |];
           rewrite Xwb in Lwb; rewrite Xsame in Lsame; rewrite Xhuge in Lhuge;
           rewrite Xsz in Lsz
       end.
  all: (split; [apply slot_sound_unlock; first [by rewrite Lwb | by rewrite Xwb]|]).
  all: intros c Hc; unfold stat_add.
  all: rewrite (Hst c Hc), slot_weight_lock.
  all: first [ rewrite (Hfinal c _ _ true Lwb Lsame Lhuge Llow Lsz)
             | rewrite (Hfinal c _ _ false Xwb Xsame Xhuge Xlow Xsz) ].
  all: destruct c; try discriminate Hc.
  all: repeat first [rewrite decide_True by done | rewrite decide_False by done]; lia.
Qed.

Lemma __zram_bvec_write_compress_entry_drift again mem index h z s :
  table z !! index = Some s -> is_ulong (flags s) ->
  Z.testbit (flags s) ZRAM_LOCK = false ->
  Z.testbit (flags s) ZRAM_WB && Z.testbit (flags s) ZRAM_SAME = false ->
  huge_class_size <= PAGE_SIZE -> h <> 0 ->
  runs (__zram_bvec_write_compress again mem index h) z (fun _ z' => step_kept z z').
Proof.
  intros H Hu Hl Hws Hhuge Hh. apply Z.eqb_neq in Hh as Hh'.
  destruct again; cbn [__zram_bvec_write_compress].
  all: destruct (zcomp_compress mem) as [rc buffer]; cbv zeta.
  all: rewrite Hh'; cbn [negb when].
  all: destruct (negb (rc =? 0)).
  all: try (apply runs_bind, runs_zs_free, runs_ret; apply step_kept_pool).
  all: apply runs_bind, runs_ret; cbv beta; rewrite Hh'.
  all: apply runs_bind, runs_gets; cbv beta.
  all: apply runs_bind; unfold update_used_max.
  all: apply runs_bind, runs_atomic64_read; cbv beta.
  all: match goal with |- runs (when ?c _) _ _ => destruct c; cbn [when] end.
  all: first [apply runs_atomic64_add | apply runs_ret].
  all: apply runs_bind, runs_gets; cbv beta.
  all: match goal with |- runs (if ?c then _ else _) _ _ => destruct c end.
  all: try (apply runs_bind, runs_zs_free, runs_ret; norm;
            apply step_kept_table; [done|]; intros c Hc; cbn [stats];
            unfold stat_add; rewrite ?decide_False by (by destruct c); done).
  all: apply runs_bind, runs_zs_store; apply runs_bind, runs_atomic64_add.
  all: (eapply runs_mono;
        [eapply (__zram_bvec_write_out_entry_drift _ index s h);
           [norm; exact H|done|done|done|apply Z.eqb_neq, Hh'|
            destruct (Z.leb_spec huge_class_size (Z.of_nat (length buffer)));
              change PAGE_SIZE with 4096 in *; lia]|]).
  all: norm; intros r z' (s' & Ht & Hs' & Hst).
  all: eapply (step_kept_slot z z' index s s'); [done|done| |done].
  all: intros c Hc; rewrite (Hst c Hc); unfold stat_add.
  all: destruct c; try discriminate Hc.
  all: repeat first [rewrite decide_True by done | rewrite decide_False by done]; lia.
Qed.

(** A write keeps the counters in step with the table. *)
Lemma __zram_bvec_write_drift mem index z s :
  table z !! index = Some s -> is_ulong (flags s) ->
  Z.testbit (flags s) ZRAM_LOCK = false ->
  Z.testbit (flags s) ZRAM_WB && Z.testbit (flags s) ZRAM_SAME = false ->
  huge_class_size <= PAGE_SIZE ->
  runs (__zram_bvec_write mem index) z (fun _ z' => step_kept z z').
Proof.
  intros H Hu Hl Hws Hhuge.
  unfold __zram_bvec_write. destruct (page_same_filled mem) as [v|].
  - apply runs_bind, runs_atomic64_add. eapply runs_mono.
    { eapply (__zram_bvec_write_out_same_drift _ index s v); [norm; exact H|done..]. }
    norm. intros r z' (s' & Ht & Hs' & Hst).
    eapply (step_kept_slot z z' index s s'); [done|done| |done].
    intros c Hc. rewrite (Hst c Hc). unfold stat_add.
    destruct c; try discriminate Hc.
    all: repeat first [rewrite decide_True by done | rewrite decide_False by done]; lia.
  - pose (fuel := O). change 1%nat with (S fuel). clearbody fuel.
    cbn [__zram_bvec_write_compress].
    destruct (zcomp_compress mem) as [rc buffer] eqn:Hcomp. cbv zeta.
    cbn [Z.eqb negb when]. cbv iota.
    destruct (Z.eqb_spec rc 0) as [->|Hrc]; cbn [negb].
    2: { apply runs_bind, runs_ret. apply runs_ret. by apply step_kept_table. }
    assert (forall fl h zq, h <> 0 -> table zq = table z ->
      (forall c, slot_counter c = true -> stats zq c = stats z c) ->
      runs (__zram_bvec_write_compress fl mem index h) zq
        (fun _ z' => step_kept z z')) as Hentry.
    { intros fl h zq Hh Htq Hsq. eapply runs_mono.
      - eapply (__zram_bvec_write_compress_entry_drift fl mem index h zq s);
          [by rewrite Htq|done..].
      - intros r z' Hd. eapply step_kept_trans; [|exact Hd].
        by apply step_kept_table. }
    apply runs_bind, runs_zram_entry_alloc.
    + intros _. cbn [Z.eqb]. cbv iota.
      apply runs_bind, runs_atomic64_add. norm.
      apply runs_bind, runs_zram_entry_alloc; norm.
      * intros _. cbn [Z.eqb negb]. cbv iota. apply runs_ret.
        by apply (step_kept_stat z writestall 1).
      * intros Hn2. apply Z.eqb_neq in Hn2 as Hn2'. rewrite Hn2'. cbn [negb]. cbv iota.
        apply Hentry; [done|done|].
        intros c Hc. cbn [stats]. unfold stat_add.
        rewrite decide_False by (by destruct c). done.
    + intros Hn1. apply Z.eqb_neq in Hn1 as Hn1'. rewrite Hn1'.
      eapply runs_ext; [|apply (Hentry O _ _ Hn1); [reflexivity|done]].
      cbn [__zram_bvec_write_compress]. rewrite Hcomp. cbv zeta.
      cbn [Z.eqb negb]. cbv iota. rewrite ?Hn1'. symmetry.
      unfold bind at 1, ret at 1. cbv beta iota. rewrite Hn1'. reflexivity.
Qed.

(** Flags words that agree below the idle counter, ZRAM_IDLE, ZRAM_UNDER_WB
    and ZRAM_LOCK apart, count the same. *)
Lemma slot_weight_low_bits c e w w' :
  (forall b, 0 <= b < ZRAM_WB_IDLE_SHIFT -> b <> ZRAM_IDLE -> b <> ZRAM_UNDER_WB ->
     b <> ZRAM_LOCK -> Z.testbit w' b = Z.testbit w b) ->
  slot_weight c (mk_slot e w') = slot_weight c (mk_slot e w).
Proof.
  intros Hb. layout. apply slot_weight_ext.
  1-4: apply Hb; first [lia | flag_ne].
  apply obj_size_of_bits. intros b Hb0. apply Hb; lia.
Qed.

Lemma step_kept_flags z i s w' st :
  table z !! i = Some s -> is_ulong w' ->
  (forall b, 0 <= b < ZRAM_WB_IDLE_SHIFT -> b <> ZRAM_IDLE -> b <> ZRAM_UNDER_WB ->
     b <> ZRAM_LOCK -> Z.testbit w' b = Z.testbit (flags s) b) ->
  (forall c, slot_counter c = true -> st c = stats z c) ->
  step_kept z (set_stats (set_table z (<[i := mk_slot (element s) w']> (table z))) st).
Proof.
  intros Hs Hu Hb Hst. layout.
  eapply (step_kept_slot z _ i s); [done|reflexivity| |].
  - intros c Hc. cbn [stats set_stats]. rewrite (Hst c Hc).
    destruct s as [e w]. cbn [flags element] in *.
    rewrite (slot_weight_low_bits c e w w' Hb). lia.
  - intros [_ Hws]. split; [done|]. cbn [flags].
    rewrite !Hb by first [lia | flag_ne]. exact Hws.
Qed.

Lemma writeback_batch_reconcile_drift start batch i bp z s :
  batch !! i = Some bp -> table z !! batch_index bp = Some s ->
  is_ulong (flags s) -> Z.testbit (flags s) ZRAM_LOCK = false ->
  Z.testbit (flags s) ZRAM_WB && Z.testbit (flags s) ZRAM_SAME = false ->
  runs (writeback_batch_reconcile start batch i) z (fun _ z' => step_kept z z').
Proof.
  intros Hbp H Hu Hl Hws. layout. destruct s as [e w]. cbn [flags element] in *.
  eapply runs_ext; [unfold writeback_batch_reconcile; rewrite Hbp; reflexivity|].
  cbv zeta. apply runs_bind, runs_atomic64_add. norm.
  apply runs_bind. eapply runs_slot_lock; [exact H|done|]. cbn [flags element]. norm.
  apply runs_bind. eapply runs_allocated; [slot H|]. cbn [flags].
  mrun H.
  destruct (negb (slot_allocated (Z.lor w (BIT ZRAM_LOCK)))
            || negb (Z.testbit (Z.lor w (BIT ZRAM_LOCK)) ZRAM_IDLE)).
  - mrun H.
    assert (forall b, 0 <= b < ZRAM_WB_IDLE_SHIFT -> b <> ZRAM_IDLE ->
      b <> ZRAM_UNDER_WB -> b <> ZRAM_LOCK ->
      Z.testbit (Z.land (Z.land (Z.land (Z.lor w (BIT ZRAM_LOCK))
                                   (ulong_not (BIT ZRAM_UNDER_WB)))
                           (ulong_not (BIT ZRAM_IDLE)))
                   (BIT ZRAM_WB_IDLE_SHIFT - 1)) b = Z.testbit w b) as Hbits.
    { intros b Hb0 Hn1 Hn2 Hn3.
      rewrite testbit_low_mask, !testbit_clear_flag, testbit_set_flag by lia.
      rewrite (Z.eqb_sym ZRAM_UNDER_WB b), (Z.eqb_sym ZRAM_IDLE b).
      destruct (Z.eqb_spec ZRAM_LOCK b); [lia|].
      destruct (Z.eqb_spec b ZRAM_UNDER_WB); [lia|].
      destruct (Z.eqb_spec b ZRAM_IDLE); [lia|].
      destruct (Z.ltb_spec b 64); [|lia].
      destruct (Z.ltb_spec b ZRAM_WB_IDLE_SHIFT); [|lia].
      cbn [negb]. by rewrite orb_false_r, !andb_true_r. }
    eapply (step_kept_slot z _ (batch_index bp) (mk_slot e w)); [done|reflexivity| |].
    2: { intros _. apply slot_sound_unlock.
         rewrite !Hbits by first [lia | flag_ne]. exact Hws. }
    intros c Hc. cbn [stats]. unfold stat_add.
    rewrite !decide_False by (by destruct c).
    rewrite slot_weight_unlock.
    rewrite (slot_weight_low_bits c e w _ Hbits). lia.
  - apply runs_bind. eapply runs_mono.
    { eapply zram_free_page_weights.
      - cbn [table]. by eapply lookup_insert_table.
      - cbn [flags]. apply is_ulong_set_flag; [done|lia].
      - cbn [flags]. rewrite !testbit_set_flag_other by first [lia | flag_ne]. done. }
    cbn [flags element table stats].
    intros [] z1 (w1 & Ht & Hb & Hw0 & Hzero & Hst).
    rewrite list_insert_insert_eq in Ht.
    assert (table z1 !! batch_index bp = Some (mk_slot 0 w1)) as H1.
    { rewrite Ht. by eapply lookup_insert_table. }
    destruct (free_page_bit_clear w e w1 Hws Hb) as (Fwb & Fsame & Fhuge & Flow).
    cbv beta. mrun H1.
    destruct (wb_limit_enable z1 && (0 <? bd_wb_limit z1)); cbn [when].
    all: first [ apply runs_ret | eexists _, _; split; [reflexivity|] ].
    all: norm; mrun H1.
    all: eapply (step_kept_slot z _ (batch_index bp) (mk_slot e w));
           [done|cbn [table]; rewrite Ht, !list_insert_insert_eq; reflexivity| |].
    all: try (intros _; apply slot_sound_unlock;
              rewrite (testbit_set_flag_other _ ZRAM_WB ZRAM_SAME)
                by first [lia | flag_ne];
              rewrite (testbit_clear_flag _ ZRAM_UNDER_WB ZRAM_SAME), Fsame by lia;
              cbn [andb]; apply andb_false_r).
    all: intros c Hc; cbn [stats]; unfold stat_add.
    all: rewrite (Hst c Hc), slot_weight_lock, slot_weight_unlock.
    all: rewrite (slot_weight_bits c (start + Z.of_nat i) _ true false false false
                    (obj_size_of (Z.lor (Z.land w1 (ulong_not (BIT ZRAM_UNDER_WB)))
                                    (BIT ZRAM_WB)))).
    all: try reflexivity.
    all: try (rewrite testbit_set_flag, testbit_clear_flag by lia;
              rewrite ?Fsame, ?Fhuge, ?Flow, ?Z.eqb_refl;
              cbn [andb orb]; rewrite ?orb_true_r; try reflexivity;
              cmp; try flag_neq; reflexivity).
    all: destruct c; try discriminate Hc; cbn [orb]; unfold stat_add.
    all: repeat first [rewrite decide_True by done | rewrite decide_False by done]; lia.
Qed.

Lemma zram_slot_free_notify_drift z index s :
  table z !! index = Some s -> is_ulong (flags s) ->
  Z.testbit (flags s) ZRAM_WB && Z.testbit (flags s) ZRAM_SAME = false ->
  runs (zram_slot_free_notify index) z (fun _ z' => step_kept z z').
Proof.
  intros H Hu Hws. layout. destruct s as [e w]. cbn [flags element] in *.
  unfold zram_slot_free_notify, zram_slot_trylock.
  apply runs_bind, runs_atomic64_add. norm.
  apply runs_bind, runs_bind. eapply runs_load_flags; [exact H|]. cbn [flags].
  destruct (Z.testbit w ZRAM_LOCK) eqn:Hl.
  - apply runs_ret. cbn [Z.eqb]. cbv iota. apply runs_atomic64_add. norm.
    apply step_kept_table; [done|]. intros c Hc. cbn [stats]. unfold stat_add.
    rewrite !decide_False by (by destruct c). done.
  - apply runs_bind. eapply runs_store_flags; [exact H|]. apply runs_ret. norm.
    cbn [Z.eqb]. cbv iota.
    apply runs_bind. eapply runs_mono.
    { eapply zram_free_page_weights.
      - cbn [table]. by eapply lookup_insert_table.
      - cbn [flags]. apply is_ulong_set_flag; [done|lia].
      - cbn [flags]. rewrite !testbit_set_flag_other by first [lia | flag_ne]. done. }
    cbn [flags element table stats].
    intros [] z1 (w1 & Ht & Hb & Hw0 & Hzero & Hst).
    rewrite list_insert_insert_eq in Ht.
    assert (table z1 !! index = Some (mk_slot 0 w1)) as H1.
    { rewrite Ht. by eapply lookup_insert_table. }
    destruct (free_page_bit_clear w e w1 Hws Hb) as (Fwb & _).
    mrun H1.
    eapply (step_kept_slot z _ index (mk_slot e w)); [done| | |].
    { cbn [table]. rewrite Ht, list_insert_insert_eq. reflexivity. }
    2: { intros _. apply slot_sound_unlock. by rewrite Fwb. }
    intros c Hc. cbn [stats].
    rewrite (Hst c Hc), slot_weight_lock, slot_weight_unlock, (Hzero c Hc).
    unfold stat_add. rewrite decide_False by (by destruct c). lia.
Qed.

(** Every section on slots of the table returns and leaves no lock held. *)
Lemma run_op_runs N o z :
  wb_device N z -> op_in_table N o ->
  runs (run_op o) z (fun _ z' => wb_device N z').
Proof.
  intros Hz Ho.
  assert (forall z', table z' = table z -> wb_device N z') as Hq
    by (intros z' Ht; by eapply wb_device_table).
  destruct o; cbn [run_op op_in_table] in *.
  - by apply idle_store_slot_runs.
  - by apply new_store_slot_runs.
  - apply runs_bind. eapply runs_mono; [by apply zram_bvec_read_runs|].
    intros a z' Hz'. by apply runs_ret.
  - apply runs_bind. eapply runs_mono; [by apply __zram_bvec_write_runs|].
    intros a z' Hz'. by apply runs_ret.
  - by apply zram_bio_discard_slot_runs.
  - by apply zram_slot_free_notify_runs.
  - apply runs_bind, alloc_block_bdev_runs. intros b z' Ht.
    apply runs_ret. by apply Hq.
  - unfold free_block_bdev. apply runs_bind, runs_test_and_clear_bit.
    apply runs_atomic64_add. by apply Hq.
  - apply runs_bind. eapply runs_mono; [by apply writeback_select_runs|].
    intros a z' Hz'. by apply runs_ret.
  - by apply writeback_read_failed_runs.
  - apply runs_bind, submit_bio_wait_runs. intros err z' Ht.
    apply runs_ret. by apply Hq.
  - destruct Ho as (bp & Hbp & Hi). by eapply writeback_batch_rollback_runs.
  - destruct Ho as (bp & Hbp & Hi). apply runs_bind.
    eapply runs_mono; [by eapply writeback_batch_reconcile_runs|].
    intros a z' [Hz' _]. by apply runs_ret.
Qed.

(** Every section keeps the counters in step with the table. *)
Lemma run_op_step_kept N o z :
  wb_device N z -> table_sound z -> op_in_table N o ->
  huge_class_size <= PAGE_SIZE ->
  runs (run_op o) z (fun _ z' => step_kept z z').
Proof.
  intros [Hl HN] Hsound Ho Hhuge. subst N. layout.
  assert (forall i s, table z !! i = Some s -> is_ulong (flags s)) as Hu
    by (intros i s Hs; apply (Hsound i s Hs)).
  assert (forall i s, table z !! i = Some s ->
    Z.testbit (flags s) ZRAM_WB && Z.testbit (flags s) ZRAM_SAME = false) as Hws
    by (intros i s Hs; apply (Hsound i s Hs)).
  assert (forall w, is_ulong w -> is_ulong (rollback_word w) /\
    forall b, 0 <= b < ZRAM_WB_IDLE_SHIFT -> b <> ZRAM_IDLE -> b <> ZRAM_UNDER_WB ->
      b <> ZRAM_LOCK -> Z.testbit (rollback_word w) b = Z.testbit w b) as Hroll.
  { intros w Hw. split; [by apply is_ulong_rollback_word|].
    intros b Hb0 Hn1 Hn2 _. rewrite testbit_rollback_word by lia.
    destruct (Z.eqb_spec b ZRAM_UNDER_WB); [lia|].
    destruct (Z.eqb_spec b ZRAM_IDLE); [lia|].
    destruct (Z.ltb_spec b ZRAM_WB_IDLE_SHIFT); [|lia].
    cbn [negb]. by rewrite !andb_true_r. }
  destruct o as [index|index|dst index access|mem index|index|index| |blk_idx
                |mode wb_idle_min index|index|start pages|start batch i
                |start batch i];
    cbn [run_op op_in_table] in *.
  - destruct (lookup_lt_is_Some_2 _ _ Ho) as [s Hs].
    destruct (idle_store_slot_spec z index s Hs (Hu _ _ Hs) (Hl _ _ Hs))
      as (w' & Hrun & Hw' & _ & _ & Hb).
    eapply runs_eq; [exact Hrun|].
    replace (set_table z (<[index := mk_slot (element s) w']> (table z)))
      with (set_stats (set_table z (<[index := mk_slot (element s) w']> (table z)))
              (stats z)) by reflexivity.
    apply step_kept_flags; [done|done| |done].
    intros b Hb0 Hn1 _ _. by apply Hb.
  - destruct (lookup_lt_is_Some_2 _ _ Ho) as [s Hs].
    destruct (new_store_slot_spec z index s Hs (Hu _ _ Hs) (Hl _ _ Hs))
      as (w' & Hrun & Hw' & _ & _ & Hb).
    eapply runs_eq; [exact Hrun|].
    replace (set_table z (<[index := mk_slot (element s) w']> (table z)))
      with (set_stats (set_table z (<[index := mk_slot (element s) w']> (table z)))
              (stats z)) by reflexivity.
    apply step_kept_flags; [done|done| |done].
    intros b Hb0 Hn1 _ _. by apply Hb.
  - destruct (lookup_lt_is_Some_2 _ _ Ho) as [s Hs].
    apply runs_bind. unfold zram_bvec_read. eapply runs_eq.
    { apply (__zram_bvec_read_spec dst z index s _ access Hs (Hu _ _ Hs) (Hl _ _ Hs)). }
    apply runs_ret.
    pose proof (accessed_word_cleared _ (Hu _ _ Hs)) as (Ha & _ & _ & Hb).
    apply step_kept_flags; [done| | |].
    + destruct access; [done|]. by eapply Hu.
    + intros b Hb0 Hn1 _ _. destruct access; [|done]. by apply Hb.
    + intros c Hc. destruct (Z.testbit (flags s) ZRAM_WB); [|done].
      unfold stat_add. rewrite decide_False by (by destruct c). done.
  - destruct (lookup_lt_is_Some_2 _ _ Ho) as [s Hs].
    apply runs_bind. unfold zram_bvec_write. eapply runs_mono.
    { by apply (__zram_bvec_write_drift mem index z s Hs (Hu _ _ Hs) (Hl _ _ Hs)
                  (Hws _ _ Hs)). }
    intros r z' Hd. by apply runs_ret.
  - destruct (lookup_lt_is_Some_2 _ _ Ho) as [s Hs].
    by apply (zram_bio_discard_slot_drift z index s Hs (Hu _ _ Hs) (Hl _ _ Hs)
                (Hws _ _ Hs)).
  - destruct (lookup_lt_is_Some_2 _ _ Ho) as [s Hs].
    by apply (zram_slot_free_notify_drift z index s Hs (Hu _ _ Hs) (Hws _ _ Hs)).
  - apply runs_bind. unfold runs. rewrite alloc_block_bdev_eq. cbv zeta.
    destruct (_ =? _); eexists _, _; (split; [reflexivity|]); apply runs_ret.
    + apply step_kept_refl.
    + apply step_kept_table; [done|]. intros c Hc. cbn [stats set_stats].
      unfold stat_add. rewrite decide_False by (by destruct c). done.
  - unfold free_block_bdev. apply runs_bind, runs_test_and_clear_bit.
    apply runs_atomic64_add. apply step_kept_table; [done|].
    intros c Hc. cbn [stats set_stats set_bitmap]. unfold stat_add.
    rewrite decide_False by (by destruct c). done.
  - destruct (lookup_lt_is_Some_2 _ _ Ho) as [s Hs].
    apply runs_bind. eapply runs_eq.
    { apply (writeback_select_spec mode wb_idle_min z index s Hs (Hu _ _ Hs)
               (Hl _ _ Hs)). }
    apply runs_ret. cbv zeta.
    match goal with |- step_kept z (if ?c then _ else _) => destruct c end;
      [|apply step_kept_refl].
    replace (set_table z (<[index := mk_slot (element s)
               (Z.lor (Z.lor (flags s) (BIT ZRAM_UNDER_WB)) (BIT ZRAM_IDLE))]> (table z)))
      with (set_stats (set_table z (<[index := mk_slot (element s)
               (Z.lor (Z.lor (flags s) (BIT ZRAM_UNDER_WB)) (BIT ZRAM_IDLE))]> (table z)))
              (stats z)) by reflexivity.
    apply step_kept_flags; [done| | |done].
    + apply is_ulong_set_flag; [apply is_ulong_set_flag; [by eapply Hu|lia]|lia].
    + intros b Hb0 Hn1 Hn2 _. by rewrite !testbit_set_flag_other by lia.
  - destruct (lookup_lt_is_Some_2 _ _ Ho) as [s Hs].
    eapply runs_eq.
    { apply (writeback_read_failed_spec z index s Hs (Hu _ _ Hs) (Hl _ _ Hs)). }
    replace (set_table z (<[index := mk_slot (element s) (rollback_word (flags s))]>
                            (table z)))
      with (set_stats (set_table z (<[index := mk_slot (element s)
                                       (rollback_word (flags s))]> (table z)))
              (stats z)) by reflexivity.
    destruct (Hroll _ (Hu _ _ Hs)) as [Hr1 Hr2].
    by apply step_kept_flags.
  - apply runs_bind. unfold submit_bio_wait, runs. cbv zeta.
    destruct (_ =? 0); eexists _, _; (split; [reflexivity|]); apply runs_ret;
      by apply step_kept_table.
  - destruct Ho as (bp & Hbp & Hi).
    destruct (lookup_lt_is_Some_2 _ _ Hi) as [s Hs].
    eapply runs_eq.
    { apply (writeback_batch_rollback_spec _ batch i bp z s Hbp Hs
               (Hu _ _ Hs) (Hl _ _ Hs)). }
    destruct (Hroll _ (Hu _ _ Hs)) as [Hr1 Hr2].
    eapply step_kept_trans; [apply (step_kept_flags z (batch_index bp) s
                                      (rollback_word (flags s)) (stats z));
                             [done|done|done|done]|].
    apply step_kept_table; [done|].
    intros c Hc. cbn [stats set_stats set_bitmap set_table]. unfold stat_add.
    rewrite decide_False by (by destruct c). done.
  - destruct Ho as (bp & Hbp & Hi).
    destruct (lookup_lt_is_Some_2 _ _ Hi) as [s Hs].
    apply runs_bind. eapply runs_mono.
    { by apply (writeback_batch_reconcile_drift _ batch i bp z s Hbp Hs
                  (Hu _ _ Hs) (Hl _ _ Hs) (Hws _ _ Hs)). }
    intros r z' Hd. by apply runs_ret.
Qed.

Lemma table_sound_Forall z :
  Forall (fun s => 0 <= flags s <= ULONG_MAX /\
                   Z.testbit (flags s) ZRAM_WB && Z.testbit (flags s) ZRAM_SAME = false)
    (table z) ->
  table_sound z.
Proof.
  intros Hf i s Hs. rewrite Forall_lookup in Hf. exact (Hf i s Hs).
Qed.

Lemma table_step_state_after N o z :
  op_in_table N o -> gets_through (run_op o) z = true ->
  table_step N z (state_after (run_op o) z).
Proof.
  intros Ho Hs. exists o. split; [done|]. unfold state_after, gets_through in *.
  destruct (run_op o z) as [[[] z']|]; [done|discriminate].
Qed.

(** X20.  The statistics follow the table.  Take a device on which no slot
    lock is held, every flags word is an [unsigned long] and no slot has
    ZRAM_WB and ZRAM_SAME together (a fresh device is one), with
    [huge_class_size] at most a page.  After any number of sections of the
    driver on slots of its table (one slot of [idle_store] or [new_store],
    a read, a write, also one that fails, a discard, a free notification,
    and the steps of writeback) the device is such a device again, and each
    of [pages_stored], [same_pages], [huge_pages], [lowratio_pages] and
    [compr_data_size] is as far as before from what the table says: the
    number of slots that hold a block of the backing device, a same-fill
    value or a pool object, the number of slots with ZRAM_SAME, with
    ZRAM_HUGE and with ZRAM_COMPRESS_LOW, and the sum of the sizes recorded
    for the pool objects.  Counters that are exact stay exact. *)
Theorem stats_follow_table N z0 z :
  wb_device N z0 -> table_sound z0 -> huge_class_size <= PAGE_SIZE ->
  rtc (table_step N) z0 z ->
  wb_device N z /\ table_sound z /\
  forall c, slot_counter c = true ->
    stats z c - table_weight c (table z) = stats z0 c - table_weight c (table z0).
Proof.
  intros Hz Hs Hhuge Hr. revert Hz Hs.
  induction Hr as [z|z0 z1 z (o & Ho & Hrun) _ IH]; intros Hz Hs; [done|].
  destruct (run_op_runs N o z0 Hz Ho) as ([] & z1' & Hrun' & Hz1).
  destruct (run_op_step_kept N o z0 Hz Hs Ho Hhuge) as ([] & z1'' & Hrun'' & Hd & Hs1).
  rewrite Hrun in Hrun', Hrun''. injection Hrun' as <-. injection Hrun'' as <-.
  destruct (IH Hz1 (Hs1 Hs)) as (Hz' & Hs' & Hd').
  split; [done|]. split; [done|].
  intros c Hc. rewrite (Hd' c Hc). apply (Hd c Hc).
Qed.

(** ** zram_meta_free *)

Lemma table_weight_zero c t :
  (forall i s, t !! i = Some s -> slot_weight c s = 0) -> table_weight c t = 0.
Proof.
  unfold table_weight. induction t as [|x t IH]; intros Hz; [done|].
  cbn [map fold_right]. rewrite (Hz 0%nat x eq_refl), IH; [done|].
  intros i s Hs. exact (Hz (S i) s Hs).
Qed.

(** The slot that [zram_free_page] leaves. *)
Lemma free_page_bit_empty w e w1 :
  is_ulong w -> Z.testbit w ZRAM_WB && Z.testbit w ZRAM_SAME = false ->
  0 <= w1 -> (forall b, 0 <= b -> Z.testbit w1 b = free_page_bit w e b) ->
  slot_sound (mk_slot 0 w1) /\ slot_empty (mk_slot 0 w1).
Proof.
  intros Hu Hws Hw0 Hb. layout.
  assert (Z.testbit w1 ZRAM_WB = false /\ Z.testbit w1 ZRAM_SAME = false /\
          Z.testbit w1 ZRAM_HUGE = false /\ Z.testbit w1 ZRAM_IDLE = false /\
          Z.testbit w1 ZRAM_COMPRESS_LOW = false) as (Fwb & Fsame & Fhuge & Fidle & Flow).
  { rewrite !Hb by lia. unfold free_page_bit. rewrite !Z.eqb_refl. cbn [negb andb].
    rewrite ?andb_false_r. cbn [andb].
    repeat split; try reflexivity.
    destruct (Z.testbit w ZRAM_SAME), (Z.testbit w ZRAM_WB); try discriminate Hws;
      cbn [negb andb]; rewrite ?andb_false_r; done. }
  split; [split|]; cbn [flags element].
  - apply is_ulong_bits; [done|]. intros i Hi. rewrite Hb by lia.
    unfold free_page_bit. by rewrite (ulong_testbit_high w i Hu Hi).
  - by rewrite Fwb.
  - by repeat split.
Qed.


(** ** The pool and the table *)

Lemma pool_kept_frame z z' :
  table z' = table z ->
  (forall h, is_Some (mem_pool z !! h) -> is_Some (mem_pool z' !! h)) ->
  pool_kept z z'.
Proof.
  intros Ht Hp [Hlive Hinj]. split.
  - intros i s. rewrite Ht. intros Hs Hh. apply Hp. by eapply Hlive.
  - intros i j s t. rewrite Ht. apply Hinj.
Qed.

(** One slot changes: the objects of the other slots stay, and the slot
    holds its old object or one that was not in the pool. *)
Lemma pool_kept_slot z z' i s s' :
  table z !! i = Some s -> table z' = <[i := s']> (table z) ->
  (forall h, is_Some (mem_pool z !! h) ->
     (holds_object s /\ h = element s) \/ is_Some (mem_pool z' !! h)) ->
  (pool_sound z -> holds_object s' ->
     is_Some (mem_pool z' !! element s') /\
     ((holds_object s /\ element s' = element s) \/ mem_pool z !! element s' = None)) ->
  pool_kept z z'.
Proof.
  intros Hs Ht Ha Hb Hz. pose proof Hz as [Hlive Hinj].
  assert (forall j t, j <> i -> <[i := s']> (table z) !! j = Some t ->
    holds_object t -> table z !! j = Some t /\ is_Some (mem_pool z !! element t)) as Hold.
  { intros j t Hne Hj Hh. rewrite list_lookup_insert_ne in Hj by done.
    split; [done|]. by eapply Hlive. }
  assert (forall j t, j <> i -> table z !! j = Some t -> holds_object t ->
    holds_object s' -> element s' = element t -> False) as Hclash.
  { intros j t Hne Hj Hh Hh' Heq.
    destruct (Hb Hz Hh') as [_ [[Hhs He]|Hnone]].
    - apply Hne. apply (Hinj j i t s Hj Hs Hh Hhs). congruence.
    - pose proof (Hlive j t Hj Hh) as [x Hx]. congruence. }
  split.
  - intros j t. rewrite Ht. intros Hj Hh. destruct (decide (j = i)) as [->|Hne].
    + rewrite (lookup_insert_table z i s s' Hs) in Hj. injection Hj as <-.
      by apply Hb.
    + destruct (Hold j t Hne Hj Hh) as [Hj' Hl].
      destruct (Ha (element t) Hl) as [[Hhs Heq]|Hl']; [|done].
      exfalso. apply Hne. by apply (Hinj j i t s).
  - intros j k t u. rewrite Ht. intros Hj Hk Hht Hhu Heq.
    destruct (decide (j = i)) as [->|Hj'], (decide (k = i)) as [->|Hk']; [done| | |].
    + rewrite (lookup_insert_table z i s s' Hs) in Hj. injection Hj as <-.
      destruct (Hold k u Hk' Hk Hhu) as [Hk0 _].
      exfalso. by apply (Hclash k u).
    + rewrite (lookup_insert_table z i s s' Hs) in Hk. injection Hk as <-.
      destruct (Hold j t Hj' Hj Hht) as [Hj0 _].
      exfalso. by apply (Hclash j t).
    + destruct (Hold j t Hj' Hj Hht) as [Hj0 _].
      destruct (Hold k u Hk' Hk Hhu) as [Hk0 _].
      by apply (Hinj j k t u).
Qed.

(** Only flags other than ZRAM_WB and ZRAM_SAME change. *)
Lemma pool_kept_flags z i s w' st :
  table z !! i = Some s ->
  (forall b, 0 <= b < ZRAM_WB_IDLE_SHIFT -> b <> ZRAM_IDLE -> b <> ZRAM_UNDER_WB ->
     b <> ZRAM_LOCK -> Z.testbit w' b = Z.testbit (flags s) b) ->
  pool_kept z (set_stats (set_table z (<[i := mk_slot (element s) w']> (table z))) st).
Proof.
  intros Hs Hb. layout.
  eapply (pool_kept_slot z _ i s); [done|reflexivity| |].
  - intros h Hh. by right.
  - intros [Hlive _] (Hwb & Hsame & He). cbn [flags element] in *.
    rewrite Hb in Hwb by first [lia | flag_ne].
    rewrite Hb in Hsame by first [lia | flag_ne].
    assert (holds_object s) as Hh by done.
    split; [by eapply Hlive|]. by left.
Qed.

(** The slot has been freed and holds no object. *)
Lemma pool_kept_freed z z' i s s' :
  table z !! i = Some s -> table z' = <[i := s']> (table z) ->
  mem_pool z' = (if Z.testbit (flags s) ZRAM_WB || Z.testbit (flags s) ZRAM_SAME
                    || (element s =? 0)
                 then mem_pool z else delete (element s) (mem_pool z)) ->
  ~ holds_object s' ->
  pool_kept z z'.
Proof.
  intros Hs Ht Hp Hno.
  eapply (pool_kept_slot z z' i s s'); [done|done| |by intros _ ?].
  intros h Hh. rewrite Hp.
  destruct (Z.testbit (flags s) ZRAM_WB) eqn:Hwb; [by right|].
  destruct (Z.testbit (flags s) ZRAM_SAME) eqn:Hsame; [by right|].
  destruct (Z.eqb_spec (element s) 0) as [He|He]; [by right|]. cbn [orb].
  destruct (decide (h = element s)) as [->|Hne]; [by left|].
  right. by rewrite lookup_delete_ne.
Qed.

Lemma pool_kept_trans z1 z2 z3 : pool_kept z1 z2 -> pool_kept z2 z3 -> pool_kept z1 z3.
Proof. intros H1 H2 Hz. by apply H2, H1. Qed.

(** A write keeps the pool and the table together. *)
Lemma __zram_bvec_write_pool mem index z s :
  fresh_handles ->
  table z !! index = Some s -> is_ulong (flags s) ->
  Z.testbit (flags s) ZRAM_LOCK = false ->
  Z.testbit (flags s) ZRAM_WB && Z.testbit (flags s) ZRAM_SAME = false ->
  huge_class_size <= PAGE_SIZE ->
  runs (__zram_bvec_write mem index) z (fun _ z' => pool_kept z z').
Proof.
  intros Hfresh H Hu Hl Hws Hhuge. layout.
  unfold __zram_bvec_write. destruct (page_same_filled mem) as [v|].
  - apply runs_bind, runs_atomic64_add. eapply runs_mono.
    { eapply (__zram_bvec_write_out_same _ index s v); [norm; exact H|done..]. }
    norm. intros r z' (_ & w' & Ht & _ & Hb & _ & Hp).
    eapply (pool_kept_freed z z' index s); [done|done|done|].
    intros (_ & Hsame & _). cbn [flags] in Hsame.
    rewrite Hb, Z.eqb_refl, orb_true_r in Hsame by lia. discriminate.
  - pose (fuel := O). change 1%nat with (S fuel). clearbody fuel.
    cbn [__zram_bvec_write_compress].
    destruct (zcomp_compress mem) as [rc buffer] eqn:Hcomp. cbv zeta.
    cbn [Z.eqb negb when]. cbv iota.
    destruct (Z.eqb_spec rc 0) as [->|Hrc]; cbn [negb].
    2: { apply runs_bind, runs_ret. apply runs_ret. by apply pool_kept_frame. }
    assert (forall fl h zq, h <> 0 -> table zq = table z ->
      mem_pool zq = <[h := []]> (mem_pool z) -> mem_pool z !! h = None ->
      runs (__zram_bvec_write_compress fl mem index h) zq
        (fun _ z' => pool_kept z z')) as Hentry.
    { intros fl h zq Hh Htq Hpq Hnone. eapply runs_mono.
      - eapply (__zram_bvec_write_compress_entry fl mem buffer index h zq s);
          [by rewrite Htq|done..].
      - intros r z' [(_ & w' & Ht & _ & _ & Hwb' & Hsame' & _ & Hp & _)
                    |(_ & Ht & Hp & _)].
        + rewrite Htq in Ht. rewrite Hpq in Hp.
          eapply (pool_kept_slot z z' index s (mk_slot h w')); [done|done| |].
          * intros h' Hh'. rewrite Hp.
            assert (is_Some (<[h := if huge_class_size <=? Z.of_nat (length buffer)
                                    then take (Z.to_nat PAGE_SIZE) mem else buffer]>
                               (<[h := []]> (mem_pool z)) !! h')) as Hin.
            { destruct (decide (h' = h)) as [->|Hne].
              - rewrite lookup_insert_eq. by eexists.
              - by rewrite !lookup_insert_ne. }
            destruct (Z.testbit (flags s) ZRAM_WB) eqn:Xwb; [by right|].
            destruct (Z.testbit (flags s) ZRAM_SAME) eqn:Xsame; [by right|].
            destruct (Z.eqb_spec (element s) 0) as [He|He]; [by right|]. cbn [orb].
            destruct (decide (h' = element s)) as [->|Hne]; [by left|].
            right. by rewrite lookup_delete_ne.
          * intros [Hlive _] _. cbn [element]. split; [|by right].
            rewrite Hp.
            assert (is_Some (<[h := if huge_class_size <=? Z.of_nat (length buffer)
                                    then take (Z.to_nat PAGE_SIZE) mem else buffer]>
                               (<[h := []]> (mem_pool z)) !! h)) as Hin
              by (rewrite lookup_insert_eq; by eexists).
            destruct (Z.testbit (flags s) ZRAM_WB) eqn:Xwb; [exact Hin|].
            destruct (Z.testbit (flags s) ZRAM_SAME) eqn:Xsame; [exact Hin|].
            destruct (Z.eqb_spec (element s) 0) as [He|He]; [exact Hin|]. cbn [orb].
            assert (element s <> h) as Hne.
            { intros Heq. destruct (Hlive index s H) as [x Hx]; [done|]. congruence. }
            by rewrite lookup_delete_ne.
        + apply pool_kept_frame; [by rewrite Ht|].
          intros h' Hh'. rewrite Hp, Hpq.
          assert (h' <> h) as Hne by (intros ->; destruct Hh'; congruence).
          by rewrite lookup_delete_ne, lookup_insert_ne. }
    apply runs_bind, runs_zram_entry_alloc.
    + intros _. cbn [Z.eqb]. cbv iota.
      apply runs_bind, runs_atomic64_add. norm.
      apply runs_bind, runs_zram_entry_alloc; norm.
      * intros _. cbn [Z.eqb negb]. cbv iota. apply runs_ret.
        by apply pool_kept_frame.
      * intros Hn2. apply Z.eqb_neq in Hn2 as Hn2'. rewrite Hn2'. cbn [negb]. cbv iota.
        apply Hentry; [done|done|done|by apply Hfresh].
    + intros Hn1. apply Z.eqb_neq in Hn1 as Hn1'. rewrite Hn1'.
      eapply runs_ext; [|apply (Hentry O _ _ Hn1); [reflexivity|reflexivity
                                                   |by apply Hfresh]].
      cbn [__zram_bvec_write_compress]. rewrite Hcomp. cbv zeta.
      cbn [Z.eqb negb]. cbv iota. rewrite ?Hn1'. symmetry.
      unfold bind at 1, ret at 1. cbv beta iota. rewrite Hn1'. reflexivity.
Qed.

Lemma zram_slot_free_notify_pool z index s :
  table z !! index = Some s -> is_ulong (flags s) ->
  runs (zram_slot_free_notify index) z (fun _ z' => pool_kept z z').
Proof.
  intros H Hu. layout. destruct s as [e w]. cbn [flags element] in *.
  unfold zram_slot_free_notify, zram_slot_trylock.
  apply runs_bind, runs_atomic64_add. norm.
  apply runs_bind, runs_bind. eapply runs_load_flags; [exact H|]. cbn [flags].
  destruct (Z.testbit w ZRAM_LOCK) eqn:Hl.
  - apply runs_ret. cbn [Z.eqb]. cbv iota. apply runs_atomic64_add. norm.
    by apply pool_kept_frame.
  - apply runs_bind. eapply runs_store_flags; [exact H|]. apply runs_ret. norm.
    cbn [Z.eqb]. cbv iota.
    apply runs_bind. eapply runs_mono.
    { eapply zram_free_page_spec.
      - cbn [table]. by eapply lookup_insert_table.
      - cbn [flags]. apply is_ulong_set_flag; [done|lia]. }
    cbn [flags element table stats mem_pool].
    intros [] z1 (w1 & Ht & Hb & Hw0 & _ & _ & Hp & _).
    rewrite list_insert_insert_eq in Ht.
    rewrite !testbit_set_flag_other in Hp by first [lia | flag_ne].
    assert (table z1 !! index = Some (mk_slot 0 w1)) as H1.
    { rewrite Ht. by eapply lookup_insert_table. }
    mrun H1.
    eapply (pool_kept_freed z _ index (mk_slot e w)); [done| |exact Hp|].
    { cbn [table]. rewrite Ht, list_insert_insert_eq. reflexivity. }
    intros (_ & _ & He). by apply He.
Qed.

Lemma writeback_batch_reconcile_pool start batch i bp z s :
  batch !! i = Some bp -> table z !! batch_index bp = Some s ->
  is_ulong (flags s) -> Z.testbit (flags s) ZRAM_LOCK = false ->
  runs (writeback_batch_reconcile start batch i) z (fun _ z' => pool_kept z z').
Proof.
  intros Hbp H Hu Hl. layout. destruct s as [e w]. cbn [flags element] in *.
  eapply runs_ext; [unfold writeback_batch_reconcile; rewrite Hbp; reflexivity|].
  cbv zeta. apply runs_bind, runs_atomic64_add. norm.
  apply runs_bind. eapply runs_slot_lock; [exact H|done|]. cbn [flags element]. norm.
  apply runs_bind. eapply runs_allocated; [slot H|]. cbn [flags].
  mrun H.
  destruct (negb (slot_allocated (Z.lor w (BIT ZRAM_LOCK)))
            || negb (Z.testbit (Z.lor w (BIT ZRAM_LOCK)) ZRAM_IDLE)).
  - mrun H.
    eapply (pool_kept_slot z _ (batch_index bp) (mk_slot e w)); [done|reflexivity| |].
    + intros h Hh. by right.
    + intros [Hlive _] (Hwb & Hsame & He). cbn [flags element] in *.
      rewrite testbit_unlock in Hwb, Hsame by first [lia | flag_ne].
      rewrite testbit_low_mask, !testbit_clear_flag, testbit_set_flag in Hwb, Hsame
        by lia.
      assert (holds_object (mk_slot e w)) as Hh.
      { split; [|split]; [| |done]; cbn [flags].
        - revert Hwb. cmp; try flag_neq. rewrite orb_false_r, !andb_true_r. done.
        - revert Hsame. cmp; try flag_neq. rewrite orb_false_r, !andb_true_r. done. }
      split; [by apply (Hlive _ _ H Hh)|]. by left.
  - apply runs_bind. eapply runs_mono.
    { eapply zram_free_page_spec.
      - cbn [table]. by eapply lookup_insert_table.
      - cbn [flags]. apply is_ulong_set_flag; [done|lia]. }
    cbn [flags element table stats mem_pool].
    intros [] z1 (w1 & Ht & Hb & Hw0 & _ & _ & Hp & _).
    rewrite list_insert_insert_eq in Ht.
    rewrite !testbit_set_flag_other in Hp by first [lia | flag_ne].
    assert (table z1 !! batch_index bp = Some (mk_slot 0 w1)) as H1.
    { rewrite Ht. by eapply lookup_insert_table. }
    cbv beta. mrun H1.
    destruct (wb_limit_enable z1 && (0 <? bd_wb_limit z1)); cbn [when].
    all: first [ apply runs_ret | eexists _, _; split; [reflexivity|] ].
    all: norm; mrun H1.
    all: eapply (pool_kept_freed z _ (batch_index bp) (mk_slot e w));
           [done|cbn [table]; rewrite Ht, !list_insert_insert_eq; reflexivity
           |exact Hp|].
    all: intros (Hwb & _ & _); cbn [flags] in Hwb.
    all: rewrite testbit_unlock in Hwb by first [lia | flag_ne].
    all: rewrite testbit_set_flag, Z.eqb_refl, orb_true_r in Hwb by lia.
    all: discriminate.
Qed.

(** Every section keeps the pool and the table together. *)
Lemma run_op_pool_kept N o z :
  fresh_handles -> wb_device N z -> table_sound z -> op_in_table N o ->
  huge_class_size <= PAGE_SIZE ->
  runs (run_op o) z (fun _ z' => pool_kept z z').
Proof.
  intros Hfresh [Hl HN] Hsound Ho Hhuge. subst N. layout.
  assert (forall i s, table z !! i = Some s -> is_ulong (flags s)) as Hu
    by (intros i s Hs; apply (Hsound i s Hs)).
  assert (forall i s, table z !! i = Some s ->
    Z.testbit (flags s) ZRAM_WB && Z.testbit (flags s) ZRAM_SAME = false) as Hws
    by (intros i s Hs; apply (Hsound i s Hs)).
  assert (forall w b, 0 <= b < ZRAM_WB_IDLE_SHIFT -> b <> ZRAM_IDLE ->
    b <> ZRAM_UNDER_WB -> b <> ZRAM_LOCK ->
    Z.testbit (rollback_word w) b = Z.testbit w b) as Hroll.
  { intros w b Hb0 Hn1 Hn2 _. rewrite testbit_rollback_word by lia.
    destruct (Z.eqb_spec b ZRAM_UNDER_WB); [lia|].
    destruct (Z.eqb_spec b ZRAM_IDLE); [lia|].
    destruct (Z.ltb_spec b ZRAM_WB_IDLE_SHIFT); [|lia].
    cbn [negb]. by rewrite !andb_true_r. }
  destruct o as [index|index|dst index access|mem index|index|index| |blk_idx
                |mode wb_idle_min index|index|start pages|start batch i
                |start batch i];
    cbn [run_op op_in_table] in *.
  - destruct (lookup_lt_is_Some_2 _ _ Ho) as [s Hs].
    destruct (idle_store_slot_spec z index s Hs (Hu _ _ Hs) (Hl _ _ Hs))
      as (w' & Hrun & _ & _ & _ & Hb).
    eapply runs_eq; [exact Hrun|].
    replace (set_table z (<[index := mk_slot (element s) w']> (table z)))
      with (set_stats (set_table z (<[index := mk_slot (element s) w']> (table z)))
              (stats z)) by reflexivity.
    apply pool_kept_flags; [done|].
    intros b Hb0 Hn1 _ _. by apply Hb.
  - destruct (lookup_lt_is_Some_2 _ _ Ho) as [s Hs].
    destruct (new_store_slot_spec z index s Hs (Hu _ _ Hs) (Hl _ _ Hs))
      as (w' & Hrun & _ & _ & _ & Hb).
    eapply runs_eq; [exact Hrun|].
    replace (set_table z (<[index := mk_slot (element s) w']> (table z)))
      with (set_stats (set_table z (<[index := mk_slot (element s) w']> (table z)))
              (stats z)) by reflexivity.
    apply pool_kept_flags; [done|].
    intros b Hb0 Hn1 _ _. by apply Hb.
  - destruct (lookup_lt_is_Some_2 _ _ Ho) as [s Hs].
    apply runs_bind. unfold zram_bvec_read. eapply runs_eq.
    { apply (__zram_bvec_read_spec dst z index s _ access Hs (Hu _ _ Hs) (Hl _ _ Hs)). }
    apply runs_ret.
    pose proof (accessed_word_cleared _ (Hu _ _ Hs)) as (_ & _ & _ & Hb).
    apply pool_kept_flags; [done|].
    intros b Hb0 Hn1 _ _. destruct access; [|done]. by apply Hb.
  - destruct (lookup_lt_is_Some_2 _ _ Ho) as [s Hs].
    apply runs_bind. unfold zram_bvec_write. eapply runs_mono.
    { by apply (__zram_bvec_write_pool mem index z s Hfresh Hs (Hu _ _ Hs) (Hl _ _ Hs)
                  (Hws _ _ Hs)). }
    intros r z' Hd. by apply runs_ret.
  - destruct (lookup_lt_is_Some_2 _ _ Ho) as [s Hs].
    eapply runs_mono.
    { apply (zram_bio_discard_slot_spec z index s Hs (Hu _ _ Hs) (Hl _ _ Hs)). }
    intros [] z' (s' & Ht & Hfreed & _ & Hp & _).
    eapply (pool_kept_freed z z' index s s'); [done|done|done|].
    intros (_ & _ & He). destruct Hfreed as [He0 _]. by apply He.
  - destruct (lookup_lt_is_Some_2 _ _ Ho) as [s Hs].
    by apply (zram_slot_free_notify_pool z index s Hs (Hu _ _ Hs)).
  - apply runs_bind. unfold runs. rewrite alloc_block_bdev_eq. cbv zeta.
    destruct (_ =? _); eexists _, _; (split; [reflexivity|]); apply runs_ret;
      by apply pool_kept_frame.
  - unfold free_block_bdev. apply runs_bind, runs_test_and_clear_bit.
    apply runs_atomic64_add. by apply pool_kept_frame.
  - destruct (lookup_lt_is_Some_2 _ _ Ho) as [s Hs].
    apply runs_bind. eapply runs_eq.
    { apply (writeback_select_spec mode wb_idle_min z index s Hs (Hu _ _ Hs)
               (Hl _ _ Hs)). }
    apply runs_ret. cbv zeta.
    match goal with |- pool_kept z (if ?c then _ else _) => destruct c end;
      [|by intros ?].
    replace (set_table z (<[index := mk_slot (element s)
               (Z.lor (Z.lor (flags s) (BIT ZRAM_UNDER_WB)) (BIT ZRAM_IDLE))]> (table z)))
      with (set_stats (set_table z (<[index := mk_slot (element s)
               (Z.lor (Z.lor (flags s) (BIT ZRAM_UNDER_WB)) (BIT ZRAM_IDLE))]> (table z)))
              (stats z)) by reflexivity.
    apply pool_kept_flags; [done|].
    intros b Hb0 Hn1 Hn2 _. by rewrite !testbit_set_flag_other by lia.
  - destruct (lookup_lt_is_Some_2 _ _ Ho) as [s Hs].
    eapply runs_eq.
    { apply (writeback_read_failed_spec z index s Hs (Hu _ _ Hs) (Hl _ _ Hs)). }
    replace (set_table z (<[index := mk_slot (element s) (rollback_word (flags s))]>
                            (table z)))
      with (set_stats (set_table z (<[index := mk_slot (element s)
                                       (rollback_word (flags s))]> (table z)))
              (stats z)) by reflexivity.
    apply pool_kept_flags; [done|]. apply Hroll.
  - apply runs_bind. unfold submit_bio_wait, runs. cbv zeta.
    destruct (_ =? 0); eexists _, _; (split; [reflexivity|]); apply runs_ret;
      by apply pool_kept_frame.
  - destruct Ho as (bp & Hbp & Hi).
    destruct (lookup_lt_is_Some_2 _ _ Hi) as [s Hs].
    eapply runs_eq.
    { apply (writeback_batch_rollback_spec _ batch i bp z s Hbp Hs
               (Hu _ _ Hs) (Hl _ _ Hs)). }
    eapply pool_kept_trans; [apply (pool_kept_flags z (batch_index bp) s
                                      (rollback_word (flags s)) (stats z));
                             [done|apply Hroll]|].
    by apply pool_kept_frame.
  - destruct Ho as (bp & Hbp & Hi).
    destruct (lookup_lt_is_Some_2 _ _ Hi) as [s Hs].
    apply runs_bind. eapply runs_mono.
    { by apply (writeback_batch_reconcile_pool _ batch i bp z s Hbp Hs
                  (Hu _ _ Hs) (Hl _ _ Hs)). }
    intros r z' Hd. by apply runs_ret.
Qed.

(** A table without entries has no pool object to lose. *)
Lemma pool_sound_empty z :
  Forall (fun s => element s = 0) (table z) -> pool_sound z.
Proof.
  intros Hf. rewrite Forall_lookup in Hf.
  split.
  - intros i s Hs (_ & _ & He). destruct (He (Hf i s Hs)).
  - intros i j s t Hs _ (_ & _ & He). destruct (He (Hf i s Hs)).
Qed.

(** X22.  No slot is left with a pool object that has been freed.  With an
    allocator that returns null or a handle that is not in use, on a device
    where no slot lock is held, the flags words are [unsigned long]s, no
    slot has ZRAM_WB and ZRAM_SAME together, every slot that holds a pool
    object (a non-null entry without ZRAM_WB and ZRAM_SAME) holds one that
    is in the pool and no two slots hold the same one: after any number of
    sections of the driver on slots of the table this is so again.  A write
    allocates the new object before it frees the old one, a discard, a free
    notification and a completed writeback free the object of their own slot
    only. *)
Theorem pool_objects_live N z0 z :
  fresh_handles ->
  wb_device N z0 -> table_sound z0 -> pool_sound z0 ->
  huge_class_size <= PAGE_SIZE ->
  rtc (table_step N) z0 z ->
  pool_sound z.
Proof.
  intros Hfresh Hz Hs Hp Hhuge Hr. revert Hz Hs Hp.
  induction Hr as [z|z0 z1 z (o & Ho & Hrun) _ IH]; intros Hz Hs Hp; [done|].
  destruct (run_op_runs N o z0 Hz Ho) as ([] & z1' & Hrun' & Hz1).
  destruct (run_op_step_kept N o z0 Hz Hs Ho Hhuge) as ([] & z1'' & Hrun'' & _ & Hs1).
  destruct (run_op_pool_kept N o z0 Hfresh Hz Hs Ho Hhuge) as ([] & z3 & Hrun3 & Hp1).
  rewrite Hrun in Hrun', Hrun'', Hrun3.
  injection Hrun' as <-. injection Hrun'' as <-. injection Hrun3 as <-.
  apply IH; [done|by apply Hs1|by apply Hp1].
Qed.


End Properties.

(** * Concrete runs

    The statements above, at devices built with the sample header and the
    sample collaborators. *)

Section Concrete.
#[local] Existing Instance sample_drv_h.
#[local] Existing Instance sample_collaborators.

Ltac by_computation := apply (bool_decide_unpack _); vm_compute; exact I.

(** C1 on an empty slot: a page of sevens is written and read back. *)
Lemma same_filled_round_trip_witness :
  exists z1 z2,
    __zram_bvec_write
      (repeat 7 512) 0 (fresh_zram 1 0) = Some (0, z1) /\
    __zram_bvec_read
      [] 0 false true z1 = Some ((0, repeat 7 512), z2).
Proof.
  unshelve epose proof
    (same_filled_round_trip
       (fresh_zram 1 0) 0 (mk_slot 0 0) (repeat 7 512) 7 [] _ _ _ _ _)
    as (_ & z1 & w1 & Hw & _ & _ & _ & _ & _ & z2 & Hr).
  - reflexivity.
  - unfold is_ulong. by_computation.
  - reflexivity.
  - reflexivity.
  - apply Forall_forall. by_computation.
  - exists z1, z2. split; [exact Hw|exact Hr].
Defined.

(** C2 on a device of one page: the request for that page is valid. *)
Lemma zram_make_request_validation_witness :
  valid_io_request (fresh_zram 1 0) 0 4096 = true.
Proof.
  unshelve epose proof
    (zram_make_request_validation
       (fresh_zram 1 0) (mk_bio 0 4096 REQ_OP_READ [] 0) _ _ _) as (Hiff & _).
  - by_computation.
  - by_computation.
  - by_computation.
  - apply Hiff. repeat split; by_computation.
Defined.

(** C2 as stated fails on the empty request at the end of a device of one
    page: sector 8 is aligned, 0 is a multiple of the logical block size and
    no byte of the request lies outside the device, but [valid_io_request]
    refuses it (its first sector is not below the bound) and
    [zram_make_request] counts one [invalid_io]. *)
Lemma empty_request_at_end_rejected :
  let z := fresh_zram 1 0 in
  let b := mk_bio 8 0 REQ_OP_READ [] 0 in
  bi_sector b mod ZRAM_SECTOR_PER_LOGICAL_BLOCK = 0 /\
  bi_size b mod ZRAM_LOGICAL_BLOCK_SIZE = 0 /\
  (forall x, bi_sector b * 512 <= x < bi_sector b * 512 + bi_size b ->
     0 <= x < disksize z) /\
  valid_io_request z (bi_sector b) (bi_size b) = false /\
  value_of (zram_make_request b) z
    = Some (bio_io_error b []) /\
  stats (state_after
           (zram_make_request b) z)
    invalid_io = 1.
Proof.
  cbv zeta. split; [reflexivity|]. split; [reflexivity|].
  split; [intros x; change (8 * 512 <= x < 8 * 512 + 0 -> 0 <= x < 4096); lia|].
  split; [reflexivity|]. split; reflexivity.
Qed.

(** C3 on a slot that is ZRAM_HUGE and ZRAM_COMPRESS_LOW: it is taken. *)
Lemma writeback_select_huge_witness :
  exists z',
    writeback_select HUGE_WRITEBACK 1 0 idle_pages_device
    = Some (true, z').
Proof.
  unshelve epose proof
    (writeback_select_huge 1 idle_pages_device 0
       (mk_slot 1 6174019584) _ _ _) as (selected & z' & Hrun & Hiff & _).
  - vm_compute. reflexivity.
  - unfold is_ulong. by_computation.
  - reflexivity.
  - exists z'. rewrite Hrun. f_equal. f_equal. apply Hiff.
    repeat split; reflexivity.
Defined.

(** C3 as stated fails on a slot that is allocated, not ZRAM_WB, not
    ZRAM_UNDER_WB and ZRAM_HUGE, but not ZRAM_COMPRESS_LOW: "huge" mode
    skips it. *)
Lemma huge_slot_without_compress_low_skipped :
  exists s,
    table huge_page_device !! 0%nat = Some s /\
    slot_allocated (flags s) = true /\
    Z.testbit (flags s) (ZRAM_WB) = false /\
    Z.testbit (flags s) (ZRAM_UNDER_WB) = false /\
    Z.testbit (flags s) (ZRAM_HUGE) = true /\
    value_of (writeback_select HUGE_WRITEBACK 1 0)
      huge_page_device = Some false.
Proof.
  exists (mk_slot 1 (Z.lor (BIT 28) 4096)).
  split; [vm_compute; reflexivity|].
  split; [reflexivity|]. split; [reflexivity|]. split; [reflexivity|].
  split; [reflexivity|]. vm_compute. reflexivity.
Qed.

(** C4 on a slot under writeback: [idle_store] passes over it. *)
Lemma idle_not_set_under_wb_witness :
  zram_step under_wb_device
    (state_after
       (run_op (Op_idle_store 0))
       under_wb_device) /\
  Z.testbit (flags (mk_slot 1 2013270016)) (ZRAM_IDLE) = true.
Proof.
  assert (zram_step under_wb_device
    (state_after
       (run_op (Op_idle_store 0))
       under_wb_device)) as Hstep.
  { apply step_state_after. vm_compute. reflexivity. }
  split; [exact Hstep|].
  apply (idle_not_set_under_wb
           _ _ ltac:(by_computation) Hstep 0 (mk_slot 1 2013270016) (mk_slot 1 2013270016)).
  - vm_compute. reflexivity.
  - vm_compute. reflexivity.
  - reflexivity.
  - reflexivity.
Defined.

(** C4 as stated fails: the device that "huge" writeback leaves after it
    has taken a slot is reached from the fresh device by a write and a
    selection, and its slot 0 has ZRAM_IDLE and ZRAM_UNDER_WB. *)
Lemma idle_with_under_wb_reachable :
  reachable (fresh_zram 1 3)
    under_wb_device /\
  ~ idle_excludes_under_wb under_wb_device.
Proof.
  split.
  - eapply rtc_l; [|eapply rtc_l; [|apply rtc_refl]].
    + apply (step_state_after
               (Op_write sample_page 0)).
      vm_compute. reflexivity.
    + apply (step_state_after
               (Op_wb_select HUGE_WRITEBACK 1 0)).
      vm_compute. reflexivity.
  - intros Hinv. specialize (Hinv 0%nat (mk_slot 1 2013270016)).
    assert (table under_wb_device !! 0%nat = Some (mk_slot 1 2013270016)) as Hs
      by (vm_compute; reflexivity).
    specialize (Hinv Hs). vm_compute in Hinv. discriminate.
Qed.

(** C5 on a device with two idle pages and [wb_max = 1]. *)
Lemma writeback_store_wb_max_witness :
  exists ret_ n z',
    writeback_store
      (Input_idle [1]) 6 idle_pages_device = Some ((ret_, n), z') /\
    0 <= n <= wb_cap 1.
Proof.
  unshelve epose proof
    (writeback_store_wb_max
       idle_pages_device 1 [] 6 _ _) as (r & n & z' & Hrun & _ & Hn).
  - apply table_unlocked_Forall. by_computation.
  - vm_compute. lia.
  - exists r, n, z'. split; [exact Hrun|exact Hn].
Defined.

(** C5 as stated fails on that device: with [wb_max = 1], both pages are
    staged in one batch before any flush, and the flush writes 2 pages. *)
Lemma writeback_store_exceeds_wb_max :
  exists n,
    value_of
      (writeback_store
         (Input_idle [1]) 6) idle_pages_device = Some (6, n) /\
    1 < n.
Proof. exists 2. split; [vm_compute; reflexivity|lia]. Qed.




(** C9 on a slot with flags and an idle count. *)
Lemma zram_set_obj_size_keeps_flags_witness :
  exists w',
    zram_set_obj_size 0 100 idle_pages_device
    = Some (tt, set_table idle_pages_device
                  (<[0%nat := mk_slot 1 w']> (table idle_pages_device))) /\
    Z.testbit w' (ZRAM_IDLE) = true.
Proof.
  unshelve epose proof
    (zram_set_obj_size_keeps_flags
       idle_pages_device 0 (mk_slot 1 6174019584) 100 _ _) as (w' & Hrun & Hbits & _).
  - vm_compute. reflexivity.
  - by_computation.
  - exists w'. split; [exact Hrun|]. rewrite Hbits; [reflexivity|by_computation].
Defined.

(** C10 on a free slot and on a slot whose lock is held. *)
Lemma zram_slot_free_notify_trylock_witness :
  exists z',
    zram_slot_free_notify 0
      (set_table (fresh_zram 1 0) [mk_slot 0 (BIT 24)]) = Some (tt, z') /\
    table z' = [mk_slot 0 (BIT 24)] /\
    stats z' miss_free = 1.
Proof.
  unshelve epose proof
    (zram_slot_free_notify_trylock
       (set_table (fresh_zram 1 0) [mk_slot 0 (BIT 24)]) 0 (mk_slot 0 (BIT 24)) _ _)
    as (z' & Hrun & _ & Hheld & _).
  - reflexivity.
  - unfold is_ulong. by_computation.
  - destruct (Hheld eq_refl) as (_ & Ht & _ & _ & Hmiss & _).
    exists z'. split; [exact Hrun|]. split; [exact Ht|]. rewrite Hmiss. reflexivity.
Defined.

(** X1 on a segment of one page that starts in the middle of page 1. *)
Lemma update_position_linear_witness :
  Z.of_nat (fst (update_position 1 2048 4096)) * PAGE_SIZE
    + snd (update_position 1 2048 4096)
  = Z.of_nat 1 * PAGE_SIZE + 2048 + 4096.
Proof.
  destruct (update_position_linear 1 2048 4096) as [Hpos _];
    [lia|lia|by_computation|by_computation|].
  exact Hpos.
Defined.

(** X2 on a page of sevens. *)
Lemma page_same_filled_iff_witness :
  page_same_filled (repeat 7 512) = Some 7.
Proof.
  apply (proj2 (page_same_filled_iff (repeat 7 512) 7 eq_refl)).
  reflexivity.
Defined.

(** X3 on a slot that [idle_store] has marked once. *)
Lemma zram_inc_idle_count_saturates_witness :
  exists w', idle_count_of w' = 2 /\ Z.testbit w' ZRAM_IDLE = true.
Proof.
  unshelve epose proof
    (zram_inc_idle_count_saturates idle_pages_device 0 (mk_slot 1 6174019584) _ _)
    as (w' & _ & Hc & Hb).
  - vm_compute. reflexivity.
  - by_computation.
  - exists w'. split; [exact Hc|].
    rewrite Hb; [reflexivity|by_computation].
Defined.


(** X5 on the device of two marked slots. *)
Lemma new_store_clears_witness :
  exists t',
    new_store true 3 idle_pages_device = Some (3, set_table idle_pages_device t').
Proof.
  unshelve epose proof (new_store_clears idle_pages_device 3 _ _ _ _)
    as (t' & Hrun & _).
  - apply table_ulong_Forall. by_computation.
  - apply table_unlocked_Forall. by_computation.
  - vm_compute. reflexivity.
  - by_computation.
  - exists t'. exact Hrun.
Defined.

(** X6 on a slot that holds a huge page. *)
Lemma zram_bvec_read_repeatable_witness :
  exists r z1 z2,
    __zram_bvec_read [] 0 false true huge_page_device = Some (r, z1) /\
    __zram_bvec_read [] 0 false false z1 = Some (r, z2).
Proof.
  unshelve epose proof
    (zram_bvec_read_repeatable [] huge_page_device 0
       (mk_slot 1 (Z.lor (BIT 28) 4096)) false true _ _ _)
    as (r & z1 & w1 & Hrun & _ & _ & _ & _ & _ & Hagain).
  - vm_compute. reflexivity.
  - unfold is_ulong. by_computation.
  - reflexivity.
  - destruct (Hagain false) as [z2 Hr2].
    exists r, z1, z2. split; [exact Hrun|exact Hr2].
Defined.

(** X7 on a slot that holds a huge page. *)
Lemma zram_bio_discard_slot_zero_witness :
  exists z1 z2,
    zram_bio_discard_slot 0 huge_page_device = Some (tt, z1) /\
    __zram_bvec_read [] 0 false true z1
    = Some ((0, zram_fill_page PAGE_SIZE 0), z2).
Proof.
  unshelve epose proof
    (zram_bio_discard_slot_zero huge_page_device 0
       (mk_slot 1 (Z.lor (BIT 28) 4096)) _ _ _)
    as (z1 & s1 & Hrun & _ & _ & _ & _ & Hread).
  - vm_compute. reflexivity.
  - unfold is_ulong. by_computation.
  - reflexivity.
  - destruct (Hread [] false true) as [z2 Hr2].
    exists z1, z2. split; [exact Hrun|exact Hr2].
Defined.

(** X8 on the first page of a device of two pages. *)
Lemma zram_bio_discard_covered_witness :
  exists z',
    zram_bio_discard 0 0 (mk_bio 0 4096 REQ_OP_DISCARD [] 0) idle_pages_device
    = Some (tt, z') /\
    length (table z') = length (table idle_pages_device).
Proof.
  unshelve epose proof
    (zram_bio_discard_covered idle_pages_device 0 0
       (mk_bio 0 4096 REQ_OP_DISCARD [] 0) _ _ _ _ _ _)
    as (z' & Hrun & Hlen & _).
  - by_computation.
  - by_computation.
  - apply table_ulong_Forall. by_computation.
  - apply table_unlocked_Forall. by_computation.
  - by_computation.
  - by_computation.
  - exists z'. split; [exact Hrun|exact Hlen].
Defined.


(** X11 on a backing device of one block, which has no free block. *)
Lemma writeback_store_cannot_start_witness :
  writeback_store Input_huge 5 (fresh_zram 1 1) = Some ((5, 0), fresh_zram 1 1).
Proof.
  apply (writeback_store_cannot_start (fresh_zram 1 1) Input_huge 5).
  - exact I.
  - by_computation.
  - reflexivity.
  - reflexivity.
  - right. intros i Hi. change (nr_pages (fresh_zram 1 1)) with 1 in Hi. lia.
Defined.



(** X14 on an empty slot and a page that is not same-filled. *)
Lemma zram_bvec_write_then_read_witness :
  exists r z1,
    __zram_bvec_write sample_page 0 (fresh_zram 1 0) = Some (r, z1) /\
    (r = 0 -> exists z2,
       __zram_bvec_read [] 0 false true z1 = Some ((0, sample_page), z2)).
Proof.
  unshelve epose proof
    (zram_bvec_write_then_read sample_page (fresh_zram 1 0) 0 (mk_slot 0 0)
       _ _ _ _ _ _ _ _ _) as (r & z1 & Hrun & Hok & _).
  - reflexivity.
  - unfold is_ulong. by_computation.
  - reflexivity.
  - reflexivity.
  - intros _ _ He. exfalso. apply He. reflexivity.
  - intros len reclaim _. apply lookup_empty.
  - reflexivity.
  - by_computation.
  - intros Hlt. exfalso. revert Hlt. by_computation.
  - exists r, z1. split; [exact Hrun|].
    intros Hr. exact (Hok Hr [] false true).
Defined.

(** X15 on a write to an empty device of one slot. *)
Lemma run_op_releases_locks_witness :
  exists z',
    run_op (Op_write sample_page 0) (fresh_zram 1 0) = Some (tt, z') /\
    wb_device 1 z'.
Proof.
  apply (run_op_releases_locks 1 (Op_write sample_page 0) (fresh_zram 1 0)).
  - split; [apply table_unlocked_Forall; by_computation|reflexivity].
  - cbn. lia.
Defined.

(** X17 on the first sector of an empty device of one page. *)
Lemma zram_rw_page_round_trip_witness :
  exists r z1,
    zram_rw_page false 0 sample_page REQ_OP_WRITE (fresh_zram 1 0)
    = Some ((r, sample_page), z1) /\
    (r = 0 -> exists z2,
       zram_rw_page false 0 [] REQ_OP_READ z1 = Some ((0, sample_page), z2)).
Proof.
  unshelve epose proof
    (zram_rw_page_round_trip 0 sample_page (fresh_zram 1 0) (mk_slot 0 0)
       _ _ _ _ _ _ _ _ _ _ _ _ _) as (r & z1 & Hrun & _ & Hok & _).
  - lia.
  - by_computation.
  - vm_compute. reflexivity.
  - reflexivity.
  - unfold is_ulong. by_computation.
  - reflexivity.
  - reflexivity.
  - intros _ _ He. exfalso. apply He. reflexivity.
  - intros len reclaim _. apply lookup_empty.
  - reflexivity.
  - by_computation.
  - by_computation.
  - intros Hlt. exfalso. revert Hlt. by_computation.
  - exists r, z1. split; [exact Hrun|].
    intros Hr. exact (Hok Hr []).
Defined.


(** X19 on a device whose pool holds one object and whose limit is one
    page. *)
Lemma zram_bvec_write_over_limit_witness :
  let z := mk_zram [mk_slot 0 0] {[1 := []]} 1 (fun _ => 0) 4096 true true 0 0 ∅
             false 0 75 [] in
  exists z1,
    __zram_bvec_write sample_page 0 z = Some (- ENOMEM, z1) /\
    table z1 = table z.
Proof.
  intros z.
  unshelve epose proof
    (zram_bvec_write_over_limit sample_page (snd (zcomp_compress sample_page)) z 0
       _ _ _ _ _ _) as (z1 & Hrun & Ht & _).
  - vm_compute. reflexivity.
  - reflexivity.
  - by_computation.
  - vm_compute. reflexivity.
  - by_computation.
  - by_computation.
  - exists z1. split; [exact Hrun|exact Ht].
Defined.

(** X20 on a write and then a discard on an empty device of one slot. *)
Lemma stats_follow_table_witness :
  let z0 := fresh_zram 1 0 in
  let z1 := state_after (run_op (Op_write sample_page 0)) z0 in
  let z2 := state_after (run_op (Op_discard 0)) z1 in
  wb_device 1 z2 /\ table_sound z2 /\
  forall c, slot_counter c = true ->
    stats z2 c - table_weight c (table z2) = stats z0 c - table_weight c (table z0).
Proof.
  intros z0 z1 z2.
  apply (stats_follow_table 1 z0 z2).
  - split; [apply table_unlocked_Forall; by_computation|reflexivity].
  - apply table_sound_Forall. by_computation.
  - by_computation.
  - eapply rtc_l; [|eapply rtc_l; [|apply rtc_refl]].
    + apply (table_step_state_after 1 (Op_write sample_page 0));
        [cbn; lia|vm_compute; reflexivity].
    + apply (table_step_state_after 1 (Op_discard 0));
        [cbn; lia|vm_compute; reflexivity].
Defined.


(** The sample allocator hands out a handle above every one in use. *)
Lemma sample_fresh_handles : fresh_handles.
Proof.
  intros pool len reclaim _. cbn [zs_malloc sample_collaborators].
  assert (forall (l : list Z) k, In k l -> k <= fold_right Z.max 0 l) as Hmax.
  { induction l as [|x l IH]; intros k Hk; [destruct Hk|].
    cbn [fold_right]. destruct Hk as [->|Hk]; [lia|].
    specialize (IH k Hk). lia. }
  destruct (pool !! (1 + fold_right Z.max 0 (map fst (map_to_list pool))))
    as [x|] eqn:Hx; [|reflexivity].
  exfalso. apply elem_of_map_to_list in Hx. apply list_elem_of_In in Hx.
  apply (in_map fst) in Hx. apply Hmax in Hx. cbn [fst] in Hx. lia.
Qed.

(** X22 on two writes to an empty device of two slots. *)
Lemma pool_objects_live_witness :
  let z0 := fresh_zram 2 0 in
  let z1 := state_after (run_op (Op_write sample_page 0)) z0 in
  let z2 := state_after (run_op (Op_write sample_page 1)) z1 in
  pool_sound z2.
Proof.
  intros z0 z1 z2.
  apply (pool_objects_live 2 z0 z2).
  - exact sample_fresh_handles.
  - split; [apply table_unlocked_Forall; by_computation|reflexivity].
  - apply table_sound_Forall. by_computation.
  - apply pool_sound_empty. by_computation.
  - by_computation.
  - eapply rtc_l; [|eapply rtc_l; [|apply rtc_refl]].
    + apply (table_step_state_after 2 (Op_write sample_page 0));
        [cbn; lia|vm_compute; reflexivity].
    + apply (table_step_state_after 2 (Op_write sample_page 1));
        [cbn; lia|vm_compute; reflexivity].
Defined.


End Concrete.

